(** * Radio time-code decoders (DCF77, MSF, JJY): model and properties

    Shallow embedding of [RCget_dcf77.py], [RCget_msf.py] and [RCget_jjy.py].
    The three scripts share the statistics helpers and the phase estimator
    word for word; the decode loops differ in buffer sizes, field layout and
    the civil-time rule.

    Conventions of the embedding
    - Python integers are [Z]; Python floats are modelled by exact rationals
      [Q] (the quantities involved are sums and means of small integers);
    - a Python exception is a value [Raise e] of the [result] type;
    - strings are [list ascii], with Python's slicing and indexing rules
      (negative positions count from the end) written out;
    - one iteration of a [while True] loop whose body is guarded by
      [ticks_ms()%1000 == delta_t] is one call of the protocol's [step]
      function on the content of the sample array for that second. *)

From Stdlib Require Import ZArith QArith Qround List Ascii Bool Lia Arith.
From Stdlib Require String DecimalString.
From Stdlib Require Import Lqa.
Import ListNotations.

Local Open Scope Z_scope.

(** ** Exceptions *)

Inductive exn : Type :=
| ZeroDivisionError
| ValueError
| NameError
| IndexError
| OutOfFuel.   (* artefact of the model: a bounded loop ran out of fuel *)

Inductive result (A : Type) : Type :=
| Ok (a : A)
| Raise (e : exn).

Arguments Ok {A} a.
Arguments Raise {A} e.

Definition bind {A B : Type} (m : result A) (k : A -> result B) : result B :=
  match m with
  | Ok a => k a
  | Raise e => Raise e
  end.

Notation "x <- m ;; k" := (bind m (fun x => k))
  (at level 61, m at next level, right associativity).
Notation "' p <- m ;; k" := (bind m (fun x => let p := x in k))
  (at level 61, p pattern, m at next level, right associativity).

Definition raises {A : Type} (r : result A) (e : exn) : Prop := r = Raise e.

Fixpoint mapM {A B : Type} (f : A -> result B) (l : list A) : result (list B) :=
  match l with
  | [] => Ok []
  | x :: r => y <- f x ;; ys <- mapM f r ;; Ok (y :: ys)
  end.

(** ** Python primitives used by the scripts *)

Module Py.

Definition len {A : Type} (l : list A) : Z := Z.of_nat (length l).

(** [sum(data)] for a list of integers. *)
Definition sum (data : list Z) : Z := fold_left Z.add data 0.

Definition sumQ (data : list Q) : Q := fold_left Qplus data (0 # 1)%Q.

(** [max(data)] and [min(data)]: [ValueError] on an empty sequence. *)
Definition max (data : list Z) : result Z :=
  match data with
  | [] => Raise ValueError
  | x :: r => Ok (fold_left Z.max r x)
  end.

Definition min (data : list Z) : result Z :=
  match data with
  | [] => Raise ValueError
  | x :: r => Ok (fold_left Z.min r x)
  end.

(** [data.remove(x)]: drops the first occurrence, [ValueError] when absent. *)
Fixpoint remove (x : Z) (data : list Z) : result (list Z) :=
  match data with
  | [] => Raise ValueError
  | y :: r => if y =? x then Ok r else r' <- remove x r ;; Ok (y :: r')
  end.

(** [data.count(x)]. *)
Definition count (x : Z) (data : list Z) : Z :=
  Z.of_nat (count_occ Z.eq_dec data x).

(** [len(set(data))]. *)
Definition distinct (data : list Z) : Z := len (nodup Z.eq_dec data).

(** [data[-n:]] for [n > 0]. *)
Definition last_n {A : Type} (n : nat) (l : list A) : list A :=
  skipn (length l - n) l.

(** [round(x)] on a float: nearest integer, ties to the even one. *)
Definition round (x : Q) : Z :=
  let f := Qfloor x in
  match Qcompare (x - inject_Z f) (1 # 2) with
  | Lt => f
  | Gt => f + 1
  | Eq => if Z.even f then f else f + 1
  end.

(** [x % m] on floats, for a positive modulus. *)
Definition fmod (x : Q) (m : Z) : Q :=
  (x - inject_Z (m * Qfloor (x / inject_Z m)))%Q.

(** [str(n)] for an integer. *)
Definition str (n : Z) : list ascii :=
  String.list_ascii_of_string
    (DecimalString.NilZero.string_of_int (Z.to_int n)).

End Py.

(** ** Statistics helpers (lines 63-71 of each script) *)

Module Stats.

(** [def mean(data): return sum(data) / len(data)] *)
Definition mean (data : list Z) : result Q :=
  if Py.len data =? 0 then Raise ZeroDivisionError
  else Ok (inject_Z (Py.sum data) / inject_Z (Py.len data))%Q.

(** [def mid(data): return (max(data) + min(data))/2] *)
Definition mid (data : list Z) : result Q :=
  mx <- Py.max data ;;
  mn <- Py.min data ;;
  Ok (inject_Z (mx + mn) / (2 # 1))%Q.

(** The radicand of [st_dev]:
    [sum([(x - mean(data))**2 for x in data]) / (len(data)-1)].
    [mean(data)] is evaluated once per element, so it is not evaluated at all
    on an empty list, where the quotient is [0 / -1]. *)
Definition variance (data : list Z) : result Q :=
  devs <- mapM (fun x => m <- mean data ;; Ok ((inject_Z x - m) ^ 2)%Q) data ;;
  if Py.len data - 1 =? 0 then Raise ZeroDivisionError
  else Ok (Py.sumQ devs / inject_Z (Py.len data - 1))%Q.

(** [st_dev(data) > t] for a threshold [t >= 0]. [st_dev] is the square root
    of [variance]; the root is not rational, so the comparison is taken on
    the squares. *)
Definition st_dev_gt (data : list Z) (t : Z) : result bool :=
  v <- variance data ;;
  Ok (negb (Qle_bool v (inject_Z (t * t)))).

(** [def del_outlr(data)]: the list is mutated in place; the model returns
    the new content. *)
Definition del_outlr (data : list Z) : result (list Z) :=
  md <- mid data ;;
  mn <- mean data ;;
  outlier <- (if negb (Qle_bool md mn) then Py.max data else Py.min data) ;;
  Py.remove outlier data.

(** [while st_dev(data) > 5 and len(data) > 8: del_outlr(data)] *)
Definition keep_going (data : list Z) : result bool :=
  big <- st_dev_gt data 5 ;;
  Ok (big && (8 <? Py.len data)).

Fixpoint filter_outliers (fuel : nat) (data : list Z) : result (list Z) :=
  go <- keep_going data ;;
  if go then
    match fuel with
    | O => Raise OutOfFuel
    | S fuel' => data' <- del_outlr data ;; filter_outliers fuel' data'
    end
  else Ok data.

(** Iterations of the loop as a relation: [outlr_steps n d d'] when [n]
    successive passes through the body lead from content [d] to [d']. *)
Inductive outlr_steps : nat -> list Z -> list Z -> Prop :=
| outlr_done d : outlr_steps 0 d d
| outlr_next n d d1 d' :
    keep_going d = Ok true -> del_outlr d = Ok d1 ->
    outlr_steps n d1 d' -> outlr_steps (S n) d d'.

(** Vocabulary for stating what one pass removes. *)
Definition is_max (x : Z) (data : list Z) : Prop :=
  In x data /\ forall y, In y data -> y <= x.

Definition is_min (x : Z) (data : list Z) : Prop :=
  In x data /\ forall y, In y data -> x <= y.

Definition removed_first (x : Z) (data data' : list Z) : Prop :=
  exists l1 l2, data = l1 ++ x :: l2 /\ data' = l1 ++ l2 /\ ~ In x l1.

End Stats.

(** ** Phase estimator (lines 75-87 and 126-155 of each script) *)

Module Phase.

(** [get_deltas(secs)]: every edge time-stamp polled from [delta[0]] during
    the window is appended, reduced mod 1000, to [deltas] and, shifted by
    500 ms, to [shifts]. [count = secs * 2] bounds the number consumed; the
    time bound of the loop is the end of the list [edges]. Both lists are
    variables of the enclosing scope and the function appends to them. *)
Definition get_deltas (secs : nat) (edges deltas shifts : list Z)
  : list Z * list Z :=
  let got := firstn (2 * secs) edges in
  (deltas ++ map (fun d => d mod 1000) got,
   shifts ++ map (fun d => (d + 500) mod 1000) got).

(** [delta_t = round((mean(deltas) - shift)%1000)] *)
Definition offset (chosen : list Z) (shift : Z) : result Z :=
  m <- Stats.mean chosen ;;
  Ok (Py.round (Py.fmod (m - inject_Z shift) 1000)).

(** Lines 139-154: both lists are filtered, the longer one is kept (the
    unshifted one on a tie) and its mean gives the offset. Sorting the list
    for display (line 148) does not change the sum and is left out. *)
Definition estimate (deltas shifts : list Z) : result Z :=
  deltas <- Stats.filter_outliers (length deltas) deltas ;;
  shifts <- Stats.filter_outliers (length shifts) shifts ;;
  if Py.len deltas <? Py.len shifts then offset shifts 500
  else offset deltas 0.

(** Lines 126-155. [w1] holds the edges seen in the first window of 16 s
    and [w2] those of the 48 s extension, which is only opened when more
    than [16 * 1.25 = 20] edges arrived. [None] is the abort for noise. *)
Definition acquire (w1 w2 : list Z) : result (option Z) :=
  let '(deltas, shifts) := get_deltas 16 w1 [] [] in
  if Py.len deltas =? 16 * 2 then Ok None
  else
    let '(deltas, shifts) :=
      if 20 <? Py.len deltas then get_deltas 48 w2 deltas shifts
      else (deltas, shifts) in
    delta_t <- estimate deltas shifts ;;
    Ok (Some delta_t).

(** The value the specification gives for the offset:
    round(mean(chosen) - shift) mod 1000. *)
Definition spec_offset (chosen : list Z) (shift : Z) : result Z :=
  m <- Stats.mean chosen ;;
  Ok (Py.round (m - inject_Z shift) mod 1000).

End Phase.

(** ** Strings and the calendar *)

Module Str.

Definition blank : ascii := " "%char.

(** Python's normalisation of a slice bound against a length. *)
Definition bound (n i : Z) : Z :=
  if i <? 0 then Z.max 0 (n + i) else Z.min i n.

(** [s[i:j]] *)
Definition slice {A : Type} (s : list A) (i j : Z) : list A :=
  let n := Py.len s in
  let lo := bound n i in
  let hi := bound n j in
  firstn (Z.to_nat (hi - lo)) (skipn (Z.to_nat lo) s).

(** [s[i:]] *)
Definition slice_from {A : Type} (s : list A) (i : Z) : list A :=
  skipn (Z.to_nat (bound (Py.len s) i)) s.

(** Position designated by the index [i] in a sequence of length [n]. *)
Definition position (n i : Z) : Z := if i <? 0 then n + i else i.

(** [s[i]]: [IndexError] outside [-len(s) .. len(s)-1]. *)
Definition getitem {A : Type} (s : list A) (i : Z) : result A :=
  let k := position (Py.len s) i in
  if k <? 0 then Raise IndexError
  else match nth_error s (Z.to_nat k) with
       | Some c => Ok c
       | None => Raise IndexError
       end.

(** [s.count('1')] *)
Definition count1 (s : list ascii) : Z :=
  Z.of_nat (count_occ ascii_dec s "1"%char).

(** [s.endswith(suffix)] *)
Definition endswith (s suffix : list ascii) : bool :=
  if list_eq_dec ascii_dec (Py.last_n (length suffix) s) suffix
  then (length suffix <=? length s)%nat else false.

Definition is_bit (c : ascii) : Prop := c = "0"%char \/ c = "1"%char.

Definition digit2 (c : ascii) : result Z :=
  if Ascii.eqb c "0" then Ok 0
  else if Ascii.eqb c "1" then Ok 1
  else Raise ValueError.

Fixpoint lstrip (s : list ascii) : list ascii :=
  match s with
  | c :: r => if Ascii.eqb c blank then lstrip r else s
  | [] => []
  end.

Definition strip (s : list ascii) : list ascii :=
  rev (lstrip (rev (lstrip s))).

(** [int(s, 2)] on the alphabet of the shift buffers (blank, 0 and 1):
    surrounding blanks are ignored, an empty or non-binary remainder raises
    [ValueError]. *)
Definition int2 (s : list ascii) : result Z :=
  match strip s with
  | [] => Raise ValueError
  | t => fold_left (fun acc c => a <- acc ;; d <- digit2 c ;; Ok (2 * a + d))
                   t (Ok 0)
  end.

(** [int(c)] for a one-character string taken from a shift buffer. *)
Definition int10 (c : ascii) : result Z :=
  let n := Z.of_nat (nat_of_ascii c) in
  if (48 <=? n) && (n <=? 57) then Ok (n - 48) else Raise ValueError.

(** [int(s[a:b],2)*10 + int(s[b:c],2)] *)
Definition bcd (s : list ascii) (a b c : Z) : result Z :=
  t <- int2 (slice s a b) ;;
  u <- int2 (slice s b c) ;;
  Ok (t * 10 + u).

(** Shape of a shift register of [n] characters after [k] pushes: blanks on
    the side that is not filled yet, then [k] characters 0 or 1. *)
Definition filled_to (n k : nat) (buf : list ascii) : Prop :=
  (k <= n)%nat /\
  exists bits, buf = repeat blank (n - k) ++ bits /\
               length bits = k /\ Forall is_bit bits.

(** The positions [lo <= i < hi] of [buf] hold 0 or 1. *)
Definition bits_in (buf : list ascii) (lo hi : nat) : Prop :=
  forall i, (lo <= i < hi)%nat ->
    exists c, nth_error buf i = Some c /\ is_bit c.

(** The register holds no "1". *)
Definition no_ones (buf : list ascii) : Prop := ~ In "1"%char buf.

End Str.

Module Time.

Definition is_leap (y : Z) : bool :=
  (y mod 4 =? 0) && (negb (y mod 100 =? 0) || (y mod 400 =? 0)).

Definition days_in_month (y m : Z) : Z :=
  if m =? 2 then (if is_leap y then 29 else 28)
  else if (m =? 4) || (m =? 6) || (m =? 9) || (m =? 11) then 30
  else 31.

(** Days of the months before month [m] of year [y], for [1 <= m <= 12]. *)
Fixpoint days_before (y : Z) (n : nat) : Z :=
  match n with
  | O => 0
  | S k => days_before y k + days_in_month y (Z.of_nat (S k))
  end.

(** Ordinal day number of the date [y-m-d]. *)
Definition ordinal (y m d : Z) : Z := days_before y (Z.to_nat (m - 1)) + d.

Definition valid_date (y m d : Z) : Prop :=
  1 <= m <= 12 /\ 1 <= d <= days_in_month y m.

(** Days from 1970-01-01 to January 1st of year [y]. *)
Definition days_before_year (y : Z) : Z :=
  365 * (y - 1970) + (y - 1969) / 4 - (y - 1901) / 100 + (y - 1601) / 400.

(** [time.mktime((y, mo, d, h, mi, s, ...))] of MicroPython: seconds since
    the epoch of the date-time, fields beyond their usual range carrying
    over (an hour of -1 is 23:00 of the day before). Library code, written
    out for months in 1..12; the epoch only shifts every value alike. *)
Definition mktime (y mo d h mi s : Z) : Z :=
  (((days_before_year y + days_before y (Z.to_nat (mo - 1)) + (d - 1)) * 24
    + h) * 60 + mi) * 60 + s.

End Time.

(** ** Consensus on one decoded field *)

Module Tracker.

(** The variables the scripts keep per date field, for the year:
    [yrs] ([hist]), [match[0]] ([matched]), [yr] ([raw]) and [year]
    ([val]). An unbound Python variable is [None]. *)
Record field : Type := mkField {
  hist : list Z;
  matched : bool;
  raw : option Z;
  val : option Z
}.

(** Reading a variable: [NameError] when it was never assigned. *)
Definition name (v : option Z) : result Z :=
  match v with
  | Some x => Ok x
  | None => Raise NameError
  end.

(** Body of [if not match[i]:] once the value [v] is decoded:
<<
    if <v in range>:
        yrs = yrs[-4:] + [yr]
        if yrs.count(yr) == 3:
            year = 2000 + yr
            match[0] = True
>> *)
Definition consider (inrange : Z -> bool) (accept : Z -> Z)
    (f : field) (v : Z) : field :=
  if inrange v then
    let h := Py.last_n 4 (hist f) ++ [v] in
    if Py.count v h =? 3
    then mkField h true (Some v) (Some (accept v))
    else mkField h (matched f) (Some v) (val f)
  else mkField (hist f) (matched f) (Some v) (val f).

(** [yrs = yrs[-1:]] together with [match = [False]*n]. *)
Definition reset (f : field) : field :=
  mkField (Py.last_n 1 (hist f)) false (raw f) (val f).

(** [year = 2000+yr] together with [match = [True, ...]]. *)
Definition confirm (accept : Z -> Z) (f : field) : result field :=
  v <- name (raw f) ;;
  Ok (mkField (hist f) true (raw f) (Some (accept v))).

(** [(len(mods)>1 and len(set(mods))==1) or mods.count(mod)>=3] *)
Definition minute_found (mods : list Z) (mod_v : option Z) : result bool :=
  if (1 <? Py.len mods) && (Py.distinct mods =? 1) then Ok true
  else m <- name mod_v ;; Ok (3 <=? Py.count m mods).

(** [mods = [x + elapsed//60 for x in mods]; mods = mods[-4:] + [mod]] *)
Definition project (mods : list Z) (elapsed mod_ : Z) : list Z :=
  Py.last_n 4 (map (fun x => x + elapsed / 60) mods) ++ [mod_].

(** [str(round(mean(samples[lo:hi])))] on the pin levels of one second. *)
Definition classify (window : list bool) : result (list ascii) :=
  m <- Stats.mean (map Z.b2z window) ;;
  Ok (Py.str (Py.round m)).

(** How one pass of the decode loop ends. [Locked] is the clock set
    ([rc_sync = True]); [Stopped] leaves the loop without setting the clock;
    [TimedOut] is the abort after [timeout] minutes. *)
Inductive outcome (S : Type) : Type :=
| Running (st : S)
| Locked (st : S) (utc : Z)
| Stopped (st : S)
| TimedOut (st : S).

Arguments Running {S} st.
Arguments Locked {S} st utc.
Arguments Stopped {S} st.
Arguments TimedOut {S} st.

(** The values read from the RTC when it holds a plausible time
    ([gmtime()[0] > 2021]), as returned by the [gmtime] call of each script. *)
Record rtc : Type := mkRtc {
  r_year : Z; r_month : Z; r_day : Z; r_hour : Z; r_minute : Z;
  r_yday : Z; r_summer : bool
}.

Definition state_of {S : Type} (o : outcome S) : S :=
  match o with
  | Running st | Locked st _ | Stopped st | TimedOut st => st
  end.

(** The pass took the branch of [if all(match) and (...)]. *)
Definition is_accepted {S : Type} (o : outcome S) : bool :=
  match o with
  | Locked _ _ | Stopped _ => true
  | Running _ | TimedOut _ => false
  end.

(** The newest value of the history occurs three times in it. *)
Definition agreed3 (f : field) : Prop :=
  Py.count (last (hist f) 0) (hist f) = 3.

(** The history has at least two entries and they are all the same. *)
Definition agreed2 (f : field) : Prop :=
  (2 <= length (hist f))%nat /\
  forall x y, In x (hist f) -> In y (hist f) -> x = y.

(** What holds of a field between two passes of the loop. *)
Record field_ok (f : field) : Prop := {
  ok_matched : matched f = true -> agreed3 f \/ agreed2 f;
  ok_bound : matched f = true -> val f <> None;
  ok_open : matched f = false -> forall v, Py.count v (hist f) <= 2;
  ok_raw : (2 <= length (hist f))%nat -> raw f <> None;
  ok_len : (length (hist f) <= 5)%nat
}.

(** One pass leaves a field alone or applies the per-field rule to it. *)
Definition field_step (f f' : field) : Prop :=
  f' = f \/
  (matched f = false /\
   exists inrange accept v, f' = consider inrange accept f v).

End Tracker.

(** ** DCF77 decode loop ([RCget_dcf77.py], lines 159-301) *)

Module DCF77.
Import Tracker.

(** Sample windows of bit A and bit B (settings, line 31-32). *)
Definition A1 : Z := 22.
Definition A2 : Z := 40.
Definition B1 : Z := 2.
Definition B2 : Z := 20.

Record state : Type := mkState {
  tcA : list ascii;        (* 45 characters *)
  tcB : list ascii;        (* 6 characters *)
  elapsed : Z;
  year_f : field;          (* yrs, match[0], yr, year *)
  month_f : field;         (* mons, match[1], mon, month *)
  day_f : field;           (* dys, match[2], dy, day *)
  dst_f : field;           (* dsts, match[3], ds, dst *)
  mods : list Z;
  mod_v : option Z         (* the variable [mod] *)
}.

Definition with_tcA (st : state) (a : list ascii) : state :=
  mkState a (tcB st) (elapsed st) (year_f st) (month_f st) (day_f st)
          (dst_f st) (mods st) (mod_v st).

Definition with_fields (st : state) (y m d s : field) : state :=
  mkState (tcA st) (tcB st) (elapsed st) y m d s (mods st) (mod_v st).

(** Lines 160-187. *)
Definition init (seed : option rtc) : state :=
  let a := repeat Str.blank 45 in
  let b := repeat Str.blank 6 in
  match seed with
  | None =>
      mkState a b 0 (mkField [] false None None) (mkField [] false None None)
              (mkField [] false None None) (mkField [] false None None) [] None
  | Some r =>
      mkState a b 0
        (mkField [r_year r mod 100] false None (Some (r_year r)))
        (mkField [r_month r] false None (Some (r_month r)))
        (mkField [r_day r] false None (Some (r_day r)))
        (mkField [if r_summer r then 1 else 0] false None None)
        [(r_hour r + 1) * 60 + r_minute r + 1] None
  end.

Definition all_matched (st : state) : bool :=
  matched (year_f st) && matched (month_f st) && matched (day_f st)
  && matched (dst_f st).

(** Lines 202-206: both registers shift left and take the new character. *)
Definition shift (st : state) (samples : list bool) : result state :=
  a <- classify (Str.slice samples A1 A2) ;;
  b <- classify (Str.slice samples B1 B2) ;;
  Ok (mkState (Str.slice_from (tcA st) 1 ++ a) (Str.slice_from (tcB st) 1 ++ b)
              (elapsed st + 1) (year_f st) (month_f st) (day_f st) (dst_f st)
              (mods st) (mod_v st)).

Definition year_value (a : list ascii) : result Z := Str.bcd a 2 6 10.

Definition month_value (a : list ascii) : result Z :=
  c <- Str.getitem a 10 ;;
  t <- Str.int2 [c] ;;
  u <- Str.int2 (Str.slice a 11 15) ;;
  Ok (t * 10 + u).

Definition day_value (a : list ascii) : result Z := Str.bcd a 18 20 24.

(** Lines 214-241, on the reversed register. *)
Definition date_fields (st : state) : result state :=
  let a := tcA st in
  c <- Str.getitem a 23 ;;
  if negb (Ascii.eqb c Str.blank) && (Str.count1 (Str.slice a 0 24) mod 2 =? 0)
  then
    y <- (if matched (year_f st) then Ok (year_f st)
          else v <- year_value a ;;
               Ok (consider (fun v => (23 <? v) && (v <? 100)) (Z.add 2000)
                            (year_f st) v)) ;;
    m <- (if matched (month_f st) then Ok (month_f st)
          else v <- month_value a ;;
               Ok (consider (fun v => (0 <? v) && (v <=? 12)) (fun v => v)
                            (month_f st) v)) ;;
    d <- (if matched (day_f st) then Ok (day_f st)
          else v <- day_value a ;;
               Ok (consider (fun v => (0 <? v) && (v <=? 31)) (fun v => v)
                            (day_f st) v)) ;;
    Ok (with_fields st y m d (dst_f st))
  else Ok st.

(** Lines 243-250. *)
Definition dst_field (st : state) : result state :=
  let a := tcA st in
  if matched (dst_f st) then Ok st
  else
    c <- Str.getitem a 42 ;;
    if negb (Ascii.eqb c Str.blank) && (Str.count1 (Str.slice a 41 43) mod 2 =? 1)
    then
      c <- Str.getitem a 42 ;;
      v <- Str.int10 c ;;
      Ok (with_fields st (year_f st) (month_f st) (day_f st)
            (consider (fun _ => true) (fun v => v) (dst_f st) v))
    else Ok st.

(** Lines 254-256: the parity-checked hour and minute, when present. *)
Definition time_field (a : list ascii) : result (option (Z * Z)) :=
  c <- Str.getitem a 38 ;;
  if negb (Ascii.eqb c Str.blank)
     && (Str.count1 (Str.slice a 24 31) mod 2 =? 0)
     && (Str.count1 (Str.slice a 31 39) mod 2 =? 0)
  then
    hr <- Str.bcd a 25 27 31 ;;
    mn <- Str.bcd a 32 35 39 ;;
    Ok (Some (hr, mn))
  else Ok None.

(** Lines 257-268. *)
Definition minute_update (st : state) (hr mn : Z) : state :=
  if (hr <? 24) && (mn <? 60) then
    let mod_ := hr * 60 + mn in
    let ms := project (mods st) (elapsed st) mod_ in
    if mod_ <? 5 then
      mkState (tcA st) (tcB st) 0 (reset (year_f st)) (reset (month_f st))
              (reset (day_f st)) (reset (dst_f st)) ms (Some mod_)
    else
      mkState (tcA st) (tcB st) 0 (year_f st) (month_f st) (day_f st)
              (dst_f st) ms (Some mod_)
  else st.

(** Lines 270-274. *)
Definition confident (st : state) : bool :=
  (1 <? Z.min (Py.len (hist (year_f st)))
         (Z.min (Py.len (hist (month_f st)))
         (Z.min (Py.len (hist (day_f st))) (Py.len (hist (dst_f st))))))
  && (Z.max (Py.distinct (hist (year_f st)))
       (Z.max (Py.distinct (hist (month_f st)))
       (Z.max (Py.distinct (hist (day_f st)))
              (Py.distinct (hist (dst_f st))))) =? 1).

Definition shortcut (st : state) : result state :=
  if confident st then
    y <- confirm (Z.add 2000) (year_f st) ;;
    m <- confirm (fun v => v) (month_f st) ;;
    d <- confirm (fun v => v) (day_f st) ;;
    s <- confirm (fun v => v) (dst_f st) ;;
    Ok (with_fields st y m d s)
  else Ok st.

(** Line 277. *)
Definition accept (st : state) : result bool :=
  if all_matched st then minute_found (mods st) (mod_v st) else Ok false.

(** Line 281: the instant handed to [gmtime] and written to the RTC. *)
Definition utc_of (st : state) (hr mn : Z) : result Z :=
  year <- name (val (year_f st)) ;;
  month <- name (val (month_f st)) ;;
  day <- name (val (day_f st)) ;;
  dst <- name (val (dst_f st)) ;;
  Ok (Time.mktime year month day (hr - 1 - dst) mn 0).

(** Lines 208-297: the body of [if tcB.endswith('1110'):]. *)
Definition decode (st : state) : result (outcome state) :=
  let st := with_tcA st (rev (tcA st)) in
  st <- date_fields st ;;
  st <- dst_field st ;;
  t <- time_field (tcA st) ;;
  match t with
  | None => Ok (Running (with_tcA st (rev (tcA st))))
  | Some (hr, mn) =>
      let st := minute_update st hr mn in
      st <- shortcut st ;;
      go <- accept st ;;
      if go then utc <- utc_of st hr mn ;; Ok (Locked st utc)
      else Ok (Running (with_tcA st (rev (tcA st))))
  end.

Definition marker : list ascii := ["1"; "1"; "1"; "0"]%char.

(** The hour and minute decoded in the pass that starts in [st] and
    samples [samples], if the marker is seen and the time passes its checks
    (neither date field changes the register). *)
Definition heard (st : state) (samples : list bool) : result (option (Z * Z)) :=
  st <- shift st samples ;;
  if Str.endswith (tcB st) marker then time_field (rev (tcA st)) else Ok None.

(** Both registers have been pushed [k] times. *)
Definition buffers_ok (st : state) : Prop :=
  exists k, Str.filled_to 45 (Nat.min k 45) (tcA st) /\
            Str.filled_to 6 (Nat.min k 6) (tcB st).

Definition fields_ok (st : state) : Prop :=
  field_ok (year_f st) /\ field_ok (month_f st) /\ field_ok (day_f st)
  /\ field_ok (dst_f st).

Definition state_ok (st : state) : Prop :=
  buffers_ok st /\ fields_ok st /\ 0 <= elapsed st.

(** Two states that differ at most in the date fields. *)
Definition same_frame (st st' : state) : Prop :=
  tcA st' = tcA st /\ tcB st' = tcB st /\ elapsed st' = elapsed st /\
  mods st' = mods st /\ mod_v st' = mod_v st.

(** A second without a pulse: both windows classify as "0". *)
Definition silent (samples : list bool) : bool :=
  match classify (Str.slice samples A1 A2), classify (Str.slice samples B1 B2) with
  | Ok a, Ok b =>
      if list_eq_dec ascii_dec a ["0"%char]
      then (if list_eq_dec ascii_dec b ["0"%char] then true else false)
      else false
  | _, _ => false
  end.

Section Settings.

Variable timeout : Z.   (* minutes; 15 in the script *)

(** One pass of the loop body (lines 190-301). *)
Definition step (st : state) (samples : list bool) : result (outcome state) :=
  st <- shift st samples ;;
  o <- (if Str.endswith (tcB st) marker then decode st else Ok (Running st)) ;;
  match o with
  | Running st' =>
      if timeout * 60 <? elapsed st' then Ok (TimedOut st')
      else Ok (Running st')
  | _ => Ok o
  end.

(** The loop over the seconds of a run; it ends with the first pass that
    leaves it. *)
Fixpoint run (st : state) (inputs : list (list bool))
  : result (outcome state) :=
  match inputs with
  | [] => Ok (Running st)
  | s :: rest =>
      o <- step st s ;;
      match o with
      | Running st' => run st' rest
      | _ => Ok o
      end
  end.

(** States the loop can be in at the start of a pass. *)
Inductive reachable : state -> Prop :=
| reach_init seed : reachable (init seed)
| reach_step st s st' :
    reachable st -> step st s = Ok (Running st') -> reachable st'.

(** The state in which the loop stands after the seconds [inputs] of a
    run that is still going on ([st] itself otherwise). *)
Definition after (st : state) (inputs : list (list bool)) : state :=
  match run st inputs with
  | Ok (Running st') => st'
  | _ => st
  end.

(** A stretch of signal during which no pass hears a time of day: the
    marker is not seen, or the hour and minute fail their checks. *)
Inductive deaf : state -> list (list bool) -> Prop :=
| deaf_nil st : deaf st []
| deaf_cons st s rest :
    heard st s = Ok None ->
    (forall st', step st s = Ok (Running st') -> deaf st' rest) ->
    deaf st (s :: rest).

End Settings.

(** Sample array of one second in which bit A reads [a] and bit B reads
    [b] over their whole windows (test input). *)
Definition second (a b : bool) : list bool :=
  map (fun i => if (A1 <=? Z.of_nat i) && (Z.of_nat i <? A2) then a
                else if (B1 <=? Z.of_nat i) && (Z.of_nat i <? B2) then b
                else false)
      (seq 0 45).

End DCF77.

(** ** MSF decode loop ([RCget_msf.py], lines 159-288) *)

Module MSF.
Import Tracker.

Definition A1 : Z := 27.
Definition A2 : Z := 45.
Definition B1 : Z := 48.
Definition B2 : Z := 66.

Record state : Type := mkState {
  tcA : list ascii;        (* 45 characters *)
  tcB : list ascii;        (* 8 characters: the parity bits *)
  elapsed : Z;
  year_f : field;          (* yrs, match[0], yr, year *)
  month_f : field;         (* mons, match[1], mon, month *)
  day_f : field;           (* dys, match[2], dy, day *)
  mods : list Z;
  mod_v : option Z
}.

Definition with_fields (st : state) (y m d : field) : state :=
  mkState (tcA st) (tcB st) (elapsed st) y m d (mods st) (mod_v st).

(** Lines 160-181. *)
Definition init (seed : option rtc) : state :=
  let a := repeat Str.blank 45 in
  let b := repeat Str.blank 8 in
  match seed with
  | None =>
      mkState a b 0 (mkField [] false None None) (mkField [] false None None)
              (mkField [] false None None) [] None
  | Some r =>
      mkState a b 0
        (mkField [r_year r mod 100] false None (Some (r_year r)))
        (mkField [r_month r] false None (Some (r_month r)))
        (mkField [r_day r] false None (Some (r_day r)))
        [r_hour r * 60 + r_minute r + 1] None
  end.

Definition all_matched (st : state) : bool :=
  matched (year_f st) && matched (month_f st) && matched (day_f st).

(** Lines 196-200. *)
Definition shift (st : state) (samples : list bool) : result state :=
  a <- classify (Str.slice samples A1 A2) ;;
  b <- classify (Str.slice samples B1 B2) ;;
  Ok (mkState (Str.slice_from (tcA st) 1 ++ a) (Str.slice_from (tcB st) 1 ++ b)
              (elapsed st + 1) (year_f st) (month_f st) (day_f st)
              (mods st) (mod_v st)).

(** [int(tcB[i])]: the parity bit of a field. *)
Definition parity_bit (b : list ascii) (i : Z) : result Z :=
  c <- Str.getitem b i ;; Str.int10 c.

Definition year_value (a : list ascii) : result Z := Str.bcd a (-43) (-39) (-35).

Definition month_value (a : list ascii) : result Z :=
  c <- Str.getitem a (-35) ;;
  t <- Str.int2 [c] ;;
  u <- Str.int2 (Str.slice a (-34) (-30)) ;;
  Ok (t * 10 + u).

Definition day_value (a : list ascii) : result Z := Str.bcd a (-30) (-28) (-24).

(** Lines 207-214. *)
Definition year_field (st : state) : result state :=
  let a := tcA st in
  if matched (year_f st) then Ok st
  else
    c <- Str.getitem a (-43) ;;
    if negb (Ascii.eqb c Str.blank) then
      p <- parity_bit (tcB st) (-6) ;;
      if (Str.count1 (Str.slice a (-43) (-35)) + p) mod 2 =? 1 then
        v <- year_value a ;;
        Ok (with_fields st
              (consider (fun v => (23 <? v) && (v <? 100)) (Z.add 2000)
                        (year_f st) v)
              (month_f st) (day_f st))
      else Ok st
    else Ok st.

(** Lines 216-232. *)
Definition date_fields (st : state) : result state :=
  let a := tcA st in
  c <- Str.getitem a (-35) ;;
  if negb (Ascii.eqb c Str.blank) then
    p <- parity_bit (tcB st) (-5) ;;
    if (Str.count1 (Str.slice a (-35) (-24)) + p) mod 2 =? 1 then
      m <- (if matched (month_f st) then Ok (month_f st)
            else v <- month_value a ;;
                 Ok (consider (fun v => (0 <? v) && (v <=? 12)) (fun v => v)
                              (month_f st) v)) ;;
      d <- (if matched (day_f st) then Ok (day_f st)
            else v <- day_value a ;;
                 Ok (consider (fun v => (0 <? v) && (v <=? 31)) (fun v => v)
                              (day_f st) v)) ;;
      Ok (with_fields st (year_f st) m d)
    else Ok st
  else Ok st.

(** Lines 236-238. *)
Definition time_field (a b : list ascii) : result (option (Z * Z)) :=
  c <- Str.getitem a (-21) ;;
  if negb (Ascii.eqb c Str.blank) then
    p <- parity_bit b (-3) ;;
    if (Str.count1 (Str.slice a (-21) (-8)) + p) mod 2 =? 1 then
      hr <- Str.bcd a (-21) (-19) (-15) ;;
      mn <- Str.bcd a (-15) (-12) (-8) ;;
      Ok (Some (hr, mn))
    else Ok None
  else Ok None.

(** Lines 239-249. *)
Definition minute_update (st : state) (hr mn : Z) : state :=
  if (hr <? 24) && (mn <? 60) then
    let mod_ := hr * 60 + mn in
    let ms := project (mods st) (elapsed st) mod_ in
    if mod_ <? 5 then
      mkState (tcA st) (tcB st) 0 (reset (year_f st)) (reset (month_f st))
              (reset (day_f st)) ms (Some mod_)
    else
      mkState (tcA st) (tcB st) 0 (year_f st) (month_f st) (day_f st)
              ms (Some mod_)
  else st.

(** Lines 251-255. *)
Definition confident (st : state) : bool :=
  (1 <? Z.min (Py.len (hist (year_f st)))
         (Z.min (Py.len (hist (month_f st))) (Py.len (hist (day_f st)))))
  && (Z.max (Py.distinct (hist (year_f st)))
       (Z.max (Py.distinct (hist (month_f st)))
              (Py.distinct (hist (day_f st)))) =? 1).

Definition shortcut (st : state) : result state :=
  if confident st then
    y <- confirm (Z.add 2000) (year_f st) ;;
    m <- confirm (fun v => v) (month_f st) ;;
    d <- confirm (fun v => v) (day_f st) ;;
    Ok (with_fields st y m d)
  else Ok st.

(** Line 258. *)
Definition accept (st : state) : result bool :=
  if all_matched st then minute_found (mods st) (mod_v st) else Ok false.

(** Lines 264-265: the summer-time changes of the year, as local time. *)
Definition fwd (year : Z) : Z :=
  Time.mktime year 3 (31 - (5 * year / 4 + 4) mod 7) 1 0 0.

Definition back (year : Z) : Z :=
  Time.mktime year 10 (31 - (5 * year / 4 + 1) mod 7) 2 0 0.

(** Lines 261-280: [None] is the [break] of line 267, taken in the two
    hours before [back]; otherwise the instant written to the RTC. *)
Definition utc_of (st : state) (hr mn : Z) : result (option Z) :=
  year <- name (val (year_f st)) ;;
  month <- name (val (month_f st)) ;;
  day <- name (val (day_f st)) ;;
  let RCtime := Time.mktime year month day hr mn 0 in
  if (back year - 7200 <? RCtime) && (RCtime <? back year) then Ok None
  else Ok (Some (RCtime - (if (fwd year <=? RCtime) && (RCtime <? back year)
                           then 3600 else 0))).

(** Lines 203-284: the body of [if tcA.endswith('01111110'):]. *)
Definition decode (st : state) : result (outcome state) :=
  st <- year_field st ;;
  st <- date_fields st ;;
  t <- time_field (tcA st) (tcB st) ;;
  match t with
  | None => Ok (Running st)
  | Some (hr, mn) =>
      let st := minute_update st hr mn in
      st <- shortcut st ;;
      go <- accept st ;;
      if go then
        u <- utc_of st hr mn ;;
        match u with
        | None => Ok (Stopped st)
        | Some utc => Ok (Locked st utc)
        end
      else Ok (Running st)
  end.

Definition marker : list ascii := ["0"; "1"; "1"; "1"; "1"; "1"; "1"; "0"]%char.

Definition heard (st : state) (samples : list bool) : result (option (Z * Z)) :=
  st <- shift st samples ;;
  if Str.endswith (tcA st) marker then time_field (tcA st) (tcB st)
  else Ok None.

Definition buffers_ok (st : state) : Prop :=
  exists k, Str.filled_to 45 (Nat.min k 45) (tcA st) /\
            Str.filled_to 8 (Nat.min k 8) (tcB st).

Definition fields_ok (st : state) : Prop :=
  field_ok (year_f st) /\ field_ok (month_f st) /\ field_ok (day_f st).

Definition state_ok (st : state) : Prop :=
  buffers_ok st /\ fields_ok st /\ 0 <= elapsed st.

(** Two states that differ at most in the date fields. *)
Definition same_frame (st st' : state) : Prop :=
  tcA st' = tcA st /\ tcB st' = tcB st /\ elapsed st' = elapsed st /\
  mods st' = mods st /\ mod_v st' = mod_v st.

(** A second without a pulse: both windows classify as "0". *)
Definition silent (samples : list bool) : bool :=
  match classify (Str.slice samples A1 A2), classify (Str.slice samples B1 B2) with
  | Ok a, Ok b =>
      if list_eq_dec ascii_dec a ["0"%char]
      then (if list_eq_dec ascii_dec b ["0"%char] then true else false)
      else false
  | _, _ => false
  end.

Section Settings.

Variable timeout : Z.

(** One pass of the loop body (lines 184-288). *)
Definition step (st : state) (samples : list bool) : result (outcome state) :=
  st <- shift st samples ;;
  o <- (if Str.endswith (tcA st) marker then decode st else Ok (Running st)) ;;
  match o with
  | Running st' =>
      if timeout * 60 <? elapsed st' then Ok (TimedOut st')
      else Ok (Running st')
  | _ => Ok o
  end.

Fixpoint run (st : state) (inputs : list (list bool))
  : result (outcome state) :=
  match inputs with
  | [] => Ok (Running st)
  | s :: rest =>
      o <- step st s ;;
      match o with
      | Running st' => run st' rest
      | _ => Ok o
      end
  end.

Inductive reachable : state -> Prop :=
| reach_init seed : reachable (init seed)
| reach_step st s st' :
    reachable st -> step st s = Ok (Running st') -> reachable st'.

(** The state in which the loop stands after the seconds [inputs] of a
    run that is still going on ([st] itself otherwise). *)
Definition after (st : state) (inputs : list (list bool)) : state :=
  match run st inputs with
  | Ok (Running st') => st'
  | _ => st
  end.

(** A stretch of signal during which no pass hears a time of day: the
    marker is not seen, or the hour and minute fail their checks. *)
Inductive deaf : state -> list (list bool) -> Prop :=
| deaf_nil st : deaf st []
| deaf_cons st s rest :
    heard st s = Ok None ->
    (forall st', step st s = Ok (Running st') -> deaf st' rest) ->
    deaf st (s :: rest).

End Settings.

Definition second (a b : bool) : list bool :=
  map (fun i => if (A1 <=? Z.of_nat i) && (Z.of_nat i <? A2) then a
                else if (B1 <=? Z.of_nat i) && (Z.of_nat i <? B2) then b
                else false)
      (seq 0 70).

End MSF.

(** ** JJY decode loop ([RCget_jjy.py], lines 160-290) *)

Module JJY.
Import Tracker.

Definition A1 : Z := 50.
Definition A2 : Z := 80.
Definition B1 : Z := 20.
Definition B2 : Z := 50.

Record state : Type := mkState {
  tcA : list ascii;        (* 60 characters *)
  tcB : list ascii;        (* 8 characters: the frame markers *)
  elapsed : Z;
  year_f : field;          (* yrs, match[0], yr, year *)
  doy_f : field;           (* doys, match[1], dy, doy *)
  mods : list Z;
  mod_v : option Z
}.

Definition with_fields (st : state) (y d : field) : state :=
  mkState (tcA st) (tcB st) (elapsed st) y d (mods st) (mod_v st).

(** Lines 161-182. *)
Definition init (seed : option rtc) : state :=
  let a := repeat Str.blank 60 in
  let b := repeat Str.blank 8 in
  match seed with
  | None =>
      mkState a b 0 (mkField [] false None None) (mkField [] false None None)
              [] None
  | Some r =>
      mkState a b 0
        (mkField [r_year r mod 100] false None (Some (r_year r)))
        (mkField [r_yday r] false None (Some (r_yday r)))
        [r_hour r * 60 + r_minute r] None
  end.

Definition all_matched (st : state) : bool :=
  matched (year_f st) && matched (doy_f st).

(** Lines 198-204. *)
Definition shift (st : state) (samples : list bool) : result state :=
  a <- classify (Str.slice samples A1 A2) ;;
  b <- classify (Str.slice samples B1 B2) ;;
  Ok (mkState (Str.slice_from (tcA st) 1 ++ a) (Str.slice_from (tcB st) 1 ++ b)
              (elapsed st + 1) (year_f st) (doy_f st) (mods st) (mod_v st)).

Definition year_value (a : list ascii) : result Z := Str.bcd a (-20) (-16) (-12).

Definition doy_value (a : list ascii) : result Z :=
  h <- Str.int2 (Str.slice a (-39) (-37)) ;;
  t <- Str.int2 (Str.slice a (-36) (-32)) ;;
  u <- Str.int2 (Str.slice a (-31) (-27)) ;;
  Ok (h * 100 + t * 10 + u).

(** Lines 213-220. *)
Definition year_field (st : state) : result state :=
  let a := tcA st in
  if matched (year_f st) then Ok st
  else
    c <- Str.getitem a (-20) ;;
    if negb (Ascii.eqb c Str.blank) then
      v <- year_value a ;;
      Ok (with_fields st
            (consider (fun v => (23 <? v) && (v <? 100)) (Z.add 2000)
                      (year_f st) v)
            (doy_f st))
    else Ok st.

(** Lines 222-229. *)
Definition doy_field (st : state) : result state :=
  let a := tcA st in
  if matched (doy_f st) then Ok st
  else
    c <- Str.getitem a (-39) ;;
    if negb (Ascii.eqb c Str.blank) then
      v <- doy_value a ;;
      Ok (with_fields st (year_f st)
            (consider (fun v => (0 <? v) && (v <=? 366)) (fun v => v)
                      (doy_f st) v))
    else Ok st.

(** Lines 233-238. *)
Definition time_field (a : list ascii) : result (option (Z * Z)) :=
  c <- Str.getitem a (-60) ;;
  if negb (Ascii.eqb c Str.blank) then
    pa1 <- Str.getitem a (-25) ;;
    if Str.count1 (Str.slice a (-49) (-42) ++ [pa1]) mod 2 =? 0 then
      pa2 <- Str.getitem a (-24) ;;
      if Str.count1 (Str.slice a (-60) (-52) ++ [pa2]) mod 2 =? 0 then
        hr <- (t <- Str.int2 (Str.slice a (-49) (-47)) ;;
               u <- Str.int2 (Str.slice a (-46) (-42)) ;;
               Ok (t * 10 + u)) ;;
        mn <- (t <- Str.int2 (Str.slice a (-60) (-57)) ;;
               u <- Str.int2 (Str.slice a (-56) (-52)) ;;
               Ok (t * 10 + u)) ;;
        Ok (Some (hr, mn))
      else Ok None
    else Ok None
  else Ok None.

(** Lines 239-248. *)
Definition minute_update (st : state) (hr mn : Z) : state :=
  if (hr <? 24) && (mn <? 60) then
    let mod_ := hr * 60 + mn in
    let ms := project (mods st) (elapsed st) mod_ in
    if mod_ <? 5 then
      mkState (tcA st) (tcB st) 0 (reset (year_f st)) (reset (doy_f st))
              ms (Some mod_)
    else
      mkState (tcA st) (tcB st) 0 (year_f st) (doy_f st) ms (Some mod_)
  else st.

(** Lines 250-254. *)
Definition confident (st : state) : bool :=
  (1 <? Z.min (Py.len (hist (year_f st))) (Py.len (hist (doy_f st))))
  && (Z.max (Py.distinct (hist (year_f st)))
            (Py.distinct (hist (doy_f st))) =? 1).

Definition shortcut (st : state) : result state :=
  if confident st then
    y <- confirm (Z.add 2000) (year_f st) ;;
    d <- confirm (fun v => v) (doy_f st) ;;
    Ok (with_fields st y d)
  else Ok st.

(** Line 257. *)
Definition accept (st : state) : result bool :=
  if all_matched st then minute_found (mods st) (mod_v st) else Ok false.

(** Lines 262-265. *)
Definition month_doys (year : Z) : list Z :=
  if negb (year mod 4 =? 0)
  then [0; 31; 59; 90; 120; 151; 181; 212; 243; 273; 304; 334; 365]
  else [0; 31; 60; 91; 121; 152; 182; 213; 244; 274; 305; 335; 366].

(** Lines 267-269:
<<
    while month_doys[month] < doy:
        day = doy-month_doys[month]
        month +=1
>> *)
Fixpoint month_loop (fuel : nat) (table : list Z) (doy month day : Z)
  : result (Z * Z) :=
  bound <- Str.getitem table month ;;
  if bound <? doy then
    match fuel with
    | O => Raise OutOfFuel
    | S fuel' => month_loop fuel' table doy (month + 1) (doy - bound)
    end
  else Ok (month, day).

(** Lines 262-269: day of year to month and day. The table has 13 entries
    and [month] starts at 1, so 12 passes are the most the loop can make. *)
Definition month_day (year doy : Z) : result (Z * Z) :=
  month_loop 12 (month_doys year) doy 1 doy.

(** Lines 260-271. *)
Definition utc_of (st : state) (hr mn : Z) : result Z :=
  year <- name (val (year_f st)) ;;
  doy <- name (val (doy_f st)) ;;
  '(month, day) <- month_day year doy ;;
  Ok (Time.mktime year month day (hr - 9) (mn + 1) 0).

(** Lines 209-286: the body of [if tcB.endswith('0011'):]. *)
Definition decode (st : state) : result (outcome state) :=
  st <- year_field st ;;
  st <- doy_field st ;;
  t <- time_field (tcA st) ;;
  match t with
  | None => Ok (Running st)
  | Some (hr, mn) =>
      let st := minute_update st hr mn in
      st <- shortcut st ;;
      go <- accept st ;;
      if go then utc <- utc_of st hr mn ;; Ok (Locked st utc)
      else Ok (Running st)
  end.

Definition marker : list ascii := ["0"; "0"; "1"; "1"]%char.

Definition heard (st : state) (samples : list bool) : result (option (Z * Z)) :=
  st <- shift st samples ;;
  if Str.endswith (tcB st) marker then time_field (tcA st) else Ok None.

Definition buffers_ok (st : state) : Prop :=
  exists k, Str.filled_to 60 (Nat.min k 60) (tcA st) /\
            Str.filled_to 8 (Nat.min k 8) (tcB st).

Definition fields_ok (st : state) : Prop :=
  field_ok (year_f st) /\ field_ok (doy_f st).

Definition state_ok (st : state) : Prop :=
  buffers_ok st /\ fields_ok st /\ 0 <= elapsed st.

(** Two states that differ at most in the date fields. *)
Definition same_frame (st st' : state) : Prop :=
  tcA st' = tcA st /\ tcB st' = tcB st /\ elapsed st' = elapsed st /\
  mods st' = mods st /\ mod_v st' = mod_v st.

(** A second without a pulse: both windows classify as "0". *)
Definition silent (samples : list bool) : bool :=
  match classify (Str.slice samples A1 A2), classify (Str.slice samples B1 B2) with
  | Ok a, Ok b =>
      if list_eq_dec ascii_dec a ["0"%char]
      then (if list_eq_dec ascii_dec b ["0"%char] then true else false)
      else false
  | _, _ => false
  end.

Section Settings.

Variable timeout : Z.

(** One pass of the loop body (lines 185-290). *)
Definition step (st : state) (samples : list bool) : result (outcome state) :=
  st <- shift st samples ;;
  o <- (if Str.endswith (tcB st) marker then decode st else Ok (Running st)) ;;
  match o with
  | Running st' =>
      if timeout * 60 <? elapsed st' then Ok (TimedOut st')
      else Ok (Running st')
  | _ => Ok o
  end.

Fixpoint run (st : state) (inputs : list (list bool))
  : result (outcome state) :=
  match inputs with
  | [] => Ok (Running st)
  | s :: rest =>
      o <- step st s ;;
      match o with
      | Running st' => run st' rest
      | _ => Ok o
      end
  end.

Inductive reachable : state -> Prop :=
| reach_init seed : reachable (init seed)
| reach_step st s st' :
    reachable st -> step st s = Ok (Running st') -> reachable st'.

(** The state in which the loop stands after the seconds [inputs] of a
    run that is still going on ([st] itself otherwise). *)
Definition after (st : state) (inputs : list (list bool)) : state :=
  match run st inputs with
  | Ok (Running st') => st'
  | _ => st
  end.

(** A stretch of signal during which no pass hears a time of day: the
    marker is not seen, or the hour and minute fail their checks. *)
Inductive deaf : state -> list (list bool) -> Prop :=
| deaf_nil st : deaf st []
| deaf_cons st s rest :
    heard st s = Ok None ->
    (forall st', step st s = Ok (Running st') -> deaf st' rest) ->
    deaf st (s :: rest).

End Settings.

Definition second (a b : bool) : list bool :=
  map (fun i => if (A1 <=? Z.of_nat i) && (Z.of_nat i <? A2) then a
                else if (B1 <=? Z.of_nat i) && (Z.of_nat i <? B2) then b
                else false)
      (seq 0 82).

End JJY.

(** ** Test signals *)

Module Signal.

(** [width] bits of [v], least significant first (the order of
    transmission of DCF77). *)
Definition lsb_first (width : nat) (v : Z) : list bool :=
  map (fun i => Z.testbit v (Z.of_nat i)) (seq 0 width).

(** Most significant first (MSF and JJY). *)
Definition msb_first (width : nat) (v : Z) : list bool :=
  rev (lsb_first width v).

Definition parity (l : list bool) : bool := fold_left xorb l false.

(** The 60 seconds of a DCF77 minute as (bit A, bit B): time and date in
    BCD with their even-parity bits, Z1/Z2 for summer time, no pulse in
    second 59. [bad_date] inverts the date parity bit. *)
Definition dcf77_minute (yr mon day dow hr mn : Z) (summer bad_date : bool)
  : list (bool * bool) :=
  let minute := lsb_first 4 (mn mod 10) ++ lsb_first 3 (mn / 10) in
  let hour := lsb_first 4 (hr mod 10) ++ lsb_first 2 (hr / 10) in
  let date := lsb_first 4 (day mod 10) ++ lsb_first 2 (day / 10)
              ++ lsb_first 3 dow
              ++ lsb_first 4 (mon mod 10) ++ lsb_first 1 (mon / 10)
              ++ lsb_first 4 (yr mod 10) ++ lsb_first 4 (yr / 10) in
  let a := repeat false 17 ++ [summer; negb summer; false; true]
           ++ minute ++ [parity minute]
           ++ hour ++ [parity hour]
           ++ date ++ [xorb bad_date (parity date)] in
  map (fun x => (x, true)) a ++ [(false, false)].

Definition dcf77_samples (m : list (bool * bool)) : list (list bool) :=
  map (fun ab => DCF77.second (fst ab) (snd ab)) m.

(** The 60 seconds of an MSF minute: BCD fields most significant bit first
    on bit A, the odd-parity bits of the fields on bit B of seconds 54-57,
    the marker 01111110 on bit A of seconds 52-59. *)
Definition msf_minute (yr mon day dow hr mn : Z) : list (bool * bool) :=
  let year := msb_first 4 (yr / 10) ++ msb_first 4 (yr mod 10) in
  let date := msb_first 1 (mon / 10) ++ msb_first 4 (mon mod 10)
              ++ msb_first 2 (day / 10) ++ msb_first 4 (day mod 10) in
  let wday := msb_first 3 dow in
  let time := msb_first 2 (hr / 10) ++ msb_first 4 (hr mod 10)
              ++ msb_first 3 (mn / 10) ++ msb_first 4 (mn mod 10) in
  let a := [true] ++ repeat false 16 ++ year ++ date ++ wday ++ time
           ++ [false; true; true; true; true; true; true; false] in
  let b := [true] ++ repeat false 53
           ++ [negb (parity year); negb (parity date); negb (parity wday);
               negb (parity time); false; false] in
  combine a b.

Definition msf_samples (m : list (bool * bool)) : list (list bool) :=
  map (fun ab => MSF.second (fst ab) (snd ab)) m.

(** The 60 seconds of a JJY minute: markers (bit B) in seconds 0, 9, 19,
    ..., 59, minute, hour, day of year and year in BCD on bit A, even
    parity of hour and minute in seconds 36 and 37. *)
Definition jjy_minute (yr doy hr mn : Z) : list (bool * bool) :=
  let minute := msb_first 3 (mn / 10) ++ [false] ++ msb_first 4 (mn mod 10) in
  let hour := msb_first 2 (hr / 10) ++ [false] ++ msb_first 4 (hr mod 10) in
  let a := [false] ++ minute ++ [false; false; false] ++ hour
           ++ [false; false; false] ++ msb_first 2 (doy / 100) ++ [false]
           ++ msb_first 4 (doy / 10 mod 10) ++ [false]
           ++ msb_first 4 (doy mod 10) ++ [false; false]
           ++ [parity hour; parity minute] ++ [false; false; false]
           ++ msb_first 4 (yr / 10) ++ msb_first 4 (yr mod 10)
           ++ repeat false 11 in
  let b := map (fun i => (i =? 0)%nat || (i mod 10 =? 9)%nat) (seq 0 60) in
  combine a b.

Definition jjy_samples (m : list (bool * bool)) : list (list bool) :=
  map (fun ab => JJY.second (fst ab) (snd ab)) m.

End Signal.

(** ** Sampling one second (lines 59-61 and 190-198 of [RCget_dcf77.py],
       the same in the other scripts) *)

Module Sampler.

(** Line 190: [if ticks_ms()%1000 == delta_t:] *)
Definition due (delta_t ticks : Z) : bool := ticks mod 1000 =? delta_t.

(** [samples[i] = v] on an [array('B')]: [IndexError] outside the array;
    MicroPython stores the value truncated to a byte. *)
Definition setitem (samples : list Z) (i v : Z) : result (list Z) :=
  let k := Str.position (Py.len samples) i in
  if (k <? 0) || (Py.len samples <=? k) then Raise IndexError
  else Ok (firstn (Z.to_nat k) samples ++ [v mod 256]
           ++ skipn (S (Z.to_nat k)) samples).

(** [def isr_sample(timer)]:
<<
    samples[0] +=1
    samples[samples[0]] = rc_signal.value()
>> *)
Definition isr_sample (samples : list Z) (level : bool) : result (list Z) :=
  c <- Str.getitem samples 0 ;;
  samples <- setitem samples 0 (c + 1) ;;
  i <- Str.getitem samples 0 ;;
  setitem samples i (Z.b2z level).

(** Lines 193-198: the timer calls [isr_sample] every period while the
    main loop waits for [samples[0]] to reach the last index; then the timer
    is stopped and the counter is set back. [levels] are the pin levels at
    the successive timer ticks; those not consumed are returned with the
    array. *)
Fixpoint sample_second (samples : list Z) (levels : list bool)
  : result (list Z * list bool) :=
  c <- Str.getitem samples 0 ;;
  if c <? Py.len samples - 1 then
    match levels with
    | [] => Raise OutOfFuel
    | v :: rest => samples <- isr_sample samples v ;; sample_second samples rest
    end
  else samples <- setitem samples 0 0 ;; Ok (samples, levels).

End Sampler.

(** ** Summer-time changes ([RCget_dcf77.py], lines 168-169) *)

Module Civil.

(** Day of the week of the instant [t] (seconds since the epoch) as
    [gmtime(t)[6]] gives it, Monday = 0: 1 January 1970 was a Thursday. *)
Definition weekday (t : Z) : Z := (t / 86400 + 3) mod 7.

(** The changes of the year, in UTC. *)
Definition dcf77_fwd (year : Z) : Z :=
  Time.mktime year 3 (31 - (5 * year / 4 + 4) mod 7) 1 0 0.

Definition dcf77_back (year : Z) : Z :=
  Time.mktime year 10 (31 - (5 * year / 4 + 1) mod 7) 1 0 0.

End Civil.

(** ** Vocabulary for lists, bit strings and registers *)

Module Seq.

(** [subseq l' l]: [l'] is [l] with some elements left out. *)
Inductive subseq : list Z -> list Z -> Prop :=
| sub_nil : subseq [] []
| sub_keep x l l' : subseq l l' -> subseq (x :: l) (x :: l')
| sub_drop x l l' : subseq l l' -> subseq l (x :: l').

End Seq.

Module Frame.

(** The character a sampled level is classified as. *)
Definition bit (b : bool) : ascii := if b then "1"%char else "0"%char.

(** Value of a string of bits, most significant first. *)
Definition value (l : list bool) : Z :=
  fold_left (fun a b => 2 * a + Z.b2z b) l 0.

(** Number of ones. *)
Definition ones (l : list bool) : Z := Z.of_nat (count_occ bool_dec l true).

(** A shift register after the characters [cs] have been pushed. *)
Definition pushed (buf cs : list ascii) : list ascii :=
  fold_left (fun b c => tl b ++ [c]) cs buf.

(** No prefix of the characters [cs], pushed into [reg], makes the register
    end with [marker]. *)
Fixpoint quiet (marker reg cs : list ascii) : bool :=
  match cs with
  | [] => true
  | c :: r =>
      negb (Str.endswith (tl reg ++ [c]) marker) && quiet marker (tl reg ++ [c]) r
  end.

(** The bits [l] with the one at position [k] inverted. *)
Fixpoint flip (k : nat) (l : list bool) {struct l} : list bool :=
  match l, k with
  | [], _ => []
  | b :: r, O => negb b :: r
  | b :: r, S k => b :: flip k r
  end.

(** A minute received with one wrong bit A, in second [k]. *)
Definition corrupt (k : nat) (frame : list (bool * bool)) : list (bool * bool) :=
  combine (flip k (map fst frame)) (map snd frame).

(** The DCF77 register at the end of a minute, as the decoder reverses it:
    the bits A of seconds 59 down to 15. *)
Definition dcf77_register (frame : list (bool * bool)) : list ascii :=
  rev (map bit (skipn 15 (map fst frame))).

(** The MSF registers when the marker of seconds 52-59 has been sampled:
    the bits A of seconds 15 to 59 and the bits B of seconds 52 to 59. *)
Definition msf_register_a (frame : list (bool * bool)) : list ascii :=
  map bit (skipn 15 (map fst frame)).

Definition msf_register_b (frame : list (bool * bool)) : list ascii :=
  map bit (skipn 52 (map snd frame)).

(** The JJY register when the marker of the following minute has been
    sampled: the bits A of seconds 1 to 59 and the one of that marker. *)
Definition jjy_register (frame : list (bool * bool)) (next : bool) : list ascii :=
  map bit (tl (map fst frame) ++ [next]).

End Frame.

(** * Properties *)

(** ** Statistics *)

Lemma bind_ok {A B} (m : result A) (k : A -> result B) (b : B) :
  bind m k = Ok b -> exists a, m = Ok a /\ k a = Ok b.
Proof. destruct m as [a|e]; simpl; [eauto | discriminate]. Qed.

Lemma fold_max_in (l : list Z) (x : Z) : In (fold_left Z.max l x) (x :: l).
Proof.
  revert x; induction l as [|y l IH]; intros x; simpl; [now left|].
  destruct (IH (Z.max x y)) as [H|H]; [|now right; right].
  destruct (Z.max_spec x y) as [[_ E]|[_ E]]; rewrite E in *; simpl; auto.
Qed.

Lemma fold_min_in (l : list Z) (x : Z) : In (fold_left Z.min l x) (x :: l).
Proof.
  revert x; induction l as [|y l IH]; intros x; simpl; [now left|].
  destruct (IH (Z.min x y)) as [H|H]; [|now right; right].
  destruct (Z.min_spec x y) as [[_ E]|[_ E]]; rewrite E in *; simpl; auto.
Qed.

Lemma remove_in (x : Z) (data : list Z) :
  In x data ->
  exists data', Py.remove x data = Ok data' /\ length data = S (length data').
Proof.
  induction data as [|y r IH]; simpl; [tauto|]; intros H.
  destruct (Z.eqb_spec y x) as [E|N]; [eauto|].
  destruct H as [H|H]; [congruence|].
  destruct (IH H) as (r' & -> & L); simpl.
  eexists; split; [reflexivity | simpl; congruence].
Qed.

Lemma mean_ok (data : list Z) :
  data <> [] -> exists m, Stats.mean data = Ok m.
Proof.
  intros H; unfold Stats.mean, Py.len.
  destruct data; [congruence|]; simpl length.
  destruct (Z.eqb_spec (Z.of_nat (S (length data))) 0); [lia|eauto].
Qed.

Lemma mapM_ok {A B} (f : A -> result B) (l : list A) :
  (forall x, In x l -> exists y, f x = Ok y) -> exists ys, mapM f l = Ok ys.
Proof.
  induction l as [|x r IH]; simpl; intros H; [eauto|].
  destruct (H x (or_introl eq_refl)) as (y & ->).
  destruct IH as (ys & ->); [auto|]; simpl; eauto.
Qed.

Lemma variance_ok (data : list Z) :
  (2 <= length data)%nat -> exists v, Stats.variance data = Ok v.
Proof.
  intros H; unfold Stats.variance.
  destruct (mapM_ok (fun x => m <- Stats.mean data ;; Ok ((inject_Z x - m) ^ 2)%Q) data)
    as (ys & ->).
  - intros x _; destruct (mean_ok data) as (m & ->); [|simpl; eauto].
    destruct data; simpl in H; [lia|congruence].
  - simpl; unfold Py.len.
    destruct (Z.eqb_spec (Z.of_nat (length data) - 1) 0); [lia|eauto].
Qed.

Lemma keep_going_ok (data : list Z) :
  (2 <= length data)%nat ->
  exists sd, Stats.st_dev_gt data 5 = Ok sd /\
    Stats.keep_going data = Ok (sd && (8 <? Py.len data)).
Proof.
  intros H; destruct (variance_ok data H) as (v & E).
  unfold Stats.keep_going, Stats.st_dev_gt; rewrite E; cbn [bind]; eauto.
Qed.

Lemma filter_outliers_eq (fuel : nat) (data : list Z) :
  Stats.filter_outliers fuel data =
  (go <- Stats.keep_going data ;;
   if go then
     match fuel with
     | O => Raise OutOfFuel
     | S fuel' => data' <- Stats.del_outlr data ;; Stats.filter_outliers fuel' data'
     end
   else Ok data).
Proof. destruct fuel; reflexivity. Qed.

Lemma fold_max_ub (l : list Z) (x y : Z) :
  In y (x :: l) -> y <= fold_left Z.max l x.
Proof.
  revert x y; induction l as [|z l IH]; intros x y; simpl.
  - intros [->|[]]; lia.
  - intros [E|[E|H]]; [| |apply IH; now right];
      apply Z.le_trans with (Z.max x z); try lia; apply IH; left; reflexivity.
Qed.

Lemma fold_min_lb (l : list Z) (x y : Z) :
  In y (x :: l) -> fold_left Z.min l x <= y.
Proof.
  revert x y; induction l as [|z l IH]; intros x y; simpl.
  - intros [->|[]]; lia.
  - intros [E|[E|H]]; [| |apply IH; now right];
      apply Z.le_trans with (Z.min x z); try lia; apply IH; left; reflexivity.
Qed.

Lemma max_is_max (data : list Z) (x : Z) :
  Py.max data = Ok x -> Stats.is_max x data.
Proof.
  destruct data as [|a r]; simpl; [discriminate|]; intros [= <-]; split.
  - apply fold_max_in.
  - intros y; apply fold_max_ub.
Qed.

Lemma min_is_min (data : list Z) (x : Z) :
  Py.min data = Ok x -> Stats.is_min x data.
Proof.
  destruct data as [|a r]; simpl; [discriminate|]; intros [= <-]; split.
  - apply fold_min_in.
  - intros y; apply fold_min_lb.
Qed.

Lemma remove_spec (x : Z) (data data' : list Z) :
  Py.remove x data = Ok data' -> Stats.removed_first x data data'.
Proof.
  revert data'; induction data as [|y r IH]; simpl; [discriminate|]; intros d'.
  destruct (Z.eqb_spec y x) as [->|N].
  - intros [= <-]; exists [], r; simpl; auto.
  - intros H; apply bind_ok in H; destruct H as (r' & E & [= <-]).
    destruct (IH _ E) as (l1 & l2 & -> & -> & NI).
    exists (y :: l1), l2; simpl; intuition congruence.
Qed.

(** What one pass of [del_outlr] does to a non-empty list. *)
Lemma del_outlr_spec (data data' : list Z) :
  Stats.del_outlr data = Ok data' ->
  exists md mn x,
    Stats.mid data = Ok md /\ Stats.mean data = Ok mn /\
    ((Qlt mn md /\ Stats.is_max x data) \/ (Qle md mn /\ Stats.is_min x data)) /\
    Stats.removed_first x data data' /\ length data = S (length data').
Proof.
  unfold Stats.del_outlr; intros H.
  apply bind_ok in H; destruct H as (md & Emd & H).
  apply bind_ok in H; destruct H as (mn & Emn & H).
  apply bind_ok in H; destruct H as (x & Ex & H).
  exists md, mn, x; repeat split; auto.
  - destruct (Qle_bool md mn) eqn:C; simpl in Ex.
    + right; split; [now apply Qle_bool_iff | now apply min_is_min].
    + left; split; [|now apply max_is_max].
      apply Qnot_le_lt; intros L; apply Qle_bool_iff in L; congruence.
  - now apply remove_spec.
  - destruct (remove_spec _ _ _ H) as (l1 & l2 & -> & -> & _).
    rewrite !length_app; simpl; lia.
Qed.

Lemma del_outlr_ok (data : list Z) :
  data <> [] ->
  exists data', Stats.del_outlr data = Ok data' /\ length data = S (length data').
Proof.
  intros NE; unfold Stats.del_outlr, Stats.mid.
  destruct data as [|a r]; [congruence|].
  destruct (mean_ok (a :: r) NE) as (m & ->).
  cbn [Py.max Py.min bind].
  match goal with |- context [if ?c then _ else _] => destruct c end; cbn [bind].
  - apply remove_in, fold_max_in.
  - apply remove_in, fold_min_in.
Qed.

(** The loop with enough fuel: it stops by itself, after [n] passes, each of
    which shortens the list by one. *)
Lemma filter_outliers_run (fuel : nat) (data : list Z) :
  (2 <= length data)%nat -> (length data <= fuel + 8)%nat ->
  exists n data',
    Stats.filter_outliers fuel data = Ok data' /\
    Stats.outlr_steps n data data' /\
    length data = (length data' + n)%nat /\
    Stats.keep_going data' = Ok false /\
    (2 <= length data')%nat.
Proof.
  revert data; induction fuel as [|fuel IH]; intros data H2 Hf;
    destruct (keep_going_ok data H2) as (sd & Ev & Eg);
    rewrite filter_outliers_eq, Eg; cbn [bind];
    destruct (sd && (8 <? Py.len data)) eqn:C;
    try (exists 0%nat, data; split; [reflexivity|];
         split; [constructor|]; split; [lia|]; split; [assumption|lia]);
    apply andb_prop in C; destruct C as [_ C];
    apply Z.ltb_lt in C; unfold Py.len in C; [lia|].
  destruct (del_outlr_ok data) as (d1 & E1 & L1);
    [destruct data; simpl in *; [lia|congruence]|].
  rewrite E1; cbn [bind].
  destruct (IH d1) as (n & d' & E & St & L & G & L2); [lia|lia|].
  exists (S n), d'; split; [assumption|].
  split; [econstructor; eauto|]. split; [lia|]. split; assumption.
Qed.

(** C7. Outlier removal on a list of more than 8 samples whose standard
    deviation exceeds 5: the loop terminates (fuel equal to the length of
    the list is never exhausted), it makes [n >= 1] passes, every pass
    removes exactly one element - the first occurrence of the maximum when
    the midpoint exceeds the mean, of the minimum otherwise - and on exit the
    standard deviation is at most 5 or at most 8 samples remain. *)
Theorem outlier_removal_terminates (data : list Z) :
  8 < Py.len data ->
  Stats.st_dev_gt data 5 = Ok true ->
  (exists n data',
      (1 <= n)%nat /\
      Stats.filter_outliers (length data) data = Ok data' /\
      Stats.outlr_steps n data data' /\
      length data = (length data' + n)%nat /\
      (Stats.st_dev_gt data' 5 = Ok false \/ Py.len data' <= 8)) /\
  (forall d d1,
      Stats.keep_going d = Ok true -> Stats.del_outlr d = Ok d1 ->
      exists md mn x,
        Stats.mid d = Ok md /\ Stats.mean d = Ok mn /\
        ((Qlt mn md /\ Stats.is_max x d) \/ (Qle md mn /\ Stats.is_min x d)) /\
        Stats.removed_first x d d1 /\ length d = S (length d1)).
Proof.
  intros H8 Hsd; split; [|intros d d1 _; apply del_outlr_spec].
  unfold Py.len in H8.
  destruct (filter_outliers_run (length data) data) as (n & d' & E & St & L & G & L2);
    [lia|lia|].
  exists n, d'; repeat split; auto.
  - destruct n; [|lia].
    inversion St; subst.
    unfold Stats.keep_going in G; rewrite Hsd in G; simpl in G.
    replace (8 <? Py.len d') with true in G; [discriminate|].
    symmetry; apply Z.ltb_lt; unfold Py.len; lia.
  - destruct (keep_going_ok d' L2) as (sd & Ev & Eg).
    rewrite Eg in G; injection G as G; rewrite Ev.
    apply andb_false_iff in G; destruct G as [->|G]; [now left|].
    right; now apply Z.ltb_ge.
Qed.

Lemma outlier_removal_terminates_witness :
  let data := [0; 0; 0; 0; 0; 0; 0; 999; 999; 999] in
  exists n data',
    (1 <= n)%nat /\
    Stats.filter_outliers (length data) data = Ok data' /\
    Stats.outlr_steps n data data' /\
    length data = (length data' + n)%nat /\
    (Stats.st_dev_gt data' 5 = Ok false \/ Py.len data' <= 8).
Proof.
  apply (outlier_removal_terminates [0; 0; 0; 0; 0; 0; 0; 999; 999; 999]).
  - vm_compute; reflexivity.
  - vm_compute; reflexivity.
Defined.

(** ** Phase estimator *)

Lemma filter_outliers_ok (data : list Z) :
  (2 <= length data)%nat ->
  exists data', Stats.filter_outliers (length data) data = Ok data' /\
                (2 <= length data')%nat.
Proof.
  intros H.
  destruct (filter_outliers_run (length data) data) as (n & d' & E & _ & _ & _ & L);
    [lia|lia|eauto].
Qed.

Lemma offset_ok (chosen : list Z) (shift : Z) :
  chosen <> [] -> exists d, Phase.offset chosen shift = Ok d.
Proof.
  intros H; unfold Phase.offset.
  destruct (mean_ok chosen H) as (m & ->); cbn [bind]; eauto.
Qed.

Lemma estimate_ok (deltas shifts : list Z) :
  (2 <= length deltas)%nat -> (2 <= length shifts)%nat ->
  exists d, Phase.estimate deltas shifts = Ok d.
Proof.
  intros Hd Hs; unfold Phase.estimate.
  destruct (filter_outliers_ok deltas Hd) as (d' & -> & Ld).
  destruct (filter_outliers_ok shifts Hs) as (s' & -> & Ls).
  cbn [bind]; destruct (Py.len d' <? Py.len s'); apply offset_ok;
    intros ->; simpl in *; lia.
Qed.

Lemma estimate_short (deltas shifts : list Z) :
  (length deltas < 2)%nat -> length shifts = length deltas ->
  Phase.estimate deltas shifts = Raise ZeroDivisionError.
Proof.
  intros H E.
  destruct deltas as [|a [|b r]]; simpl in H; [| |lia];
    destruct shifts as [|c [|e s]]; simpl in E; try discriminate; reflexivity.
Qed.

Lemma get_deltas_length (secs : nat) (edges deltas shifts : list Z) :
  length deltas = length shifts ->
  length (fst (Phase.get_deltas secs edges deltas shifts)) =
    (length deltas + Nat.min (2 * secs) (length edges))%nat /\
  length (snd (Phase.get_deltas secs edges deltas shifts)) =
    (length deltas + Nat.min (2 * secs) (length edges))%nat.
Proof.
  intros E; unfold Phase.get_deltas; cbn [fst snd].
  rewrite !length_app, !length_map, !length_firstn; lia.
Qed.

(** C9. The statistics stage needs at least two edge time-stamps: a run
    whose first measurement window collected none or one ends in
    [ZeroDivisionError] (from [mean] of the empty list, or from the divisor
    [len(data)-1] of [st_dev]) instead of a result, and a run that collected
    two or more never raises that error. *)
Theorem acquire_needs_two_edges (w1 w2 : list Z) :
  Phase.acquire w1 w2 = Raise ZeroDivisionError <-> (length w1 < 2)%nat.
Proof.
  unfold Phase.acquire.
  destruct (Phase.get_deltas 16 w1 [] []) as [deltas shifts] eqn:G1.
  destruct (get_deltas_length 16 w1 [] [] eq_refl) as [Ld Ls].
  rewrite G1 in Ld, Ls; cbn [fst snd length Nat.add] in Ld, Ls.
  unfold Py.len.
  destruct (Z.eqb_spec (Z.of_nat (length deltas)) (16 * 2)) as [E32|N32].
  { split; [discriminate|lia]. }
  destruct (Z.ltb_spec 20 (Z.of_nat (length deltas))) as [L20|L20].
  - destruct (Phase.get_deltas 48 w2 deltas shifts) as [deltas2 shifts2] eqn:G2.
    destruct (get_deltas_length 48 w2 deltas shifts) as [Ld2 Ls2]; [lia|].
    rewrite G2 in Ld2, Ls2; cbn [fst snd] in Ld2, Ls2.
    destruct (estimate_ok deltas2 shifts2) as (d & ->); [lia|lia|].
    split; [discriminate|lia].
  - destruct (Nat.lt_ge_cases (length w1) 2) as [S|S].
    + rewrite estimate_short by lia; tauto.
    + destruct (estimate_ok deltas shifts) as (d & ->); [lia|lia|].
      split; [discriminate|lia].
Qed.

(** C3. The offset computed for ten edges, three at ...999 ms and seven at
    ...000 ms of the millisecond counter, is 1000: the shifted set is chosen
    (its mean is 499.7), [(499.7 - 500) % 1000] is 999.7 and it is rounded
    after the reduction. The specified value round(mean - shift) mod 1000 is
    0 at the same point. *)
Theorem phase_offset_reaches_1000 :
  let edges := [10999; 11999; 12999; 14000; 15000;
                16000; 17000; 18000; 19000; 20000] in
  Phase.acquire edges [] = Ok (Some 1000) /\
  Phase.estimate (map (fun d => d mod 1000) edges)
                 (map (fun d => (d + 500) mod 1000) edges) =
    Phase.offset [499; 499; 499; 500; 500; 500; 500; 500; 500; 500] 500 /\
  Phase.spec_offset [499; 499; 499; 500; 500; 500; 500; 500; 500; 500] 500 = Ok 0.
Proof. vm_compute; repeat split; reflexivity. Qed.

(** ** Classified bits and shift registers *)

Lemma sum_b2z_bounds (w : list bool) (a : Z) :
  a <= fold_left Z.add (map Z.b2z w) a <= a + Z.of_nat (length w).
Proof.
  revert a; induction w as [|b w IH]; intros a; simpl length; simpl fold_left.
  - lia.
  - specialize (IH (a + Z.b2z b)); destruct b; simpl Z.b2z in *; lia.
Qed.

Lemma round_unit (m : Q) :
  (0 <= m)%Q -> (m <= 1)%Q -> Py.round m = 0 \/ Py.round m = 1.
Proof.
  intros H0 H1; unfold Py.round.
  assert (F0 : 0 <= Qfloor m) by (apply (Qfloor_resp_le 0 m H0)).
  assert (F1 : Qfloor m <= 1) by (apply (Qfloor_resp_le m 1 H1)).
  assert (E : Qfloor m = 0 \/ Qfloor m = 1) by lia.
  destruct E as [E|E]; rewrite E.
  - destruct (Qcompare _ _); simpl; auto.
  - assert (L : (m - inject_Z 1 < 1 # 2)%Q).
    { apply Qle_lt_trans with 0%Q; [|reflexivity].
      unfold Qminus; rewrite <- (Qplus_opp_r 1).
      apply Qplus_le_compat; [exact H1 | apply Qle_refl]. }
    rewrite (proj1 (Qlt_alt _ _) L); auto.
Qed.

Lemma classify_bit (w : list bool) (s : list ascii) :
  Tracker.classify w = Ok s -> s = ["0"%char] \/ s = ["1"%char].
Proof.
  unfold Tracker.classify, Stats.mean, Py.len; rewrite length_map.
  destruct (Z.eqb_spec (Z.of_nat (length w)) 0) as [|N]; [discriminate|].
  cbn [bind]; intros [= <-].
  pose proof (sum_b2z_bounds w 0) as B; fold (Py.sum (map Z.b2z w)) in B.
  set (sm := Py.sum (map Z.b2z w)) in *.
  set (n := Z.of_nat (length w)) in *.
  assert (Hn : (0 < inject_Z n)%Q)
    by (change 0%Q with (inject_Z 0); rewrite <- Zlt_Qlt; lia).
  destruct (round_unit (inject_Z sm / inject_Z n)) as [->| ->]; auto.
  - apply Qle_shift_div_l; [exact Hn|].
    rewrite Qmult_0_l; change 0%Q with (inject_Z 0); rewrite <- Zle_Qle; lia.
  - apply Qle_shift_div_r; [exact Hn|].
    rewrite Qmult_1_l; rewrite <- Zle_Qle; lia.
Qed.

Lemma filled_to_length (n k : nat) (buf : list ascii) :
  Str.filled_to n k buf -> length buf = n.
Proof.
  intros (L & bits & -> & Lb & _).
  rewrite length_app, repeat_length; lia.
Qed.

Lemma filled_to_init (n : nat) : Str.filled_to n 0 (repeat Str.blank n).
Proof.
  split; [lia|]; exists []; rewrite Nat.sub_0_r, app_nil_r; auto.
Qed.

Lemma slice_from_1 {A} (buf : list A) : Str.slice_from buf 1 = tl buf.
Proof.
  unfold Str.slice_from, Str.bound, Py.len.
  destruct buf as [|c r]; [reflexivity|].
  change (1 <? 0) with false; cbv iota.
  replace (Z.to_nat (Z.min 1 (Z.of_nat (length (c :: r))))) with 1%nat
    by (simpl length; lia).
  reflexivity.
Qed.

(** Pushing a classified bit keeps the shape, one more position filled. *)
Lemma filled_to_push (n k : nat) (buf s : list ascii) :
  (0 < n)%nat -> Str.filled_to n k buf ->
  s = ["0"%char] \/ s = ["1"%char] ->
  Str.filled_to n (Nat.min (S k) n) (Str.slice_from buf 1 ++ s).
Proof.
  intros Hn (L & bits & -> & Lb & Fb) Hs; rewrite slice_from_1.
  assert (Fs : Forall Str.is_bit s)
    by (destruct Hs as [-> | ->]; repeat constructor; unfold Str.is_bit; auto).
  assert (Ls : length s = 1%nat) by (destruct Hs as [-> | ->]; reflexivity).
  split; [lia|].
  destruct (Nat.eq_dec k n) as [->|N].
  - replace (n - Nat.min (S n) n)%nat with 0%nat by lia.
    rewrite Nat.sub_diag; simpl repeat; simpl app.
    destruct bits as [|b bits]; [simpl in Lb; lia|]; simpl tl.
    exists (bits ++ s); split; [reflexivity|]; split.
    + rewrite length_app; simpl in Lb; lia.
    + apply Forall_app; split; [now inversion Fb | exact Fs].
  - replace (Nat.min (S k) n) with (S k) by lia.
    replace (n - k)%nat with (S (n - S k)) by lia; simpl repeat; simpl tl.
    exists (bits ++ s); split; [now rewrite app_assoc|]; split.
    + rewrite length_app; lia.
    + apply Forall_app; split; assumption.
Qed.

(** A non-blank character at position [p] means that everything from [p]
    to the end is already filled. *)
Lemma filled_to_sentinel (n k p : nat) (buf : list ascii) (c : ascii) :
  Str.filled_to n k buf -> nth_error buf p = Some c -> c <> Str.blank ->
  (n - k <= p)%nat /\ Str.bits_in buf p n.
Proof.
  intros (L & bits & -> & Lb & Fb) Hc Hne.
  assert (Hp : (n - k <= p)%nat).
  { destruct (Nat.le_gt_cases (n - k) p) as [|G]; [assumption|exfalso].
    rewrite nth_error_app1 in Hc by (rewrite repeat_length; lia).
    rewrite nth_error_repeat in Hc by lia.
    congruence. }
  split; [exact Hp|]; intros i Hi.
  rewrite nth_error_app2 by (rewrite repeat_length; lia).
  rewrite repeat_length.
  destruct (nth_error bits (i - (n - k))) as [c'|] eqn:E.
  - exists c'; split; [reflexivity|].
    rewrite Forall_forall in Fb; apply Fb; eapply nth_error_In; eauto.
  - apply nth_error_None in E; lia.
Qed.

Lemma filled_to_full (n k : nat) (buf : list ascii) :
  Str.filled_to n k buf -> Str.bits_in buf (n - k) n.
Proof.
  intros (L & bits & -> & Lb & Fb) i Hi.
  rewrite nth_error_app2 by (rewrite repeat_length; lia).
  rewrite repeat_length.
  destruct (nth_error bits (i - (n - k))) as [c'|] eqn:E.
  - exists c'; split; [reflexivity|].
    rewrite Forall_forall in Fb; apply Fb; eapply nth_error_In; eauto.
  - apply nth_error_None in E; lia.
Qed.

(** The same for the reversed register: everything up to a non-blank
    position is filled. *)
Lemma filled_to_sentinel_rev (n k p : nat) (buf : list ascii) (c : ascii) :
  Str.filled_to n k buf -> nth_error (rev buf) p = Some c -> c <> Str.blank ->
  Str.bits_in (rev buf) 0 (S p).
Proof.
  intros F Hc Hne i Hi.
  pose proof (filled_to_length _ _ _ F) as Ln.
  assert (Hp : (p < n)%nat).
  { rewrite <- Ln, <- length_rev; apply nth_error_Some; congruence. }
  rewrite nth_error_rev in Hc; rewrite Ln in Hc.
  replace (p <? n)%nat with true in Hc by (symmetry; apply Nat.ltb_lt; lia).
  destruct (filled_to_sentinel _ _ _ _ _ F Hc Hne) as [_ B].
  rewrite nth_error_rev, Ln.
  replace (i <? n)%nat with true by (symmetry; apply Nat.ltb_lt; lia).
  apply B; lia.
Qed.

Lemma bind_not_raises {A B} (m : result A) (k : A -> result B) (e : exn) :
  ~ raises m e -> (forall a, m = Ok a -> ~ raises (k a) e) ->
  ~ raises (bind m k) e.
Proof.
  unfold raises; destruct m as [a|e']; simpl; intros Hm Hk; [now apply Hk|].
  intros [= ->]; now apply Hm.
Qed.

Lemma ok_not_raises {A} (a : A) (e : exn) : ~ raises (Ok a) e.
Proof. unfold raises; discriminate. Qed.

Lemma lstrip_bit (s : list ascii) :
  match s with c :: _ => Str.is_bit c | [] => True end -> Str.lstrip s = s.
Proof.
  destruct s as [|c r]; [reflexivity|]; simpl.
  intros [-> | ->]; reflexivity.
Qed.

Lemma strip_bits (s : list ascii) : Forall Str.is_bit s -> Str.strip s = s.
Proof.
  intros F; unfold Str.strip.
  rewrite (lstrip_bit s) by (destruct F; auto).
  rewrite lstrip_bit; [apply rev_involutive|].
  apply Forall_rev in F; destruct F; auto.
Qed.

Lemma int2_fold_bits (t : list ascii) (a : Z) :
  Forall Str.is_bit t ->
  exists v,
    fold_left (fun acc c => a <- acc ;; d <- Str.digit2 c ;; Ok (2 * a + d))
              t (Ok a) = Ok v.
Proof.
  intros F; revert a; induction F as [|c t Hc _ IH]; intros a; simpl; [eauto|].
  destruct Hc as [-> | ->]; simpl; apply IH.
Qed.

Lemma int2_bits (s : list ascii) :
  Forall Str.is_bit s -> s <> [] -> exists v, Str.int2 s = Ok v.
Proof.
  intros F NE; unfold Str.int2; rewrite strip_bits by assumption.
  destruct s as [|c r]; [congruence|]; apply int2_fold_bits; assumption.
Qed.

Lemma int10_bit (c : ascii) : Str.is_bit c -> exists v, Str.int10 c = Ok v.
Proof. intros [-> | ->]; vm_compute; eauto. Qed.

Lemma getitem_nth {A} (buf : list A) (i : Z) (c : A) :
  Str.getitem buf i = Ok c ->
  nth_error buf (Z.to_nat (Str.position (Py.len buf) i)) = Some c.
Proof.
  unfold Str.getitem.
  destruct (Str.position (Py.len buf) i <? 0); [discriminate|].
  destruct (nth_error buf _); [congruence|discriminate].
Qed.

Lemma getitem_not_value {A} (buf : list A) (i : Z) :
  ~ raises (Str.getitem buf i) ValueError.
Proof.
  unfold raises, Str.getitem.
  destruct (_ <? 0); [discriminate|]; destruct (nth_error _ _); discriminate.
Qed.

Lemma getitem_bits (buf : list ascii) (lo hi : nat) (i : Z) :
  Str.bits_in buf lo hi ->
  0 <= Str.position (Py.len buf) i ->
  (lo <= Z.to_nat (Str.position (Py.len buf) i) < hi)%nat ->
  exists c, Str.getitem buf i = Ok c /\ Str.is_bit c.
Proof.
  intros B H0 H; unfold Str.getitem.
  replace (Str.position (Py.len buf) i <? 0) with false
    by (symmetry; apply Z.ltb_ge; exact H0).
  destruct (B _ H) as (c & -> & Hc); eauto.
Qed.

(** A slice that lies inside a filled stretch is a non-empty string of 0
    and 1. *)
Lemma slice_bits (buf : list ascii) (lo hi : nat) (a b : Z) :
  Str.bits_in buf lo hi ->
  0 <= Str.bound (Py.len buf) a < Str.bound (Py.len buf) b ->
  (lo <= Z.to_nat (Str.bound (Py.len buf) a))%nat ->
  (Z.to_nat (Str.bound (Py.len buf) b) <= hi)%nat ->
  Forall Str.is_bit (Str.slice buf a b) /\ Str.slice buf a b <> [].
Proof.
  intros B Hab Hlo Hhi; unfold Str.slice.
  set (l := Str.bound (Py.len buf) a) in *.
  set (h := Str.bound (Py.len buf) b) in *.
  split.
  - apply Forall_forall; intros c Hc.
    apply In_nth_error in Hc; destruct Hc as (i & Hi).
    assert (Li : (i < Z.to_nat (h - l))%nat).
    { destruct (Nat.lt_ge_cases i (Z.to_nat (h - l))) as [|G]; [assumption|].
      assert (N : nth_error (firstn (Z.to_nat (h - l)) (skipn (Z.to_nat l) buf)) i
                  = None)
        by (apply nth_error_None; rewrite length_firstn; lia).
      congruence. }
    rewrite nth_error_firstn in Hi.
    replace (i <? Z.to_nat (h - l))%nat with true in Hi
      by (symmetry; apply Nat.ltb_lt; exact Li).
    rewrite nth_error_skipn in Hi.
    destruct (B (Z.to_nat l + i)%nat) as (c' & E & Hb); [lia|].
    congruence.
  - intros E.
    assert (N : nth_error (firstn (Z.to_nat (h - l)) (skipn (Z.to_nat l) buf)) 0
                = None) by (rewrite E; reflexivity).
    rewrite nth_error_firstn in N.
    replace (0 <? Z.to_nat (h - l))%nat with true in N
      by (symmetry; apply Nat.ltb_lt; lia).
    rewrite nth_error_skipn, Nat.add_0_r in N.
    destruct (B (Z.to_nat l)) as (c' & E' & _); [lia|congruence].
Qed.

Lemma int2_slice (buf : list ascii) (lo hi : nat) (a b : Z) :
  Str.bits_in buf lo hi ->
  0 <= Str.bound (Py.len buf) a < Str.bound (Py.len buf) b ->
  (lo <= Z.to_nat (Str.bound (Py.len buf) a))%nat ->
  (Z.to_nat (Str.bound (Py.len buf) b) <= hi)%nat ->
  exists v, Str.int2 (Str.slice buf a b) = Ok v.
Proof.
  intros B H1 H2 H3.
  destruct (slice_bits buf lo hi a b B H1 H2 H3); now apply int2_bits.
Qed.

Lemma bcd_slice (buf : list ascii) (lo hi : nat) (a b c : Z) :
  Str.bits_in buf lo hi ->
  0 <= Str.bound (Py.len buf) a < Str.bound (Py.len buf) b ->
  Str.bound (Py.len buf) b < Str.bound (Py.len buf) c ->
  (lo <= Z.to_nat (Str.bound (Py.len buf) a))%nat ->
  (Z.to_nat (Str.bound (Py.len buf) c) <= hi)%nat ->
  exists v, Str.bcd buf a b c = Ok v.
Proof.
  intros B H1 H2 H3 H4; unfold Str.bcd.
  destruct (int2_slice buf lo hi a b B) as (t & ->); [lia|lia|lia|].
  destruct (int2_slice buf lo hi b c B) as (u & ->); [lia|lia|lia|].
  cbn [bind]; eauto.
Qed.

(** ** Consensus on one field *)

Lemma count_skipn (x : Z) (n : nat) (l : list Z) :
  Py.count x (skipn n l) <= Py.count x l.
Proof.
  unfold Py.count.
  pose proof (count_occ_app Z.eq_dec (firstn n l) (skipn n l) x) as E.
  rewrite firstn_skipn in E; lia.
Qed.

Lemma count_last_n (x : Z) (n : nat) (l : list Z) :
  Py.count x (Py.last_n n l) <= Py.count x l.
Proof. apply count_skipn. Qed.

Lemma length_last_n {A} (n : nat) (l : list A) :
  length (Py.last_n n l) = Nat.min n (length l).
Proof. unfold Py.last_n; rewrite length_skipn; lia. Qed.

Lemma count_snoc (x v : Z) (l : list Z) :
  Py.count x (l ++ [v]) = Py.count x l + (if Z.eq_dec v x then 1 else 0).
Proof.
  unfold Py.count; rewrite count_occ_app; simpl.
  destruct (Z.eq_dec v x); lia.
Qed.

Lemma count_nonneg (x : Z) (l : list Z) : 0 <= Py.count x l.
Proof. unfold Py.count; lia. Qed.


Lemma consider_ok (inrange : Z -> bool) (accept : Z -> Z)
    (f : Tracker.field) (v : Z) :
  Tracker.field_ok f -> Tracker.matched f = false ->
  Tracker.field_ok (Tracker.consider inrange accept f v).
Proof.
  intros [_ _ Ho Hr Hl] Hm; specialize (Ho Hm).
  unfold Tracker.consider.
  destruct (inrange v); [|constructor; cbn; auto; try congruence;
                           intros _; discriminate].
  set (h := Py.last_n 4 (Tracker.hist f) ++ [v]).
  assert (Lh : (length h <= 5)%nat)
    by (unfold h; rewrite length_app, length_last_n; simpl length; lia).
  assert (Ch : forall x, Py.count x h <= (if Z.eq_dec v x then 3 else 2)).
  { intros x; unfold h; rewrite count_snoc.
    pose proof (count_last_n x 4 (Tracker.hist f)); pose proof (Ho x).
    destruct (Z.eq_dec v x); lia. }
  destruct (Z.eqb_spec (Py.count v h) 3) as [E|N]; constructor; cbn.
  - intros _; left; unfold Tracker.agreed3; cbn.
    unfold h at 1; rewrite last_last; exact E.
  - intros _; discriminate.
  - discriminate.
  - intros _; discriminate.
  - exact Lh.
  - congruence.
  - congruence.
  - intros _ x; specialize (Ch x); destruct (Z.eq_dec v x); [subst; lia|lia].
  - intros _; discriminate.
  - exact Lh.
Qed.

Lemma reset_ok (f : Tracker.field) :
  Tracker.field_ok f -> Tracker.field_ok (Tracker.reset f).
Proof.
  intros [_ _ _ Hr Hl]; constructor; cbn; try discriminate.
  - intros _ v.
    assert (L : (length (Py.last_n 1 (Tracker.hist f)) <= 1)%nat)
      by (rewrite length_last_n; lia).
    unfold Py.count.
    pose proof (count_occ_bound Z.eq_dec v (Py.last_n 1 (Tracker.hist f))).
    lia.
  - rewrite length_last_n; lia.
  - rewrite length_last_n; lia.
Qed.

Lemma reset_short (f : Tracker.field) :
  (length (Tracker.hist (Tracker.reset f)) <= 1)%nat /\
  Tracker.matched (Tracker.reset f) = false.
Proof. cbn; rewrite length_last_n; split; [lia|reflexivity]. Qed.

Lemma distinct_one (h : list Z) :
  Py.distinct h <= 1 -> forall x y, In x h -> In y h -> x = y.
Proof.
  unfold Py.distinct, Py.len; intros H x y Hx Hy.
  apply (nodup_In Z.eq_dec) in Hx, Hy.
  destruct (nodup Z.eq_dec h) as [|a [|b r]]; simpl in *; [tauto| |lia].
  destruct Hx as [<-|[]], Hy as [<-|[]]; reflexivity.
Qed.

Lemma distinct_nonneg (h : list Z) : 0 <= Py.distinct h.
Proof. unfold Py.distinct, Py.len; lia. Qed.

Lemma agreed2_intro (f : Tracker.field) :
  1 < Py.len (Tracker.hist f) -> Py.distinct (Tracker.hist f) <= 1 ->
  Tracker.agreed2 f.
Proof.
  intros L D; split; [unfold Py.len in L; lia | now apply distinct_one].
Qed.

Lemma confirm_ok (accept : Z -> Z) (f : Tracker.field) :
  Tracker.field_ok f -> Tracker.agreed2 f ->
  exists v, Tracker.raw f = Some v /\
    Tracker.confirm accept f =
      Ok (Tracker.mkField (Tracker.hist f) true (Tracker.raw f) (Some (accept v))) /\
    Tracker.field_ok
      (Tracker.mkField (Tracker.hist f) true (Tracker.raw f) (Some (accept v))).
Proof.
  intros [_ _ _ Hr Hl] A.
  destruct (Tracker.raw f) as [v|] eqn:E; [|destruct (Hr (proj1 A)); reflexivity].
  exists v; split; [reflexivity|]; split.
  - unfold Tracker.confirm; rewrite E; reflexivity.
  - constructor; cbn; try discriminate; auto.
Qed.

(** ** Decoding the registers *)

Lemma getitem_ok {A} (buf : list A) (i : Z) :
  0 <= Str.position (Py.len buf) i < Py.len buf ->
  exists c, Str.getitem buf i = Ok c.
Proof.
  intros H; unfold Str.getitem.
  replace (Str.position (Py.len buf) i <? 0) with false
    by (symmetry; apply Z.ltb_ge; lia).
  cbv zeta; destruct (nth_error buf _) as [c|] eqn:E; [eauto|].
  apply nth_error_None in E; unfold Py.len in *; lia.
Qed.

Lemma not_blank (c : ascii) :
  negb (Ascii.eqb c Str.blank) = true -> c <> Str.blank.
Proof.
  intros H E; subst; rewrite Ascii.eqb_refl in H; discriminate.
Qed.

Lemma observe_step (f : Tracker.field) (dec : result Z)
    (inrange : Z -> bool) (accept : Z -> Z) :
  (exists v, dec = Ok v) ->
  exists f',
    (if Tracker.matched f then Ok f
     else v <- dec ;; Ok (Tracker.consider inrange accept f v)) = Ok f' /\
    Tracker.field_step f f'.
Proof.
  intros (v & ->); destruct (Tracker.matched f) eqn:M; cbn [bind].
  - exists f; split; [reflexivity | now left].
  - eexists; split; [reflexivity|]; right; split; [assumption|].
    do 3 eexists; reflexivity.
Qed.

Lemma field_step_ok (f f' : Tracker.field) :
  Tracker.field_ok f -> Tracker.field_step f f' -> Tracker.field_ok f'.
Proof.
  intros H [->|(M & ir & ac & v & ->)]; [assumption|now apply consider_ok].
Qed.

Lemma field_step_refl (f : Tracker.field) : Tracker.field_step f f.
Proof. now left. Qed.

Lemma field_step_matched (f f' : Tracker.field) :
  Tracker.field_step f f' -> Tracker.matched f = true -> f' = f.
Proof. intros [->|(M & _)]; congruence. Qed.

Ltac bounds L := rewrite ?L; unfold Str.bound, Str.position; simpl; lia.

Ltac observe_field H :=
  match goal with
  | |- context [bind (if Tracker.matched ?f then Ok ?f
                      else bind ?dec (fun v => Ok (Tracker.consider ?ir ?ac ?f v))) _] =>
      let f' := fresh "f'" in
      let S := fresh "S" in
      destruct (observe_step f dec ir ac H) as (f' & -> & S); cbn [bind]
  end.

Lemma len_rev {A} (l : list A) : Py.len (rev l) = Py.len l.
Proof. unfold Py.len; now rewrite length_rev. Qed.

Lemma dcf_date_fields (st : DCF77.state) (buf : list ascii) (k : nat) :
  DCF77.tcA st = rev buf -> Str.filled_to 45 k buf ->
  exists st', DCF77.date_fields st = Ok st' /\ DCF77.same_frame st st' /\
    Tracker.field_step (DCF77.year_f st) (DCF77.year_f st') /\
    Tracker.field_step (DCF77.month_f st) (DCF77.month_f st') /\
    Tracker.field_step (DCF77.day_f st) (DCF77.day_f st') /\
    DCF77.dst_f st' = DCF77.dst_f st.
Proof.
  intros Ea F; unfold DCF77.date_fields.
  assert (L : Py.len (DCF77.tcA st) = 45)
    by (rewrite Ea, len_rev; unfold Py.len; now rewrite (filled_to_length _ _ _ F)).
  destruct (getitem_ok (DCF77.tcA st) 23) as (c & Ec); [bounds L|].
  rewrite Ec; cbn [bind].
  destruct (negb (Ascii.eqb c Str.blank) && _) eqn:C.
  2:{ exists st; unfold DCF77.same_frame; auto 10 using field_step_refl. }
  apply andb_prop in C; destruct C as [C _]; apply not_blank in C.
  apply getitem_nth in Ec; rewrite L in Ec; rewrite Ea in Ec.
  pose proof (filled_to_sentinel_rev _ _ _ _ _ F Ec C) as B.
  rewrite <- Ea in B; change (S (Z.to_nat (Str.position 45 23))) with 24%nat in B.
  assert (Hy : exists v, DCF77.year_value (DCF77.tcA st) = Ok v).
  { apply (bcd_slice _ 0 24); [exact B|bounds L..]. }
  assert (Hm : exists v, DCF77.month_value (DCF77.tcA st) = Ok v).
  { unfold DCF77.month_value.
    destruct (getitem_bits _ 0 24 10 B) as (c1 & -> & Hc1); [bounds L..|].
    cbn [bind].
    destruct (int2_bits [c1]) as (t & ->); [auto|discriminate|].
    destruct (int2_slice _ 0 24 11 15 B) as (u & ->); [bounds L..|].
    cbn [bind]; eauto. }
  assert (Hd : exists v, DCF77.day_value (DCF77.tcA st) = Ok v).
  { apply (bcd_slice _ 0 24); [exact B|bounds L..]. }
  observe_field Hy. observe_field Hm. observe_field Hd.
  eexists; split; [reflexivity|]; unfold DCF77.same_frame; cbn; auto 10.
Qed.

Lemma dcf_dst_field (st : DCF77.state) (buf : list ascii) (k : nat) :
  DCF77.tcA st = rev buf -> Str.filled_to 45 k buf ->
  exists st', DCF77.dst_field st = Ok st' /\ DCF77.same_frame st st' /\
    DCF77.year_f st' = DCF77.year_f st /\
    DCF77.month_f st' = DCF77.month_f st /\
    DCF77.day_f st' = DCF77.day_f st /\
    Tracker.field_step (DCF77.dst_f st) (DCF77.dst_f st').
Proof.
  intros Ea F; unfold DCF77.dst_field.
  assert (L : Py.len (DCF77.tcA st) = 45)
    by (rewrite Ea, len_rev; unfold Py.len; now rewrite (filled_to_length _ _ _ F)).
  destruct (Tracker.matched (DCF77.dst_f st)) eqn:M.
  { exists st; unfold DCF77.same_frame; auto 10 using field_step_refl. }
  destruct (getitem_ok (DCF77.tcA st) 42) as (c & Ec); [bounds L|].
  rewrite Ec; cbn [bind].
  destruct (negb (Ascii.eqb c Str.blank) && _) eqn:C.
  2:{ exists st; unfold DCF77.same_frame; auto 10 using field_step_refl. }
  apply andb_prop in C; destruct C as [C _]; apply not_blank in C.
  pose proof Ec as En.
  apply getitem_nth in En; rewrite L in En; rewrite Ea in En.
  pose proof (filled_to_sentinel_rev _ _ _ _ _ F En C) as B.
  rewrite <- Ea in B; change (S (Z.to_nat (Str.position 45 42))) with 43%nat in B.
  destruct (getitem_bits _ 0 43 42 B) as (c1 & E1 & Hc1); [bounds L..|].
  rewrite Ec in E1; injection E1 as <-.
  destruct (int10_bit c Hc1) as (v & ->); cbn [bind].
  eexists; split; [reflexivity|]; unfold DCF77.same_frame; cbn.
  repeat split; auto.
  right; split; [assumption|].
  exists (fun _ => true), (fun v => v), v; reflexivity.
Qed.

Lemma dcf_time_field (a buf : list ascii) (k : nat) :
  a = rev buf -> Str.filled_to 45 k buf ->
  exists t, DCF77.time_field a = Ok t.
Proof.
  intros Ea F; unfold DCF77.time_field.
  assert (L : Py.len a = 45)
    by (rewrite Ea, len_rev; unfold Py.len; now rewrite (filled_to_length _ _ _ F)).
  destruct (getitem_ok a 38) as (c & Ec); [bounds L|].
  rewrite Ec; cbn [bind].
  destruct (negb (Ascii.eqb c Str.blank) && _ && _) eqn:C; [|eauto].
  apply andb_prop in C; destruct C as [C _].
  apply andb_prop in C; destruct C as [C _]; apply not_blank in C.
  apply getitem_nth in Ec; rewrite L in Ec; rewrite Ea in Ec.
  pose proof (filled_to_sentinel_rev _ _ _ _ _ F Ec C) as B.
  rewrite <- Ea in B; change (S (Z.to_nat (Str.position 45 38))) with 39%nat in B.
  destruct (bcd_slice a 0 39 25 27 31 B) as (hr & ->); [bounds L..|].
  destruct (bcd_slice a 0 39 32 35 39 B) as (mn & ->); [bounds L..|].
  cbn [bind]; eauto.
Qed.

(** From the test of the shortcut to the agreement of one history. *)
Lemma agreed2_from (f : Tracker.field) :
  1 < Py.len (Tracker.hist f) -> Py.distinct (Tracker.hist f) <= 1 ->
  Tracker.agreed2 f.
Proof. apply agreed2_intro. Qed.

Lemma minute_found_not_value (mods : list Z) (m : option Z) :
  ~ raises (Tracker.minute_found mods m) ValueError.
Proof.
  unfold raises, Tracker.minute_found.
  destruct (_ && _); [discriminate|]; destruct m; discriminate.
Qed.

Lemma name_not_value (v : option Z) : ~ raises (Tracker.name v) ValueError.
Proof. unfold raises; destruct v; discriminate. Qed.

(** *** DCF77 *)

Ltac dcf_proj :=
  cbn [DCF77.tcA DCF77.tcB DCF77.elapsed DCF77.year_f DCF77.month_f
       DCF77.day_f DCF77.dst_f DCF77.mods DCF77.mod_v DCF77.with_fields
       DCF77.with_tcA Tracker.hist Tracker.matched Tracker.raw Tracker.val
       Tracker.reset andb] in *.

Lemma dcf_shift_spec (st st1 : DCF77.state) (s : list bool) :
  DCF77.shift st s = Ok st1 ->
  (DCF77.buffers_ok st -> DCF77.buffers_ok st1) /\
  DCF77.elapsed st1 = DCF77.elapsed st + 1 /\
  DCF77.year_f st1 = DCF77.year_f st /\ DCF77.month_f st1 = DCF77.month_f st /\
  DCF77.day_f st1 = DCF77.day_f st /\ DCF77.dst_f st1 = DCF77.dst_f st /\
  DCF77.mods st1 = DCF77.mods st /\ DCF77.mod_v st1 = DCF77.mod_v st.
Proof.
  unfold DCF77.shift; intros H.
  apply bind_ok in H; destruct H as (a & Ea & H).
  apply bind_ok in H; destruct H as (b & Eb & H).
  injection H as <-.
  cbn [DCF77.tcA DCF77.tcB DCF77.elapsed DCF77.year_f DCF77.month_f
       DCF77.day_f DCF77.dst_f DCF77.mods DCF77.mod_v].
  repeat split; auto.
  intros (k & FA & FB); exists (S k).
  cbn [DCF77.tcA DCF77.tcB]; split.
  - replace (Nat.min (S k) 45) with (Nat.min (S (Nat.min k 45)) 45) by lia.
    apply filled_to_push; [lia|assumption|eapply classify_bit; eauto].
  - replace (Nat.min (S k) 6) with (Nat.min (S (Nat.min k 6)) 6) by lia.
    apply filled_to_push; [lia|assumption|eapply classify_bit; eauto].
Qed.

Lemma dcf_shift_not_value (st : DCF77.state) (s : list bool) :
  ~ raises (DCF77.shift st s) ValueError.
Proof.
  unfold raises, DCF77.shift, Tracker.classify, Stats.mean.
  repeat (destruct (_ =? 0); cbn [bind]; try discriminate).
Qed.

Lemma dcf_minute_update_ok (st : DCF77.state) (hr mn : Z) :
  DCF77.fields_ok st -> 0 <= DCF77.elapsed st ->
  DCF77.fields_ok (DCF77.minute_update st hr mn) /\
  0 <= DCF77.elapsed (DCF77.minute_update st hr mn) /\
  DCF77.tcA (DCF77.minute_update st hr mn) = DCF77.tcA st /\
  DCF77.tcB (DCF77.minute_update st hr mn) = DCF77.tcB st.
Proof.
  intros (Y & M & D & S) E; unfold DCF77.minute_update, DCF77.fields_ok.
  destruct (_ && _); [|auto 10].
  destruct (_ <? 5); cbn; auto 10 using reset_ok with zarith.
Qed.

Lemma dcf_shortcut_ok (st : DCF77.state) :
  DCF77.fields_ok st ->
  exists st', DCF77.shortcut st = Ok st' /\ DCF77.fields_ok st' /\
    DCF77.same_frame st st' /\
    (DCF77.confident st = false -> st' = st) /\
    (DCF77.confident st = true -> DCF77.all_matched st' = true).
Proof.
  intros (Y & M & D & S); unfold DCF77.shortcut.
  destruct (DCF77.confident st) eqn:C.
  2:{ exists st; unfold DCF77.same_frame, DCF77.fields_ok; intuition congruence. }
  unfold DCF77.confident in C; apply andb_prop in C; destruct C as [C1 C2].
  apply Z.ltb_lt in C1; apply Z.eqb_eq in C2.
  assert (L1 : 1 < Py.len (Tracker.hist (DCF77.year_f st))) by lia.
  assert (L2 : 1 < Py.len (Tracker.hist (DCF77.month_f st))) by lia.
  assert (L3 : 1 < Py.len (Tracker.hist (DCF77.day_f st))) by lia.
  assert (L4 : 1 < Py.len (Tracker.hist (DCF77.dst_f st))) by lia.
  assert (D1 : Py.distinct (Tracker.hist (DCF77.year_f st)) <= 1) by lia.
  assert (D2 : Py.distinct (Tracker.hist (DCF77.month_f st)) <= 1) by lia.
  assert (D3 : Py.distinct (Tracker.hist (DCF77.day_f st)) <= 1) by lia.
  assert (D4 : Py.distinct (Tracker.hist (DCF77.dst_f st)) <= 1) by lia.
  destruct (confirm_ok (Z.add 2000) _ Y (agreed2_intro _ L1 D1)) as (v1 & _ & -> & Y').
  destruct (confirm_ok (fun v => v) _ M (agreed2_intro _ L2 D2)) as (v2 & _ & -> & M').
  destruct (confirm_ok (fun v => v) _ D (agreed2_intro _ L3 D3)) as (v3 & _ & -> & D').
  destruct (confirm_ok (fun v => v) _ S (agreed2_intro _ L4 D4)) as (v4 & _ & -> & S').
  cbn [bind]; eexists; split; [reflexivity|].
  unfold DCF77.same_frame, DCF77.fields_ok, DCF77.all_matched; dcf_proj.
  split; [auto|]. split; [auto 10|]. split; [discriminate|reflexivity].
Qed.

Lemma dcf_accept_not_value (st : DCF77.state) :
  ~ raises (DCF77.accept st) ValueError.
Proof.
  unfold DCF77.accept; destruct (DCF77.all_matched st);
    [apply minute_found_not_value | apply ok_not_raises].
Qed.

Lemma dcf_utc_not_value (st : DCF77.state) (hr mn : Z) :
  ~ raises (DCF77.utc_of st hr mn) ValueError.
Proof.
  unfold DCF77.utc_of.
  repeat (apply bind_not_raises; [apply name_not_value|intros ? _]).
  apply ok_not_raises.
Qed.

(** The passes of [decode] on a register of the right shape: the date
    fields and the time are always decoded without a fault; what is left is
    the acceptance test. *)
Lemma dcf_decode_cases (st : DCF77.state) (k : nat) :
  Str.filled_to 45 k (DCF77.tcA st) -> DCF77.fields_ok st ->
  0 <= DCF77.elapsed st ->
  exists st2 t,
    DCF77.same_frame (DCF77.with_tcA st (rev (DCF77.tcA st))) st2 /\
    DCF77.fields_ok st2 /\
    Tracker.field_step (DCF77.year_f st) (DCF77.year_f st2) /\
    Tracker.field_step (DCF77.month_f st) (DCF77.month_f st2) /\
    Tracker.field_step (DCF77.day_f st) (DCF77.day_f st2) /\
    Tracker.field_step (DCF77.dst_f st) (DCF77.dst_f st2) /\
    DCF77.time_field (rev (DCF77.tcA st)) = Ok t /\
    match t with
    | None =>
        DCF77.decode st = Ok (Tracker.Running (DCF77.with_tcA st2 (DCF77.tcA st)))
    | Some (hr, mn) =>
        exists st3,
          DCF77.shortcut (DCF77.minute_update st2 hr mn) = Ok st3 /\
          DCF77.fields_ok st3 /\ 0 <= DCF77.elapsed st3 /\
          DCF77.same_frame (DCF77.minute_update st2 hr mn) st3 /\
          DCF77.decode st =
            (go <- DCF77.accept st3 ;;
             if go then utc <- DCF77.utc_of st3 hr mn ;; Ok (Tracker.Locked st3 utc)
             else Ok (Tracker.Running (DCF77.with_tcA st3 (DCF77.tcA st))))
    end.
Proof.
  intros F (Y & M & D & S) E; unfold DCF77.decode.
  set (st0 := DCF77.with_tcA st (rev (DCF77.tcA st))).
  destruct (dcf_date_fields st0 (DCF77.tcA st) k eq_refl F)
    as (st1 & -> & (A1 & B1 & E1 & M1 & V1) & Sy & Sm & Sd & Ss).
  cbn [bind].
  assert (A1' : DCF77.tcA st1 = rev (DCF77.tcA st)) by (rewrite A1; reflexivity).
  destruct (dcf_dst_field st1 (DCF77.tcA st) k A1' F)
    as (st2 & -> & (A2 & B2 & E2 & M2 & V2) & Sy2 & Sm2 & Sd2 & Ss2).
  cbn [bind].
  assert (A2' : DCF77.tcA st2 = rev (DCF77.tcA st)) by congruence.
  destruct (dcf_time_field (DCF77.tcA st2) (DCF77.tcA st) k A2' F) as (t & Et).
  rewrite Et; cbn [bind].
  assert (Gy : Tracker.field_step (DCF77.year_f st) (DCF77.year_f st2))
    by (rewrite Sy2; exact Sy).
  assert (Gm : Tracker.field_step (DCF77.month_f st) (DCF77.month_f st2))
    by (rewrite Sm2; exact Sm).
  assert (Gd : Tracker.field_step (DCF77.day_f st) (DCF77.day_f st2))
    by (rewrite Sd2; exact Sd).
  assert (Gs : Tracker.field_step (DCF77.dst_f st) (DCF77.dst_f st2))
    by (rewrite Ss in Ss2; exact Ss2).
  assert (F2 : DCF77.fields_ok st2)
    by (split; [|split; [|split]];
        (eapply field_step_ok; [|eassumption]; assumption)).
  exists st2, t; subst st0; dcf_proj; split.
  { unfold DCF77.same_frame; dcf_proj; repeat split; congruence. }
  do 5 (split; [assumption|]).
  split; [congruence|].
  destruct t as [[hr mn]|].
  - destruct (dcf_minute_update_ok st2 hr mn F2) as (F3 & E3 & A3 & B3);
      [rewrite E2, E1; exact E|].
    destruct (dcf_shortcut_ok _ F3) as (st3 & -> & F4 & SF & _).
    cbn [bind]; exists st3.
    split; [reflexivity|]. split; [exact F4|].
    split; [destruct SF as (_ & _ & -> & _); exact E3|].
    split; [exact SF|].
    destruct SF as (-> & _); rewrite A3, A2', rev_involutive; reflexivity.
  - rewrite A2', rev_involutive; reflexivity.
Qed.

Lemma fresh_field_ok (h : list Z) (r v : option Z) :
  (length h <= 1)%nat -> Tracker.field_ok (Tracker.mkField h false r v).
Proof.
  intros L; constructor; cbn; try discriminate; try lia.
  intros _ x; unfold Py.count.
  pose proof (count_occ_bound Z.eq_dec x h); lia.
Qed.

Lemma dcf_init_ok (seed : option Tracker.rtc) : DCF77.state_ok (DCF77.init seed).
Proof.
  split; [|split].
  - exists 0%nat; destruct seed; split; apply filled_to_init.
  - destruct seed; repeat split; apply fresh_field_ok; simpl; lia.
  - destruct seed; simpl; lia.
Qed.

Lemma dcf_minute_update_elapsed (st : DCF77.state) (hr mn : Z) :
  (hr <? 24) && (mn <? 60) = true /\
    DCF77.elapsed (DCF77.minute_update st hr mn) = 0 /\
    DCF77.mods (DCF77.minute_update st hr mn) =
      Tracker.project (DCF77.mods st) (DCF77.elapsed st) (hr * 60 + mn) /\
    DCF77.mod_v (DCF77.minute_update st hr mn) = Some (hr * 60 + mn)
  \/ (hr <? 24) && (mn <? 60) = false /\ DCF77.minute_update st hr mn = st.
Proof.
  unfold DCF77.minute_update; destruct (_ && _); [left|right; auto].
  destruct (_ <? 5); cbn; auto.
Qed.

(** A pass that does not accept leaves a state of the same kind, with the
    seconds counter one higher or back at 0, and the loop goes on unless the
    counter now exceeds the limit. *)
Lemma dcf_step_goes_on (timeout : Z) (st : DCF77.state) (s : list bool)
    (o : Tracker.outcome DCF77.state) :
  DCF77.state_ok st -> DCF77.step timeout st s = Ok o ->
  Tracker.is_accepted o = false ->
  DCF77.state_ok (Tracker.state_of o) /\
  (DCF77.elapsed (Tracker.state_of o) = DCF77.elapsed st + 1 \/
   DCF77.elapsed (Tracker.state_of o) = 0) /\
  o = (if timeout * 60 <? DCF77.elapsed (Tracker.state_of o)
       then Tracker.TimedOut (Tracker.state_of o)
       else Tracker.Running (Tracker.state_of o)).
Proof.
  intros (Bu & Fi & El) H NA; unfold DCF77.step in H.
  apply bind_ok in H; destruct H as (st1 & E1 & H).
  apply bind_ok in H; destruct H as (o0 & Eo & H).
  destruct (dcf_shift_spec _ _ _ E1) as (B1 & L1 & Y1 & M1 & D1 & S1 & _).
  specialize (B1 Bu).
  assert (F1 : DCF77.fields_ok st1)
    by (unfold DCF77.fields_ok; rewrite Y1, M1, D1, S1; exact Fi).
  assert (Fin : forall x, DCF77.state_ok x ->
            (DCF77.elapsed x = DCF77.elapsed st + 1 \/ DCF77.elapsed x = 0) ->
            o0 = Tracker.Running x ->
            DCF77.state_ok (Tracker.state_of o) /\
            (DCF77.elapsed (Tracker.state_of o) = DCF77.elapsed st + 1 \/
             DCF77.elapsed (Tracker.state_of o) = 0) /\
            o = (if timeout * 60 <? DCF77.elapsed (Tracker.state_of o)
                 then Tracker.TimedOut (Tracker.state_of o)
                 else Tracker.Running (Tracker.state_of o))).
  { intros x Hx Ex ->.
    destruct (Z.ltb_spec (timeout * 60) (DCF77.elapsed x)) as [G|G];
      injection H as <-; cbn [Tracker.state_of];
      (split; [exact Hx|split; [exact Ex|]]).
    - replace (timeout * 60 <? DCF77.elapsed x) with true
        by (symmetry; apply Z.ltb_lt; exact G); reflexivity.
    - replace (timeout * 60 <? DCF77.elapsed x) with false
        by (symmetry; apply Z.ltb_ge; exact G); reflexivity. }
  destruct (Str.endswith (DCF77.tcB st1) DCF77.marker).
  2:{ injection Eo as <-; apply (Fin st1); auto.
      split; [exact B1|split; [exact F1|lia]]. }
  destruct B1 as (k & FA & FB).
  destruct (dcf_decode_cases st1 _ FA F1) as (st2 & t & SF & F2 & _ & _ & _ & _ & Et & Ht);
    [lia|].
  destruct SF as (A2 & B2 & E2 & _).
  destruct t as [[hr mn]|].
  - destruct Ht as (st3 & Es & F3 & E3 & SF3 & Ed).
    rewrite Ed in Eo; apply bind_ok in Eo; destruct Eo as ([|] & Ea & Eo).
    + apply bind_ok in Eo; destruct Eo as (utc & _ & Eo).
      injection Eo as <-; injection H as <-; discriminate.
    + injection Eo as <-; eapply Fin; [| |reflexivity].
      * split; [|split; [exact F3|exact E3]].
        exists k; dcf_proj; split; [exact FA|].
        destruct SF3 as (_ & -> & _).
        destruct (dcf_minute_update_ok st2 hr mn F2) as (_ & _ & _ & ->);
          [rewrite E2; dcf_proj; lia|].
        rewrite B2; exact FB.
      * dcf_proj; destruct SF3 as (_ & _ & -> & _).
        destruct (dcf_minute_update_elapsed st2 hr mn) as [(_ & -> & _)|(_ & ->)];
          [now right|left; rewrite E2; dcf_proj; lia].
  - rewrite Ht in Eo; injection Eo as <-; eapply Fin; [| |reflexivity].
    + split; [|split; [exact F2|dcf_proj; rewrite E2; dcf_proj; lia]].
      exists k; dcf_proj; split; [exact FA|rewrite B2; exact FB].
    + left; dcf_proj; rewrite E2; dcf_proj; lia.
Qed.

Lemma dcf_step_running (timeout : Z) (st st' : DCF77.state) (s : list bool) :
  DCF77.state_ok st -> DCF77.step timeout st s = Ok (Tracker.Running st') ->
  DCF77.state_ok st' /\ DCF77.elapsed st' <= timeout * 60 /\
  (DCF77.elapsed st' = DCF77.elapsed st + 1 \/ DCF77.elapsed st' = 0).
Proof.
  intros Hs H.
  destruct (dcf_step_goes_on timeout st s _ Hs H eq_refl) as (Ok' & El & E).
  cbn [Tracker.state_of] in *; split; [exact Ok'|split; [|exact El]].
  destruct (Z.ltb_spec (timeout * 60) (DCF77.elapsed st')); [discriminate|lia].
Qed.

Lemma dcf_step_timed_out (timeout : Z) (st st' : DCF77.state) (s : list bool) :
  DCF77.state_ok st -> DCF77.step timeout st s = Ok (Tracker.TimedOut st') ->
  timeout * 60 < DCF77.elapsed st' /\
  (DCF77.elapsed st' = DCF77.elapsed st + 1 \/ DCF77.elapsed st' = 0).
Proof.
  intros Hs H.
  destruct (dcf_step_goes_on timeout st s _ Hs H eq_refl) as (Ok' & El & E).
  cbn [Tracker.state_of] in *; split; [|exact El].
  destruct (Z.ltb_spec (timeout * 60) (DCF77.elapsed st')); [lia|discriminate].
Qed.

Lemma dcf_reachable_ok (timeout : Z) (st : DCF77.state) :
  DCF77.reachable timeout st -> DCF77.state_ok st.
Proof.
  induction 1 as [seed|st s st' _ IH H]; [apply dcf_init_ok|].
  now apply (dcf_step_running timeout st st' s).
Qed.

Lemma dcf_step_not_value (timeout : Z) (st : DCF77.state) (s : list bool) :
  DCF77.state_ok st -> ~ raises (DCF77.step timeout st s) ValueError.
Proof.
  intros (Bu & Fi & El); unfold DCF77.step.
  apply bind_not_raises; [apply dcf_shift_not_value|intros st1 E1].
  destruct (dcf_shift_spec _ _ _ E1) as (B1 & L1 & Y1 & M1 & D1 & S1 & _).
  specialize (B1 Bu).
  assert (F1 : DCF77.fields_ok st1)
    by (unfold DCF77.fields_ok; rewrite Y1, M1, D1, S1; exact Fi).
  apply bind_not_raises.
  2:{ intros [x|x u|x|x] _; try apply ok_not_raises.
      destruct (_ <? _); apply ok_not_raises. }
  destruct (Str.endswith _ _); [|apply ok_not_raises].
  destruct B1 as (k & FA & FB).
  destruct (dcf_decode_cases st1 _ FA F1) as (st2 & t & _ & _ & _ & _ & _ & _ & _ & Ht);
    [lia|].
  destruct t as [[hr mn]|]; [|rewrite Ht; apply ok_not_raises].
  destruct Ht as (st3 & _ & _ & _ & _ & ->).
  apply bind_not_raises; [apply dcf_accept_not_value|intros [|] _].
  - apply bind_not_raises; [apply dcf_utc_not_value|intros; apply ok_not_raises].
  - apply ok_not_raises.
Qed.

(** *** MSF *)

Ltac msf_proj :=
  cbn [MSF.tcA MSF.tcB MSF.elapsed MSF.year_f MSF.month_f MSF.day_f MSF.mods
       MSF.mod_v MSF.with_fields Tracker.hist Tracker.matched Tracker.raw
       Tracker.val Tracker.reset andb] in *.

Lemma parity_bit_ok (b : list ascii) (i : Z) :
  Str.bits_in b 0 8 -> Py.len b = 8 -> -8 <= i < 0 ->
  exists p, MSF.parity_bit b i = Ok p.
Proof.
  intros B L Hi; unfold MSF.parity_bit.
  destruct (getitem_bits b 0 8 i B) as (c & -> & Hc).
  - rewrite L; unfold Str.position.
    replace (i <? 0) with true by (symmetry; apply Z.ltb_lt; lia); lia.
  - rewrite L; unfold Str.position.
    replace (i <? 0) with true by (symmetry; apply Z.ltb_lt; lia); lia.
  - cbn [bind]; now apply int10_bit.
Qed.

(** With the register A filled up to position [p], register B - pushed in
    step with it - is full as soon as [45 - p >= 8]. *)
Lemma msf_tcB_full (k p : nat) (a b : list ascii) :
  Str.filled_to 8 (Nat.min k 8) b -> (45 - Nat.min k 45 <= p)%nat ->
  (p <= 37)%nat -> Str.bits_in b 0 8 /\ Py.len b = 8.
Proof.
  intros FB Hp H37; split.
  - pose proof (filled_to_full _ _ _ FB) as B.
    replace (8 - Nat.min k 8)%nat with 0%nat in B by lia; exact B.
  - unfold Py.len; now rewrite (filled_to_length _ _ _ FB).
Qed.

Lemma msf_year_field (st : MSF.state) (k : nat) :
  Str.filled_to 45 (Nat.min k 45) (MSF.tcA st) ->
  Str.filled_to 8 (Nat.min k 8) (MSF.tcB st) ->
  exists st', MSF.year_field st = Ok st' /\ MSF.same_frame st st' /\
    Tracker.field_step (MSF.year_f st) (MSF.year_f st') /\
    MSF.month_f st' = MSF.month_f st /\ MSF.day_f st' = MSF.day_f st.
Proof.
  intros FA FB; unfold MSF.year_field.
  assert (L : Py.len (MSF.tcA st) = 45)
    by (unfold Py.len; now rewrite (filled_to_length _ _ _ FA)).
  assert (Same : exists st', Ok st = Ok st' /\ MSF.same_frame st st' /\
    Tracker.field_step (MSF.year_f st) (MSF.year_f st') /\
    MSF.month_f st' = MSF.month_f st /\ MSF.day_f st' = MSF.day_f st)
    by (exists st; unfold MSF.same_frame; auto 10 using field_step_refl).
  destruct (Tracker.matched (MSF.year_f st)) eqn:M; [exact Same|].
  destruct (getitem_ok (MSF.tcA st) (-43)) as (c & Ec); [bounds L|].
  rewrite Ec; cbn [bind].
  destruct (negb (Ascii.eqb c Str.blank)) eqn:C; [|exact Same].
  apply not_blank in C; apply getitem_nth in Ec; rewrite L in Ec.
  destruct (filled_to_sentinel _ _ _ _ _ FA Ec C) as (Hp & B).
  change (Z.to_nat (Str.position 45 (-43))) with 2%nat in Hp, B.
  destruct (msf_tcB_full k 2 (MSF.tcA st) _ FB Hp) as (BB & LB); [lia|].
  destruct (parity_bit_ok _ (-6) BB LB) as (p & ->); [lia|]; cbn [bind].
  destruct (_ =? 1); [|exact Same].
  destruct (bcd_slice _ 2 45 (-43) (-39) (-35) B) as (v & Ev); [bounds L..|].
  unfold MSF.year_value; rewrite Ev; cbn [bind].
  eexists; split; [reflexivity|]; unfold MSF.same_frame; msf_proj.
  repeat split; auto.
  right; split; [assumption|]; do 3 eexists; reflexivity.
Qed.

Lemma msf_date_fields (st : MSF.state) (k : nat) :
  Str.filled_to 45 (Nat.min k 45) (MSF.tcA st) ->
  Str.filled_to 8 (Nat.min k 8) (MSF.tcB st) ->
  exists st', MSF.date_fields st = Ok st' /\ MSF.same_frame st st' /\
    MSF.year_f st' = MSF.year_f st /\
    Tracker.field_step (MSF.month_f st) (MSF.month_f st') /\
    Tracker.field_step (MSF.day_f st) (MSF.day_f st').
Proof.
  intros FA FB; unfold MSF.date_fields.
  assert (L : Py.len (MSF.tcA st) = 45)
    by (unfold Py.len; now rewrite (filled_to_length _ _ _ FA)).
  assert (Same : exists st', Ok st = Ok st' /\ MSF.same_frame st st' /\
    MSF.year_f st' = MSF.year_f st /\
    Tracker.field_step (MSF.month_f st) (MSF.month_f st') /\
    Tracker.field_step (MSF.day_f st) (MSF.day_f st'))
    by (exists st; unfold MSF.same_frame; auto 10 using field_step_refl).
  destruct (getitem_ok (MSF.tcA st) (-35)) as (c & Ec); [bounds L|].
  rewrite Ec; cbn [bind].
  destruct (negb (Ascii.eqb c Str.blank)) eqn:C; [|exact Same].
  apply not_blank in C; apply getitem_nth in Ec; rewrite L in Ec.
  destruct (filled_to_sentinel _ _ _ _ _ FA Ec C) as (Hp & B).
  change (Z.to_nat (Str.position 45 (-35))) with 10%nat in Hp, B.
  destruct (msf_tcB_full k 10 (MSF.tcA st) _ FB Hp) as (BB & LB); [lia|].
  destruct (parity_bit_ok _ (-5) BB LB) as (p & ->); [lia|]; cbn [bind].
  destruct (_ =? 1); [|exact Same].
  assert (Hm : exists v, MSF.month_value (MSF.tcA st) = Ok v).
  { unfold MSF.month_value.
    destruct (getitem_bits _ 10 45 (-35) B) as (c1 & -> & Hc1); [bounds L..|].
    cbn [bind].
    destruct (int2_bits [c1]) as (t & ->); [auto|discriminate|].
    destruct (int2_slice _ 10 45 (-34) (-30) B) as (u & ->); [bounds L..|].
    cbn [bind]; eauto. }
  assert (Hd : exists v, MSF.day_value (MSF.tcA st) = Ok v).
  { apply (bcd_slice _ 10 45); [exact B|bounds L..]. }
  observe_field Hm. observe_field Hd.
  eexists; split; [reflexivity|]; unfold MSF.same_frame; msf_proj; auto 10.
Qed.

Lemma msf_time_field (a b : list ascii) (k : nat) :
  Str.filled_to 45 (Nat.min k 45) a -> Str.filled_to 8 (Nat.min k 8) b ->
  exists t, MSF.time_field a b = Ok t.
Proof.
  intros FA FB; unfold MSF.time_field.
  assert (L : Py.len a = 45)
    by (unfold Py.len; now rewrite (filled_to_length _ _ _ FA)).
  destruct (getitem_ok a (-21)) as (c & Ec); [bounds L|].
  rewrite Ec; cbn [bind].
  destruct (negb (Ascii.eqb c Str.blank)) eqn:C; [|eauto].
  apply not_blank in C; apply getitem_nth in Ec; rewrite L in Ec.
  destruct (filled_to_sentinel _ _ _ _ _ FA Ec C) as (Hp & B).
  change (Z.to_nat (Str.position 45 (-21))) with 24%nat in Hp, B.
  destruct (msf_tcB_full k 24 a _ FB Hp) as (BB & LB); [lia|].
  destruct (parity_bit_ok _ (-3) BB LB) as (p & ->); [lia|]; cbn [bind].
  destruct (_ =? 1); [|eauto].
  destruct (bcd_slice a 24 45 (-21) (-19) (-15) B) as (hr & ->); [bounds L..|].
  destruct (bcd_slice a 24 45 (-15) (-12) (-8) B) as (mn & ->); [bounds L..|].
  cbn [bind]; eauto.
Qed.

Lemma msf_shift_spec (st st1 : MSF.state) (s : list bool) :
  MSF.shift st s = Ok st1 ->
  (MSF.buffers_ok st -> MSF.buffers_ok st1) /\
  MSF.elapsed st1 = MSF.elapsed st + 1 /\
  MSF.year_f st1 = MSF.year_f st /\ MSF.month_f st1 = MSF.month_f st /\
  MSF.day_f st1 = MSF.day_f st /\
  MSF.mods st1 = MSF.mods st /\ MSF.mod_v st1 = MSF.mod_v st.
Proof.
  unfold MSF.shift; intros H.
  apply bind_ok in H; destruct H as (a & Ea & H).
  apply bind_ok in H; destruct H as (b & Eb & H).
  injection H as <-; msf_proj.
  repeat split; auto.
  intros (k & FA & FB); exists (S k); msf_proj; split.
  - replace (Nat.min (S k) 45) with (Nat.min (S (Nat.min k 45)) 45) by lia.
    apply filled_to_push; [lia|assumption|eapply classify_bit; eauto].
  - replace (Nat.min (S k) 8) with (Nat.min (S (Nat.min k 8)) 8) by lia.
    apply filled_to_push; [lia|assumption|eapply classify_bit; eauto].
Qed.

Lemma msf_shift_not_value (st : MSF.state) (s : list bool) :
  ~ raises (MSF.shift st s) ValueError.
Proof.
  unfold raises, MSF.shift, Tracker.classify, Stats.mean.
  repeat (destruct (_ =? 0); cbn [bind]; try discriminate).
Qed.

Lemma msf_minute_update_ok (st : MSF.state) (hr mn : Z) :
  MSF.fields_ok st -> 0 <= MSF.elapsed st ->
  MSF.fields_ok (MSF.minute_update st hr mn) /\
  0 <= MSF.elapsed (MSF.minute_update st hr mn) /\
  MSF.tcA (MSF.minute_update st hr mn) = MSF.tcA st /\
  MSF.tcB (MSF.minute_update st hr mn) = MSF.tcB st.
Proof.
  intros (Y & M & D) E; unfold MSF.minute_update, MSF.fields_ok.
  destruct (_ && _); [|auto 10].
  destruct (_ <? 5); cbn; auto 10 using reset_ok with zarith.
Qed.

Lemma msf_minute_update_elapsed (st : MSF.state) (hr mn : Z) :
  (hr <? 24) && (mn <? 60) = true /\
    MSF.elapsed (MSF.minute_update st hr mn) = 0 /\
    MSF.mods (MSF.minute_update st hr mn) =
      Tracker.project (MSF.mods st) (MSF.elapsed st) (hr * 60 + mn) /\
    MSF.mod_v (MSF.minute_update st hr mn) = Some (hr * 60 + mn)
  \/ (hr <? 24) && (mn <? 60) = false /\ MSF.minute_update st hr mn = st.
Proof.
  unfold MSF.minute_update; destruct (_ && _); [left|right; auto].
  destruct (_ <? 5); cbn; auto.
Qed.

Lemma msf_shortcut_ok (st : MSF.state) :
  MSF.fields_ok st ->
  exists st', MSF.shortcut st = Ok st' /\ MSF.fields_ok st' /\
    MSF.same_frame st st' /\
    (MSF.confident st = false -> st' = st) /\
    (MSF.confident st = true -> MSF.all_matched st' = true).
Proof.
  intros (Y & M & D); unfold MSF.shortcut.
  destruct (MSF.confident st) eqn:C.
  2:{ exists st; unfold MSF.same_frame, MSF.fields_ok; intuition congruence. }
  unfold MSF.confident in C; apply andb_prop in C; destruct C as [C1 C2].
  pose proof (distinct_nonneg (Tracker.hist (MSF.year_f st))).
  pose proof (distinct_nonneg (Tracker.hist (MSF.month_f st))).
  pose proof (distinct_nonneg (Tracker.hist (MSF.day_f st))).
  apply Z.ltb_lt in C1; apply Z.eqb_eq in C2.
  assert (L1 : 1 < Py.len (Tracker.hist (MSF.year_f st))) by lia.
  assert (L2 : 1 < Py.len (Tracker.hist (MSF.month_f st))) by lia.
  assert (L3 : 1 < Py.len (Tracker.hist (MSF.day_f st))) by lia.
  assert (D1 : Py.distinct (Tracker.hist (MSF.year_f st)) <= 1) by lia.
  assert (D2 : Py.distinct (Tracker.hist (MSF.month_f st)) <= 1) by lia.
  assert (D3 : Py.distinct (Tracker.hist (MSF.day_f st)) <= 1) by lia.
  destruct (confirm_ok (Z.add 2000) _ Y (agreed2_intro _ L1 D1)) as (v1 & _ & -> & Y').
  destruct (confirm_ok (fun v => v) _ M (agreed2_intro _ L2 D2)) as (v2 & _ & -> & M').
  destruct (confirm_ok (fun v => v) _ D (agreed2_intro _ L3 D3)) as (v3 & _ & -> & D').
  cbn [bind]; eexists; split; [reflexivity|].
  unfold MSF.same_frame, MSF.fields_ok, MSF.all_matched; msf_proj.
  split; [auto|]. split; [auto 10|]. split; [discriminate|reflexivity].
Qed.

Lemma msf_accept_not_value (st : MSF.state) :
  ~ raises (MSF.accept st) ValueError.
Proof.
  unfold MSF.accept; destruct (MSF.all_matched st);
    [apply minute_found_not_value | apply ok_not_raises].
Qed.

Lemma msf_utc_not_value (st : MSF.state) (hr mn : Z) :
  ~ raises (MSF.utc_of st hr mn) ValueError.
Proof.
  unfold MSF.utc_of.
  repeat (apply bind_not_raises; [apply name_not_value|intros ? _]).
  destruct (_ && _); apply ok_not_raises.
Qed.

Lemma msf_decode_cases (st : MSF.state) (k : nat) :
  Str.filled_to 45 (Nat.min k 45) (MSF.tcA st) ->
  Str.filled_to 8 (Nat.min k 8) (MSF.tcB st) ->
  MSF.fields_ok st -> 0 <= MSF.elapsed st ->
  exists st2 t,
    MSF.same_frame st st2 /\ MSF.fields_ok st2 /\
    Tracker.field_step (MSF.year_f st) (MSF.year_f st2) /\
    Tracker.field_step (MSF.month_f st) (MSF.month_f st2) /\
    Tracker.field_step (MSF.day_f st) (MSF.day_f st2) /\
    MSF.time_field (MSF.tcA st) (MSF.tcB st) = Ok t /\
    match t with
    | None => MSF.decode st = Ok (Tracker.Running st2)
    | Some (hr, mn) =>
        exists st3,
          MSF.shortcut (MSF.minute_update st2 hr mn) = Ok st3 /\
          MSF.fields_ok st3 /\ 0 <= MSF.elapsed st3 /\
          MSF.same_frame (MSF.minute_update st2 hr mn) st3 /\
          MSF.decode st =
            (go <- MSF.accept st3 ;;
             if go then
               u <- MSF.utc_of st3 hr mn ;;
               match u with
               | None => Ok (Tracker.Stopped st3)
               | Some utc => Ok (Tracker.Locked st3 utc)
               end
             else Ok (Tracker.Running st3))
    end.
Proof.
  intros FA FB (Y & M & D) E; unfold MSF.decode.
  destruct (msf_year_field st k FA FB)
    as (st1 & -> & (A1 & B1 & E1 & M1 & V1) & Sy & Sm & Sd).
  cbn [bind].
  rewrite <- A1 in FA; rewrite <- B1 in FB.
  destruct (msf_date_fields st1 k FA FB)
    as (st2 & -> & (A2 & B2 & E2 & M2 & V2) & Sy2 & Sm2 & Sd2).
  cbn [bind].
  rewrite <- A2 in FA; rewrite <- B2 in FB.
  destruct (msf_time_field _ _ k FA FB) as (t & Et).
  rewrite Et; cbn [bind].
  assert (Gy : Tracker.field_step (MSF.year_f st) (MSF.year_f st2))
    by (rewrite Sy2; exact Sy).
  assert (Gm : Tracker.field_step (MSF.month_f st) (MSF.month_f st2))
    by (rewrite <- Sm; exact Sm2).
  assert (Gd : Tracker.field_step (MSF.day_f st) (MSF.day_f st2))
    by (rewrite <- Sd; exact Sd2).
  assert (F2 : MSF.fields_ok st2)
    by (split; [|split]; (eapply field_step_ok; [|eassumption]; assumption)).
  exists st2, t; split.
  { unfold MSF.same_frame; repeat split; congruence. }
  do 4 (split; [assumption|]).
  split; [congruence|].
  destruct t as [[hr mn]|]; [|reflexivity].
  destruct (msf_minute_update_ok st2 hr mn F2) as (F3 & E3 & A3 & B3);
    [rewrite E2, E1; exact E|].
  destruct (msf_shortcut_ok _ F3) as (st3 & -> & F4 & SF & _).
  cbn [bind]; exists st3.
  split; [reflexivity|]. split; [exact F4|].
  split; [destruct SF as (_ & _ & -> & _); exact E3|].
  split; [exact SF|reflexivity].
Qed.

Lemma msf_init_ok (seed : option Tracker.rtc) : MSF.state_ok (MSF.init seed).
Proof.
  split; [|split].
  - exists 0%nat; destruct seed; split; apply filled_to_init.
  - destruct seed; repeat split; apply fresh_field_ok; simpl; lia.
  - destruct seed; simpl; lia.
Qed.

Lemma msf_step_goes_on (timeout : Z) (st : MSF.state) (s : list bool)
    (o : Tracker.outcome MSF.state) :
  MSF.state_ok st -> MSF.step timeout st s = Ok o ->
  Tracker.is_accepted o = false ->
  MSF.state_ok (Tracker.state_of o) /\
  (MSF.elapsed (Tracker.state_of o) = MSF.elapsed st + 1 \/
   MSF.elapsed (Tracker.state_of o) = 0) /\
  o = (if timeout * 60 <? MSF.elapsed (Tracker.state_of o)
       then Tracker.TimedOut (Tracker.state_of o)
       else Tracker.Running (Tracker.state_of o)).
Proof.
  intros (Bu & Fi & El) H NA; unfold MSF.step in H.
  apply bind_ok in H; destruct H as (st1 & E1 & H).
  apply bind_ok in H; destruct H as (o0 & Eo & H).
  destruct (msf_shift_spec _ _ _ E1) as (B1 & L1 & Y1 & M1 & D1 & _).
  specialize (B1 Bu).
  assert (F1 : MSF.fields_ok st1)
    by (unfold MSF.fields_ok; rewrite Y1, M1, D1; exact Fi).
  assert (Fin : forall x, MSF.state_ok x ->
            (MSF.elapsed x = MSF.elapsed st + 1 \/ MSF.elapsed x = 0) ->
            o0 = Tracker.Running x ->
            MSF.state_ok (Tracker.state_of o) /\
            (MSF.elapsed (Tracker.state_of o) = MSF.elapsed st + 1 \/
             MSF.elapsed (Tracker.state_of o) = 0) /\
            o = (if timeout * 60 <? MSF.elapsed (Tracker.state_of o)
                 then Tracker.TimedOut (Tracker.state_of o)
                 else Tracker.Running (Tracker.state_of o))).
  { intros x Hx Ex ->.
    destruct (Z.ltb_spec (timeout * 60) (MSF.elapsed x)) as [G|G];
      injection H as <-; cbn [Tracker.state_of];
      (split; [exact Hx|split; [exact Ex|]]).
    - replace (timeout * 60 <? MSF.elapsed x) with true
        by (symmetry; apply Z.ltb_lt; exact G); reflexivity.
    - replace (timeout * 60 <? MSF.elapsed x) with false
        by (symmetry; apply Z.ltb_ge; exact G); reflexivity. }
  destruct (Str.endswith (MSF.tcA st1) MSF.marker).
  2:{ injection Eo as <-; apply (Fin st1); auto.
      split; [exact B1|split; [exact F1|lia]]. }
  destruct B1 as (k & FA & FB).
  destruct (msf_decode_cases st1 _ FA FB F1) as (st2 & t & SF & F2 & _ & _ & _ & Et & Ht);
    [lia|].
  destruct SF as (A2 & B2 & E2 & _).
  destruct t as [[hr mn]|].
  - destruct Ht as (st3 & Es & F3 & E3 & SF3 & Ed).
    rewrite Ed in Eo; apply bind_ok in Eo; destruct Eo as ([|] & Ea & Eo).
    + apply bind_ok in Eo; destruct Eo as ([utc|] & _ & Eo);
        injection Eo as <-; injection H as <-; discriminate.
    + injection Eo as <-; eapply Fin; [| |reflexivity].
      * split; [|split; [exact F3|exact E3]].
        destruct SF3 as (A3 & B3 & _).
        destruct (msf_minute_update_ok st2 hr mn F2) as (_ & _ & A4 & B4);
          [rewrite E2; lia|].
        exists k; rewrite A3, B3, A4, B4, A2, B2; split; assumption.
      * destruct SF3 as (_ & _ & -> & _).
        destruct (msf_minute_update_elapsed st2 hr mn) as [(_ & -> & _)|(_ & ->)];
          [now right|left; rewrite E2; lia].
  - rewrite Ht in Eo; injection Eo as <-; eapply Fin; [| |reflexivity].
    + split; [|split; [exact F2|rewrite E2; lia]].
      exists k; rewrite A2, B2; split; assumption.
    + left; rewrite E2; lia.
Qed.

Lemma msf_step_running (timeout : Z) (st st' : MSF.state) (s : list bool) :
  MSF.state_ok st -> MSF.step timeout st s = Ok (Tracker.Running st') ->
  MSF.state_ok st' /\ MSF.elapsed st' <= timeout * 60 /\
  (MSF.elapsed st' = MSF.elapsed st + 1 \/ MSF.elapsed st' = 0).
Proof.
  intros Hs H.
  destruct (msf_step_goes_on timeout st s _ Hs H eq_refl) as (Ok' & El & E).
  cbn [Tracker.state_of] in *; split; [exact Ok'|split; [|exact El]].
  destruct (Z.ltb_spec (timeout * 60) (MSF.elapsed st')); [discriminate|lia].
Qed.

Lemma msf_step_timed_out (timeout : Z) (st st' : MSF.state) (s : list bool) :
  MSF.state_ok st -> MSF.step timeout st s = Ok (Tracker.TimedOut st') ->
  timeout * 60 < MSF.elapsed st' /\
  (MSF.elapsed st' = MSF.elapsed st + 1 \/ MSF.elapsed st' = 0).
Proof.
  intros Hs H.
  destruct (msf_step_goes_on timeout st s _ Hs H eq_refl) as (Ok' & El & E).
  cbn [Tracker.state_of] in *; split; [|exact El].
  destruct (Z.ltb_spec (timeout * 60) (MSF.elapsed st')); [lia|discriminate].
Qed.

Lemma msf_reachable_ok (timeout : Z) (st : MSF.state) :
  MSF.reachable timeout st -> MSF.state_ok st.
Proof.
  induction 1 as [seed|st s st' _ IH H]; [apply msf_init_ok|].
  now apply (msf_step_running timeout st st' s).
Qed.

Lemma msf_step_not_value (timeout : Z) (st : MSF.state) (s : list bool) :
  MSF.state_ok st -> ~ raises (MSF.step timeout st s) ValueError.
Proof.
  intros (Bu & Fi & El); unfold MSF.step.
  apply bind_not_raises; [apply msf_shift_not_value|intros st1 E1].
  destruct (msf_shift_spec _ _ _ E1) as (B1 & L1 & Y1 & M1 & D1 & _).
  specialize (B1 Bu).
  assert (F1 : MSF.fields_ok st1)
    by (unfold MSF.fields_ok; rewrite Y1, M1, D1; exact Fi).
  apply bind_not_raises.
  2:{ intros [x|x u|x|x] _; try apply ok_not_raises.
      destruct (_ <? _); apply ok_not_raises. }
  destruct (Str.endswith _ _); [|apply ok_not_raises].
  destruct B1 as (k & FA & FB).
  destruct (msf_decode_cases st1 _ FA FB F1) as (st2 & t & _ & _ & _ & _ & _ & _ & Ht);
    [lia|].
  destruct t as [[hr mn]|]; [|rewrite Ht; apply ok_not_raises].
  destruct Ht as (st3 & _ & _ & _ & _ & ->).
  apply bind_not_raises; [apply msf_accept_not_value|intros [|] _].
  - apply bind_not_raises; [apply msf_utc_not_value|].
    intros [u|] _; apply ok_not_raises.
  - apply ok_not_raises.
Qed.

(** *** JJY *)

Ltac jjy_proj :=
  cbn [JJY.tcA JJY.tcB JJY.elapsed JJY.year_f JJY.doy_f JJY.mods JJY.mod_v
       JJY.with_fields Tracker.hist Tracker.matched Tracker.raw Tracker.val
       Tracker.reset andb] in *.

Lemma jjy_year_field (st : JJY.state) (k : nat) :
  Str.filled_to 60 k (JJY.tcA st) ->
  exists st', JJY.year_field st = Ok st' /\ JJY.same_frame st st' /\
    Tracker.field_step (JJY.year_f st) (JJY.year_f st') /\
    JJY.doy_f st' = JJY.doy_f st.
Proof.
  intros FA; unfold JJY.year_field.
  assert (L : Py.len (JJY.tcA st) = 60)
    by (unfold Py.len; now rewrite (filled_to_length _ _ _ FA)).
  assert (Same : exists st', Ok st = Ok st' /\ JJY.same_frame st st' /\
    Tracker.field_step (JJY.year_f st) (JJY.year_f st') /\
    JJY.doy_f st' = JJY.doy_f st)
    by (exists st; unfold JJY.same_frame; auto 10 using field_step_refl).
  destruct (Tracker.matched (JJY.year_f st)) eqn:M; [exact Same|].
  destruct (getitem_ok (JJY.tcA st) (-20)) as (c & Ec); [bounds L|].
  rewrite Ec; cbn [bind].
  destruct (negb (Ascii.eqb c Str.blank)) eqn:C; [|exact Same].
  apply not_blank in C; apply getitem_nth in Ec; rewrite L in Ec.
  destruct (filled_to_sentinel _ _ _ _ _ FA Ec C) as (Hp & B).
  change (Z.to_nat (Str.position 60 (-20))) with 40%nat in Hp, B.
  destruct (bcd_slice _ 40 60 (-20) (-16) (-12) B) as (v & Ev); [bounds L..|].
  unfold JJY.year_value; rewrite Ev; cbn [bind].
  eexists; split; [reflexivity|]; unfold JJY.same_frame; jjy_proj.
  repeat split; auto.
  right; split; [assumption|]; do 3 eexists; reflexivity.
Qed.

Lemma jjy_doy_field (st : JJY.state) (k : nat) :
  Str.filled_to 60 k (JJY.tcA st) ->
  exists st', JJY.doy_field st = Ok st' /\ JJY.same_frame st st' /\
    JJY.year_f st' = JJY.year_f st /\
    Tracker.field_step (JJY.doy_f st) (JJY.doy_f st').
Proof.
  intros FA; unfold JJY.doy_field.
  assert (L : Py.len (JJY.tcA st) = 60)
    by (unfold Py.len; now rewrite (filled_to_length _ _ _ FA)).
  assert (Same : exists st', Ok st = Ok st' /\ JJY.same_frame st st' /\
    JJY.year_f st' = JJY.year_f st /\
    Tracker.field_step (JJY.doy_f st) (JJY.doy_f st'))
    by (exists st; unfold JJY.same_frame; auto 10 using field_step_refl).
  destruct (Tracker.matched (JJY.doy_f st)) eqn:M; [exact Same|].
  destruct (getitem_ok (JJY.tcA st) (-39)) as (c & Ec); [bounds L|].
  rewrite Ec; cbn [bind].
  destruct (negb (Ascii.eqb c Str.blank)) eqn:C; [|exact Same].
  apply not_blank in C; apply getitem_nth in Ec; rewrite L in Ec.
  destruct (filled_to_sentinel _ _ _ _ _ FA Ec C) as (Hp & B).
  change (Z.to_nat (Str.position 60 (-39))) with 21%nat in Hp, B.
  unfold JJY.doy_value.
  destruct (int2_slice _ 21 60 (-39) (-37) B) as (h & ->); [bounds L..|].
  destruct (int2_slice _ 21 60 (-36) (-32) B) as (t & ->); [bounds L..|].
  destruct (int2_slice _ 21 60 (-31) (-27) B) as (u & ->); [bounds L..|].
  cbn [bind].
  eexists; split; [reflexivity|]; unfold JJY.same_frame; jjy_proj.
  repeat split; auto.
  right; split; [assumption|]; do 3 eexists; reflexivity.
Qed.

Lemma jjy_time_field (a : list ascii) (k : nat) :
  Str.filled_to 60 k a -> exists t, JJY.time_field a = Ok t.
Proof.
  intros FA; unfold JJY.time_field.
  assert (L : Py.len a = 60)
    by (unfold Py.len; now rewrite (filled_to_length _ _ _ FA)).
  destruct (getitem_ok a (-60)) as (c & Ec); [bounds L|].
  rewrite Ec; cbn [bind].
  destruct (negb (Ascii.eqb c Str.blank)) eqn:C; [|eauto].
  apply not_blank in C; apply getitem_nth in Ec; rewrite L in Ec.
  destruct (filled_to_sentinel _ _ _ _ _ FA Ec C) as (Hp & B).
  change (Z.to_nat (Str.position 60 (-60))) with 0%nat in Hp, B.
  destruct (getitem_ok a (-25)) as (pa1 & ->); [bounds L|]; cbn [bind].
  destruct (_ =? 0); [|eauto].
  destruct (getitem_ok a (-24)) as (pa2 & ->); [bounds L|]; cbn [bind].
  destruct (_ =? 0); [|eauto].
  destruct (int2_slice _ 0 60 (-49) (-47) B) as (h1 & ->); [bounds L..|].
  destruct (int2_slice _ 0 60 (-46) (-42) B) as (h2 & ->); [bounds L..|].
  destruct (int2_slice _ 0 60 (-60) (-57) B) as (m1 & ->); [bounds L..|].
  destruct (int2_slice _ 0 60 (-56) (-52) B) as (m2 & ->); [bounds L..|].
  cbn [bind]; eauto.
Qed.

Lemma jjy_shift_spec (st st1 : JJY.state) (s : list bool) :
  JJY.shift st s = Ok st1 ->
  (JJY.buffers_ok st -> JJY.buffers_ok st1) /\
  JJY.elapsed st1 = JJY.elapsed st + 1 /\
  JJY.year_f st1 = JJY.year_f st /\ JJY.doy_f st1 = JJY.doy_f st /\
  JJY.mods st1 = JJY.mods st /\ JJY.mod_v st1 = JJY.mod_v st.
Proof.
  unfold JJY.shift; intros H.
  apply bind_ok in H; destruct H as (a & Ea & H).
  apply bind_ok in H; destruct H as (b & Eb & H).
  injection H as <-; jjy_proj.
  repeat split; auto.
  intros (k & FA & FB); exists (S k); jjy_proj; split.
  - replace (Nat.min (S k) 60) with (Nat.min (S (Nat.min k 60)) 60) by lia.
    apply filled_to_push; [lia|assumption|eapply classify_bit; eauto].
  - replace (Nat.min (S k) 8) with (Nat.min (S (Nat.min k 8)) 8) by lia.
    apply filled_to_push; [lia|assumption|eapply classify_bit; eauto].
Qed.

Lemma jjy_shift_not_value (st : JJY.state) (s : list bool) :
  ~ raises (JJY.shift st s) ValueError.
Proof.
  unfold raises, JJY.shift, Tracker.classify, Stats.mean.
  repeat (destruct (_ =? 0); cbn [bind]; try discriminate).
Qed.

Lemma jjy_minute_update_ok (st : JJY.state) (hr mn : Z) :
  JJY.fields_ok st -> 0 <= JJY.elapsed st ->
  JJY.fields_ok (JJY.minute_update st hr mn) /\
  0 <= JJY.elapsed (JJY.minute_update st hr mn) /\
  JJY.tcA (JJY.minute_update st hr mn) = JJY.tcA st /\
  JJY.tcB (JJY.minute_update st hr mn) = JJY.tcB st.
Proof.
  intros (Y & D) E; unfold JJY.minute_update, JJY.fields_ok.
  destruct (_ && _); [|auto 10].
  destruct (_ <? 5); cbn; auto 10 using reset_ok with zarith.
Qed.

Lemma jjy_minute_update_elapsed (st : JJY.state) (hr mn : Z) :
  (hr <? 24) && (mn <? 60) = true /\
    JJY.elapsed (JJY.minute_update st hr mn) = 0 /\
    JJY.mods (JJY.minute_update st hr mn) =
      Tracker.project (JJY.mods st) (JJY.elapsed st) (hr * 60 + mn) /\
    JJY.mod_v (JJY.minute_update st hr mn) = Some (hr * 60 + mn)
  \/ (hr <? 24) && (mn <? 60) = false /\ JJY.minute_update st hr mn = st.
Proof.
  unfold JJY.minute_update; destruct (_ && _); [left|right; auto].
  destruct (_ <? 5); cbn; auto.
Qed.

Lemma jjy_shortcut_ok (st : JJY.state) :
  JJY.fields_ok st ->
  exists st', JJY.shortcut st = Ok st' /\ JJY.fields_ok st' /\
    JJY.same_frame st st' /\
    (JJY.confident st = false -> st' = st) /\
    (JJY.confident st = true -> JJY.all_matched st' = true).
Proof.
  intros (Y & D); unfold JJY.shortcut.
  destruct (JJY.confident st) eqn:C.
  2:{ exists st; unfold JJY.same_frame, JJY.fields_ok; intuition congruence. }
  unfold JJY.confident in C; apply andb_prop in C; destruct C as [C1 C2].
  pose proof (distinct_nonneg (Tracker.hist (JJY.year_f st))).
  pose proof (distinct_nonneg (Tracker.hist (JJY.doy_f st))).
  apply Z.ltb_lt in C1; apply Z.eqb_eq in C2.
  assert (L1 : 1 < Py.len (Tracker.hist (JJY.year_f st))) by lia.
  assert (L2 : 1 < Py.len (Tracker.hist (JJY.doy_f st))) by lia.
  assert (D1 : Py.distinct (Tracker.hist (JJY.year_f st)) <= 1) by lia.
  assert (D2 : Py.distinct (Tracker.hist (JJY.doy_f st)) <= 1) by lia.
  destruct (confirm_ok (Z.add 2000) _ Y (agreed2_intro _ L1 D1)) as (v1 & _ & -> & Y').
  destruct (confirm_ok (fun v => v) _ D (agreed2_intro _ L2 D2)) as (v2 & _ & -> & D').
  cbn [bind]; eexists; split; [reflexivity|].
  unfold JJY.same_frame, JJY.fields_ok, JJY.all_matched; jjy_proj.
  split; [auto|]. split; [auto 10|]. split; [discriminate|reflexivity].
Qed.

Lemma jjy_accept_not_value (st : JJY.state) :
  ~ raises (JJY.accept st) ValueError.
Proof.
  unfold JJY.accept; destruct (JJY.all_matched st);
    [apply minute_found_not_value | apply ok_not_raises].
Qed.

Lemma month_loop_not_value (fuel : nat) (table : list Z) (doy month day : Z) :
  ~ raises (JJY.month_loop fuel table doy month day) ValueError.
Proof.
  revert month day; induction fuel as [|fuel IH]; intros month day; simpl;
    (apply bind_not_raises; [apply getitem_not_value|intros b _]);
    destruct (b <? doy); try apply ok_not_raises; [discriminate|apply IH].
Qed.

Lemma jjy_utc_not_value (st : JJY.state) (hr mn : Z) :
  ~ raises (JJY.utc_of st hr mn) ValueError.
Proof.
  unfold JJY.utc_of.
  repeat (apply bind_not_raises; [apply name_not_value|intros ? _]).
  apply bind_not_raises; [apply month_loop_not_value|intros [m d] _].
  apply ok_not_raises.
Qed.

Lemma jjy_decode_cases (st : JJY.state) (k : nat) :
  Str.filled_to 60 k (JJY.tcA st) ->
  JJY.fields_ok st -> 0 <= JJY.elapsed st ->
  exists st2 t,
    JJY.same_frame st st2 /\ JJY.fields_ok st2 /\
    Tracker.field_step (JJY.year_f st) (JJY.year_f st2) /\
    Tracker.field_step (JJY.doy_f st) (JJY.doy_f st2) /\
    JJY.time_field (JJY.tcA st) = Ok t /\
    match t with
    | None => JJY.decode st = Ok (Tracker.Running st2)
    | Some (hr, mn) =>
        exists st3,
          JJY.shortcut (JJY.minute_update st2 hr mn) = Ok st3 /\
          JJY.fields_ok st3 /\ 0 <= JJY.elapsed st3 /\
          JJY.same_frame (JJY.minute_update st2 hr mn) st3 /\
          JJY.decode st =
            (go <- JJY.accept st3 ;;
             if go then utc <- JJY.utc_of st3 hr mn ;; Ok (Tracker.Locked st3 utc)
             else Ok (Tracker.Running st3))
    end.
Proof.
  intros FA (Y & D) E; unfold JJY.decode.
  destruct (jjy_year_field st k FA)
    as (st1 & -> & (A1 & B1 & E1 & M1 & V1) & Sy & Sd).
  cbn [bind].
  rewrite <- A1 in FA.
  destruct (jjy_doy_field st1 k FA)
    as (st2 & -> & (A2 & B2 & E2 & M2 & V2) & Sy2 & Sd2).
  cbn [bind].
  rewrite <- A2 in FA.
  destruct (jjy_time_field _ k FA) as (t & Et).
  rewrite Et; cbn [bind].
  assert (Gy : Tracker.field_step (JJY.year_f st) (JJY.year_f st2))
    by (rewrite Sy2; exact Sy).
  assert (Gd : Tracker.field_step (JJY.doy_f st) (JJY.doy_f st2))
    by (rewrite <- Sd; exact Sd2).
  assert (F2 : JJY.fields_ok st2)
    by (split; (eapply field_step_ok; [|eassumption]; assumption)).
  exists st2, t; split.
  { unfold JJY.same_frame; repeat split; congruence. }
  do 3 (split; [assumption|]).
  split; [congruence|].
  destruct t as [[hr mn]|]; [|reflexivity].
  destruct (jjy_minute_update_ok st2 hr mn F2) as (F3 & E3 & A3 & B3);
    [rewrite E2, E1; exact E|].
  destruct (jjy_shortcut_ok _ F3) as (st3 & -> & F4 & SF & _).
  cbn [bind]; exists st3.
  split; [reflexivity|]. split; [exact F4|].
  split; [destruct SF as (_ & _ & -> & _); exact E3|].
  split; [exact SF|reflexivity].
Qed.

Lemma jjy_init_ok (seed : option Tracker.rtc) : JJY.state_ok (JJY.init seed).
Proof.
  split; [|split].
  - exists 0%nat; destruct seed; split; apply filled_to_init.
  - destruct seed; repeat split; apply fresh_field_ok; simpl; lia.
  - destruct seed; simpl; lia.
Qed.

Lemma jjy_step_goes_on (timeout : Z) (st : JJY.state) (s : list bool)
    (o : Tracker.outcome JJY.state) :
  JJY.state_ok st -> JJY.step timeout st s = Ok o ->
  Tracker.is_accepted o = false ->
  JJY.state_ok (Tracker.state_of o) /\
  (JJY.elapsed (Tracker.state_of o) = JJY.elapsed st + 1 \/
   JJY.elapsed (Tracker.state_of o) = 0) /\
  o = (if timeout * 60 <? JJY.elapsed (Tracker.state_of o)
       then Tracker.TimedOut (Tracker.state_of o)
       else Tracker.Running (Tracker.state_of o)).
Proof.
  intros (Bu & Fi & El) H NA; unfold JJY.step in H.
  apply bind_ok in H; destruct H as (st1 & E1 & H).
  apply bind_ok in H; destruct H as (o0 & Eo & H).
  destruct (jjy_shift_spec _ _ _ E1) as (B1 & L1 & Y1 & D1 & _).
  specialize (B1 Bu).
  assert (F1 : JJY.fields_ok st1)
    by (unfold JJY.fields_ok; rewrite Y1, D1; exact Fi).
  assert (Fin : forall x, JJY.state_ok x ->
            (JJY.elapsed x = JJY.elapsed st + 1 \/ JJY.elapsed x = 0) ->
            o0 = Tracker.Running x ->
            JJY.state_ok (Tracker.state_of o) /\
            (JJY.elapsed (Tracker.state_of o) = JJY.elapsed st + 1 \/
             JJY.elapsed (Tracker.state_of o) = 0) /\
            o = (if timeout * 60 <? JJY.elapsed (Tracker.state_of o)
                 then Tracker.TimedOut (Tracker.state_of o)
                 else Tracker.Running (Tracker.state_of o))).
  { intros x Hx Ex ->.
    destruct (Z.ltb_spec (timeout * 60) (JJY.elapsed x)) as [G|G];
      injection H as <-; cbn [Tracker.state_of];
      (split; [exact Hx|split; [exact Ex|]]).
    - replace (timeout * 60 <? JJY.elapsed x) with true
        by (symmetry; apply Z.ltb_lt; exact G); reflexivity.
    - replace (timeout * 60 <? JJY.elapsed x) with false
        by (symmetry; apply Z.ltb_ge; exact G); reflexivity. }
  destruct (Str.endswith (JJY.tcB st1) JJY.marker).
  2:{ injection Eo as <-; apply (Fin st1); auto.
      split; [exact B1|split; [exact F1|lia]]. }
  destruct B1 as (k & FA & FB).
  destruct (jjy_decode_cases st1 _ FA F1) as (st2 & t & SF & F2 & _ & _ & Et & Ht);
    [lia|].
  destruct SF as (A2 & B2 & E2 & _).
  destruct t as [[hr mn]|].
  - destruct Ht as (st3 & Es & F3 & E3 & SF3 & Ed).
    rewrite Ed in Eo; apply bind_ok in Eo; destruct Eo as ([|] & Ea & Eo).
    + apply bind_ok in Eo; destruct Eo as (utc & _ & Eo);
        injection Eo as <-; injection H as <-; discriminate.
    + injection Eo as <-; eapply Fin; [| |reflexivity].
      * split; [|split; [exact F3|exact E3]].
        destruct SF3 as (A3 & B3 & _).
        destruct (jjy_minute_update_ok st2 hr mn F2) as (_ & _ & A4 & B4);
          [rewrite E2; lia|].
        exists k; rewrite A3, B3, A4, B4, A2, B2; split; assumption.
      * destruct SF3 as (_ & _ & -> & _).
        destruct (jjy_minute_update_elapsed st2 hr mn) as [(_ & -> & _)|(_ & ->)];
          [now right|left; rewrite E2; lia].
  - rewrite Ht in Eo; injection Eo as <-; eapply Fin; [| |reflexivity].
    + split; [|split; [exact F2|rewrite E2; lia]].
      exists k; rewrite A2, B2; split; assumption.
    + left; rewrite E2; lia.
Qed.

Lemma jjy_step_running (timeout : Z) (st st' : JJY.state) (s : list bool) :
  JJY.state_ok st -> JJY.step timeout st s = Ok (Tracker.Running st') ->
  JJY.state_ok st' /\ JJY.elapsed st' <= timeout * 60 /\
  (JJY.elapsed st' = JJY.elapsed st + 1 \/ JJY.elapsed st' = 0).
Proof.
  intros Hs H.
  destruct (jjy_step_goes_on timeout st s _ Hs H eq_refl) as (Ok' & El & E).
  cbn [Tracker.state_of] in *; split; [exact Ok'|split; [|exact El]].
  destruct (Z.ltb_spec (timeout * 60) (JJY.elapsed st')); [discriminate|lia].
Qed.

Lemma jjy_step_timed_out (timeout : Z) (st st' : JJY.state) (s : list bool) :
  JJY.state_ok st -> JJY.step timeout st s = Ok (Tracker.TimedOut st') ->
  timeout * 60 < JJY.elapsed st' /\
  (JJY.elapsed st' = JJY.elapsed st + 1 \/ JJY.elapsed st' = 0).
Proof.
  intros Hs H.
  destruct (jjy_step_goes_on timeout st s _ Hs H eq_refl) as (Ok' & El & E).
  cbn [Tracker.state_of] in *; split; [|exact El].
  destruct (Z.ltb_spec (timeout * 60) (JJY.elapsed st')); [lia|discriminate].
Qed.

Lemma jjy_reachable_ok (timeout : Z) (st : JJY.state) :
  JJY.reachable timeout st -> JJY.state_ok st.
Proof.
  induction 1 as [seed|st s st' _ IH H]; [apply jjy_init_ok|].
  now apply (jjy_step_running timeout st st' s).
Qed.

Lemma jjy_step_not_value (timeout : Z) (st : JJY.state) (s : list bool) :
  JJY.state_ok st -> ~ raises (JJY.step timeout st s) ValueError.
Proof.
  intros (Bu & Fi & El); unfold JJY.step.
  apply bind_not_raises; [apply jjy_shift_not_value|intros st1 E1].
  destruct (jjy_shift_spec _ _ _ E1) as (B1 & L1 & Y1 & D1 & _).
  specialize (B1 Bu).
  assert (F1 : JJY.fields_ok st1)
    by (unfold JJY.fields_ok; rewrite Y1, D1; exact Fi).
  apply bind_not_raises.
  2:{ intros [x|x u|x|x] _; try apply ok_not_raises.
      destruct (_ <? _); apply ok_not_raises. }
  destruct (Str.endswith _ _); [|apply ok_not_raises].
  destruct B1 as (k & FA & FB).
  destruct (jjy_decode_cases st1 _ FA F1) as (st2 & t & _ & _ & _ & _ & _ & Ht);
    [lia|].
  destruct t as [[hr mn]|]; [|rewrite Ht; apply ok_not_raises].
  destruct Ht as (st3 & _ & _ & _ & _ & ->).
  apply bind_not_raises; [apply jjy_accept_not_value|intros [|] _].
  - apply bind_not_raises; [apply jjy_utc_not_value|intros; apply ok_not_raises].
  - apply ok_not_raises.
Qed.

(** ** Shift registers never feed a blank to [int] *)

Lemma msf_parity_ready (st : MSF.state) (p : nat) (c : ascii) :
  MSF.buffers_ok st -> nth_error (MSF.tcA st) p = Some c -> c <> Str.blank ->
  (p <= 37)%nat -> Str.bits_in (MSF.tcB st) 0 8.
Proof.
  intros (k & FA & FB) Hc Hne Hp.
  destruct (filled_to_sentinel _ _ _ _ _ FA Hc Hne) as (Hk & _).
  now destruct (msf_tcB_full k p (MSF.tcA st) _ FB Hk Hp).
Qed.

(** C8. (1) Every string pushed into a register is "0" or "1". (2) In a
    register of [n] characters pushed [k] times the blanks are the first
    [n - k] characters, so a non-blank character at position [p] means that
    the positions [p .. n-1] hold 0 or 1 - read from the other end for the
    reversed register of DCF77: positions [0 .. p]; in MSF the parity
    register is then full as well. (3) Every state the three decode loops
    reach has registers of that shape, a push keeps the shape, and no pass
    from such a state raises [ValueError], the fault of [int] on a blank. *)
Theorem registers_never_give_blanks (timeout : Z) :
  (forall w s, Tracker.classify w = Ok s -> s = ["0"%char] \/ s = ["1"%char]) /\
  (forall n k buf p c,
      Str.filled_to n k buf -> c <> Str.blank ->
      (nth_error buf p = Some c -> Str.bits_in buf p n) /\
      (nth_error (rev buf) p = Some c -> Str.bits_in (rev buf) 0 (S p))) /\
  (forall st,
      DCF77.reachable timeout st ->
      DCF77.buffers_ok st /\
      forall s,
        (forall st1, DCF77.shift st s = Ok st1 -> DCF77.buffers_ok st1) /\
        ~ raises (DCF77.step timeout st s) ValueError) /\
  (forall st,
      MSF.reachable timeout st ->
      MSF.buffers_ok st /\
      forall s,
        (forall st1, MSF.shift st s = Ok st1 ->
           MSF.buffers_ok st1 /\
           forall p c, nth_error (MSF.tcA st1) p = Some c -> c <> Str.blank ->
                       (p <= 37)%nat -> Str.bits_in (MSF.tcB st1) 0 8) /\
        ~ raises (MSF.step timeout st s) ValueError) /\
  (forall st,
      JJY.reachable timeout st ->
      JJY.buffers_ok st /\
      forall s,
        (forall st1, JJY.shift st s = Ok st1 -> JJY.buffers_ok st1) /\
        ~ raises (JJY.step timeout st s) ValueError).
Proof.
  split; [exact classify_bit|].
  split.
  { intros n k buf p c F Hne; split; intros Hc.
    - now destruct (filled_to_sentinel _ _ _ _ _ F Hc Hne).
    - exact (filled_to_sentinel_rev _ _ _ _ _ F Hc Hne). }
  split; [|split].
  - intros st R; pose proof (dcf_reachable_ok _ _ R) as Hs.
    split; [apply Hs|]; intros s; split.
    + intros st1 E; now apply (dcf_shift_spec _ _ _ E), Hs.
    + now apply dcf_step_not_value.
  - intros st R; pose proof (msf_reachable_ok _ _ R) as Hs.
    split; [apply Hs|]; intros s; split.
    + intros st1 E.
      assert (B1 : MSF.buffers_ok st1) by now apply (msf_shift_spec _ _ _ E), Hs.
      split; [exact B1|]; intros p c; now apply msf_parity_ready.
    + now apply msf_step_not_value.
  - intros st R; pose proof (jjy_reachable_ok _ _ R) as Hs.
    split; [apply Hs|]; intros s; split.
    + intros st1 E; now apply (jjy_shift_spec _ _ _ E), Hs.
    + now apply jjy_step_not_value.
Qed.

(** ** Match flags *)



(** ** The minute of the day *)

Lemma nodup_all_eq (l : list Z) (m : Z) :
  l <> [] -> (forall x, In x l -> x = m) -> nodup Z.eq_dec l = [m].
Proof.
  induction l as [|a r IH]; intros NE H; [congruence|].
  assert (Ea : a = m) by (apply H; now left); subst a.
  simpl nodup; destruct (in_dec Z.eq_dec m r) as [I|N].
  - apply IH; [intros ->; destruct I|]; intros x Hx; apply H; now right.
  - destruct r as [|b r]; [reflexivity|].
    destruct N; left; apply H; right; now left.
Qed.

(** The test of line 277 on a history that holds the new value [m]: all
    entries - at least two - are equal, or [m] occurs three times. *)
Lemma minute_found_spec (mods : list Z) (m : Z) :
  In m mods ->
  exists b, Tracker.minute_found mods (Some m) = Ok b /\
    (b = true <->
     ((2 <= length mods)%nat /\ forall x, In x mods -> x = m) \/
     3 <= Py.count m mods).
Proof.
  intros Hm; unfold Tracker.minute_found.
  destruct ((1 <? Py.len mods) && (Py.distinct mods =? 1)) eqn:C.
  - exists true; split; [reflexivity|]; split; [intros _; left|reflexivity].
    apply andb_prop in C; destruct C as [L D].
    apply Z.ltb_lt in L; apply Z.eqb_eq in D; unfold Py.len in L.
    split; [lia|]; intros x Hx; apply (distinct_one mods); [lia|assumption..].
  - cbn [bind Tracker.name]; eexists; split; [reflexivity|].
    rewrite Z.leb_le; split; [now right|]; intros [(L & A)|H]; [|exact H].
    exfalso; apply andb_false_iff in C; destruct C as [C|C].
    + apply Z.ltb_ge in C; unfold Py.len in C; lia.
    + apply Z.eqb_neq in C; apply C; unfold Py.distinct.
      rewrite (nodup_all_eq mods m); [reflexivity| |exact A].
      intros ->; destruct Hm.
Qed.

Lemma project_last (mods : list Z) (e m : Z) : In m (Tracker.project mods e m).
Proof. unfold Tracker.project; apply in_or_app; right; now left. Qed.

(** A pass in which an hour and a minute are heard: what [step] comes down
    to (DCF77). [st2] is the state after the date fields, [st3] the one the
    acceptance test sees. *)
Lemma dcf_step_heard (timeout : Z) (st : DCF77.state) (s : list bool) (hr mn : Z) :
  DCF77.state_ok st -> DCF77.heard st s = Ok (Some (hr, mn)) ->
  exists st2 st3 a,
    DCF77.fields_ok st2 /\
    Tracker.field_step (DCF77.year_f st) (DCF77.year_f st2) /\
    Tracker.field_step (DCF77.month_f st) (DCF77.month_f st2) /\
    Tracker.field_step (DCF77.day_f st) (DCF77.day_f st2) /\
    Tracker.field_step (DCF77.dst_f st) (DCF77.dst_f st2) /\
    DCF77.mods st2 = DCF77.mods st /\ DCF77.elapsed st2 = DCF77.elapsed st + 1 /\
    DCF77.shortcut (DCF77.minute_update st2 hr mn) = Ok st3 /\
    DCF77.fields_ok st3 /\
    DCF77.step timeout st s =
      (go <- DCF77.accept st3 ;;
       if go then utc <- DCF77.utc_of st3 hr mn ;; Ok (Tracker.Locked st3 utc)
       else Ok (if timeout * 60 <? DCF77.elapsed st3
                then Tracker.TimedOut (DCF77.with_tcA st3 a)
                else Tracker.Running (DCF77.with_tcA st3 a))).
Proof.
  intros (Bu & Fi & El) H; unfold DCF77.heard in H.
  apply bind_ok in H; destruct H as (st1 & E1 & H).
  destruct (dcf_shift_spec _ _ _ E1) as (B1 & L1 & Y1 & M1 & D1 & S1 & Mo1 & _).
  specialize (B1 Bu); destruct B1 as (k & FA & FB).
  assert (F1 : DCF77.fields_ok st1)
    by (unfold DCF77.fields_ok; rewrite Y1, M1, D1, S1; exact Fi).
  unfold DCF77.step; rewrite E1; cbn [bind].
  destruct (Str.endswith (DCF77.tcB st1) DCF77.marker); [|discriminate].
  destruct (dcf_decode_cases st1 _ FA F1)
    as (st2 & t & SF & F2 & Gy & Gm & Gd & Gs & Et & Ht); [lia|].
  rewrite H in Et; injection Et as <-.
  destruct Ht as (st3 & Es & F3 & E3 & SF3 & ->).
  destruct SF as (_ & _ & E2 & Mo2 & _); dcf_proj.
  exists st2, st3, (DCF77.tcA st1).
  rewrite <- Y1, <- M1, <- D1, <- S1, <- Mo1.
  do 5 (split; [assumption|]).
  split; [exact Mo2|]. split; [lia|]. split; [exact Es|]. split; [exact F3|].
  destruct (DCF77.accept st3) as [[|]|e]; cbn [bind]; try reflexivity.
  - destruct (DCF77.utc_of st3 hr mn); reflexivity.
  - dcf_proj; destruct (_ <? _); reflexivity.
Qed.

Lemma msf_step_heard (timeout : Z) (st : MSF.state) (s : list bool) (hr mn : Z) :
  MSF.state_ok st -> MSF.heard st s = Ok (Some (hr, mn)) ->
  exists st2 st3,
    MSF.fields_ok st2 /\
    Tracker.field_step (MSF.year_f st) (MSF.year_f st2) /\
    Tracker.field_step (MSF.month_f st) (MSF.month_f st2) /\
    Tracker.field_step (MSF.day_f st) (MSF.day_f st2) /\
    MSF.mods st2 = MSF.mods st /\ MSF.elapsed st2 = MSF.elapsed st + 1 /\
    MSF.shortcut (MSF.minute_update st2 hr mn) = Ok st3 /\
    MSF.fields_ok st3 /\
    MSF.step timeout st s =
      (go <- MSF.accept st3 ;;
       if go then
         u <- MSF.utc_of st3 hr mn ;;
         match u with
         | None => Ok (Tracker.Stopped st3)
         | Some utc => Ok (Tracker.Locked st3 utc)
         end
       else Ok (if timeout * 60 <? MSF.elapsed st3
                then Tracker.TimedOut st3 else Tracker.Running st3)).
Proof.
  intros (Bu & Fi & El) H; unfold MSF.heard in H.
  apply bind_ok in H; destruct H as (st1 & E1 & H).
  destruct (msf_shift_spec _ _ _ E1) as (B1 & L1 & Y1 & M1 & D1 & Mo1 & _).
  specialize (B1 Bu); destruct B1 as (k & FA & FB).
  assert (F1 : MSF.fields_ok st1)
    by (unfold MSF.fields_ok; rewrite Y1, M1, D1; exact Fi).
  unfold MSF.step; rewrite E1; cbn [bind].
  destruct (Str.endswith (MSF.tcA st1) MSF.marker); [|discriminate].
  destruct (msf_decode_cases st1 _ FA FB F1)
    as (st2 & t & SF & F2 & Gy & Gm & Gd & Et & Ht); [lia|].
  rewrite H in Et; injection Et as <-.
  destruct Ht as (st3 & Es & F3 & E3 & SF3 & ->).
  destruct SF as (_ & _ & E2 & Mo2 & _).
  exists st2, st3.
  rewrite <- Y1, <- M1, <- D1, <- Mo1.
  do 4 (split; [assumption|]).
  split; [exact Mo2|]. split; [lia|]. split; [exact Es|]. split; [exact F3|].
  destruct (MSF.accept st3) as [[|]|e]; cbn [bind]; try reflexivity.
  - destruct (MSF.utc_of st3 hr mn) as [[u|]|e]; reflexivity.
  - destruct (_ <? _); reflexivity.
Qed.

Lemma jjy_step_heard (timeout : Z) (st : JJY.state) (s : list bool) (hr mn : Z) :
  JJY.state_ok st -> JJY.heard st s = Ok (Some (hr, mn)) ->
  exists st2 st3,
    JJY.fields_ok st2 /\
    Tracker.field_step (JJY.year_f st) (JJY.year_f st2) /\
    Tracker.field_step (JJY.doy_f st) (JJY.doy_f st2) /\
    JJY.mods st2 = JJY.mods st /\ JJY.elapsed st2 = JJY.elapsed st + 1 /\
    JJY.shortcut (JJY.minute_update st2 hr mn) = Ok st3 /\
    JJY.fields_ok st3 /\
    JJY.step timeout st s =
      (go <- JJY.accept st3 ;;
       if go then utc <- JJY.utc_of st3 hr mn ;; Ok (Tracker.Locked st3 utc)
       else Ok (if timeout * 60 <? JJY.elapsed st3
                then Tracker.TimedOut st3 else Tracker.Running st3)).
Proof.
  intros (Bu & Fi & El) H; unfold JJY.heard in H.
  apply bind_ok in H; destruct H as (st1 & E1 & H).
  destruct (jjy_shift_spec _ _ _ E1) as (B1 & L1 & Y1 & D1 & Mo1 & _).
  specialize (B1 Bu); destruct B1 as (k & FA & FB).
  assert (F1 : JJY.fields_ok st1)
    by (unfold JJY.fields_ok; rewrite Y1, D1; exact Fi).
  unfold JJY.step; rewrite E1; cbn [bind].
  destruct (Str.endswith (JJY.tcB st1) JJY.marker); [|discriminate].
  destruct (jjy_decode_cases st1 _ FA F1)
    as (st2 & t & SF & F2 & Gy & Gd & Et & Ht); [lia|].
  rewrite H in Et; injection Et as <-.
  destruct Ht as (st3 & Es & F3 & E3 & SF3 & ->).
  destruct SF as (_ & _ & E2 & Mo2 & _).
  exists st2, st3.
  rewrite <- Y1, <- D1, <- Mo1.
  do 3 (split; [assumption|]).
  split; [exact Mo2|]. split; [lia|]. split; [exact Es|]. split; [exact F3|].
  destruct (JJY.accept st3) as [[|]|e]; cbn [bind]; try reflexivity.
  - destruct (JJY.utc_of st3 hr mn); reflexivity.
  - destruct (_ <? _); reflexivity.
Qed.

(** ** Runs *)

Lemma dcf_run_reachable (timeout : Z) (inputs : list (list bool))
    (st st' : DCF77.state) :
  DCF77.reachable timeout st ->
  DCF77.run timeout st inputs = Ok (Tracker.Running st') ->
  DCF77.reachable timeout st'.
Proof.
  revert st; induction inputs as [|s rest IH]; intros st R H; simpl in H.
  - now injection H as <-.
  - apply bind_ok in H; destruct H as ([x|x u|x|x] & E & H); try discriminate.
    eapply IH; [|exact H]; econstructor; eauto.
Qed.

Lemma dcf_after_reachable (timeout : Z) (seed : option Tracker.rtc)
    (inputs : list (list bool)) :
  DCF77.reachable timeout (DCF77.after timeout (DCF77.init seed) inputs).
Proof.
  unfold DCF77.after.
  destruct (DCF77.run timeout (DCF77.init seed) inputs) as [[x|x u|x|x]|e] eqn:E;
    try constructor.
  eapply dcf_run_reachable; [constructor|exact E].
Qed.

Lemma msf_run_reachable (timeout : Z) (inputs : list (list bool))
    (st st' : MSF.state) :
  MSF.reachable timeout st ->
  MSF.run timeout st inputs = Ok (Tracker.Running st') ->
  MSF.reachable timeout st'.
Proof.
  revert st; induction inputs as [|s rest IH]; intros st R H; simpl in H.
  - now injection H as <-.
  - apply bind_ok in H; destruct H as ([x|x u|x|x] & E & H); try discriminate.
    eapply IH; [|exact H]; econstructor; eauto.
Qed.

Lemma msf_after_reachable (timeout : Z) (seed : option Tracker.rtc)
    (inputs : list (list bool)) :
  MSF.reachable timeout (MSF.after timeout (MSF.init seed) inputs).
Proof.
  unfold MSF.after.
  destruct (MSF.run timeout (MSF.init seed) inputs) as [[x|x u|x|x]|e] eqn:E;
    try constructor.
  eapply msf_run_reachable; [constructor|exact E].
Qed.

Lemma jjy_run_reachable (timeout : Z) (inputs : list (list bool))
    (st st' : JJY.state) :
  JJY.reachable timeout st ->
  JJY.run timeout st inputs = Ok (Tracker.Running st') ->
  JJY.reachable timeout st'.
Proof.
  revert st; induction inputs as [|s rest IH]; intros st R H; simpl in H.
  - now injection H as <-.
  - apply bind_ok in H; destruct H as ([x|x u|x|x] & E & H); try discriminate.
    eapply IH; [|exact H]; econstructor; eauto.
Qed.

Lemma jjy_after_reachable (timeout : Z) (seed : option Tracker.rtc)
    (inputs : list (list bool)) :
  JJY.reachable timeout (JJY.after timeout (JJY.init seed) inputs).
Proof.
  unfold JJY.after.
  destruct (JJY.run timeout (JJY.init seed) inputs) as [[x|x u|x|x]|e] eqn:E;
    try constructor.
  eapply jjy_run_reachable; [constructor|exact E].
Qed.

(** ** Minute-of-day rollover *)

Lemma reset_len_le (f : Tracker.field) :
  Py.len (Tracker.hist (Tracker.reset f)) <= 1.
Proof. unfold Py.len; destruct (reset_short f); lia. Qed.

Lemma dcf_rollover (st2 st3 : DCF77.state) (hr mn : Z) :
  hr < 24 -> mn < 60 -> hr * 60 + mn < 5 ->
  DCF77.shortcut (DCF77.minute_update st2 hr mn) = Ok st3 ->
  st3 = DCF77.mkState (DCF77.tcA st2) (DCF77.tcB st2) 0
          (Tracker.reset (DCF77.year_f st2)) (Tracker.reset (DCF77.month_f st2))
          (Tracker.reset (DCF77.day_f st2)) (Tracker.reset (DCF77.dst_f st2))
          (Tracker.project (DCF77.mods st2) (DCF77.elapsed st2) (hr * 60 + mn))
          (Some (hr * 60 + mn)).
Proof.
  intros Hh Hm H5; unfold DCF77.minute_update.
  replace (hr <? 24) with true by (symmetry; now apply Z.ltb_lt).
  replace (mn <? 60) with true by (symmetry; now apply Z.ltb_lt).
  replace (hr * 60 + mn <? 5) with true by (symmetry; now apply Z.ltb_lt).
  pose proof (reset_len_le (DCF77.year_f st2)).
  cbn [andb]; unfold DCF77.shortcut, DCF77.confident; dcf_proj.
  replace (1 <? _) with false by (symmetry; apply Z.ltb_ge; lia).
  cbn [andb]; congruence.
Qed.

Lemma msf_rollover (st2 st3 : MSF.state) (hr mn : Z) :
  hr < 24 -> mn < 60 -> hr * 60 + mn < 5 ->
  MSF.shortcut (MSF.minute_update st2 hr mn) = Ok st3 ->
  st3 = MSF.mkState (MSF.tcA st2) (MSF.tcB st2) 0
          (Tracker.reset (MSF.year_f st2)) (Tracker.reset (MSF.month_f st2))
          (Tracker.reset (MSF.day_f st2))
          (Tracker.project (MSF.mods st2) (MSF.elapsed st2) (hr * 60 + mn))
          (Some (hr * 60 + mn)).
Proof.
  intros Hh Hm H5; unfold MSF.minute_update.
  replace (hr <? 24) with true by (symmetry; now apply Z.ltb_lt).
  replace (mn <? 60) with true by (symmetry; now apply Z.ltb_lt).
  replace (hr * 60 + mn <? 5) with true by (symmetry; now apply Z.ltb_lt).
  pose proof (reset_len_le (MSF.year_f st2)).
  cbn [andb]; unfold MSF.shortcut, MSF.confident; msf_proj.
  replace (1 <? _) with false by (symmetry; apply Z.ltb_ge; lia).
  cbn [andb]; congruence.
Qed.

Lemma jjy_rollover (st2 st3 : JJY.state) (hr mn : Z) :
  hr < 24 -> mn < 60 -> hr * 60 + mn < 5 ->
  JJY.shortcut (JJY.minute_update st2 hr mn) = Ok st3 ->
  st3 = JJY.mkState (JJY.tcA st2) (JJY.tcB st2) 0
          (Tracker.reset (JJY.year_f st2)) (Tracker.reset (JJY.doy_f st2))
          (Tracker.project (JJY.mods st2) (JJY.elapsed st2) (hr * 60 + mn))
          (Some (hr * 60 + mn)).
Proof.
  intros Hh Hm H5; unfold JJY.minute_update.
  replace (hr <? 24) with true by (symmetry; now apply Z.ltb_lt).
  replace (mn <? 60) with true by (symmetry; now apply Z.ltb_lt).
  replace (hr * 60 + mn <? 5) with true by (symmetry; now apply Z.ltb_lt).
  pose proof (reset_len_le (JJY.year_f st2)).
  cbn [andb]; unfold JJY.shortcut, JJY.confident; jjy_proj.
  replace (1 <? _) with false by (symmetry; apply Z.ltb_ge; lia).
  cbn [andb]; congruence.
Qed.

Ltac reset_fields Hf :=
  simpl in Hf;
  repeat (destruct Hf as [<-|Hf]; [apply reset_short|]); destruct Hf.

(** C6. A pass that decodes a minute of the day below 5 (hour and minute
    in range, parity passed) from a state the loop can be in: the pass
    goes on ([Running], nothing is accepted), the value is appended to the
    projected history, every date-field history is cut to at most one entry
    and every match flag is false. For the three protocols. *)
Theorem rollover_clears_matches (timeout : Z) :
  0 <= timeout ->
  (forall st s hr mn,
      DCF77.reachable timeout st -> DCF77.heard st s = Ok (Some (hr, mn)) ->
      hr < 24 -> mn < 60 -> hr * 60 + mn < 5 ->
      exists st',
        DCF77.step timeout st s = Ok (Tracker.Running st') /\
        DCF77.mods st' =
          Tracker.project (DCF77.mods st) (DCF77.elapsed st + 1) (hr * 60 + mn) /\
        forall f, In f [DCF77.year_f st'; DCF77.month_f st'; DCF77.day_f st';
                        DCF77.dst_f st'] ->
          (length (Tracker.hist f) <= 1)%nat /\ Tracker.matched f = false) /\
  (forall st s hr mn,
      MSF.reachable timeout st -> MSF.heard st s = Ok (Some (hr, mn)) ->
      hr < 24 -> mn < 60 -> hr * 60 + mn < 5 ->
      exists st',
        MSF.step timeout st s = Ok (Tracker.Running st') /\
        MSF.mods st' =
          Tracker.project (MSF.mods st) (MSF.elapsed st + 1) (hr * 60 + mn) /\
        forall f, In f [MSF.year_f st'; MSF.month_f st'; MSF.day_f st'] ->
          (length (Tracker.hist f) <= 1)%nat /\ Tracker.matched f = false) /\
  (forall st s hr mn,
      JJY.reachable timeout st -> JJY.heard st s = Ok (Some (hr, mn)) ->
      hr < 24 -> mn < 60 -> hr * 60 + mn < 5 ->
      exists st',
        JJY.step timeout st s = Ok (Tracker.Running st') /\
        JJY.mods st' =
          Tracker.project (JJY.mods st) (JJY.elapsed st + 1) (hr * 60 + mn) /\
        forall f, In f [JJY.year_f st'; JJY.doy_f st'] ->
          (length (Tracker.hist f) <= 1)%nat /\ Tracker.matched f = false).
Proof.
  intros HT; split; [|split]; intros st s hr mn R H Hh Hm H5.
  - destruct (dcf_step_heard timeout st s hr mn (dcf_reachable_ok _ _ R) H)
      as (st2 & st3 & a & _ & _ & _ & _ & _ & Mo & El & Es & _ & ->).
    rewrite (dcf_rollover _ _ _ _ Hh Hm H5 Es).
    unfold DCF77.accept, DCF77.all_matched; dcf_proj; cbn [bind].
    replace (timeout * 60 <? 0) with false by (symmetry; apply Z.ltb_ge; lia).
    eexists; split; [reflexivity|]; dcf_proj.
    split; [now rewrite Mo, El|]; intros f Hf; reset_fields Hf.
  - destruct (msf_step_heard timeout st s hr mn (msf_reachable_ok _ _ R) H)
      as (st2 & st3 & _ & _ & _ & _ & Mo & El & Es & _ & ->).
    rewrite (msf_rollover _ _ _ _ Hh Hm H5 Es).
    unfold MSF.accept, MSF.all_matched; msf_proj; cbn [bind].
    replace (timeout * 60 <? 0) with false by (symmetry; apply Z.ltb_ge; lia).
    eexists; split; [reflexivity|]; msf_proj.
    split; [now rewrite Mo, El|]; intros f Hf; reset_fields Hf.
  - destruct (jjy_step_heard timeout st s hr mn (jjy_reachable_ok _ _ R) H)
      as (st2 & st3 & _ & _ & _ & Mo & El & Es & _ & ->).
    rewrite (jjy_rollover _ _ _ _ Hh Hm H5 Es).
    unfold JJY.accept, JJY.all_matched; jjy_proj; cbn [bind].
    replace (timeout * 60 <? 0) with false by (symmetry; apply Z.ltb_ge; lia).
    eexists; split; [reflexivity|]; jjy_proj.
    split; [now rewrite Mo, El|]; intros f Hf; reset_fields Hf.
Qed.

Lemma rollover_clears_matches_witness :
  exists st',
    JJY.step 15
      (JJY.after 15 (JJY.init None)
         (Signal.jjy_samples (Signal.jjy_minute 24 301 23 59
                              ++ Signal.jjy_minute 24 302 0 0)))
      (JJY.second false true) = Ok (Tracker.Running st') /\
    JJY.mods st' =
      Tracker.project
        (JJY.mods (JJY.after 15 (JJY.init None)
           (Signal.jjy_samples (Signal.jjy_minute 24 301 23 59
                                ++ Signal.jjy_minute 24 302 0 0))))
        (JJY.elapsed (JJY.after 15 (JJY.init None)
           (Signal.jjy_samples (Signal.jjy_minute 24 301 23 59
                                ++ Signal.jjy_minute 24 302 0 0))) + 1)
        (0 * 60 + 0) /\
    forall f, In f [JJY.year_f st'; JJY.doy_f st'] ->
      (length (Tracker.hist f) <= 1)%nat /\ Tracker.matched f = false.
Proof.
  destruct (rollover_clears_matches 15) as (_ & _ & J); [lia|].
  apply J.
  - apply jjy_after_reachable.
  - vm_compute; reflexivity.
  - lia.
  - lia.
  - lia.
Defined.

(** ** Acceptance of the minute of the day *)

Lemma all4 (a b c d : bool) :
  a && b && c && d = true -> a = true /\ b = true /\ c = true /\ d = true.
Proof. destruct a, b, c, d; simpl; auto; discriminate. Qed.

Lemma all3 (a b c : bool) :
  a && b && c = true -> a = true /\ b = true /\ c = true.
Proof. destruct a, b, c; simpl; auto; discriminate. Qed.

Lemma dcf_seen (st2 st3 : DCF77.state) (hr mn : Z) :
  DCF77.fields_ok st2 -> hr < 24 -> mn < 60 ->
  DCF77.shortcut (DCF77.minute_update st2 hr mn) = Ok st3 ->
  DCF77.mods st3 =
    Tracker.project (DCF77.mods st2) (DCF77.elapsed st2) (hr * 60 + mn) /\
  DCF77.mod_v st3 = Some (hr * 60 + mn) /\
  (DCF77.all_matched st2 = true -> 5 <= hr * 60 + mn ->
   DCF77.all_matched st3 = true) /\
  (hr * 60 + mn < 5 -> DCF77.all_matched st3 = false).
Proof.
  intros F2 Hh Hm Es.
  destruct (Z.ltb_spec (hr * 60 + mn) 5) as [H5|H5].
  { rewrite (dcf_rollover _ _ _ _ Hh Hm H5 Es); cbn.
    repeat split; auto; lia. }
  revert Es; unfold DCF77.minute_update.
  replace (hr <? 24) with true by (symmetry; now apply Z.ltb_lt).
  replace (mn <? 60) with true by (symmetry; now apply Z.ltb_lt).
  replace (hr * 60 + mn <? 5) with false by (symmetry; now apply Z.ltb_ge).
  cbn [andb].
  set (X := DCF77.mkState (DCF77.tcA st2) (DCF77.tcB st2) 0 (DCF77.year_f st2) (DCF77.month_f st2) (DCF77.day_f st2) (DCF77.dst_f st2)
              (Tracker.project (DCF77.mods st2) (DCF77.elapsed st2) (hr * 60 + mn))
              (Some (hr * 60 + mn))).
  intros Es.
  destruct (dcf_shortcut_ok X F2) as (st' & E' & _ & SF & Cf & Ct).
  rewrite Es in E'; injection E' as <-.
  destruct SF as (_ & _ & _ & Mo & Mv).
  split; [exact Mo|]. split; [exact Mv|]. split; [|lia].
  intros A _; destruct (DCF77.confident X); [now apply Ct|].
  rewrite (Cf eq_refl); exact A.
Qed.

Lemma msf_seen (st2 st3 : MSF.state) (hr mn : Z) :
  MSF.fields_ok st2 -> hr < 24 -> mn < 60 ->
  MSF.shortcut (MSF.minute_update st2 hr mn) = Ok st3 ->
  MSF.mods st3 =
    Tracker.project (MSF.mods st2) (MSF.elapsed st2) (hr * 60 + mn) /\
  MSF.mod_v st3 = Some (hr * 60 + mn) /\
  (MSF.all_matched st2 = true -> 5 <= hr * 60 + mn ->
   MSF.all_matched st3 = true) /\
  (hr * 60 + mn < 5 -> MSF.all_matched st3 = false).
Proof.
  intros F2 Hh Hm Es.
  destruct (Z.ltb_spec (hr * 60 + mn) 5) as [H5|H5].
  { rewrite (msf_rollover _ _ _ _ Hh Hm H5 Es); cbn.
    repeat split; auto; lia. }
  revert Es; unfold MSF.minute_update.
  replace (hr <? 24) with true by (symmetry; now apply Z.ltb_lt).
  replace (mn <? 60) with true by (symmetry; now apply Z.ltb_lt).
  replace (hr * 60 + mn <? 5) with false by (symmetry; now apply Z.ltb_ge).
  cbn [andb].
  set (X := MSF.mkState (MSF.tcA st2) (MSF.tcB st2) 0 (MSF.year_f st2) (MSF.month_f st2) (MSF.day_f st2)
              (Tracker.project (MSF.mods st2) (MSF.elapsed st2) (hr * 60 + mn))
              (Some (hr * 60 + mn))).
  intros Es.
  destruct (msf_shortcut_ok X F2) as (st' & E' & _ & SF & Cf & Ct).
  rewrite Es in E'; injection E' as <-.
  destruct SF as (_ & _ & _ & Mo & Mv).
  split; [exact Mo|]. split; [exact Mv|]. split; [|lia].
  intros A _; destruct (MSF.confident X); [now apply Ct|].
  rewrite (Cf eq_refl); exact A.
Qed.

Lemma jjy_seen (st2 st3 : JJY.state) (hr mn : Z) :
  JJY.fields_ok st2 -> hr < 24 -> mn < 60 ->
  JJY.shortcut (JJY.minute_update st2 hr mn) = Ok st3 ->
  JJY.mods st3 =
    Tracker.project (JJY.mods st2) (JJY.elapsed st2) (hr * 60 + mn) /\
  JJY.mod_v st3 = Some (hr * 60 + mn) /\
  (JJY.all_matched st2 = true -> 5 <= hr * 60 + mn ->
   JJY.all_matched st3 = true) /\
  (hr * 60 + mn < 5 -> JJY.all_matched st3 = false).
Proof.
  intros F2 Hh Hm Es.
  destruct (Z.ltb_spec (hr * 60 + mn) 5) as [H5|H5].
  { rewrite (jjy_rollover _ _ _ _ Hh Hm H5 Es); cbn.
    repeat split; auto; lia. }
  revert Es; unfold JJY.minute_update.
  replace (hr <? 24) with true by (symmetry; now apply Z.ltb_lt).
  replace (mn <? 60) with true by (symmetry; now apply Z.ltb_lt).
  replace (hr * 60 + mn <? 5) with false by (symmetry; now apply Z.ltb_ge).
  cbn [andb].
  set (X := JJY.mkState (JJY.tcA st2) (JJY.tcB st2) 0 (JJY.year_f st2) (JJY.doy_f st2)
              (Tracker.project (JJY.mods st2) (JJY.elapsed st2) (hr * 60 + mn))
              (Some (hr * 60 + mn))).
  intros Es.
  destruct (jjy_shortcut_ok X F2) as (st' & E' & _ & SF & Cf & Ct).
  rewrite Es in E'; injection E' as <-.
  destruct SF as (_ & _ & _ & Mo & Mv).
  split; [exact Mo|]. split; [exact Mv|]. split; [|lia].
  intros A _; destruct (JJY.confident X); [now apply Ct|].
  rewrite (Cf eq_refl); exact A.
Qed.

Lemma accept_spec (allm go : bool) (mods : list Z) (m : Z) :
  (if allm then Tracker.minute_found mods (Some m) else Ok false) = Ok go ->
  In m mods ->
  (allm = true ->
   (go = true <->
    ((2 <= length mods)%nat /\ forall x, In x mods -> x = m) \/
    3 <= Py.count m mods)) /\
  (allm = false -> go = false).
Proof.
  intros H Hm; destruct allm.
  - destruct (minute_found_spec mods m Hm) as (b & Eb & Hb).
    rewrite Eb in H; injection H as <-; split; [auto|discriminate].
  - injection H as <-; split; [discriminate|reflexivity].
Qed.

Lemma dcf_pass_outcome (timeout : Z) (st3 : DCF77.state) (a : list ascii)
    (hr mn : Z) (o : Tracker.outcome DCF77.state) :
  (go <- DCF77.accept st3 ;;
   if go then utc <- DCF77.utc_of st3 hr mn ;; Ok (Tracker.Locked st3 utc)
   else Ok (if timeout * 60 <? DCF77.elapsed st3
            then Tracker.TimedOut (DCF77.with_tcA st3 a)
            else Tracker.Running (DCF77.with_tcA st3 a))) = Ok o ->
  exists go, DCF77.accept st3 = Ok go /\ Tracker.is_accepted o = go /\
    DCF77.all_matched (Tracker.state_of o) = DCF77.all_matched st3 /\
    DCF77.mods (Tracker.state_of o) = DCF77.mods st3.
Proof.
  intros H; apply bind_ok in H; destruct H as (go & Ea & H).
  exists go; split; [exact Ea|]; destruct go.
  - apply bind_ok in H; destruct H as (utc & _ & H); injection H as <-; auto.
  - injection H as <-; destruct (_ <? _); auto.
Qed.

Lemma msf_pass_outcome (timeout : Z) (st3 : MSF.state) (hr mn : Z)
    (o : Tracker.outcome MSF.state) :
  (go <- MSF.accept st3 ;;
   if go then
     u <- MSF.utc_of st3 hr mn ;;
     match u with
     | None => Ok (Tracker.Stopped st3)
     | Some utc => Ok (Tracker.Locked st3 utc)
     end
   else Ok (if timeout * 60 <? MSF.elapsed st3
            then Tracker.TimedOut st3 else Tracker.Running st3)) = Ok o ->
  exists go, MSF.accept st3 = Ok go /\ Tracker.is_accepted o = go /\
    Tracker.state_of o = st3.
Proof.
  intros H; apply bind_ok in H; destruct H as (go & Ea & H).
  exists go; split; [exact Ea|]; destruct go.
  - apply bind_ok in H; destruct H as ([u|] & _ & H); injection H as <-; auto.
  - injection H as <-; destruct (_ <? _); auto.
Qed.

Lemma jjy_pass_outcome (timeout : Z) (st3 : JJY.state) (hr mn : Z)
    (o : Tracker.outcome JJY.state) :
  (go <- JJY.accept st3 ;;
   if go then utc <- JJY.utc_of st3 hr mn ;; Ok (Tracker.Locked st3 utc)
   else Ok (if timeout * 60 <? JJY.elapsed st3
            then Tracker.TimedOut st3 else Tracker.Running st3)) = Ok o ->
  exists go, JJY.accept st3 = Ok go /\ Tracker.is_accepted o = go /\
    Tracker.state_of o = st3.
Proof.
  intros H; apply bind_ok in H; destruct H as (go & Ea & H).
  exists go; split; [exact Ea|]; destruct go.
  - apply bind_ok in H; destruct H as (utc & _ & H); injection H as <-; auto.
  - injection H as <-; destruct (_ <? _); auto.
Qed.

(** C2, as the code has it. In a pass that decodes hour and minute in
    range, the value [m] is appended to the projected history; when all
    match flags stand at the acceptance test (the state of the outcome), the
    pass accepts exactly when the history has at least two entries and all
    its entries equal [m], or [m] occurs at least three times in it; when
    a flag is down, it does not accept. The flags stand at the test when
    they stood before the pass and [m] is at least 5; they are all down
    when [m] is below 5. For the three protocols. *)
Theorem minute_acceptance (timeout : Z) :
  (forall st s o hr mn,
      DCF77.reachable timeout st -> DCF77.step timeout st s = Ok o ->
      DCF77.heard st s = Ok (Some (hr, mn)) -> hr < 24 -> mn < 60 ->
      let m := hr * 60 + mn in
      let st' := Tracker.state_of o in
      DCF77.mods st' = Tracker.project (DCF77.mods st) (DCF77.elapsed st + 1) m /\
      (DCF77.all_matched st' = true ->
       (Tracker.is_accepted o = true <->
        ((2 <= length (DCF77.mods st'))%nat /\
         forall x, In x (DCF77.mods st') -> x = m) \/
        3 <= Py.count m (DCF77.mods st'))) /\
      (DCF77.all_matched st' = false -> Tracker.is_accepted o = false) /\
      (DCF77.all_matched st = true -> 5 <= m -> DCF77.all_matched st' = true) /\
      (m < 5 -> DCF77.all_matched st' = false)) /\
  (forall st s o hr mn,
      MSF.reachable timeout st -> MSF.step timeout st s = Ok o ->
      MSF.heard st s = Ok (Some (hr, mn)) -> hr < 24 -> mn < 60 ->
      let m := hr * 60 + mn in
      let st' := Tracker.state_of o in
      MSF.mods st' = Tracker.project (MSF.mods st) (MSF.elapsed st + 1) m /\
      (MSF.all_matched st' = true ->
       (Tracker.is_accepted o = true <->
        ((2 <= length (MSF.mods st'))%nat /\
         forall x, In x (MSF.mods st') -> x = m) \/
        3 <= Py.count m (MSF.mods st'))) /\
      (MSF.all_matched st' = false -> Tracker.is_accepted o = false) /\
      (MSF.all_matched st = true -> 5 <= m -> MSF.all_matched st' = true) /\
      (m < 5 -> MSF.all_matched st' = false)) /\
  (forall st s o hr mn,
      JJY.reachable timeout st -> JJY.step timeout st s = Ok o ->
      JJY.heard st s = Ok (Some (hr, mn)) -> hr < 24 -> mn < 60 ->
      let m := hr * 60 + mn in
      let st' := Tracker.state_of o in
      JJY.mods st' = Tracker.project (JJY.mods st) (JJY.elapsed st + 1) m /\
      (JJY.all_matched st' = true ->
       (Tracker.is_accepted o = true <->
        ((2 <= length (JJY.mods st'))%nat /\
         forall x, In x (JJY.mods st') -> x = m) \/
        3 <= Py.count m (JJY.mods st'))) /\
      (JJY.all_matched st' = false -> Tracker.is_accepted o = false) /\
      (JJY.all_matched st = true -> 5 <= m -> JJY.all_matched st' = true) /\
      (m < 5 -> JJY.all_matched st' = false)).
Proof.
  split; [|split]; intros st s o hr mn R Hs H Hh Hm m st'.
  - destruct (dcf_step_heard timeout st s hr mn (dcf_reachable_ok _ _ R) H)
      as (st2 & st3 & a & F2 & Gy & Gm & Gd & Gs & Mo & El & Es & _ & Eq).
    destruct (dcf_seen st2 st3 hr mn F2 Hh Hm Es) as (M3 & V3 & A5 & A0).
    rewrite Eq in Hs.
    destruct (dcf_pass_outcome _ _ _ _ _ _ Hs) as (go & Ea & Eg & Al & Mods).
    unfold DCF77.accept in Ea; rewrite V3 in Ea.
    assert (In3 : In m (DCF77.mods st3)) by (rewrite M3; apply project_last).
    destruct (accept_spec _ _ _ _ Ea In3) as (Yes & No).
    subst st'; rewrite Al, Mods, Eg.
    split; [now rewrite M3, Mo, El|].
    split; [exact Yes|]. split; [exact No|]. split; [|exact A0].
    intros A; apply A5; unfold DCF77.all_matched in *.
    apply all4 in A; destruct A as (A1 & A2 & A3 & A4).
    now rewrite (field_step_matched _ _ Gy A1), (field_step_matched _ _ Gm A2),
      (field_step_matched _ _ Gd A3), (field_step_matched _ _ Gs A4), A1, A2, A3, A4.
  - destruct (msf_step_heard timeout st s hr mn (msf_reachable_ok _ _ R) H)
      as (st2 & st3 & F2 & Gy & Gm & Gd & Mo & El & Es & _ & Eq).
    destruct (msf_seen st2 st3 hr mn F2 Hh Hm Es) as (M3 & V3 & A5 & A0).
    rewrite Eq in Hs.
    destruct (msf_pass_outcome _ _ _ _ _ Hs) as (go & Ea & Eg & St).
    unfold MSF.accept in Ea; rewrite V3 in Ea.
    assert (In3 : In m (MSF.mods st3)) by (rewrite M3; apply project_last).
    destruct (accept_spec _ _ _ _ Ea In3) as (Yes & No).
    subst st'; rewrite St, Eg.
    split; [now rewrite M3, Mo, El|].
    split; [exact Yes|]. split; [exact No|]. split; [|exact A0].
    intros A; apply A5; unfold MSF.all_matched in *.
    apply all3 in A; destruct A as (A1 & A2 & A3).
    now rewrite (field_step_matched _ _ Gy A1), (field_step_matched _ _ Gm A2),
      (field_step_matched _ _ Gd A3), A1, A2, A3.
  - destruct (jjy_step_heard timeout st s hr mn (jjy_reachable_ok _ _ R) H)
      as (st2 & st3 & F2 & Gy & Gd & Mo & El & Es & _ & Eq).
    destruct (jjy_seen st2 st3 hr mn F2 Hh Hm Es) as (M3 & V3 & A5 & A0).
    rewrite Eq in Hs.
    destruct (jjy_pass_outcome _ _ _ _ _ Hs) as (go & Ea & Eg & St).
    unfold JJY.accept in Ea; rewrite V3 in Ea.
    assert (In3 : In m (JJY.mods st3)) by (rewrite M3; apply project_last).
    destruct (accept_spec _ _ _ _ Ea In3) as (Yes & No).
    subst st'; rewrite St, Eg.
    split; [now rewrite M3, Mo, El|].
    split; [exact Yes|]. split; [exact No|]. split; [|exact A0].
    intros A; apply A5; unfold JJY.all_matched in *.
    apply andb_prop in A; destruct A as (A1 & A2).
    now rewrite (field_step_matched _ _ Gy A1), (field_step_matched _ _ Gd A2), A1, A2.
Qed.

(** C2 as stated fails: with all four flags raised, the DCF77 loop hears
    01:31 after 01:30 heard twice; the history is then [92; 91; 91], its
    last two entries agree, and the value is not accepted (the entries are
    not all equal and 91 occurs twice). *)
Lemma dcf77_last_two_agree_not_accepted :
  let before :=
    DCF77.after 15 (DCF77.init None)
      (Signal.dcf77_samples
         (Signal.dcf77_minute 24 10 27 7 1 30 true false
          ++ Signal.dcf77_minute 24 10 27 7 1 30 true false
          ++ firstn 59 (Signal.dcf77_minute 24 10 27 7 1 31 true false))) in
  DCF77.all_matched before = true /\
  DCF77.heard before (DCF77.second false false) = Ok (Some (1, 31)) /\
  exists st',
    DCF77.step 15 before (DCF77.second false false) = Ok (Tracker.Running st') /\
    DCF77.all_matched st' = true /\
    DCF77.mods st' = [92; 91; 91] /\
    Py.last_n 2 (DCF77.mods st') = [91; 91] /\
    Tracker.minute_found (DCF77.mods st') (Some 91) = Ok false.
Proof.
  vm_compute; split; [reflexivity|]; split; [reflexivity|].
  eexists; repeat split; reflexivity.
Qed.

(** ** Time-out *)

Lemma in_last_n {A} (x : A) (n : nat) (l : list A) :
  In x (Py.last_n n l) -> In x l.
Proof.
  unfold Py.last_n; intros H.
  rewrite <- (firstn_skipn (length l - n) l); apply in_or_app; now right.
Qed.

Lemma endswith_in (buf suffix : list ascii) (c : ascii) :
  Str.endswith buf suffix = true -> In c suffix -> In c buf.
Proof.
  unfold Str.endswith.
  destruct (list_eq_dec ascii_dec _ suffix) as [E|]; [|discriminate].
  intros _ H; rewrite <- E in H; eapply in_last_n; eauto.
Qed.

Lemma no_ones_push (buf : list ascii) :
  Str.no_ones buf -> Str.no_ones (Str.slice_from buf 1 ++ ["0"%char]).
Proof.
  unfold Str.no_ones; intros H I; rewrite slice_from_1 in I.
  apply in_app_or in I; destruct I as [I|[I|[]]]; [|discriminate].
  apply H; destruct buf; [exact I|now right].
Qed.

Lemma no_ones_blank (n : nat) : Str.no_ones (repeat Str.blank n).
Proof. intros H; apply repeat_spec in H; discriminate. Qed.

Lemma dcf_silent_step (timeout : Z) (st : DCF77.state) (s : list bool) :
  Str.no_ones (DCF77.tcB st) -> DCF77.silent s = true ->
  exists st1,
    DCF77.elapsed st1 = DCF77.elapsed st + 1 /\ Str.no_ones (DCF77.tcB st1) /\
    DCF77.step timeout st s =
      Ok (if timeout * 60 <? DCF77.elapsed st + 1
          then Tracker.TimedOut st1 else Tracker.Running st1).
Proof.
  intros N H; unfold DCF77.silent in H; unfold DCF77.step, DCF77.shift.
  destruct (Tracker.classify (Str.slice s DCF77.A1 DCF77.A2)) as [a|]; [|discriminate].
  destruct (Tracker.classify (Str.slice s DCF77.B1 DCF77.B2)) as [b|]; [|discriminate].
  destruct (list_eq_dec ascii_dec a ["0"%char]) as [->|]; [|discriminate].
  destruct (list_eq_dec ascii_dec b ["0"%char]) as [->|]; [|discriminate].
  cbn [bind]; eexists; split; [|split]; cycle 2.
  - destruct (Str.endswith _ DCF77.marker) eqn:E; [|cbn [bind]; dcf_proj; destruct (_ <? _); reflexivity].
    exfalso; apply (no_ones_push _ N).
    apply (endswith_in _ _ _ E); right; now left.
  - reflexivity.
  - dcf_proj; now apply no_ones_push.
Qed.

Lemma msf_silent_step (timeout : Z) (st : MSF.state) (s : list bool) :
  Str.no_ones (MSF.tcA st) -> MSF.silent s = true ->
  exists st1,
    MSF.elapsed st1 = MSF.elapsed st + 1 /\ Str.no_ones (MSF.tcA st1) /\
    MSF.step timeout st s =
      Ok (if timeout * 60 <? MSF.elapsed st + 1
          then Tracker.TimedOut st1 else Tracker.Running st1).
Proof.
  intros N H; unfold MSF.silent in H; unfold MSF.step, MSF.shift.
  destruct (Tracker.classify (Str.slice s MSF.A1 MSF.A2)) as [a|]; [|discriminate].
  destruct (Tracker.classify (Str.slice s MSF.B1 MSF.B2)) as [b|]; [|discriminate].
  destruct (list_eq_dec ascii_dec a ["0"%char]) as [->|]; [|discriminate].
  destruct (list_eq_dec ascii_dec b ["0"%char]) as [->|]; [|discriminate].
  cbn [bind]; eexists; split; [|split]; cycle 2.
  - destruct (Str.endswith _ MSF.marker) eqn:E; [|cbn [bind]; msf_proj; destruct (_ <? _); reflexivity].
    exfalso; apply (no_ones_push _ N).
    apply (endswith_in _ _ _ E); right; now left.
  - reflexivity.
  - msf_proj; now apply no_ones_push.
Qed.

Lemma jjy_silent_step (timeout : Z) (st : JJY.state) (s : list bool) :
  Str.no_ones (JJY.tcB st) -> JJY.silent s = true ->
  exists st1,
    JJY.elapsed st1 = JJY.elapsed st + 1 /\ Str.no_ones (JJY.tcB st1) /\
    JJY.step timeout st s =
      Ok (if timeout * 60 <? JJY.elapsed st + 1
          then Tracker.TimedOut st1 else Tracker.Running st1).
Proof.
  intros N H; unfold JJY.silent in H; unfold JJY.step, JJY.shift.
  destruct (Tracker.classify (Str.slice s JJY.A1 JJY.A2)) as [a|]; [|discriminate].
  destruct (Tracker.classify (Str.slice s JJY.B1 JJY.B2)) as [b|]; [|discriminate].
  destruct (list_eq_dec ascii_dec a ["0"%char]) as [->|]; [|discriminate].
  destruct (list_eq_dec ascii_dec b ["0"%char]) as [->|]; [|discriminate].
  cbn [bind]; eexists; split; [|split]; cycle 2.
  - destruct (Str.endswith _ JJY.marker) eqn:E; [|cbn [bind]; jjy_proj; destruct (_ <? _); reflexivity].
    exfalso; apply (no_ones_push _ N).
    apply (endswith_in _ _ _ E); right; right; now left.
  - reflexivity.
  - jjy_proj; now apply no_ones_push.
Qed.

Lemma dcf_run_timed_out (timeout : Z) (inputs : list (list bool))
    (st st' : DCF77.state) :
  0 <= timeout -> DCF77.state_ok st -> DCF77.elapsed st <= timeout * 60 ->
  DCF77.run timeout st inputs = Ok (Tracker.TimedOut st') ->
  DCF77.elapsed st' = timeout * 60 + 1 /\
  timeout * 60 + 1 <= DCF77.elapsed st + Z.of_nat (length inputs).
Proof.
  intros HT; revert st; induction inputs as [|s rest IH]; intros st Hs B H;
    simpl in H; [discriminate|].
  apply bind_ok in H; destruct H as (o & Eo & H).
  pose proof Hs as (_ & _ & E0).
  destruct o as [x|x u|x|x]; try discriminate.
  - destruct (dcf_step_running _ _ _ _ Hs Eo) as (Hx & Bx & Ex).
    destruct (IH x Hx Bx H) as (E' & L'); simpl length; split; [exact E'|lia].
  - injection H as <-.
    destruct (dcf_step_timed_out _ _ _ _ Hs Eo) as (G & Ex).
    simpl length; lia.
Qed.

Lemma msf_run_timed_out (timeout : Z) (inputs : list (list bool))
    (st st' : MSF.state) :
  0 <= timeout -> MSF.state_ok st -> MSF.elapsed st <= timeout * 60 ->
  MSF.run timeout st inputs = Ok (Tracker.TimedOut st') ->
  MSF.elapsed st' = timeout * 60 + 1 /\
  timeout * 60 + 1 <= MSF.elapsed st + Z.of_nat (length inputs).
Proof.
  intros HT; revert st; induction inputs as [|s rest IH]; intros st Hs B H;
    simpl in H; [discriminate|].
  apply bind_ok in H; destruct H as (o & Eo & H).
  pose proof Hs as (_ & _ & E0).
  destruct o as [x|x u|x|x]; try discriminate.
  - destruct (msf_step_running _ _ _ _ Hs Eo) as (Hx & Bx & Ex).
    destruct (IH x Hx Bx H) as (E' & L'); simpl length; split; [exact E'|lia].
  - injection H as <-.
    destruct (msf_step_timed_out _ _ _ _ Hs Eo) as (G & Ex).
    simpl length; lia.
Qed.

Lemma jjy_run_timed_out (timeout : Z) (inputs : list (list bool))
    (st st' : JJY.state) :
  0 <= timeout -> JJY.state_ok st -> JJY.elapsed st <= timeout * 60 ->
  JJY.run timeout st inputs = Ok (Tracker.TimedOut st') ->
  JJY.elapsed st' = timeout * 60 + 1 /\
  timeout * 60 + 1 <= JJY.elapsed st + Z.of_nat (length inputs).
Proof.
  intros HT; revert st; induction inputs as [|s rest IH]; intros st Hs B H;
    simpl in H; [discriminate|].
  apply bind_ok in H; destruct H as (o & Eo & H).
  pose proof Hs as (_ & _ & E0).
  destruct o as [x|x u|x|x]; try discriminate.
  - destruct (jjy_step_running _ _ _ _ Hs Eo) as (Hx & Bx & Ex).
    destruct (IH x Hx Bx H) as (E' & L'); simpl length; split; [exact E'|lia].
  - injection H as <-.
    destruct (jjy_step_timed_out _ _ _ _ Hs Eo) as (G & Ex).
    simpl length; lia.
Qed.

Lemma dcf_deaf_step (timeout : Z) (st : DCF77.state) (s : list bool) :
  DCF77.state_ok st -> DCF77.heard st s = Ok None ->
  exists st1,
    DCF77.state_ok st1 /\ DCF77.elapsed st1 = DCF77.elapsed st + 1 /\
    DCF77.step timeout st s =
      Ok (if timeout * 60 <? DCF77.elapsed st + 1
          then Tracker.TimedOut st1 else Tracker.Running st1).
Proof.
  intros (Bu & Fi & El) H; unfold DCF77.heard in H.
  apply bind_ok in H; destruct H as (st1 & E1 & H).
  destruct (dcf_shift_spec _ _ _ E1) as (B1 & L1 & Y1 & M1 & D1 & S1 & _).
  specialize (B1 Bu).
  assert (F1 : DCF77.fields_ok st1)
    by (unfold DCF77.fields_ok; rewrite Y1, M1, D1, S1; exact Fi).
  unfold DCF77.step; rewrite E1; cbn [bind].
  destruct (Str.endswith (DCF77.tcB st1) DCF77.marker).
  2:{ exists st1; cbn [bind]; rewrite L1.
      split; [split; [exact B1|split; [exact F1|lia]]|].
      split; [reflexivity|destruct (_ <? _); reflexivity]. }
  destruct B1 as (k & FA & FB).
  destruct (dcf_decode_cases st1 _ FA F1) as (st2 & t & SF & F2 & _ & _ & _ & _ & Et & Ht); [lia|].
  rewrite H in Et; injection Et as <-; rewrite Ht; cbn [bind].
  destruct SF as (A2 & B2 & E2 & _); dcf_proj.
  exists (DCF77.with_tcA st2 (DCF77.tcA st1)); dcf_proj.
  split; [|split; [lia|rewrite E2, L1; destruct (_ <? _); reflexivity]].
  split; [exists k; dcf_proj; split; [exact FA|rewrite B2; exact FB]|].
  split; [exact F2|dcf_proj; lia].
Qed.

Lemma dcf_deaf_run (timeout : Z) (inputs : list (list bool)) (st : DCF77.state) :
  DCF77.state_ok st -> DCF77.deaf timeout st inputs ->
  DCF77.elapsed st + Z.of_nat (length inputs) <= timeout * 60 ->
  exists st',
    DCF77.run timeout st inputs = Ok (Tracker.Running st') /\
    DCF77.elapsed st' = DCF77.elapsed st + Z.of_nat (length inputs).
Proof.
  revert st; induction inputs as [|s rest IH]; intros st Hs D L.
  - exists st; simpl; split; [reflexivity|lia].
  - inversion D as [|? ? ? Hh Hn]; subst.
    destruct (dcf_deaf_step timeout st s Hs Hh) as (st1 & S1 & E1 & Es).
    simpl length in L.
    replace (timeout * 60 <? DCF77.elapsed st + 1) with false in Es
      by (symmetry; apply Z.ltb_ge; lia).
    simpl DCF77.run; rewrite Es; cbn [bind].
    destruct (IH st1 S1 (Hn _ Es)) as (st' & Er & El); [lia|].
    exists st'; split; [exact Er|simpl length; lia].
Qed.

Lemma dcf_deaf_abort (timeout : Z) (inputs : list (list bool)) (st : DCF77.state) :
  DCF77.state_ok st -> DCF77.deaf timeout st inputs ->
  DCF77.elapsed st <= timeout * 60 ->
  DCF77.elapsed st + Z.of_nat (length inputs) = timeout * 60 + 1 ->
  exists st', DCF77.run timeout st inputs = Ok (Tracker.TimedOut st').
Proof.
  revert st; induction inputs as [|s rest IH]; intros st Hs D B L.
  - simpl in L; lia.
  - inversion D as [|? ? ? Hh Hn]; subst.
    destruct (dcf_deaf_step timeout st s Hs Hh) as (st1 & S1 & E1 & Es).
    simpl length in L; simpl DCF77.run; rewrite Es.
    destruct (Z.ltb_spec (timeout * 60) (DCF77.elapsed st + 1)) as [G|G];
      cbn [bind]; [eauto|].
    apply (IH st1 S1); [|lia|lia].
    apply Hn; rewrite Es.
    replace (timeout * 60 <? DCF77.elapsed st + 1) with false
      by (symmetry; apply Z.ltb_ge; lia).
    reflexivity.
Qed.

Lemma dcf_silent_heard (st : DCF77.state) (s : list bool) :
  Str.no_ones (DCF77.tcB st) -> DCF77.silent s = true ->
  DCF77.heard st s = Ok None.
Proof.
  intros N H; unfold DCF77.silent in H; unfold DCF77.heard, DCF77.shift.
  destruct (Tracker.classify (Str.slice s DCF77.A1 DCF77.A2)) as [a|]; [|discriminate].
  destruct (Tracker.classify (Str.slice s DCF77.B1 DCF77.B2)) as [b|]; [|discriminate].
  destruct (list_eq_dec ascii_dec a ["0"%char]) as [->|]; [|discriminate].
  destruct (list_eq_dec ascii_dec b ["0"%char]) as [->|]; [|discriminate].
  cbn [bind]; dcf_proj.
  destruct (Str.endswith _ DCF77.marker) eqn:E; [|reflexivity].
  exfalso; apply (no_ones_push _ N).
  apply (endswith_in _ _ _ E); right; now left.
Qed.

(** A signal without pulses is one on which no time of day is heard. *)
Lemma dcf_silent_deaf (timeout : Z) (inputs : list (list bool)) (st : DCF77.state) :
  Str.no_ones (DCF77.tcB st) -> forallb DCF77.silent inputs = true ->
  DCF77.deaf timeout st inputs.
Proof.
  revert st; induction inputs as [|s rest IH]; intros st N F; [constructor|].
  simpl in F; apply andb_prop in F; destruct F as [Fs Fr].
  constructor; [now apply dcf_silent_heard|].
  intros st' Es.
  destruct (dcf_silent_step timeout st s N Fs) as (st1 & _ & N1 & E1).
  rewrite E1 in Es; destruct (_ <? _); [discriminate|].
  injection Es as <-; now apply IH.
Qed.

Lemma msf_deaf_step (timeout : Z) (st : MSF.state) (s : list bool) :
  MSF.state_ok st -> MSF.heard st s = Ok None ->
  exists st1,
    MSF.state_ok st1 /\ MSF.elapsed st1 = MSF.elapsed st + 1 /\
    MSF.step timeout st s =
      Ok (if timeout * 60 <? MSF.elapsed st + 1
          then Tracker.TimedOut st1 else Tracker.Running st1).
Proof.
  intros (Bu & Fi & El) H; unfold MSF.heard in H.
  apply bind_ok in H; destruct H as (st1 & E1 & H).
  destruct (msf_shift_spec _ _ _ E1) as (B1 & L1 & Y1 & M1 & D1 & _).
  specialize (B1 Bu).
  assert (F1 : MSF.fields_ok st1)
    by (unfold MSF.fields_ok; rewrite Y1, M1, D1; exact Fi).
  unfold MSF.step; rewrite E1; cbn [bind].
  destruct (Str.endswith (MSF.tcA st1) MSF.marker).
  2:{ exists st1; cbn [bind]; rewrite L1.
      split; [split; [exact B1|split; [exact F1|lia]]|].
      split; [reflexivity|destruct (_ <? _); reflexivity]. }
  destruct B1 as (k & FA & FB).
  destruct (msf_decode_cases st1 _ FA FB F1) as (st2 & t & SF & F2 & _ & _ & _ & Et & Ht); [lia|].
  rewrite H in Et; injection Et as <-; rewrite Ht; cbn [bind].
  destruct SF as (A2 & B2 & E2 & _); msf_proj.
  exists st2.
  split; [|split; [lia|rewrite E2, L1; destruct (_ <? _); reflexivity]].
  split; [exists k; rewrite A2, B2; split; assumption|].
  split; [exact F2|lia].
Qed.

Lemma msf_deaf_run (timeout : Z) (inputs : list (list bool)) (st : MSF.state) :
  MSF.state_ok st -> MSF.deaf timeout st inputs ->
  MSF.elapsed st + Z.of_nat (length inputs) <= timeout * 60 ->
  exists st',
    MSF.run timeout st inputs = Ok (Tracker.Running st') /\
    MSF.elapsed st' = MSF.elapsed st + Z.of_nat (length inputs).
Proof.
  revert st; induction inputs as [|s rest IH]; intros st Hs D L.
  - exists st; simpl; split; [reflexivity|lia].
  - inversion D as [|? ? ? Hh Hn]; subst.
    destruct (msf_deaf_step timeout st s Hs Hh) as (st1 & S1 & E1 & Es).
    simpl length in L.
    replace (timeout * 60 <? MSF.elapsed st + 1) with false in Es
      by (symmetry; apply Z.ltb_ge; lia).
    simpl MSF.run; rewrite Es; cbn [bind].
    destruct (IH st1 S1 (Hn _ Es)) as (st' & Er & El); [lia|].
    exists st'; split; [exact Er|simpl length; lia].
Qed.

Lemma msf_deaf_abort (timeout : Z) (inputs : list (list bool)) (st : MSF.state) :
  MSF.state_ok st -> MSF.deaf timeout st inputs ->
  MSF.elapsed st <= timeout * 60 ->
  MSF.elapsed st + Z.of_nat (length inputs) = timeout * 60 + 1 ->
  exists st', MSF.run timeout st inputs = Ok (Tracker.TimedOut st').
Proof.
  revert st; induction inputs as [|s rest IH]; intros st Hs D B L.
  - simpl in L; lia.
  - inversion D as [|? ? ? Hh Hn]; subst.
    destruct (msf_deaf_step timeout st s Hs Hh) as (st1 & S1 & E1 & Es).
    simpl length in L; simpl MSF.run; rewrite Es.
    destruct (Z.ltb_spec (timeout * 60) (MSF.elapsed st + 1)) as [G|G];
      cbn [bind]; [eauto|].
    apply (IH st1 S1); [|lia|lia].
    apply Hn; rewrite Es.
    replace (timeout * 60 <? MSF.elapsed st + 1) with false
      by (symmetry; apply Z.ltb_ge; lia).
    reflexivity.
Qed.

Lemma msf_silent_heard (st : MSF.state) (s : list bool) :
  Str.no_ones (MSF.tcA st) -> MSF.silent s = true ->
  MSF.heard st s = Ok None.
Proof.
  intros N H; unfold MSF.silent in H; unfold MSF.heard, MSF.shift.
  destruct (Tracker.classify (Str.slice s MSF.A1 MSF.A2)) as [a|]; [|discriminate].
  destruct (Tracker.classify (Str.slice s MSF.B1 MSF.B2)) as [b|]; [|discriminate].
  destruct (list_eq_dec ascii_dec a ["0"%char]) as [->|]; [|discriminate].
  destruct (list_eq_dec ascii_dec b ["0"%char]) as [->|]; [|discriminate].
  cbn [bind]; msf_proj.
  destruct (Str.endswith _ MSF.marker) eqn:E; [|reflexivity].
  exfalso; apply (no_ones_push _ N).
  apply (endswith_in _ _ _ E); right; now left.
Qed.

(** A signal without pulses is one on which no time of day is heard. *)
Lemma msf_silent_deaf (timeout : Z) (inputs : list (list bool)) (st : MSF.state) :
  Str.no_ones (MSF.tcA st) -> forallb MSF.silent inputs = true ->
  MSF.deaf timeout st inputs.
Proof.
  revert st; induction inputs as [|s rest IH]; intros st N F; [constructor|].
  simpl in F; apply andb_prop in F; destruct F as [Fs Fr].
  constructor; [now apply msf_silent_heard|].
  intros st' Es.
  destruct (msf_silent_step timeout st s N Fs) as (st1 & _ & N1 & E1).
  rewrite E1 in Es; destruct (_ <? _); [discriminate|].
  injection Es as <-; now apply IH.
Qed.

Lemma jjy_deaf_step (timeout : Z) (st : JJY.state) (s : list bool) :
  JJY.state_ok st -> JJY.heard st s = Ok None ->
  exists st1,
    JJY.state_ok st1 /\ JJY.elapsed st1 = JJY.elapsed st + 1 /\
    JJY.step timeout st s =
      Ok (if timeout * 60 <? JJY.elapsed st + 1
          then Tracker.TimedOut st1 else Tracker.Running st1).
Proof.
  intros (Bu & Fi & El) H; unfold JJY.heard in H.
  apply bind_ok in H; destruct H as (st1 & E1 & H).
  destruct (jjy_shift_spec _ _ _ E1) as (B1 & L1 & Y1 & D1 & _).
  specialize (B1 Bu).
  assert (F1 : JJY.fields_ok st1)
    by (unfold JJY.fields_ok; rewrite Y1, D1; exact Fi).
  unfold JJY.step; rewrite E1; cbn [bind].
  destruct (Str.endswith (JJY.tcB st1) JJY.marker).
  2:{ exists st1; cbn [bind]; rewrite L1.
      split; [split; [exact B1|split; [exact F1|lia]]|].
      split; [reflexivity|destruct (_ <? _); reflexivity]. }
  destruct B1 as (k & FA & FB).
  destruct (jjy_decode_cases st1 _ FA F1) as (st2 & t & SF & F2 & _ & _ & Et & Ht); [lia|].
  rewrite H in Et; injection Et as <-; rewrite Ht; cbn [bind].
  destruct SF as (A2 & B2 & E2 & _); jjy_proj.
  exists st2.
  split; [|split; [lia|rewrite E2, L1; destruct (_ <? _); reflexivity]].
  split; [exists k; rewrite A2, B2; split; assumption|].
  split; [exact F2|lia].
Qed.

Lemma jjy_deaf_run (timeout : Z) (inputs : list (list bool)) (st : JJY.state) :
  JJY.state_ok st -> JJY.deaf timeout st inputs ->
  JJY.elapsed st + Z.of_nat (length inputs) <= timeout * 60 ->
  exists st',
    JJY.run timeout st inputs = Ok (Tracker.Running st') /\
    JJY.elapsed st' = JJY.elapsed st + Z.of_nat (length inputs).
Proof.
  revert st; induction inputs as [|s rest IH]; intros st Hs D L.
  - exists st; simpl; split; [reflexivity|lia].
  - inversion D as [|? ? ? Hh Hn]; subst.
    destruct (jjy_deaf_step timeout st s Hs Hh) as (st1 & S1 & E1 & Es).
    simpl length in L.
    replace (timeout * 60 <? JJY.elapsed st + 1) with false in Es
      by (symmetry; apply Z.ltb_ge; lia).
    simpl JJY.run; rewrite Es; cbn [bind].
    destruct (IH st1 S1 (Hn _ Es)) as (st' & Er & El); [lia|].
    exists st'; split; [exact Er|simpl length; lia].
Qed.

Lemma jjy_deaf_abort (timeout : Z) (inputs : list (list bool)) (st : JJY.state) :
  JJY.state_ok st -> JJY.deaf timeout st inputs ->
  JJY.elapsed st <= timeout * 60 ->
  JJY.elapsed st + Z.of_nat (length inputs) = timeout * 60 + 1 ->
  exists st', JJY.run timeout st inputs = Ok (Tracker.TimedOut st').
Proof.
  revert st; induction inputs as [|s rest IH]; intros st Hs D B L.
  - simpl in L; lia.
  - inversion D as [|? ? ? Hh Hn]; subst.
    destruct (jjy_deaf_step timeout st s Hs Hh) as (st1 & S1 & E1 & Es).
    simpl length in L; simpl JJY.run; rewrite Es.
    destruct (Z.ltb_spec (timeout * 60) (JJY.elapsed st + 1)) as [G|G];
      cbn [bind]; [eauto|].
    apply (IH st1 S1); [|lia|lia].
    apply Hn; rewrite Es.
    replace (timeout * 60 <? JJY.elapsed st + 1) with false
      by (symmetry; apply Z.ltb_ge; lia).
    reflexivity.
Qed.

Lemma jjy_silent_heard (st : JJY.state) (s : list bool) :
  Str.no_ones (JJY.tcB st) -> JJY.silent s = true ->
  JJY.heard st s = Ok None.
Proof.
  intros N H; unfold JJY.silent in H; unfold JJY.heard, JJY.shift.
  destruct (Tracker.classify (Str.slice s JJY.A1 JJY.A2)) as [a|]; [|discriminate].
  destruct (Tracker.classify (Str.slice s JJY.B1 JJY.B2)) as [b|]; [|discriminate].
  destruct (list_eq_dec ascii_dec a ["0"%char]) as [->|]; [|discriminate].
  destruct (list_eq_dec ascii_dec b ["0"%char]) as [->|]; [|discriminate].
  cbn [bind]; jjy_proj.
  destruct (Str.endswith _ JJY.marker) eqn:E; [|reflexivity].
  exfalso; apply (no_ones_push _ N).
  apply (endswith_in _ _ _ E); right; right; now left.
Qed.

(** A signal without pulses is one on which no time of day is heard. *)
Lemma jjy_silent_deaf (timeout : Z) (inputs : list (list bool)) (st : JJY.state) :
  Str.no_ones (JJY.tcB st) -> forallb JJY.silent inputs = true ->
  JJY.deaf timeout st inputs.
Proof.
  revert st; induction inputs as [|s rest IH]; intros st N F; [constructor|].
  simpl in F; apply andb_prop in F; destruct F as [Fs Fr].
  constructor; [now apply jjy_silent_heard|].
  intros st' Es.
  destruct (jjy_silent_step timeout st s N Fs) as (st1 & _ & N1 & E1).
  rewrite E1 in Es; destruct (_ <? _); [discriminate|].
  injection Es as <-; now apply IH.
Qed.

(** C5, as the code has it. The counter compared with [timeout*60] is the
    one that is set back to 0 whenever a minute of the day is decoded, so
    it counts the seconds since the last such decode, not the seconds of the
    run. For a time-out of [timeout >= 0] minutes and each protocol:
    a run that ends in the abort has lasted more than [timeout*60] sampled
    seconds and the counter stands at [timeout*60 + 1] - never earlier;
    on a signal on which no time of day is heard (markers may be seen and
    date fields decoded) the loop is still running after every
    [n <= timeout*60] seconds and aborts at second [timeout*60 + 1]; a
    signal without pulses is such a signal. *)
Theorem timeout_rule (timeout : Z) :
  0 <= timeout ->
  (forall seed inputs st',
      DCF77.run timeout (DCF77.init seed) inputs = Ok (Tracker.TimedOut st') ->
      timeout * 60 < Z.of_nat (length inputs) /\
      DCF77.elapsed st' = timeout * 60 + 1) /\
  (forall seed inputs,
      DCF77.deaf timeout (DCF77.init seed) inputs ->
      (Z.of_nat (length inputs) <= timeout * 60 ->
       exists st, DCF77.run timeout (DCF77.init seed) inputs = Ok (Tracker.Running st) /\
                  DCF77.elapsed st = Z.of_nat (length inputs)) /\
      (Z.of_nat (length inputs) = timeout * 60 + 1 ->
       exists st', DCF77.run timeout (DCF77.init seed) inputs
                   = Ok (Tracker.TimedOut st'))) /\
  (forall seed inputs,
      forallb DCF77.silent inputs = true ->
      DCF77.deaf timeout (DCF77.init seed) inputs) /\
  (forall seed inputs st',
      MSF.run timeout (MSF.init seed) inputs = Ok (Tracker.TimedOut st') ->
      timeout * 60 < Z.of_nat (length inputs) /\
      MSF.elapsed st' = timeout * 60 + 1) /\
  (forall seed inputs,
      MSF.deaf timeout (MSF.init seed) inputs ->
      (Z.of_nat (length inputs) <= timeout * 60 ->
       exists st, MSF.run timeout (MSF.init seed) inputs = Ok (Tracker.Running st) /\
                  MSF.elapsed st = Z.of_nat (length inputs)) /\
      (Z.of_nat (length inputs) = timeout * 60 + 1 ->
       exists st', MSF.run timeout (MSF.init seed) inputs
                   = Ok (Tracker.TimedOut st'))) /\
  (forall seed inputs,
      forallb MSF.silent inputs = true ->
      MSF.deaf timeout (MSF.init seed) inputs) /\
  (forall seed inputs st',
      JJY.run timeout (JJY.init seed) inputs = Ok (Tracker.TimedOut st') ->
      timeout * 60 < Z.of_nat (length inputs) /\
      JJY.elapsed st' = timeout * 60 + 1) /\
  (forall seed inputs,
      JJY.deaf timeout (JJY.init seed) inputs ->
      (Z.of_nat (length inputs) <= timeout * 60 ->
       exists st, JJY.run timeout (JJY.init seed) inputs = Ok (Tracker.Running st) /\
                  JJY.elapsed st = Z.of_nat (length inputs)) /\
      (Z.of_nat (length inputs) = timeout * 60 + 1 ->
       exists st', JJY.run timeout (JJY.init seed) inputs
                   = Ok (Tracker.TimedOut st'))) /\
  (forall seed inputs,
      forallb JJY.silent inputs = true ->
      JJY.deaf timeout (JJY.init seed) inputs).
Proof.
  intros HT; repeat apply conj.
  { intros seed inputs st' H.
    destruct (dcf_run_timed_out timeout inputs _ st' HT (dcf_init_ok seed)) as (E & L);
      [destruct seed; simpl; lia|exact H|].
    split; [|exact E].
    replace (DCF77.elapsed (DCF77.init seed)) with 0 in L by (destruct seed; reflexivity).
    lia. }
  { intros seed inputs D.
    assert (E0 : DCF77.elapsed (DCF77.init seed) = 0) by (destruct seed; reflexivity).
    split; intros L.
    - destruct (dcf_deaf_run timeout inputs _ (dcf_init_ok seed) D) as (st & Er & El);
        [rewrite E0; lia|].
      exists st; split; [exact Er|rewrite El, E0; lia].
    - apply dcf_deaf_abort; auto using dcf_init_ok; rewrite E0; lia. }
  { intros seed inputs F; apply dcf_silent_deaf; [|exact F].
    destruct seed; apply no_ones_blank. }
  { intros seed inputs st' H.
    destruct (msf_run_timed_out timeout inputs _ st' HT (msf_init_ok seed)) as (E & L);
      [destruct seed; simpl; lia|exact H|].
    split; [|exact E].
    replace (MSF.elapsed (MSF.init seed)) with 0 in L by (destruct seed; reflexivity).
    lia. }
  { intros seed inputs D.
    assert (E0 : MSF.elapsed (MSF.init seed) = 0) by (destruct seed; reflexivity).
    split; intros L.
    - destruct (msf_deaf_run timeout inputs _ (msf_init_ok seed) D) as (st & Er & El);
        [rewrite E0; lia|].
      exists st; split; [exact Er|rewrite El, E0; lia].
    - apply msf_deaf_abort; auto using msf_init_ok; rewrite E0; lia. }
  { intros seed inputs F; apply msf_silent_deaf; [|exact F].
    destruct seed; apply no_ones_blank. }
  { intros seed inputs st' H.
    destruct (jjy_run_timed_out timeout inputs _ st' HT (jjy_init_ok seed)) as (E & L);
      [destruct seed; simpl; lia|exact H|].
    split; [|exact E].
    replace (JJY.elapsed (JJY.init seed)) with 0 in L by (destruct seed; reflexivity).
    lia. }
  { intros seed inputs D.
    assert (E0 : JJY.elapsed (JJY.init seed) = 0) by (destruct seed; reflexivity).
    split; intros L.
    - destruct (jjy_deaf_run timeout inputs _ (jjy_init_ok seed) D) as (st & Er & El);
        [rewrite E0; lia|].
      exists st; split; [exact Er|rewrite El, E0; lia].
    - apply jjy_deaf_abort; auto using jjy_init_ok; rewrite E0; lia. }
  { intros seed inputs F; apply jjy_silent_deaf; [|exact F].
    destruct seed; apply no_ones_blank. }
Qed.

Lemma timeout_rule_witness :
  0 <= 15 /\
  exists st',
    DCF77.run 15 (DCF77.init None) (repeat (DCF77.second false false) 901)
    = Ok (Tracker.TimedOut st').
Proof.
  split; [lia|].
  destruct (timeout_rule 15) as (_ & D & S & _); [lia|].
  apply (D None (repeat (DCF77.second false false) 901)).
  - apply S; vm_compute; reflexivity.
  - vm_compute; reflexivity.
Defined.

(** C5 as stated fails: seventeen minutes (1020 s) of a DCF77 signal whose
    time of day decodes every minute while the date parity never passes;
    the loop has neither set the clock nor aborted. *)
Lemma dcf77_runs_past_timeout :
  let inputs :=
    Signal.dcf77_samples
      (flat_map (fun k => Signal.dcf77_minute 24 10 27 7 1 (30 + Z.of_nat k) true true)
                (seq 0 17)) in
  length inputs = 1020%nat /\
  exists st,
    DCF77.run 15 (DCF77.init None) inputs = Ok (Tracker.Running st) /\
    DCF77.all_matched st = false /\
    DCF77.elapsed st = 0 /\
    DCF77.mods st = [106; 106; 106; 106; 106].
Proof.
  vm_compute; split; [reflexivity|].
  eexists; repeat split; reflexivity.
Qed.

(** ** The repeated hour of MSF *)

Lemma msf_window_of_repeated_hour (year mn : Z) :
  0 <= mn < 60 ->
  MSF.back year - 7200
  < Time.mktime year 10 (31 - (5 * year / 4 + 1) mod 7) 1 mn 0
  < MSF.back year.
Proof. intros H; unfold MSF.back, Time.mktime; lia. Qed.

Lemma msf_utc_cases (st : MSF.state) (hr mn : Z) (u : option Z) :
  MSF.utc_of st hr mn = Ok u ->
  exists year month day,
    Tracker.val (MSF.year_f st) = Some year /\
    Tracker.val (MSF.month_f st) = Some month /\
    Tracker.val (MSF.day_f st) = Some day /\
    let t := Time.mktime year month day hr mn 0 in
    (MSF.back year - 7200 < t < MSF.back year -> u = None) /\
    (~ (MSF.back year - 7200 < t < MSF.back year) ->
     u = Some (t - (if (MSF.fwd year <=? t) && (t <? MSF.back year)
                    then 3600 else 0))).
Proof.
  unfold MSF.utc_of; intros H.
  destruct (Tracker.val (MSF.year_f st)) as [year|]; [|discriminate].
  destruct (Tracker.val (MSF.month_f st)) as [month|]; [|discriminate].
  destruct (Tracker.val (MSF.day_f st)) as [day|]; [|discriminate].
  cbn [bind Tracker.name] in H.
  exists year, month, day; repeat split; try reflexivity.
  - intros (W1 & W2).
    replace (MSF.back year - 7200 <? _) with true in H
      by (symmetry; now apply Z.ltb_lt).
    replace (_ <? MSF.back year) with true in H
      by (symmetry; now apply Z.ltb_lt).
    cbn [andb] in H; congruence.
  - intros W.
    destruct (Z.ltb_spec (MSF.back year - 7200) (Time.mktime year month day hr mn 0));
      destruct (Z.ltb_spec (Time.mktime year month day hr mn 0) (MSF.back year));
      cbn [andb] in H; try congruence.
    exfalso; apply W; lia.
Qed.

(** C4, as the code has it (MSF, line 267). An accepted decode whose local
    time lies strictly within the two hours before 02:00 of the last Sunday
    of October - the repeated hour 01:00-01:59 lies in them - does not set
    the clock and leaves the decode loop: the pass ends in [Stopped] and so
    does the run, whatever signal follows. Outside that window an accepted
    decode sets the clock. *)
Theorem msf_fold_back_stops (timeout : Z) :
  (forall year mn,
      0 <= mn < 60 ->
      MSF.back year - 7200
      < Time.mktime year 10 (31 - (5 * year / 4 + 1) mod 7) 1 mn 0
      < MSF.back year) /\
  (forall st s o hr mn,
      MSF.reachable timeout st -> MSF.step timeout st s = Ok o ->
      MSF.heard st s = Ok (Some (hr, mn)) -> Tracker.is_accepted o = true ->
      exists year month day,
        Tracker.val (MSF.year_f (Tracker.state_of o)) = Some year /\
        Tracker.val (MSF.month_f (Tracker.state_of o)) = Some month /\
        Tracker.val (MSF.day_f (Tracker.state_of o)) = Some day /\
        let t := Time.mktime year month day hr mn 0 in
        (MSF.back year - 7200 < t < MSF.back year ->
         o = Tracker.Stopped (Tracker.state_of o) /\
         forall rest,
           MSF.run timeout st (s :: rest) = Ok (Tracker.Stopped (Tracker.state_of o))) /\
        (~ (MSF.back year - 7200 < t < MSF.back year) ->
         o = Tracker.Locked (Tracker.state_of o)
               (t - (if (MSF.fwd year <=? t) && (t <? MSF.back year)
                     then 3600 else 0)))).
Proof.
  split; [exact msf_window_of_repeated_hour|].
  intros st s o hr mn R Hs H A.
  destruct (msf_step_heard timeout st s hr mn (msf_reachable_ok _ _ R) H)
    as (st2 & st3 & _ & _ & _ & _ & _ & _ & _ & _ & Eq).
  pose proof Hs as Hs'; rewrite Eq in Hs'.
  apply bind_ok in Hs'; destruct Hs' as (go & Ea & Ho).
  destruct go.
  2:{ injection Ho as <-; destruct (_ <? _); discriminate. }
  apply bind_ok in Ho; destruct Ho as (u & Eu & Ho).
  destruct (msf_utc_cases _ _ _ _ Eu) as (year & month & day & Vy & Vm & Vd & In' & Out').
  assert (S3 : Tracker.state_of o = st3) by (destruct u; injection Ho as <-; reflexivity).
  rewrite S3; exists year, month, day.
  split; [exact Vy|]. split; [exact Vm|]. split; [exact Vd|].
  cbv zeta in *; split; intros W.
  - rewrite (In' W) in Ho; injection Ho as <-; split; [reflexivity|].
    intros rest; simpl MSF.run; rewrite Hs; reflexivity.
  - rewrite (Out' W) in Ho; injection Ho as <-; reflexivity.
Qed.

(** C4 as stated fails: 01:30 and 01:31 heard on 27.10.2024 end the MSF
    loop after 120 s without a clock set; the two good minutes that follow
    (02:31, 02:32 - which alone set the clock) are never listened to. *)
Lemma msf_fold_back_leaves_loop :
  let early := Signal.msf_minute 24 10 27 7 1 30 ++ Signal.msf_minute 24 10 27 7 1 31 in
  let late := Signal.msf_minute 24 10 27 7 2 31 ++ Signal.msf_minute 24 10 27 7 2 32 in
  (exists st,
      MSF.run 15 (MSF.init None) (Signal.msf_samples early) = Ok (Tracker.Stopped st) /\
      MSF.run 15 (MSF.init None) (Signal.msf_samples (early ++ late))
      = Ok (Tracker.Stopped st) /\
      MSF.accept st = Ok true) /\
  (exists st utc,
      MSF.run 15 (MSF.init None) (Signal.msf_samples late)
      = Ok (Tracker.Locked st utc)).
Proof.
  vm_compute; split.
  - eexists; repeat split; reflexivity.
  - eexists; eexists; reflexivity.
Qed.

(** ** JJY: day of the year to month and day *)

Lemma leap_2024_2099 (year : Z) :
  2024 <= year <= 2099 -> Time.is_leap year = (year mod 4 =? 0).
Proof.
  intros H; unfold Time.is_leap.
  replace (year mod 100 =? 0) with false; [now rewrite andb_true_r|].
  symmetry; apply Z.eqb_neq; intros E.
  assert (year = 100 * (year / 100)) by (pose proof (Z.div_mod year 100); lia).
  assert (20 < year / 100 < 21) by lia; lia.
Qed.

Ltac month_cases d :=
  repeat match goal with
         | |- context [?a <? d] => destruct (Z.ltb_spec a d)
         end.

Ltac twelve m H :=
  assert (m = 1 \/ m = 2 \/ m = 3 \/ m = 4 \/ m = 5 \/ m = 6 \/ m = 7 \/
          m = 8 \/ m = 9 \/ m = 10 \/ m = 11 \/ m = 12) as H by lia;
  repeat (destruct H as [H|H]); subst m.

Lemma month_day_table (leap : bool) (year d : Z) :
  Time.is_leap year = leap ->
  1 <= d <= (if leap then 366 else 365) ->
  exists m day,
    JJY.month_loop 12
      (if negb leap
       then [0; 31; 59; 90; 120; 151; 181; 212; 243; 273; 304; 334; 365]
       else [0; 31; 60; 91; 121; 152; 182; 213; 244; 274; 305; 335; 366])
      d 1 d = Ok (m, day) /\
    Time.valid_date year m day /\ Time.ordinal year m day = d.
Proof.
  intros L H; unfold Time.valid_date, Time.ordinal.
  destruct leap; cbn [negb JJY.month_loop];
    repeat match goal with
           | |- context [Str.getitem ?t ?k] =>
               let v := eval vm_compute in (Str.getitem t k) in
               change (Str.getitem t k) with v; cbn [bind]
           end;
    month_cases d; try (exfalso; lia);
    (eexists; eexists; split; [reflexivity|]);
    repeat match goal with
           | |- context [Z.to_nat ?e] =>
               let v := eval vm_compute in (Z.to_nat e) in
               change (Z.to_nat e) with v
           end;
    cbn -[Z.add Z.sub Time.days_in_month];
    try match goal with
        | |- context [Time.days_in_month year ?e] =>
            let v := eval vm_compute in e in change e with v
        end;
    cbn -[Z.add Z.sub]; rewrite ?L; cbn -[Z.add Z.sub]; lia.
Qed.

Lemma ordinal_unique (year m1 d1 m2 d2 : Z) :
  Time.valid_date year m1 d1 -> Time.valid_date year m2 d2 ->
  Time.ordinal year m1 d1 = Time.ordinal year m2 d2 -> m1 = m2 /\ d1 = d2.
Proof.
  unfold Time.valid_date, Time.ordinal; intros (M1 & D1) (M2 & D2).
  twelve m1 H1; twelve m2 H2;
    repeat match goal with
           | |- context [Z.to_nat ?e] =>
               let v := eval vm_compute in (Z.to_nat e) in
               change (Z.to_nat e) with v
           end;
    cbn -[Z.add Z.sub] in *; destruct (Time.is_leap year); lia.
Qed.

(** C10. For a year from 2024 to 2099 and a day of the year that exists in
    it, the loop of lines 267-269 ends (with a result, not by exhausting
    the 12 passes the table allows) on the month and day of the Gregorian
    date with that ordinal number, and no other valid date of the year has
    it. *)
Theorem jjy_month_day_correct (year d : Z) :
  2024 <= year <= 2099 ->
  1 <= d <= (if year mod 4 =? 0 then 366 else 365) ->
  exists m day,
    JJY.month_day year d = Ok (m, day) /\
    Time.valid_date year m day /\
    Time.ordinal year m day = d /\
    forall m' day',
      Time.valid_date year m' day' -> Time.ordinal year m' day' = d ->
      m' = m /\ day' = day.
Proof.
  intros Hy Hd; pose proof (leap_2024_2099 year Hy) as L.
  destruct (month_day_table (year mod 4 =? 0) year d L Hd) as (m & day & E & V & O).
  exists m, day; split; [exact E|]. split; [exact V|]. split; [exact O|].
  intros m' day' V' O'; apply (ordinal_unique year); auto; congruence.
Qed.

Lemma jjy_month_day_correct_witness :
  exists m day,
    JJY.month_day 2024 301 = Ok (m, day) /\
    Time.valid_date 2024 m day /\
    Time.ordinal 2024 m day = 301 /\
    forall m' day',
      Time.valid_date 2024 m' day' -> Time.ordinal 2024 m' day' = 301 ->
      m' = m /\ day' = day.
Proof.
  apply (jjy_month_day_correct 2024 301).
  - lia.
  - simpl; lia.
Defined.

(** * Further properties *)

(** ** Failures and results of the statistics and of the phase estimator *)

Lemma bind_raise {A B} (m : result A) (k : A -> result B) (e : exn) :
  bind m k = Raise e -> m = Raise e \/ exists a, m = Ok a /\ k a = Raise e.
Proof. destruct m as [a|e']; simpl; [eauto | intros [= ->]; auto]. Qed.

Lemma mean_raise (data : list Z) (e : exn) :
  Stats.mean data = Raise e <-> data = [] /\ e = ZeroDivisionError.
Proof.
  split.
  - destruct data as [|a r]; [intros [= <-]; auto|].
    destruct (mean_ok (a :: r)) as (m & ->); [discriminate|discriminate].
  - intros [-> ->]; reflexivity.
Qed.

Lemma mid_raise (data : list Z) (e : exn) :
  Stats.mid data = Raise e <-> data = [] /\ e = ValueError.
Proof.
  destruct data as [|a r]; simpl; split.
  - intros [= <-]; auto.
  - intros [_ ->]; reflexivity.
  - discriminate.
  - intros [? _]; discriminate.
Qed.

Lemma mapM_raise {A B} (f : A -> result B) (l : list A) (e : exn) :
  mapM f l = Raise e -> exists x, In x l /\ f x = Raise e.
Proof.
  induction l as [|x r IH]; simpl; [discriminate|]; intros H.
  apply bind_raise in H; destruct H as [H|(y & Ey & H)]; [exists x; auto|].
  apply bind_raise in H; destruct H as [H|(ys & _ & H)]; [|discriminate].
  destruct (IH H) as (z & I & E); exists z; auto.
Qed.

Lemma variance_raise (data : list Z) (e : exn) :
  Stats.variance data = Raise e <-> length data = 1%nat /\ e = ZeroDivisionError.
Proof.
  split.
  - destruct data as [|a [|b r]].
    + vm_compute; discriminate.
    + vm_compute; intros [= <-]; auto.
    + destruct (variance_ok (a :: b :: r)) as (v & ->); [simpl; lia|discriminate].
  - intros [L ->]; destruct data as [|a [|b r]]; try discriminate.
    unfold Stats.variance; simpl mapM.
    unfold Stats.mean; simpl; reflexivity.
Qed.

Lemma st_dev_raise (data : list Z) (t : Z) (e : exn) :
  Stats.st_dev_gt data t = Raise e <-> length data = 1%nat /\ e = ZeroDivisionError.
Proof.
  rewrite <- variance_raise; unfold Stats.st_dev_gt.
  destruct (Stats.variance data); simpl; split; congruence.
Qed.

Lemma del_outlr_raise (data : list Z) (e : exn) :
  Stats.del_outlr data = Raise e <-> data = [] /\ e = ValueError.
Proof.
  split.
  - destruct data as [|a r]; [intros [= <-]; auto|].
    destruct (del_outlr_ok (a :: r)) as (d & -> & _); discriminate.
  - intros [-> ->]; reflexivity.
Qed.

(** X1. The only failures of the statistics helpers. [mean] raises exactly
    on the empty list ([ZeroDivisionError]); [mid] and [del_outlr] raise
    exactly on the empty list ([ValueError], from [max]); the test
    [st_dev(data) > t] raises exactly on a list of one element
    ([ZeroDivisionError], the divisor [len(data)-1]) - on the empty list it
    returns. *)
Theorem stats_error_cases (data : list Z) (e : exn) :
  (Stats.mean data = Raise e <-> data = [] /\ e = ZeroDivisionError) /\
  (Stats.mid data = Raise e <-> data = [] /\ e = ValueError) /\
  (forall t, Stats.st_dev_gt data t = Raise e <->
             length data = 1%nat /\ e = ZeroDivisionError) /\
  (Stats.del_outlr data = Raise e <-> data = [] /\ e = ValueError).
Proof.
  split; [apply mean_raise|]. split; [apply mid_raise|].
  split; [intros t; apply st_dev_raise | apply del_outlr_raise].
Qed.

Lemma subseq_refl (l : list Z) : Seq.subseq l l.
Proof. induction l; constructor; auto. Qed.

Lemma subseq_trans (a b c : list Z) :
  Seq.subseq a b -> Seq.subseq b c -> Seq.subseq a c.
Proof.
  intros H1 H2; revert a H1; induction H2; intros a H1.
  - exact H1.
  - inversion H1; subst; constructor; auto.
  - constructor; auto.
Qed.

Lemma removed_first_subseq (x : Z) (d d' : list Z) :
  Stats.removed_first x d d' -> Seq.subseq d' d.
Proof.
  intros (l1 & l2 & -> & -> & _); induction l1; simpl.
  - constructor; apply subseq_refl.
  - constructor; exact IHl1.
Qed.

Lemma keep_going_long (d : list Z) :
  Stats.keep_going d = Ok true -> (8 < length d)%nat.
Proof.
  unfold Stats.keep_going; intros H.
  apply bind_ok in H; destruct H as (b & _ & [= H]).
  apply andb_prop in H; destruct H as [_ H].
  apply Z.ltb_lt in H; unfold Py.len in H; lia.
Qed.

Lemma outlr_steps_kept (n : nat) (d d' : list Z) :
  Stats.outlr_steps n d d' ->
  Seq.subseq d' d /\ ((8 < length d)%nat -> (8 <= length d')%nat) /\
  ((length d <= 8)%nat -> d' = d).
Proof.
  induction 1 as [d|n d d1 d' G E St (S1 & L1 & _)].
  - split; [apply subseq_refl|]; split; [lia|reflexivity].
  - destruct (del_outlr_spec _ _ E) as (_ & _ & x & _ & _ & _ & R & L).
    pose proof (keep_going_long _ G) as G8.
    split; [|split; [|lia]].
    + eapply subseq_trans; [exact S1|]; eapply removed_first_subseq; exact R.
    + intros _.
      destruct (Nat.eq_dec (length d1) 8) as [E8|N8]; [|apply L1; lia].
      inversion St; subst; [lia|].
      match goal with K : Stats.keep_going d1 = Ok true |- _ =>
        apply keep_going_long in K; lia end.
Qed.

Lemma filter_outliers_fix (fuel : nat) (d : list Z) :
  Stats.keep_going d = Ok false -> Stats.filter_outliers fuel d = Ok d.
Proof. intros H; rewrite filter_outliers_eq, H; reflexivity. Qed.

(** X2. The loop [while st_dev(d) > 5 and len(d) > 8: del_outlr(d)] on
    a list that has not exactly one element ends, and its result is the
    input with some elements left out, the others in their order. An input
    of more than 8 elements keeps at least 8, an input of at most 8 comes
    back unchanged, a result of more than 8 elements has a standard
    deviation of at most 5, and filtering the result again changes
    nothing. *)
Theorem outlier_filter_keeps_eight (data : list Z) :
  length data <> 1%nat ->
  exists data',
    Stats.filter_outliers (length data) data = Ok data' /\
    Seq.subseq data' data /\
    ((8 < length data)%nat -> (8 <= length data')%nat) /\
    ((length data <= 8)%nat -> data' = data) /\
    ((8 < length data')%nat -> Stats.st_dev_gt data' 5 = Ok false) /\
    forall fuel, Stats.filter_outliers fuel data' = Ok data'.
Proof.
  intros H1.
  destruct data as [|a [|b r]]; [|simpl in H1; congruence|].
  - exists []; split; [reflexivity|]. split; [constructor|].
    split; [simpl; lia|]. split; [reflexivity|]. split; [simpl; lia|].
    intros fuel; destruct fuel; reflexivity.
  - set (data := a :: b :: r) in *.
    destruct (filter_outliers_run (length data) data)
      as (n & d' & E & St & L & G & L2); [simpl; lia|lia|].
    destruct (outlr_steps_kept _ _ _ St) as (Sb & L8 & Sh).
    exists d'; split; [exact E|]. split; [exact Sb|].
    split; [exact L8|]. split; [exact Sh|]. split.
    + intros H8; destruct (keep_going_ok d' L2) as (sd & Ev & Eg).
      rewrite Eg in G; injection G as G; rewrite Ev.
      apply andb_false_iff in G; destruct G as [->|G]; [reflexivity|].
      apply Z.ltb_ge in G; unfold Py.len in G; lia.
    + intros fuel; now apply filter_outliers_fix.
Qed.

Lemma outlier_filter_keeps_eight_witness :
  exists data',
    Stats.filter_outliers 10 [0; 0; 0; 0; 0; 0; 0; 999; 999; 999] = Ok data' /\
    (8 <= length data')%nat.
Proof.
  destruct (outlier_filter_keeps_eight [0; 0; 0; 0; 0; 0; 0; 999; 999; 999])
    as (d & E & _ & L & _); [simpl; lia|].
  exists d; split; [exact E|apply L; simpl; lia].
Defined.

Lemma floor_unique (x : Q) (f : Z) :
  (inject_Z f <= x)%Q -> (x < inject_Z (f + 1))%Q -> Qfloor x = f.
Proof.
  intros L U.
  pose proof (Qfloor_le x) as L'. pose proof (Qlt_floor x) as U'.
  assert (A : (inject_Z f < inject_Z (Qfloor x + 1))%Q)
    by (eapply Qle_lt_trans; eassumption).
  assert (B : (inject_Z (Qfloor x) < inject_Z (f + 1))%Q)
    by (eapply Qle_lt_trans; eassumption).
  rewrite <- Zlt_Qlt in A, B; lia.
Qed.

Lemma floor_shift (x : Q) (n : Z) :
  Qfloor (x - inject_Z n) = Qfloor x - n.
Proof.
  apply floor_unique.
  - unfold Zminus; rewrite inject_Z_plus, inject_Z_opp.
    apply Qplus_le_compat; [apply Qfloor_le | apply Qle_refl].
  - replace (Qfloor x - n + 1) with ((Qfloor x + 1) + - n) by lia.
    rewrite inject_Z_plus, inject_Z_opp.
    apply Qplus_lt_le_compat; [apply Qlt_floor | apply Qle_refl].
Qed.

Lemma round_comp (x y : Q) : (x == y)%Q -> Py.round x = Py.round y.
Proof.
  intros E; unfold Py.round.
  rewrite (Qfloor_comp _ _ E).
  assert (E2 : (x - inject_Z (Qfloor y) == y - inject_Z (Qfloor y))%Q)
    by (rewrite E; reflexivity).
  rewrite (Qcompare_comp _ _ E2 (1 # 2) (1 # 2) (Qeq_refl _)); reflexivity.
Qed.

Lemma round_shift (x : Q) (n : Z) :
  Z.even n = true -> Py.round (x - inject_Z n) = Py.round x - n.
Proof.
  intros Ev; unfold Py.round. rewrite floor_shift.
  assert (E : (x - inject_Z n - inject_Z (Qfloor x - n) == x - inject_Z (Qfloor x))%Q).
  { unfold Zminus; rewrite inject_Z_plus, inject_Z_opp; ring. }
  rewrite (Qcompare_comp _ _ E (1 # 2) (1 # 2) (Qeq_refl _)).
  replace (Z.even (Qfloor x - n)) with (Z.even (Qfloor x))
    by (rewrite Z.even_sub, Ev; destruct (Z.even (Qfloor x)); reflexivity).
  destruct (Qcompare (x - inject_Z (Qfloor x)) (1 # 2));
    [destruct (Z.even (Qfloor x))| |]; lia.
Qed.

Lemma round_bounds (x : Q) :
  Qfloor x <= Py.round x <= Qfloor x + 1.
Proof. unfold Py.round; destruct (Qcompare _ _); [destruct (Z.even _)| |]; lia. Qed.

Lemma fmod_range (x : Q) (m : Z) :
  0 < m -> (0 <= Py.fmod x m)%Q /\ (Py.fmod x m < inject_Z m)%Q.
Proof.
  intros Hm; unfold Py.fmod.
  assert (P : (0 < inject_Z m)%Q) by (change 0%Q with (inject_Z 0); now rewrite <- Zlt_Qlt).
  assert (NZ : ~ (inject_Z m == 0)%Q) by (intros E; rewrite E in P; discriminate).
  set (q := Qfloor (x / inject_Z m)).
  assert (X : (x / inject_Z m * inject_Z m == x)%Q)
    by (rewrite Qmult_comm; now apply Qmult_div_r).
  assert (L : (inject_Z q * inject_Z m <= x)%Q).
  { apply Qle_trans with (x / inject_Z m * inject_Z m)%Q; [|rewrite X; apply Qle_refl].
    apply Qmult_le_compat_r; [apply Qfloor_le | now apply Qlt_le_weak]. }
  assert (U : (x < inject_Z (q + 1) * inject_Z m)%Q).
  { apply Qle_lt_trans with (x / inject_Z m * inject_Z m)%Q; [rewrite X; apply Qle_refl|].
    apply Qmult_lt_compat_r; [exact P | apply Qlt_floor]. }
  rewrite inject_Z_plus in U; rewrite inject_Z_mult.
  set (a := inject_Z q) in *; set (b := inject_Z m) in *.
  assert (D : ((a + inject_Z 1) * b == a * b + b)%Q) by ring.
  rewrite D in U; clear D.
  assert (C : (b * a == a * b)%Q) by ring.
  rewrite C; clear C.
  set (ab := (a * b)%Q) in *.
  split; lra.
Qed.

Lemma offset_value (chosen : list Z) (shift d : Z) :
  Phase.offset chosen shift = Ok d ->
  0 <= d <= 1000 /\ Phase.spec_offset chosen shift = Ok (d mod 1000).
Proof.
  unfold Phase.offset, Phase.spec_offset; intros H.
  apply bind_ok in H; destruct H as (m & -> & [= <-]); cbn [bind].
  set (x := (m - inject_Z shift)%Q).
  destruct (fmod_range x 1000) as [L U]; [lia|].
  pose proof (round_bounds (Py.fmod x 1000)) as B.
  assert (F0 : 0 <= Qfloor (Py.fmod x 1000)) by (apply (Qfloor_resp_le 0 _ L)).
  assert (F1 : Qfloor (Py.fmod x 1000) <= 999).
  { assert (Qfloor (Py.fmod x 1000) < 1000); [|lia].
    rewrite Zlt_Qlt. eapply Qle_lt_trans; [apply Qfloor_le | exact U]. }
  split; [lia|].
  unfold Py.fmod; rewrite round_shift.
  - f_equal. rewrite Zminus_mod, Z.mul_comm, Z_mod_mult, Z.sub_0_r, Z.mod_mod; lia.
  - rewrite Z.even_mul; reflexivity.
Qed.

Lemma estimate_chooses (deltas shifts : list Z) (d : Z) :
  Phase.estimate deltas shifts = Ok d ->
  exists chosen shift, Phase.offset chosen shift = Ok d.
Proof.
  unfold Phase.estimate; intros H.
  apply bind_ok in H; destruct H as (d1 & _ & H).
  apply bind_ok in H; destruct H as (s1 & _ & H).
  destruct (_ <? _); eauto.
Qed.

Lemma acquire_first_window (w1 : list Z) :
  let '(deltas, shifts) := Phase.get_deltas 16 w1 [] [] in
  length deltas = Nat.min 32 (length w1) /\ length shifts = Nat.min 32 (length w1).
Proof.
  destruct (get_deltas_length 16 w1 [] [] eq_refl) as [Ld Ls].
  destruct (Phase.get_deltas 16 w1 [] []) as [deltas shifts].
  cbn [fst snd length Nat.add] in Ld, Ls; simpl Nat.mul in Ld, Ls. auto.
Qed.

(** X3. Whatever set is chosen, the offset
    [round((mean(chosen) - shift) % 1000)] lies between 0 and 1000, both
    included; reduced modulo 1000 it is [round(mean(chosen) - shift) % 1000],
    the value rounded before the reduction; and once it is 1000 the test
    [ticks_ms() % 1000 == delta_t] of the sampling loops holds for no value
    of the counter. *)
Theorem offset_within_1000 (chosen : list Z) (shift d : Z) :
  Phase.offset chosen shift = Ok d ->
  0 <= d <= 1000 /\
  Phase.spec_offset chosen shift = Ok (d mod 1000) /\
  (d = 1000 -> forall ticks, Sampler.due d ticks = false).
Proof.
  intros H; destruct (offset_value _ _ _ H) as [R S].
  split; [exact R|]. split; [exact S|].
  intros -> ticks; unfold Sampler.due.
  apply Z.eqb_neq; pose proof (Z.mod_pos_bound ticks 1000); lia.
Qed.

Lemma offset_within_1000_witness :
  Phase.offset [499; 499; 499; 500; 500; 500; 500; 500; 500; 500] 500 = Ok 1000 /\
  Phase.spec_offset [499; 499; 499; 500; 500; 500; 500; 500; 500; 500] 500
    = Ok (1000 mod 1000) /\
  forall ticks, Sampler.due 1000 ticks = false.
Proof.
  assert (E : Phase.offset [499; 499; 499; 500; 500; 500; 500; 500; 500; 500] 500
              = Ok 1000) by (vm_compute; reflexivity).
  destruct (offset_within_1000 _ _ _ E) as (_ & S & D).
  split; [exact E|]. split; [exact S|]. apply D; reflexivity.
Defined.

(** X4. Outcomes of the phase acquisition on the edges [w1] seen in the
    first window of 16 s and [w2] seen in the window of 48 s that may
    follow. It gives up for noise exactly when the first window has 32 edges
    or more; with 20 edges or fewer the second window is not used; with 2 to
    31 edges in the first window it yields an offset between 0 and 1000. *)
Theorem acquire_outcomes (w1 w2 : list Z) :
  (Phase.acquire w1 w2 = Ok None <-> (32 <= length w1)%nat) /\
  ((length w1 <= 20)%nat -> Phase.acquire w1 w2 = Phase.acquire w1 []) /\
  ((2 <= length w1 < 32)%nat ->
   exists d, Phase.acquire w1 w2 = Ok (Some d) /\ 0 <= d <= 1000).
Proof.
  pose proof (acquire_first_window w1) as W.
  unfold Phase.acquire.
  destruct (Phase.get_deltas 16 w1 [] []) as [deltas shifts].
  destruct W as [Ld Ls]; unfold Py.len.
  destruct (Z.eqb_spec (Z.of_nat (length deltas)) (16 * 2)) as [E32|N32].
  { split; [split; [lia|reflexivity]|]. split; [lia|lia]. }
  split; [|split].
  - split; [|lia].
    destruct (if 20 <? _ then _ else _) as [d2 s2].
    destruct (Phase.estimate d2 s2); discriminate.
  - intros L20.
    destruct (Z.ltb_spec 20 (Z.of_nat (length deltas))); [lia|reflexivity].
  - intros L.
    assert (exists d2 s2,
      (if 20 <? Z.of_nat (length deltas)
       then Phase.get_deltas 48 w2 deltas shifts else (deltas, shifts)) = (d2, s2)
      /\ (2 <= length d2)%nat /\ (2 <= length s2)%nat) as (d2 & s2 & -> & L2 & L3).
    { destruct (_ <? _).
      - destruct (get_deltas_length 48 w2 deltas shifts) as [A B]; [lia|].
        destruct (Phase.get_deltas 48 w2 deltas shifts) as [d2 s2].
        cbn [fst snd] in A, B; exists d2, s2; split; [reflexivity|lia].
      - exists deltas, shifts; split; [reflexivity|lia]. }
    destruct (estimate_ok d2 s2 L2 L3) as (d & E); rewrite E; cbn [bind].
    exists d; split; [reflexivity|].
    destruct (estimate_chooses _ _ _ E) as (ch & sh & O).
    now apply offset_value in O.
Qed.

(** Lists all of whose entries are [c]. *)
Lemma sum_const (c : Z) (l : list Z) (a : Z) :
  (forall x, In x l -> x = c) -> fold_left Z.add l a = a + c * Z.of_nat (length l).
Proof.
  revert a; induction l as [|y l IH]; intros a H; simpl fold_left.
  - simpl; lia.
  - rewrite IH by (intros x Hx; apply H; now right).
    rewrite (H y) by now left. simpl length; lia.
Qed.

Lemma mean_const (c : Z) (l : list Z) :
  l <> [] -> (forall x, In x l -> x = c) ->
  exists m, Stats.mean l = Ok m /\ (m == inject_Z c)%Q.
Proof.
  intros NE H; unfold Stats.mean, Py.len, Py.sum.
  destruct (Z.eqb_spec (Z.of_nat (length l)) 0) as [E|N].
  { destruct l; [congruence|simpl in E; lia]. }
  eexists; split; [reflexivity|].
  rewrite (sum_const c l 0 H), Z.add_0_l, inject_Z_mult.
  apply Qdiv_mult_l.
  intros E; apply N. change 0%Q with (inject_Z 0) in E.
  apply (proj1 (inject_Z_injective _ _)); exact E.
Qed.

Lemma sumQ_zero (l : list Q) (a : Q) :
  Forall (fun q => q == 0)%Q l -> (fold_left Qplus l a == a)%Q.
Proof.
  intros F; revert a; induction F as [|q l Hq _ IH]; intros a; simpl; [reflexivity|].
  rewrite IH, Hq; ring.
Qed.

Lemma mapM_forall {A B} (f : A -> result B) (P : B -> Prop) (l : list A) (ys : list B) :
  (forall x y, In x l -> f x = Ok y -> P y) -> mapM f l = Ok ys -> Forall P ys.
Proof.
  revert ys; induction l as [|x r IH]; simpl; intros ys H E.
  - injection E as <-; constructor.
  - apply bind_ok in E; destruct E as (y & Ey & E).
    apply bind_ok in E; destruct E as (zs & Ez & [= <-]).
    constructor; [apply (H x y); [now left|exact Ey]|].
    apply IH; [|exact Ez]. intros x' y' Hx; apply H; now right.
Qed.

Lemma steady_filter (c : Z) (l : list Z) (fuel : nat) :
  (2 <= length l)%nat -> (forall x, In x l -> x = c) ->
  Stats.filter_outliers fuel l = Ok l.
Proof.
  intros L H; apply filter_outliers_fix.
  destruct (keep_going_ok l L) as (sd & Ev & ->).
  replace sd with false; [reflexivity|].
  unfold Stats.st_dev_gt in Ev.
  apply bind_ok in Ev; destruct Ev as (v & Ev & [= <-]).
  unfold Stats.variance in Ev.
  apply bind_ok in Ev; destruct Ev as (devs & Ed & Ev).
  destruct (_ =? 0); [discriminate|]; injection Ev as <-.
  assert (Z0 : (Py.sumQ devs == 0)%Q).
  { apply sumQ_zero; eapply mapM_forall; [|exact Ed].
    intros x y Hx Hy; cbv beta in Hy.
    destruct (mean_const c l) as (m & Em & Eq); [intros ->; simpl in L; lia|exact H|].
    rewrite Em in Hy; injection Hy as <-.
    rewrite Eq, (H x Hx); ring. }
  symmetry; apply negb_false_iff, Qle_bool_iff.
  rewrite Z0; unfold Qdiv; rewrite Qmult_0_l; discriminate.
Qed.

Lemma round_int (c : Z) (x : Q) : (x == inject_Z c)%Q -> Py.round x = c.
Proof.
  intros E; rewrite (round_comp _ _ E); unfold Py.round.
  rewrite Qfloor_Z.
  assert (L : (inject_Z c - inject_Z c < 1 # 2)%Q) by lra.
  now rewrite (proj1 (Qlt_alt _ _) L).
Qed.

Lemma steady_offset (c : Z) (l : list Z) :
  l <> [] -> (forall x, In x l -> x = c) -> 0 <= c < 1000 ->
  Phase.offset l 0 = Ok c.
Proof.
  intros NE H R; unfold Phase.offset.
  destruct (mean_const c l NE H) as (m & -> & Eq); cbn [bind]; f_equal.
  apply round_int; unfold Py.fmod.
  assert (X : (m - inject_Z 0 == inject_Z c)%Q) by (rewrite Eq; change (inject_Z 0) with 0%Q; ring).
  assert (F : Qfloor ((m - inject_Z 0) / inject_Z 1000) = 0).
  { apply floor_unique; rewrite X.
    - apply Qle_shift_div_l; [reflexivity|].
      rewrite Qmult_0_l. change 0%Q with (inject_Z 0). rewrite <- Zle_Qle; lia.
    - apply Qlt_shift_div_r; [reflexivity|].
      rewrite <- inject_Z_mult, <- Zlt_Qlt; lia. }
  rewrite F, X; change (inject_Z (1000 * 0)) with 0%Q; ring.
Qed.

Lemma in_firstn {A} (x : A) (n : nat) (l : list A) :
  In x (firstn n l) -> In x l.
Proof.
  revert l; induction n as [|n IH]; intros [|y l]; simpl; try tauto.
  intros [E|H]; auto.
Qed.

(** X5. Edges without jitter: when every edge falls on the same
    millisecond [c] of its second, and the first window has 2 to 31 of them,
    the offset is [c]. *)
Theorem steady_pulses_give_their_phase (c : Z) (w1 w2 : list Z) :
  (2 <= length w1 < 32)%nat ->
  (forall e, In e (w1 ++ w2) -> e mod 1000 = c) ->
  Phase.acquire w1 w2 = Ok (Some c).
Proof.
  intros L H.
  assert (R : 0 <= c < 1000).
  { destruct w1 as [|e r]; [simpl in L; lia|].
    rewrite <- (H e) by now left. apply Z.mod_pos_bound; lia. }
  assert (G : forall secs edges d s,
    (forall e, In e edges -> e mod 1000 = c) ->
    (forall x, In x d -> x = c) -> (forall x, In x s -> x = (c + 500) mod 1000) ->
    let '(d', s') := Phase.get_deltas secs edges d s in
    (forall x, In x d' -> x = c) /\ (forall x, In x s' -> x = (c + 500) mod 1000)).
  { intros secs edges d s He Hd Hs; unfold Phase.get_deltas; split; intros x Hx;
      apply in_app_or in Hx; destruct Hx as [Hx|Hx]; auto;
      apply in_map_iff in Hx; destruct Hx as (e & <- & He');
      apply in_firstn in He'; [now apply He|].
    rewrite <- (He e He'), Zplus_mod_idemp_l; reflexivity. }
  pose proof (acquire_first_window w1) as W.
  pose proof (G 16%nat w1 [] []) as G1.
  unfold Phase.acquire.
  destruct (Phase.get_deltas 16 w1 [] []) as [deltas shifts].
  destruct W as [Ld Ls]; unfold Py.len.
  destruct G1 as [Cd Cs];
    [intros e He; apply H, in_or_app; now left | intros x [] | intros x [] |].
  destruct (Z.eqb_spec (Z.of_nat (length deltas)) (16 * 2)) as [E32|N32]; [lia|].
  assert (exists d2 s2,
    (if 20 <? Z.of_nat (length deltas)
     then Phase.get_deltas 48 w2 deltas shifts else (deltas, shifts)) = (d2, s2)
    /\ (2 <= length d2)%nat /\ length s2 = length d2 /\
    (forall x, In x d2 -> x = c) /\ (forall x, In x s2 -> x = (c + 500) mod 1000))
    as (d2 & s2 & -> & L2 & L3 & C2 & C3).
  { destruct (_ <? _).
    - destruct (get_deltas_length 48 w2 deltas shifts) as [A B]; [lia|].
      pose proof (G 48%nat w2 deltas shifts) as G2.
      destruct (Phase.get_deltas 48 w2 deltas shifts) as [d2 s2].
      cbn [fst snd] in A, B; exists d2, s2; split; [reflexivity|].
      destruct G2 as [X Y]; auto; [intros e He; apply H, in_or_app; now right|].
      repeat split; auto; lia.
    - exists deltas, shifts; split; [reflexivity|]. repeat split; auto; lia. }
  unfold Phase.estimate.
  rewrite (steady_filter c d2), (steady_filter ((c + 500) mod 1000) s2) by (auto; lia).
  cbn [bind]; unfold Py.len; rewrite L3, Z.ltb_irrefl.
  rewrite (steady_offset c d2); auto.
  intros ->; simpl in L2; lia.
Qed.

Lemma steady_pulses_give_their_phase_witness :
  Phase.acquire [1250; 2250; 3250; 4250] [] = Ok (Some 250).
Proof.
  apply (steady_pulses_give_their_phase 250 [1250; 2250; 3250; 4250] []).
  - simpl; lia.
  - intros e He; simpl in He.
    destruct He as [<-|[<-|[<-|[<-|[]]]]]; reflexivity.
Defined.

(** ** Sampling one second (lines 59-61 and 190-198 of [RCget_dcf77.py]) *)

Lemma setitem_at (pre post : list Z) (x v : Z) :
  0 <= v < 256 ->
  Sampler.setitem (pre ++ x :: post) (Z.of_nat (length pre)) v
  = Ok (pre ++ v :: post).
Proof.
  intros Hv; unfold Sampler.setitem, Str.position, Py.len.
  destruct (Z.ltb_spec (Z.of_nat (length pre)) 0) as [N|_]; [lia|].
  destruct (Z.ltb_spec (Z.of_nat (length pre)) 0) as [N|_]; [lia|].
  destruct (Z.leb_spec (Z.of_nat (length (pre ++ x :: post))) (Z.of_nat (length pre)))
    as [N|_]; [rewrite length_app in N; simpl length in N; lia|].
  cbn [orb]; rewrite Nat2Z.id, Z.mod_small by exact Hv.
  rewrite firstn_app.
  replace (length pre - length pre)%nat with 0%nat by lia.
  rewrite firstn_all2 by lia.
  replace (skipn (S (length pre)) (pre ++ x :: post)) with post.
  - cbn [firstn app]; rewrite app_nil_r; reflexivity.
  - replace (pre ++ x :: post) with ((pre ++ [x]) ++ post)
      by (rewrite <- app_assoc; reflexivity).
    rewrite skipn_app, length_app; simpl length.
    replace (S (length pre) - (length pre + 1))%nat with 0%nat by lia.
    rewrite skipn_all2 by (rewrite length_app; simpl; lia).
    reflexivity.
Qed.

Lemma setitem_head (c v : Z) (l : list Z) :
  0 <= v < 256 -> Sampler.setitem (c :: l) 0 v = Ok (v :: l).
Proof. exact (setitem_at [] l c v). Qed.

Lemma getitem_head {A} (c : A) (l : list A) : Str.getitem (c :: l) 0 = Ok c.
Proof. reflexivity. Qed.

Lemma sampler_tick (k : nat) (pre post : list Z) (x : Z) (v : bool) :
  length pre = k -> (Z.of_nat k + 1 < 256) ->
  Sampler.isr_sample (Z.of_nat k :: pre ++ x :: post) v
  = Ok (Z.of_nat (S k) :: (pre ++ [Z.b2z v]) ++ post).
Proof.
  intros L B; unfold Sampler.isr_sample.
  rewrite getitem_head; cbn [bind].
  rewrite setitem_head by lia.
  cbn [bind]; rewrite getitem_head; cbn [bind].
  pose proof (setitem_at (Z.of_nat k + 1 :: pre) post x (Z.b2z v)) as E.
  simpl length in E; rewrite L in E.
  replace (Z.of_nat (S k)) with (Z.of_nat k + 1) in * by lia.
  cbn [app] in E; rewrite E by (destruct v; simpl; lia).
  rewrite <- app_assoc; reflexivity.
Qed.

Lemma sampler_loop (post : list Z) :
  forall (k : nat) (pre : list Z) (levels : list bool),
  length pre = k -> (Z.of_nat (k + length post) < 255) ->
  (length post <= length levels)%nat ->
  Sampler.sample_second (Z.of_nat k :: pre ++ post) levels
  = Ok (0 :: pre ++ map Z.b2z (firstn (length post) levels),
        skipn (length post) levels).
Proof.
  induction post as [|x post IH]; intros k pre levels L B Hl.
  - rewrite app_nil_r; cbn [length firstn skipn map].
    rewrite app_nil_r.
    destruct levels; cbn [Sampler.sample_second]; rewrite getitem_head; cbn [bind];
      unfold Py.len; simpl length;
      (destruct (Z.ltb_spec (Z.of_nat k) (Z.of_nat (S (length pre)) - 1)) as [N|_]; [lia|]);
      rewrite setitem_head by lia; reflexivity.
  - destruct levels as [|v rest]; [simpl in Hl; lia|].
    cbn [Sampler.sample_second]; rewrite getitem_head; cbn [bind].
    unfold Py.len.
    destruct (Z.ltb_spec (Z.of_nat k)
                (Z.of_nat (length (Z.of_nat k :: pre ++ x :: post)) - 1)) as [_|N].
    2:{ simpl length in N; rewrite length_app in N; simpl length in N; lia. }
    rewrite sampler_tick by (auto; simpl length in B; lia).
    cbn [bind]; rewrite IH.
    + cbn [length firstn skipn map]; rewrite <- app_assoc; reflexivity.
    + rewrite length_app; simpl; lia.
    + simpl length in B; lia.
    + simpl in Hl; lia.
Qed.

(** X6. Sampling one second into an array of [n + 1] bytes
    ([1 <= n <= 254], the scripts use 45, 70 and 82) whose counter
    [samples[0]] is 0: the loop waits for exactly [n] interrupts, after which
    the entries 1 to [n] hold the [n] pin levels in their order, whatever
    they held before, and the counter is 0 again. An interrupt that finds the
    counter at [n] - one that comes after the last index was reached -
    raises [IndexError]. *)
Theorem sampling_fills_the_array (n : nat) (old : list Z) (levels : list bool) :
  (1 <= n <= 254)%nat -> length old = n -> (n <= length levels)%nat ->
  Sampler.sample_second (0 :: old) levels
    = Ok (map Z.b2z (false :: firstn n levels), skipn n levels) /\
  forall v, Sampler.isr_sample (Z.of_nat n :: old) v = Raise IndexError.
Proof.
  intros Hn L Hl; split.
  - rewrite <- L in *.
    apply (sampler_loop old 0%nat [] levels); simpl; lia.
  - intros v; unfold Sampler.isr_sample.
    rewrite getitem_head; cbn [bind].
    rewrite setitem_head by lia.
    cbn [bind]; rewrite getitem_head; cbn [bind].
    unfold Sampler.setitem, Str.position, Py.len; simpl length; rewrite L.
    destruct (Z.ltb_spec (Z.of_nat n + 1) 0) as [N|_]; [lia|].
    destruct (Z.ltb_spec (Z.of_nat n + 1) 0) as [N|_]; [lia|].
    destruct (Z.leb_spec (Z.of_nat (S n)) (Z.of_nat n + 1)) as [_|N]; [reflexivity|lia].
Qed.

Lemma sampling_fills_the_array_witness :
  Sampler.sample_second [0; 1; 1; 0] [true; false; true; true]
  = Ok ([0; 1; 0; 1], [true]).
Proof.
  apply (sampling_fills_the_array 3 [1; 1; 0] [true; false; true; true]);
    simpl; lia.
Defined.

(** ** Summer-time changes *)

Lemma years_2000_2099 (P : Z -> bool) :
  forallb P (map Z.of_nat (seq 2000 100)) = true ->
  forall year, 2000 <= year <= 2099 -> P year = true.
Proof.
  intros H year R; rewrite forallb_forall in H; apply H.
  apply in_map_iff; exists (Z.to_nat year); split; [lia|].
  apply in_seq; lia.
Qed.

(** X7. For the years 2000 to 2099 the days [31-(5*year//4+4)%7] of
    March and [31-(5*year//4+1)%7] of October are the last Sundays of these
    months: they lie between 25 and 31 and are Sundays. DCF77 places both
    changes at 01:00 of these days, MSF the one of March at 01:00 and the one
    of October at 02:00. *)
Theorem summer_time_changes_on_last_sundays (year : Z) :
  2000 <= year <= 2099 ->
  exists d3 d10,
    25 <= d3 <= 31 /\ 25 <= d10 <= 31 /\
    MSF.fwd year = Time.mktime year 3 d3 1 0 0 /\
    MSF.back year = Time.mktime year 10 d10 2 0 0 /\
    Civil.dcf77_fwd year = Time.mktime year 3 d3 1 0 0 /\
    Civil.dcf77_back year = Time.mktime year 10 d10 1 0 0 /\
    Civil.weekday (Time.mktime year 3 d3 0 0 0) = 6 /\
    Civil.weekday (Time.mktime year 10 d10 0 0 0) = 6.
Proof.
  intros R.
  exists (31 - (5 * year / 4 + 4) mod 7), (31 - (5 * year / 4 + 1) mod 7).
  split; [pose proof (Z.mod_pos_bound (5 * year / 4 + 4) 7); lia|].
  split; [pose proof (Z.mod_pos_bound (5 * year / 4 + 1) 7); lia|].
  do 4 (split; [reflexivity|]).
  pose proof (years_2000_2099
    (fun y => (Civil.weekday (Time.mktime y 3 (31 - (5 * y / 4 + 4) mod 7) 0 0 0) =? 6)
              && (Civil.weekday (Time.mktime y 10 (31 - (5 * y / 4 + 1) mod 7) 0 0 0) =? 6)))
    as H.
  cbv beta in H; specialize (H ltac:(vm_compute; reflexivity) year R).
  apply andb_prop in H; destruct H as [H3 H10].
  split; now apply Z.eqb_eq.
Qed.

Lemma summer_time_changes_on_last_sundays_witness :
  2000 <= 2024 <= 2099 /\
  exists d3 d10,
    25 <= d3 <= 31 /\ 25 <= d10 <= 31 /\
    MSF.fwd 2024 = Time.mktime 2024 3 d3 1 0 0 /\
    MSF.back 2024 = Time.mktime 2024 10 d10 2 0 0 /\
    Civil.dcf77_fwd 2024 = Time.mktime 2024 3 d3 1 0 0 /\
    Civil.dcf77_back 2024 = Time.mktime 2024 10 d10 1 0 0 /\
    Civil.weekday (Time.mktime 2024 3 d3 0 0 0) = 6 /\
    Civil.weekday (Time.mktime 2024 10 d10 0 0 0) = 6.
Proof.
  split; [lia|].
  apply (summer_time_changes_on_last_sundays 2024); lia.
Defined.

(** ** Bounds on the state of the loops *)

Lemma project_length (mods : list Z) (e m : Z) :
  (length (Tracker.project mods e m) <= 5)%nat.
Proof.
  unfold Tracker.project, Py.last_n.
  rewrite length_app, length_skipn, length_map; simpl; lia.
Qed.

Lemma dcf_step_mods (timeout : Z) (st : DCF77.state) (s : list bool)
    (o : Tracker.outcome DCF77.state) :
  DCF77.state_ok st -> DCF77.step timeout st s = Ok o ->
  DCF77.mods (Tracker.state_of o) = DCF77.mods st \/
  exists e m, DCF77.mods (Tracker.state_of o) = Tracker.project (DCF77.mods st) e m.
Proof.
  intros (Bu & Fi & El) H; unfold DCF77.step in H.
  apply bind_ok in H; destruct H as (st1 & E1 & H).
  apply bind_ok in H; destruct H as (o0 & Eo & H).
  destruct (dcf_shift_spec _ _ _ E1) as (B1 & L1 & Y1 & M1 & D1 & S1 & Mo1 & _).
  specialize (B1 Bu).
  assert (F1 : DCF77.fields_ok st1)
    by (unfold DCF77.fields_ok; rewrite Y1, M1, D1, S1; exact Fi).
  assert (Same : Tracker.state_of o = Tracker.state_of o0).
  { destruct o0; try (injection H as <-; reflexivity).
    destruct (_ <? _); injection H as <-; reflexivity. }
  rewrite Same, <- Mo1; clear H Same.
  destruct (Str.endswith (DCF77.tcB st1) DCF77.marker).
  2:{ injection Eo as <-; now left. }
  destruct B1 as (k & FA & FB).
  destruct (dcf_decode_cases st1 _ FA F1) as (st2 & t & SF & F2 & _ & _ & _ & _ & Et & Ht);
    [lia|].
  destruct SF as (_ & _ & _ & Mo2 & _); dcf_proj.
  destruct t as [[hr mn]|].
  - destruct Ht as (st3 & Es & F3 & E3 & SF3 & Ed).
    destruct SF3 as (_ & _ & _ & Mo3 & _).
    assert (M3 : DCF77.mods st3 = DCF77.mods st1 \/
                 exists e m, DCF77.mods st3 = Tracker.project (DCF77.mods st1) e m).
    { rewrite Mo3, <- Mo2.
      destruct (dcf_minute_update_elapsed st2 hr mn) as [(_ & _ & -> & _)|(_ & ->)];
        [right; eauto|now left]. }
    rewrite Ed in Eo; apply bind_ok in Eo; destruct Eo as ([|] & Ea & Eo).
    + apply bind_ok in Eo; destruct Eo as (utc & _ & Eo).
      injection Eo as <-; exact M3.
    + injection Eo as <-; exact M3.
  - rewrite Ht in Eo; injection Eo as <-; left; dcf_proj; exact Mo2.
Qed.

Lemma msf_step_mods (timeout : Z) (st : MSF.state) (s : list bool)
    (o : Tracker.outcome MSF.state) :
  MSF.state_ok st -> MSF.step timeout st s = Ok o ->
  MSF.mods (Tracker.state_of o) = MSF.mods st \/
  exists e m, MSF.mods (Tracker.state_of o) = Tracker.project (MSF.mods st) e m.
Proof.
  intros (Bu & Fi & El) H; unfold MSF.step in H.
  apply bind_ok in H; destruct H as (st1 & E1 & H).
  apply bind_ok in H; destruct H as (o0 & Eo & H).
  destruct (msf_shift_spec _ _ _ E1) as (B1 & L1 & Y1 & M1 & D1 & Mo1 & _).
  specialize (B1 Bu).
  assert (F1 : MSF.fields_ok st1)
    by (unfold MSF.fields_ok; rewrite Y1, M1, D1; exact Fi).
  assert (Same : Tracker.state_of o = Tracker.state_of o0).
  { destruct o0; try (injection H as <-; reflexivity).
    destruct (_ <? _); injection H as <-; reflexivity. }
  rewrite Same, <- Mo1; clear H Same.
  destruct (Str.endswith (MSF.tcA st1) MSF.marker).
  2:{ injection Eo as <-; now left. }
  destruct B1 as (k & FA & FB).
  destruct (msf_decode_cases st1 _ FA FB F1) as (st2 & t & SF & F2 & _ & _ & _ & Et & Ht);
    [lia|].
  destruct SF as (_ & _ & _ & Mo2 & _).
  destruct t as [[hr mn]|].
  - destruct Ht as (st3 & Es & F3 & E3 & SF3 & Ed).
    destruct SF3 as (_ & _ & _ & Mo3 & _).
    assert (M3 : MSF.mods st3 = MSF.mods st1 \/
                 exists e m, MSF.mods st3 = Tracker.project (MSF.mods st1) e m).
    { rewrite Mo3, <- Mo2.
      destruct (msf_minute_update_elapsed st2 hr mn) as [(_ & _ & -> & _)|(_ & ->)];
        [right; eauto|now left]. }
    rewrite Ed in Eo; apply bind_ok in Eo; destruct Eo as ([|] & Ea & Eo).
    + apply bind_ok in Eo; destruct Eo as ([utc|] & _ & Eo);
        injection Eo as <-; exact M3.
    + injection Eo as <-; exact M3.
  - rewrite Ht in Eo; injection Eo as <-; left; exact Mo2.
Qed.

Lemma jjy_step_mods (timeout : Z) (st : JJY.state) (s : list bool)
    (o : Tracker.outcome JJY.state) :
  JJY.state_ok st -> JJY.step timeout st s = Ok o ->
  JJY.mods (Tracker.state_of o) = JJY.mods st \/
  exists e m, JJY.mods (Tracker.state_of o) = Tracker.project (JJY.mods st) e m.
Proof.
  intros (Bu & Fi & El) H; unfold JJY.step in H.
  apply bind_ok in H; destruct H as (st1 & E1 & H).
  apply bind_ok in H; destruct H as (o0 & Eo & H).
  destruct (jjy_shift_spec _ _ _ E1) as (B1 & L1 & Y1 & D1 & Mo1 & _).
  specialize (B1 Bu).
  assert (F1 : JJY.fields_ok st1)
    by (unfold JJY.fields_ok; rewrite Y1, D1; exact Fi).
  assert (Same : Tracker.state_of o = Tracker.state_of o0).
  { destruct o0; try (injection H as <-; reflexivity).
    destruct (_ <? _); injection H as <-; reflexivity. }
  rewrite Same, <- Mo1; clear H Same.
  destruct (Str.endswith (JJY.tcB st1) JJY.marker).
  2:{ injection Eo as <-; now left. }
  destruct B1 as (k & FA & FB).
  destruct (jjy_decode_cases st1 _ FA F1) as (st2 & t & SF & F2 & _ & _ & Et & Ht);
    [lia|].
  destruct SF as (_ & _ & _ & Mo2 & _).
  destruct t as [[hr mn]|].
  - destruct Ht as (st3 & Es & F3 & E3 & SF3 & Ed).
    destruct SF3 as (_ & _ & _ & Mo3 & _).
    assert (M3 : JJY.mods st3 = JJY.mods st1 \/
                 exists e m, JJY.mods st3 = Tracker.project (JJY.mods st1) e m).
    { rewrite Mo3, <- Mo2.
      destruct (jjy_minute_update_elapsed st2 hr mn) as [(_ & _ & -> & _)|(_ & ->)];
        [right; eauto|now left]. }
    rewrite Ed in Eo; apply bind_ok in Eo; destruct Eo as ([|] & Ea & Eo).
    + apply bind_ok in Eo; destruct Eo as (utc & _ & Eo);
        injection Eo as <-; exact M3.
    + injection Eo as <-; exact M3.
  - rewrite Ht in Eo; injection Eo as <-; left; exact Mo2.
Qed.

Lemma mods_bounded (m m' : list Z) :
  (length m <= 5)%nat ->
  m' = m \/ (exists e x, m' = Tracker.project m e x) ->
  (length m' <= 5)%nat.
Proof. intros L [->|(e & x & ->)]; [exact L|apply project_length]. Qed.

Lemma dcf_reachable_bounds (timeout : Z) (st : DCF77.state) :
  0 <= timeout -> DCF77.reachable timeout st ->
  DCF77.elapsed st <= timeout * 60 /\ (length (DCF77.mods st) <= 5)%nat.
Proof.
  intros T; induction 1 as [seed|st s st' R (IE & IM) H].
  - destruct seed; simpl; lia.
  - pose proof (dcf_reachable_ok _ _ R) as Hs.
    destruct (dcf_step_running _ _ _ _ Hs H) as (_ & E & _).
    split; [exact E|].
    exact (mods_bounded _ _ IM (dcf_step_mods _ _ _ _ Hs H)).
Qed.

Lemma msf_reachable_bounds (timeout : Z) (st : MSF.state) :
  0 <= timeout -> MSF.reachable timeout st ->
  MSF.elapsed st <= timeout * 60 /\ (length (MSF.mods st) <= 5)%nat.
Proof.
  intros T; induction 1 as [seed|st s st' R (IE & IM) H].
  - destruct seed; simpl; lia.
  - pose proof (msf_reachable_ok _ _ R) as Hs.
    destruct (msf_step_running _ _ _ _ Hs H) as (_ & E & _).
    split; [exact E|].
    exact (mods_bounded _ _ IM (msf_step_mods _ _ _ _ Hs H)).
Qed.

Lemma jjy_reachable_bounds (timeout : Z) (st : JJY.state) :
  0 <= timeout -> JJY.reachable timeout st ->
  JJY.elapsed st <= timeout * 60 /\ (length (JJY.mods st) <= 5)%nat.
Proof.
  intros T; induction 1 as [seed|st s st' R (IE & IM) H].
  - destruct seed; simpl; lia.
  - pose proof (jjy_reachable_ok _ _ R) as Hs.
    destruct (jjy_step_running _ _ _ _ Hs H) as (_ & E & _).
    split; [exact E|].
    exact (mods_bounded _ _ IM (jjy_step_mods _ _ _ _ Hs H)).
Qed.

(** X8. The state of the three decode loops stays bounded. In every
    state a loop reaches, the registers have the length they started with
    (45 and 6 characters for DCF77, 45 and 8 for MSF, 60 and 8 for JJY),
    [elapsed] lies between 0 and [timeout*60], and the list [mods] and the
    history of every field have at most 5 entries. *)
Theorem loop_state_stays_bounded (timeout : Z) :
  0 <= timeout ->
  (forall st, DCF77.reachable timeout st ->
     length (DCF77.tcA st) = 45%nat /\ length (DCF77.tcB st) = 6%nat /\
     0 <= DCF77.elapsed st <= timeout * 60 /\
     (length (DCF77.mods st) <= 5)%nat /\
     forall f, In f [DCF77.year_f st; DCF77.month_f st; DCF77.day_f st;
                     DCF77.dst_f st] ->
               (length (Tracker.hist f) <= 5)%nat) /\
  (forall st, MSF.reachable timeout st ->
     length (MSF.tcA st) = 45%nat /\ length (MSF.tcB st) = 8%nat /\
     0 <= MSF.elapsed st <= timeout * 60 /\
     (length (MSF.mods st) <= 5)%nat /\
     forall f, In f [MSF.year_f st; MSF.month_f st; MSF.day_f st] ->
               (length (Tracker.hist f) <= 5)%nat) /\
  (forall st, JJY.reachable timeout st ->
     length (JJY.tcA st) = 60%nat /\ length (JJY.tcB st) = 8%nat /\
     0 <= JJY.elapsed st <= timeout * 60 /\
     (length (JJY.mods st) <= 5)%nat /\
     forall f, In f [JJY.year_f st; JJY.doy_f st] ->
               (length (Tracker.hist f) <= 5)%nat).
Proof.
  intros T; split; [|split]; intros st R.
  - destruct (dcf_reachable_ok _ _ R) as ((k & FA & FB) & (Y & M & D & S) & E0).
    destruct (dcf_reachable_bounds _ _ T R) as (E1 & Mo).
    split; [exact (filled_to_length _ _ _ FA)|].
    split; [exact (filled_to_length _ _ _ FB)|].
    split; [lia|]. split; [exact Mo|].
    intros f Hf; simpl in Hf; destruct Hf as [<-|[<-|[<-|[<-|[]]]]];
      now apply Tracker.ok_len.
  - destruct (msf_reachable_ok _ _ R) as ((k & FA & FB) & (Y & M & D) & E0).
    destruct (msf_reachable_bounds _ _ T R) as (E1 & Mo).
    split; [exact (filled_to_length _ _ _ FA)|].
    split; [exact (filled_to_length _ _ _ FB)|].
    split; [lia|]. split; [exact Mo|].
    intros f Hf; simpl in Hf; destruct Hf as [<-|[<-|[<-|[]]]];
      now apply Tracker.ok_len.
  - destruct (jjy_reachable_ok _ _ R) as ((k & FA & FB) & (Y & D) & E0).
    destruct (jjy_reachable_bounds _ _ T R) as (E1 & Mo).
    split; [exact (filled_to_length _ _ _ FA)|].
    split; [exact (filled_to_length _ _ _ FB)|].
    split; [lia|]. split; [exact Mo|].
    intros f Hf; simpl in Hf; destruct Hf as [<-|[<-|[]]];
      now apply Tracker.ok_len.
Qed.

Lemma loop_state_stays_bounded_witness :
  0 <= 15 /\
  0 <= DCF77.elapsed (DCF77.init None) <= 15 * 60 /\
  (length (DCF77.mods (DCF77.init None)) <= 5)%nat.
Proof.
  split; [lia|].
  destruct (loop_state_stays_bounded 15) as (D & _); [lia|].
  destruct (D (DCF77.init None) (DCF77.reach_init 15 None)) as (_ & _ & E & M & _).
  split; assumption.
Defined.

(** ** Bit strings *)

Lemma bit_is_bit (b : bool) : Str.is_bit (Frame.bit b).
Proof. destruct b; [right|left]; reflexivity. Qed.

Lemma bits_are_bits (l : list bool) : Forall Str.is_bit (map Frame.bit l).
Proof. induction l; constructor; auto using bit_is_bit. Qed.

Lemma bit_not_blank (b : bool) : Ascii.eqb (Frame.bit b) Str.blank = false.
Proof. destruct b; reflexivity. Qed.

Lemma int2_value (l : list bool) :
  l <> [] -> Str.int2 (map Frame.bit l) = Ok (Frame.value l).
Proof.
  intros NE; unfold Str.int2; rewrite strip_bits by apply bits_are_bits.
  destruct (map Frame.bit l) as [|c0 t0] eqn:E; [destruct l; [congruence|discriminate]|].
  rewrite <- E; clear E NE c0 t0; unfold Frame.value.
  generalize 0; induction l as [|b l IH]; intros a; [reflexivity|].
  simpl map; simpl fold_left; rewrite <- IH.
  destruct b; reflexivity.
Qed.

Lemma int10_value (b : bool) : Str.int10 (Frame.bit b) = Ok (Z.b2z b).
Proof. destruct b; reflexivity. Qed.

Lemma count1_ones (l : list bool) : Str.count1 (map Frame.bit l) = Frame.ones l.
Proof.
  unfold Str.count1, Frame.ones; f_equal.
  induction l as [|b l IH]; [reflexivity|].
  destruct b; simpl; rewrite IH; reflexivity.
Qed.

Lemma ones_app (l1 l2 : list bool) :
  Frame.ones (l1 ++ l2) = Frame.ones l1 + Frame.ones l2.
Proof. unfold Frame.ones; rewrite count_occ_app; lia. Qed.

Lemma ones_rev (l : list bool) : Frame.ones (rev l) = Frame.ones l.
Proof. unfold Frame.ones; rewrite count_occ_rev; reflexivity. Qed.

Lemma ones_cons (b : bool) (l : list bool) :
  Frame.ones (b :: l) = Z.b2z b + Frame.ones l.
Proof. unfold Frame.ones; destruct b; simpl count_occ; simpl Z.b2z; lia. Qed.

Lemma ones_parity (l : list bool) :
  Frame.ones l mod 2 = Z.b2z (Signal.parity l).
Proof.
  unfold Signal.parity.
  assert (G : forall p, (Z.b2z p + Frame.ones l) mod 2 = Z.b2z (fold_left xorb l p)).
  { induction l as [|b l IH]; intros p; simpl fold_left.
    - unfold Frame.ones; simpl; destruct p; reflexivity.
    - rewrite <- IH, ones_cons.
      destruct p, b; simpl Z.b2z; rewrite ?Z.add_0_l; try reflexivity.
      replace (1 + (1 + Frame.ones l)) with (Frame.ones l + 1 * 2) by lia.
      apply Z.mod_add; lia. }
  exact (G false).
Qed.

(** Binary digits of small numbers. *)
Lemma value_msb1 (v : Z) : 0 <= v < 2 -> Frame.value (Signal.msb_first 1 v) = v.
Proof.
  intros H; assert (C : v = 0 \/ v = 1) by lia.
  destruct C as [->| ->]; reflexivity.
Qed.

Lemma value_msb2 (v : Z) : 0 <= v < 4 -> Frame.value (Signal.msb_first 2 v) = v.
Proof.
  intros H; assert (C : v = 0 \/ v = 1 \/ v = 2 \/ v = 3) by lia.
  repeat destruct C as [->|C]; try reflexivity; subst; reflexivity.
Qed.

Lemma value_msb3 (v : Z) : 0 <= v < 8 -> Frame.value (Signal.msb_first 3 v) = v.
Proof.
  intros H.
  assert (C : v = 0 \/ v = 1 \/ v = 2 \/ v = 3 \/ v = 4 \/ v = 5 \/ v = 6 \/ v = 7) by lia.
  repeat destruct C as [->|C]; try reflexivity; subst; reflexivity.
Qed.

Lemma value_msb4 (v : Z) : 0 <= v < 16 -> Frame.value (Signal.msb_first 4 v) = v.
Proof.
  intros H.
  assert (C : v = 0 \/ v = 1 \/ v = 2 \/ v = 3 \/ v = 4 \/ v = 5 \/ v = 6 \/ v = 7 \/
              v = 8 \/ v = 9 \/ v = 10 \/ v = 11 \/ v = 12 \/ v = 13 \/ v = 14 \/ v = 15)
    by lia.
  repeat destruct C as [->|C]; try reflexivity; subst; reflexivity.
Qed.

Lemma bcd_value (hi lo : list bool) (s : list ascii) (a b c : Z) :
  Str.slice s a b = map Frame.bit hi -> Str.slice s b c = map Frame.bit lo ->
  hi <> [] -> lo <> [] ->
  Str.bcd s a b c = Ok (Frame.value hi * 10 + Frame.value lo).
Proof.
  intros E1 E2 N1 N2; unfold Str.bcd.
  rewrite E1, E2, !int2_value by assumption; reflexivity.
Qed.

Lemma tens_units (v : Z) : 0 <= v < 100 ->
  0 <= v / 10 < 10 /\ 0 <= v mod 10 < 10 /\ v / 10 * 10 + v mod 10 = v.
Proof.
  intros H; pose proof (Z.mod_pos_bound v 10).
  pose proof (Z.div_mod v 10).
  assert (0 <= v / 10 < 10) by (split; [apply Z.div_pos; lia|apply Z.div_lt_upper_bound; lia]).
  lia.
Qed.

(** ** A DCF77 frame in the register *)

Lemma dcf_year_value (yr mon day dow hr mn : Z) (summer bad : bool) :
  0 <= yr < 100 ->
  DCF77.year_value
    (Frame.dcf77_register (Signal.dcf77_minute yr mon day dow hr mn summer bad))
  = Ok yr.
Proof.
  intros H; destruct (tens_units yr H) as (T & U & E).
  unfold DCF77.year_value.
  rewrite (bcd_value (Signal.msb_first 4 (yr / 10)) (Signal.msb_first 4 (yr mod 10)));
    try reflexivity; try discriminate.
  rewrite !value_msb4, E by lia; reflexivity.
Qed.

Lemma dcf_month_value (yr mon day dow hr mn : Z) (summer bad : bool) :
  0 <= mon < 20 ->
  DCF77.month_value
    (Frame.dcf77_register (Signal.dcf77_minute yr mon day dow hr mn summer bad))
  = Ok mon.
Proof.
  intros H; destruct (tens_units mon) as (T & U & E); [lia|].
  assert (T2 : 0 <= mon / 10 < 2)
    by (split; [lia|apply Z.div_lt_upper_bound; lia]).
  unfold DCF77.month_value.
  match goal with |- context [Str.getitem ?a 10] =>
    replace (Str.getitem a 10) with (@Ok ascii (Frame.bit (Z.testbit (mon / 10) 0)))
      by reflexivity;
    replace (Str.slice a 11 15) with (map Frame.bit (Signal.msb_first 4 (mon mod 10)))
      by reflexivity
  end.
  cbn [bind].
  change [Frame.bit (Z.testbit (mon / 10) 0)]
    with (map Frame.bit (Signal.msb_first 1 (mon / 10))).
  rewrite !int2_value by discriminate; cbn [bind].
  rewrite value_msb1, value_msb4, E by lia; reflexivity.
Qed.

Lemma dcf_day_value (yr mon day dow hr mn : Z) (summer bad : bool) :
  0 <= day < 40 ->
  DCF77.day_value
    (Frame.dcf77_register (Signal.dcf77_minute yr mon day dow hr mn summer bad))
  = Ok day.
Proof.
  intros H; destruct (tens_units day) as (T & U & E); [lia|].
  assert (T2 : 0 <= day / 10 < 4)
    by (split; [lia|apply Z.div_lt_upper_bound; lia]).
  unfold DCF77.day_value.
  rewrite (bcd_value (Signal.msb_first 2 (day / 10)) (Signal.msb_first 4 (day mod 10)));
    try reflexivity; try discriminate.
  rewrite value_msb2, value_msb4, E by lia; reflexivity.
Qed.

Lemma even_with_parity (l : list bool) (bad : bool) :
  (Frame.ones [xorb bad (Signal.parity l)] + Frame.ones l) mod 2 = Z.b2z bad.
Proof.
  rewrite Zplus_mod, (ones_parity l).
  destruct bad, (Signal.parity l); reflexivity.
Qed.

Lemma dcf_date_parity (yr mon day dow hr mn : Z) (summer bad : bool) :
  Str.count1
    (Str.slice (Frame.dcf77_register
                  (Signal.dcf77_minute yr mon day dow hr mn summer bad)) 0 24) mod 2
  = Z.b2z bad.
Proof.
  set (date := Signal.lsb_first 4 (day mod 10) ++ Signal.lsb_first 2 (day / 10)
              ++ Signal.lsb_first 3 dow
              ++ Signal.lsb_first 4 (mon mod 10) ++ Signal.lsb_first 1 (mon / 10)
              ++ Signal.lsb_first 4 (yr mod 10) ++ Signal.lsb_first 4 (yr / 10)).
  match goal with |- context [Str.slice ?a 0 24] =>
    replace (Str.slice a 0 24)
      with (map Frame.bit ([false] ++ [xorb bad (Signal.parity date)] ++ rev date))
      by reflexivity
  end.
  rewrite count1_ones, !ones_app, ones_rev.
  change (Frame.ones [false]) with 0; rewrite Z.add_0_l.
  apply even_with_parity.
Qed.

Lemma dcf_time_value (yr mon day dow hr mn : Z) (summer bad : bool) :
  0 <= hr < 40 -> 0 <= mn < 80 ->
  DCF77.time_field
    (Frame.dcf77_register (Signal.dcf77_minute yr mon day dow hr mn summer bad))
  = Ok (Some (hr, mn)).
Proof.
  intros Hh Hm.
  destruct (tens_units hr) as (Th & Uh & Eh); [lia|].
  destruct (tens_units mn) as (Tm & Um & Em); [lia|].
  assert (Th2 : 0 <= hr / 10 < 4)
    by (split; [lia|apply Z.div_lt_upper_bound; lia]).
  assert (Tm2 : 0 <= mn / 10 < 8)
    by (split; [lia|apply Z.div_lt_upper_bound; lia]).
  set (minute := Signal.lsb_first 4 (mn mod 10) ++ Signal.lsb_first 3 (mn / 10)).
  set (hour := Signal.lsb_first 4 (hr mod 10) ++ Signal.lsb_first 2 (hr / 10)).
  unfold DCF77.time_field.
  match goal with |- context [Str.getitem ?a 38] =>
    replace (Str.getitem a 38) with (@Ok ascii (Frame.bit (Z.testbit (mn mod 10) 0)))
      by reflexivity;
    replace (Str.slice a 24 31)
      with (map Frame.bit ([xorb false (Signal.parity hour)] ++ rev hour)) by reflexivity;
    replace (Str.slice a 31 39)
      with (map Frame.bit ([xorb false (Signal.parity minute)] ++ rev minute))
      by reflexivity
  end.
  cbn [bind]; rewrite bit_not_blank, !count1_ones, !ones_app, !ones_rev.
  rewrite !even_with_parity; cbn [negb andb Z.b2z Z.eqb].
  match goal with |- context [Str.bcd ?a 25 27 31] =>
    rewrite (bcd_value (Signal.msb_first 2 (hr / 10)) (Signal.msb_first 4 (hr mod 10))
               a 25 27 31);
    try reflexivity; try discriminate
  end.
  cbn [bind].
  match goal with |- context [Str.bcd ?a 32 35 39] =>
    rewrite (bcd_value (Signal.msb_first 3 (mn / 10)) (Signal.msb_first 4 (mn mod 10))
               a 32 35 39);
    try reflexivity; try discriminate
  end.
  cbn [bind].
  rewrite value_msb2, value_msb3, !value_msb4, Eh, Em by lia; reflexivity.
Qed.

(** ** Receiving a DCF77 minute *)

Lemma dcf_second_windows (a b : bool) :
  Tracker.classify (Str.slice (DCF77.second a b) DCF77.A1 DCF77.A2) = Ok [Frame.bit a] /\
  Tracker.classify (Str.slice (DCF77.second a b) DCF77.B1 DCF77.B2) = Ok [Frame.bit b].
Proof. destruct a, b; split; vm_compute; reflexivity. Qed.

Lemma dcf_second_shift (st : DCF77.state) (a b : bool) :
  DCF77.shift st (DCF77.second a b) =
  Ok (DCF77.mkState (tl (DCF77.tcA st) ++ [Frame.bit a])
        (tl (DCF77.tcB st) ++ [Frame.bit b]) (DCF77.elapsed st + 1)
        (DCF77.year_f st) (DCF77.month_f st) (DCF77.day_f st) (DCF77.dst_f st)
        (DCF77.mods st) (DCF77.mod_v st)).
Proof.
  unfold DCF77.shift; destruct (dcf_second_windows a b) as [-> ->].
  cbn [bind]; rewrite !slice_from_1; reflexivity.
Qed.

Lemma endswith_last (buf suffix : list ascii) (c d : ascii) :
  Str.endswith (buf ++ [c]) (suffix ++ [d]) = true -> c = d.
Proof.
  unfold Str.endswith.
  destruct (list_eq_dec ascii_dec _ _) as [E|]; [intros _|discriminate].
  unfold Py.last_n in E.
  rewrite !length_app in E; simpl length in E.
  rewrite skipn_app in E.
  replace (length buf + 1 - (length suffix + 1) - length buf)%nat with 0%nat in E by lia.
  cbn [skipn] in E.
  now apply app_inj_tail in E.
Qed.

Lemma dcf_pulse_step (timeout : Z) (st : DCF77.state) (a : bool) :
  DCF77.elapsed st + 1 <= timeout * 60 ->
  DCF77.step timeout st (DCF77.second a true) =
  Ok (Tracker.Running
        (DCF77.mkState (tl (DCF77.tcA st) ++ [Frame.bit a])
           (tl (DCF77.tcB st) ++ ["1"%char]) (DCF77.elapsed st + 1)
           (DCF77.year_f st) (DCF77.month_f st) (DCF77.day_f st) (DCF77.dst_f st)
           (DCF77.mods st) (DCF77.mod_v st))).
Proof.
  intros E; unfold DCF77.step; rewrite dcf_second_shift; cbn [bind DCF77.tcB Frame.bit].
  destruct (Str.endswith _ DCF77.marker) eqn:M.
  - apply (endswith_last _ ["1"; "1"; "1"]%char) in M; discriminate.
  - cbn [bind DCF77.elapsed].
    destruct (Z.ltb_spec (timeout * 60) (DCF77.elapsed st + 1)); [lia|reflexivity].
Qed.

Lemma pushed_skipn (cs buf : list ascii) :
  buf <> [] -> Frame.pushed buf cs = skipn (length cs) (buf ++ cs).
Proof.
  unfold Frame.pushed; revert buf; induction cs as [|c cs IH]; intros buf NE.
  - simpl; now rewrite app_nil_r.
  - simpl fold_left; rewrite IH by (destruct (tl buf); discriminate).
    destruct buf as [|b buf]; [congruence|].
    simpl tl; simpl length; cbn [app skipn].
    rewrite <- app_assoc; reflexivity.
Qed.

Lemma pushed_over (n : nat) (cs buf : list ascii) :
  length buf = n -> (0 < n <= length cs)%nat ->
  Frame.pushed buf cs = skipn (length cs - n) cs.
Proof.
  intros L H; rewrite pushed_skipn by (intros ->; simpl in L; lia).
  rewrite skipn_app, skipn_all2, L by lia; reflexivity.
Qed.

Lemma pushed_snoc (buf cs : list ascii) (c : ascii) :
  tl (Frame.pushed buf cs) ++ [c] = Frame.pushed buf (cs ++ [c]).
Proof. unfold Frame.pushed; rewrite fold_left_app; reflexivity. Qed.

Lemma dcf_run_app (timeout : Z) (l1 l2 : list (list bool)) (st : DCF77.state) :
  DCF77.run timeout st (l1 ++ l2) =
  (o <- DCF77.run timeout st l1 ;;
   match o with
   | Tracker.Running st' => DCF77.run timeout st' l2
   | _ => Ok o
   end).
Proof.
  revert st; induction l1 as [|s l1 IH]; intros st; [reflexivity|].
  simpl app; cbn [DCF77.run].
  destruct (DCF77.step timeout st s) as [[st'| | |]|e]; cbn [bind]; auto.
Qed.

Lemma dcf_pulses_run (timeout : Z) (bits : list bool) :
  forall st : DCF77.state,
  DCF77.elapsed st + Z.of_nat (length bits) <= timeout * 60 ->
  DCF77.run timeout st (map (fun a => DCF77.second a true) bits) =
  Ok (Tracker.Running
        (DCF77.mkState (Frame.pushed (DCF77.tcA st) (map Frame.bit bits))
           (Frame.pushed (DCF77.tcB st) (repeat "1"%char (length bits)))
           (DCF77.elapsed st + Z.of_nat (length bits))
           (DCF77.year_f st) (DCF77.month_f st) (DCF77.day_f st) (DCF77.dst_f st)
           (DCF77.mods st) (DCF77.mod_v st))).
Proof.
  induction bits as [|a bits IH]; intros st E.
  - simpl; rewrite Z.add_0_r; destruct st; reflexivity.
  - simpl length in *; simpl map; cbn [DCF77.run].
    rewrite dcf_pulse_step by lia; cbn [bind].
    rewrite IH by (cbn [DCF77.elapsed]; lia).
    cbn [DCF77.tcA DCF77.tcB DCF77.elapsed DCF77.year_f DCF77.month_f DCF77.day_f
         DCF77.dst_f DCF77.mods DCF77.mod_v].
    do 2 f_equal; f_equal; lia.
Qed.

(** The seconds of a minute: 59 pulses, then the gap. *)
Lemma dcf_minute_seconds (yr mon day dow hr mn : Z) (summer bad : bool) :
  let frame := Signal.dcf77_minute yr mon day dow hr mn summer bad in
  Signal.dcf77_samples frame =
    map (fun a => DCF77.second a true) (firstn 59 (map fst frame))
    ++ [DCF77.second false false] /\
  length (firstn 59 (map fst frame)) = 59%nat /\
  rev (map Frame.bit (skipn 15 (firstn 59 (map fst frame) ++ [false])))
   = Frame.dcf77_register frame.
Proof. repeat split. Qed.

Lemma pulses_then_gap (n : nat) :
  (5 <= n)%nat ->
  skipn (n + 1 - 6) (repeat "1"%char n ++ ["0"%char])
  = ["1"; "1"; "1"; "1"; "1"; "0"]%char.
Proof.
  intros H; replace n with ((n - 5) + 5)%nat at 2 by lia.
  rewrite repeat_app, <- app_assoc, skipn_app, repeat_length.
  replace (n + 1 - 6 - (n - 5))%nat with 0%nat by lia.
  rewrite skipn_all2 by (rewrite repeat_length; lia); reflexivity.
Qed.

(** What the loop has done when the gap of second 59 has been sampled,
    having come in at second [k <= 15] of the minute: the register holds
    the frame and the decoder is entered. *)
Lemma dcf_frame_run (timeout : Z) (st : DCF77.state) (k : nat)
    (yr mon day dow hr mn : Z) (summer bad : bool) :
  (k <= 15)%nat ->
  length (DCF77.tcA st) = 45%nat -> length (DCF77.tcB st) = 6%nat ->
  DCF77.elapsed st + 59 - Z.of_nat k <= timeout * 60 ->
  let frame := Signal.dcf77_minute yr mon day dow hr mn summer bad in
  DCF77.run timeout st (skipn k (Signal.dcf77_samples frame)) =
  (o <- DCF77.decode
          (DCF77.mkState (rev (Frame.dcf77_register frame))
             ["1"; "1"; "1"; "1"; "1"; "0"]%char
             (DCF77.elapsed st + 60 - Z.of_nat k)
             (DCF77.year_f st) (DCF77.month_f st) (DCF77.day_f st) (DCF77.dst_f st)
             (DCF77.mods st) (DCF77.mod_v st)) ;;
   match o with
   | Tracker.Running st' =>
       if timeout * 60 <? DCF77.elapsed st' then Ok (Tracker.TimedOut st')
       else Ok (Tracker.Running st')
   | _ => Ok o
   end).
Proof.
  intros Hk LA LB E frame.
  pose proof (dcf_minute_seconds yr mon day dow hr mn summer bad) as H.
  cbv zeta in H; fold frame in H; destruct H as (-> & L59 & R).
  set (bits := firstn 59 (map fst frame)) in *.
  assert (Lk : length (skipn k bits) = (59 - k)%nat)
    by (rewrite length_skipn, L59; reflexivity).
  replace (skipn k (map (fun a => DCF77.second a true) bits ++ [DCF77.second false false]))
    with (map (fun a => DCF77.second a true) (skipn k bits) ++ [DCF77.second false false]).
  2:{ rewrite skipn_app, skipn_map, length_map, L59.
      replace (k - 59)%nat with 0%nat by lia; reflexivity. }
  rewrite dcf_run_app, dcf_pulses_run by (rewrite Lk; lia).
  cbn [bind DCF77.run]; unfold DCF77.step.
  rewrite dcf_second_shift.
  cbn [bind DCF77.tcA DCF77.tcB DCF77.elapsed DCF77.year_f DCF77.month_f DCF77.day_f
       DCF77.dst_f DCF77.mods DCF77.mod_v Frame.bit].
  rewrite !pushed_snoc, Lk.
  rewrite (pushed_over 6 _ (DCF77.tcB st) LB)
    by (rewrite length_app, repeat_length; cbn [length]; lia).
  rewrite (pushed_over 45 _ (DCF77.tcA st) LA)
    by (rewrite length_app, length_map, Lk; cbn [length]; lia).
  change (map Frame.bit (skipn k bits) ++ ["0"%char])
    with (map Frame.bit (skipn k bits) ++ map Frame.bit [false]).
  replace (skipn _ (map Frame.bit (skipn k bits) ++ map Frame.bit [false]))
    with (rev (Frame.dcf77_register frame)).
  2:{ rewrite <- R, rev_involutive, <- map_app, length_map, (length_app (skipn k bits)), Lk.
      rewrite skipn_map; f_equal.
      replace (skipn k bits ++ [false]) with (skipn k (bits ++ [false]))
        by (rewrite skipn_app, L59; replace (k - 59)%nat with 0%nat by lia;
            reflexivity).
      rewrite skipn_skipn; f_equal; cbn [length]; lia. }
  rewrite length_app, repeat_length; cbn [length].
  rewrite pulses_then_gap by lia.
  change (Str.endswith ["1"; "1"; "1"; "1"; "1"; "0"]%char DCF77.marker) with true.
  cbv iota.
  replace (DCF77.elapsed st + Z.of_nat (59 - k) + 1)
    with (DCF77.elapsed st + 60 - Z.of_nat k) by lia.
  destruct (DCF77.decode _) as [[st'|st' u|st'|st']|e]; cbn [bind]; try reflexivity.
  destruct (_ <? _); reflexivity.
Qed.

Lemma dcf_frame_date (st : DCF77.state) (yr mon day dow hr mn : Z) (summer bad : bool) :
  0 <= yr < 100 -> 0 <= mon < 20 -> 0 <= day < 40 ->
  DCF77.tcA st
    = Frame.dcf77_register (Signal.dcf77_minute yr mon day dow hr mn summer bad) ->
  Tracker.matched (DCF77.year_f st) = false ->
  Tracker.matched (DCF77.month_f st) = false ->
  Tracker.matched (DCF77.day_f st) = false ->
  DCF77.date_fields st =
  Ok (if bad then st
      else DCF77.with_fields st
             (Tracker.consider (fun v => (23 <? v) && (v <? 100)) (Z.add 2000)
                (DCF77.year_f st) yr)
             (Tracker.consider (fun v => (0 <? v) && (v <=? 12)) (fun v => v)
                (DCF77.month_f st) mon)
             (Tracker.consider (fun v => (0 <? v) && (v <=? 31)) (fun v => v)
                (DCF77.day_f st) day)
             (DCF77.dst_f st)).
Proof.
  intros Hy Hm Hd E My Mm Md; unfold DCF77.date_fields.
  rewrite E, My, Mm, Md.
  rewrite dcf_date_parity, dcf_year_value, dcf_month_value, dcf_day_value by assumption.
  match goal with |- context [Str.getitem ?a 23] =>
    replace (Str.getitem a 23) with (@Ok ascii (Frame.bit (Z.testbit (day mod 10) 0)))
      by reflexivity
  end.
  cbn [bind]; rewrite bit_not_blank.
  destruct bad; reflexivity.
Qed.

Lemma dcf_frame_dst (st : DCF77.state) (yr mon day dow hr mn : Z) (summer bad : bool) :
  DCF77.tcA st
    = Frame.dcf77_register (Signal.dcf77_minute yr mon day dow hr mn summer bad) ->
  Tracker.matched (DCF77.dst_f st) = false ->
  DCF77.dst_field st =
  Ok (DCF77.with_fields st (DCF77.year_f st) (DCF77.month_f st) (DCF77.day_f st)
        (Tracker.consider (fun _ => true) (fun v => v) (DCF77.dst_f st)
           (Z.b2z summer))).
Proof.
  intros E Ms; unfold DCF77.dst_field; rewrite E, Ms.
  match goal with |- context [Str.getitem ?a 42] =>
    replace (Str.getitem a 42) with (@Ok ascii (Frame.bit summer)) by reflexivity;
    replace (Str.slice a 41 43) with (map Frame.bit [negb summer; summer])
      by reflexivity
  end.
  cbn [bind]; rewrite bit_not_blank, count1_ones, int10_value.
  destruct summer; reflexivity.
Qed.

(** X9. A DCF77 minute is read back. When the decoder is entered with
    the reversed register holding seconds 59 down to 15 of a minute that
    carries year, month, day, hour and minute in BCD, and no field is
    confirmed yet: the date fields are offered the year, month and day sent -
    or are left alone when the date parity bit is wrong -, the DST field is
    offered the summer-time bit sent, and the time field yields the hour and
    minute sent. *)
Theorem dcf77_frame_is_read_back (st : DCF77.state)
    (yr mon day dow hr mn : Z) (summer bad : bool) :
  0 <= yr < 100 -> 0 <= mon < 20 -> 0 <= day < 40 -> 0 <= hr < 40 -> 0 <= mn < 80 ->
  DCF77.tcA st
    = Frame.dcf77_register (Signal.dcf77_minute yr mon day dow hr mn summer bad) ->
  Tracker.matched (DCF77.year_f st) = false ->
  Tracker.matched (DCF77.month_f st) = false ->
  Tracker.matched (DCF77.day_f st) = false ->
  Tracker.matched (DCF77.dst_f st) = false ->
  DCF77.date_fields st =
    Ok (if bad then st
        else DCF77.with_fields st
               (Tracker.consider (fun v => (23 <? v) && (v <? 100)) (Z.add 2000)
                  (DCF77.year_f st) yr)
               (Tracker.consider (fun v => (0 <? v) && (v <=? 12)) (fun v => v)
                  (DCF77.month_f st) mon)
               (Tracker.consider (fun v => (0 <? v) && (v <=? 31)) (fun v => v)
                  (DCF77.day_f st) day)
               (DCF77.dst_f st)) /\
  DCF77.dst_field st =
    Ok (DCF77.with_fields st (DCF77.year_f st) (DCF77.month_f st) (DCF77.day_f st)
          (Tracker.consider (fun _ => true) (fun v => v) (DCF77.dst_f st)
             (Z.b2z summer))) /\
  DCF77.time_field (DCF77.tcA st) = Ok (Some (hr, mn)).
Proof.
  intros Hy Hm Hd Hh Hn E My Mm Md Ms.
  split; [eapply dcf_frame_date; eassumption|].
  split; [eapply dcf_frame_dst; eassumption|].
  rewrite E; now apply dcf_time_value.
Qed.

Lemma dcf77_frame_is_read_back_witness :
  DCF77.time_field
    (Frame.dcf77_register (Signal.dcf77_minute 26 11 4 3 12 34 false false))
  = Ok (Some (12, 34)).
Proof.
  apply (dcf77_frame_is_read_back
           (DCF77.with_tcA (DCF77.init None)
              (Frame.dcf77_register (Signal.dcf77_minute 26 11 4 3 12 34 false false)))
           26 11 4 3 12 34 false false);
    reflexivity || lia.
Defined.

(** The decoder entered on a register that holds a frame, no field being
    confirmed yet. *)
Lemma dcf_frame_decode (st : DCF77.state) (yr mon day dow hr mn : Z) (summer : bool) :
  0 <= yr < 100 -> 0 <= mon < 20 -> 0 <= day < 40 -> 0 <= hr < 40 -> 0 <= mn < 80 ->
  let reg := Frame.dcf77_register
               (Signal.dcf77_minute yr mon day dow hr mn summer false) in
  DCF77.tcA st = rev reg ->
  Tracker.matched (DCF77.year_f st) = false ->
  Tracker.matched (DCF77.month_f st) = false ->
  Tracker.matched (DCF77.day_f st) = false ->
  Tracker.matched (DCF77.dst_f st) = false ->
  DCF77.decode st =
  (st4 <- DCF77.shortcut
            (DCF77.minute_update
               (DCF77.mkState reg (DCF77.tcB st) (DCF77.elapsed st)
                  (Tracker.consider (fun v => (23 <? v) && (v <? 100)) (Z.add 2000)
                     (DCF77.year_f st) yr)
                  (Tracker.consider (fun v => (0 <? v) && (v <=? 12)) (fun v => v)
                     (DCF77.month_f st) mon)
                  (Tracker.consider (fun v => (0 <? v) && (v <=? 31)) (fun v => v)
                     (DCF77.day_f st) day)
                  (Tracker.consider (fun _ => true) (fun v => v) (DCF77.dst_f st)
                     (Z.b2z summer))
                  (DCF77.mods st) (DCF77.mod_v st))
               hr mn) ;;
   go <- DCF77.accept st4 ;;
   if go then utc <- DCF77.utc_of st4 hr mn ;; Ok (Tracker.Locked st4 utc)
   else Ok (Tracker.Running (DCF77.with_tcA st4 (rev (DCF77.tcA st4))))).
Proof.
  intros Hy Hm Hd Hh Hn reg E My Mm Md Ms; unfold DCF77.decode.
  rewrite E, rev_involutive.
  rewrite (dcf_frame_date _ yr mon day dow hr mn summer false); auto.
  cbn [bind].
  rewrite (dcf_frame_dst _ yr mon day dow hr mn summer false); auto.
  cbn [bind DCF77.with_fields DCF77.with_tcA DCF77.tcA DCF77.tcB DCF77.elapsed
       DCF77.year_f DCF77.month_f DCF77.day_f DCF77.dst_f DCF77.mods DCF77.mod_v].
  fold reg; unfold reg at 1; rewrite dcf_time_value by assumption.
  cbn [bind]; reflexivity.
Qed.

(** ** Consensus from a cold start *)

Lemma count_one (v : Z) : Py.count v [v] = 1.
Proof. unfold Py.count; simpl; destruct (Z.eq_dec v v); [reflexivity|congruence]. Qed.

Lemma count_two (v : Z) : Py.count v [v; v] = 2.
Proof. unfold Py.count; simpl; destruct (Z.eq_dec v v); [reflexivity|congruence]. Qed.

Lemma consider_first (inrange : Z -> bool) (accept : Z -> Z) (r x : option Z) (v : Z) :
  inrange v = true ->
  Tracker.consider inrange accept (Tracker.mkField [] false r x) v
  = Tracker.mkField [v] false (Some v) x.
Proof.
  intros H; unfold Tracker.consider; rewrite H.
  cbn [Tracker.hist Tracker.matched Tracker.val].
  change (Py.last_n 4 [] ++ [v]) with [v]; rewrite count_one; reflexivity.
Qed.

Lemma consider_second (inrange : Z -> bool) (accept : Z -> Z) (r x : option Z) (v : Z) :
  inrange v = true ->
  Tracker.consider inrange accept (Tracker.mkField [v] false r x) v
  = Tracker.mkField [v; v] false (Some v) x.
Proof.
  intros H; unfold Tracker.consider; rewrite H.
  cbn [Tracker.hist Tracker.matched Tracker.val].
  change (Py.last_n 4 [v] ++ [v]) with [v; v]; rewrite count_two; reflexivity.
Qed.

Lemma distinct_pair (v : Z) : Py.distinct [v; v] = 1.
Proof.
  unfold Py.distinct; rewrite (nodup_all_eq [v; v] v); [reflexivity|discriminate|].
  intros x [<-|[<-|[]]]; reflexivity.
Qed.

Lemma in_year_range (yr : Z) : 24 <= yr <= 99 -> (23 <? yr) && (yr <? 100) = true.
Proof.
  intros H; apply andb_true_intro; split; apply Z.ltb_lt; lia.
Qed.

Lemma in_count_range (v n : Z) : 1 <= v <= n -> (0 <? v) && (v <=? n) = true.
Proof.
  intros H; apply andb_true_intro; split; [apply Z.ltb_lt|apply Z.leb_le]; lia.
Qed.

Lemma in_day_time (hr mn : Z) : hr < 24 -> mn < 60 -> (hr <? 24) && (mn <? 60) = true.
Proof.
  intros H1 H2; apply andb_true_intro; split; apply Z.ltb_lt; lia.
Qed.

(** The state in which a first good frame leaves a loop started cold. *)
Lemma dcf_cold_first_frame (timeout yr mon day dow hr mn : Z) (summer : bool) :
  1 <= timeout -> 24 <= yr <= 99 -> 1 <= mon <= 12 -> 1 <= day <= 31 ->
  0 <= hr < 24 -> 0 <= mn < 60 ->
  let frame := Signal.dcf77_minute yr mon day dow hr mn summer false in
  DCF77.run timeout (DCF77.init None) (Signal.dcf77_samples frame) =
  Ok (Tracker.Running
        (DCF77.mkState (rev (Frame.dcf77_register frame))
           ["1"; "1"; "1"; "1"; "1"; "0"]%char 0
           (Tracker.mkField [yr] false (Some yr) None)
           (Tracker.mkField [mon] false (Some mon) None)
           (Tracker.mkField [day] false (Some day) None)
           (Tracker.mkField [Z.b2z summer] false (Some (Z.b2z summer)) None)
           [hr * 60 + mn] (Some (hr * 60 + mn)))).
Proof.
  intros T Hy Hm Hd Hh Hn frame; unfold frame.
  change (Signal.dcf77_samples (Signal.dcf77_minute yr mon day dow hr mn summer false))
    with (skipn 0 (Signal.dcf77_samples
                     (Signal.dcf77_minute yr mon day dow hr mn summer false))).
  rewrite dcf_frame_run; [|lia|reflexivity|reflexivity|simpl; lia].
  rewrite (dcf_frame_decode _ yr mon day dow hr mn summer); try reflexivity; try lia.
  cbn [DCF77.init DCF77.tcA DCF77.tcB DCF77.elapsed DCF77.year_f DCF77.month_f
       DCF77.day_f DCF77.dst_f DCF77.mods DCF77.mod_v].
  rewrite !consider_first
    by (reflexivity || apply in_year_range || apply in_count_range; lia).
  unfold DCF77.minute_update; rewrite in_day_time by lia.
  cbn [DCF77.tcA DCF77.tcB DCF77.elapsed DCF77.year_f DCF77.month_f
       DCF77.day_f DCF77.dst_f DCF77.mods DCF77.mod_v].
  match goal with |- context [Tracker.project [] ?e ?m] =>
    change (Tracker.project [] e m) with [m]
  end.
  assert (R : forall v x, Tracker.reset (Tracker.mkField [v] false (Some v) x)
                          = Tracker.mkField [v] false (Some v) x) by reflexivity.
  rewrite !R.
  destruct (hr * 60 + mn <? 5);
    (match goal with |- context [DCF77.shortcut ?x] =>
       replace (DCF77.shortcut x) with (Ok x) by reflexivity;
       cbn [bind]; replace (DCF77.accept x) with (@Ok bool false) by reflexivity
     end;
     cbn [bind DCF77.with_tcA DCF77.tcA DCF77.tcB DCF77.elapsed DCF77.year_f
          DCF77.month_f DCF77.day_f DCF77.dst_f DCF77.mods DCF77.mod_v];
     replace (timeout * 60 <? 0) with false by (symmetry; apply Z.ltb_ge; lia);
     reflexivity).
Qed.

Ltac dcf_fields :=
  cbn [DCF77.tcA DCF77.tcB DCF77.elapsed DCF77.year_f DCF77.month_f DCF77.day_f
       DCF77.dst_f DCF77.mods DCF77.mod_v DCF77.with_fields DCF77.with_tcA
       Tracker.hist Tracker.matched Tracker.raw Tracker.val bind].

(** The shortcut on four histories of two equal entries. *)
Lemma dcf_shortcut_pairs (a b : list ascii) (e y m d s : Z) (x1 x2 x3 x4 : option Z)
    (mods : list Z) (mv : option Z) :
  DCF77.shortcut
    (DCF77.mkState a b e
       (Tracker.mkField [y; y] false (Some y) x1)
       (Tracker.mkField [m; m] false (Some m) x2)
       (Tracker.mkField [d; d] false (Some d) x3)
       (Tracker.mkField [s; s] false (Some s) x4) mods mv)
  = Ok (DCF77.mkState a b e
          (Tracker.mkField [y; y] true (Some y) (Some (2000 + y)))
          (Tracker.mkField [m; m] true (Some m) (Some m))
          (Tracker.mkField [d; d] true (Some d) (Some d))
          (Tracker.mkField [s; s] true (Some s) (Some s)) mods mv).
Proof.
  unfold DCF77.shortcut, DCF77.confident; dcf_fields.
  rewrite !distinct_pair; reflexivity.
Qed.

Lemma minute_found_pair (m : Z) (mv : option Z) :
  Tracker.minute_found [m; m] mv = Ok true.
Proof. unfold Tracker.minute_found; rewrite distinct_pair; reflexivity. Qed.

(** X10. DCF77 from a cold start. One good minute is not enough: after
    it the loop goes on, no field confirmed. Two consecutive good minutes of
    one day, the second at 00:05 or later, end the loop at the gap of the
    second minute with the clock set to the date sent and the time of the
    second minute less one hour, less two in summer time. *)
Theorem dcf77_cold_start_lock (timeout yr mon day dow1 dow2 hr1 mn1 hr2 mn2 : Z)
    (summer : bool) :
  1 <= timeout -> 24 <= yr <= 99 -> 1 <= mon <= 12 -> 1 <= day <= 31 ->
  0 <= hr1 < 24 -> 0 <= mn1 < 60 -> 0 <= hr2 < 24 -> 0 <= mn2 < 60 ->
  hr2 * 60 + mn2 = hr1 * 60 + mn1 + 1 -> 5 <= hr2 * 60 + mn2 ->
  let first := Signal.dcf77_minute yr mon day dow1 hr1 mn1 summer false in
  let second := Signal.dcf77_minute yr mon day dow2 hr2 mn2 summer false in
  (exists st1,
     DCF77.run timeout (DCF77.init None) (Signal.dcf77_samples first)
     = Ok (Tracker.Running st1) /\ DCF77.all_matched st1 = false) /\
  exists st,
    DCF77.run timeout (DCF77.init None) (Signal.dcf77_samples (first ++ second))
    = Ok (Tracker.Locked st
            (Time.mktime (2000 + yr) mon day hr2 mn2 0
             - 3600 * (1 + Z.b2z summer))) /\
    DCF77.all_matched st = true /\
    DCF77.mods st = [hr2 * 60 + mn2; hr2 * 60 + mn2].
Proof.
  intros T Hy Hm Hd Hh1 Hn1 Hh2 Hn2 Next Late first second.
  pose proof (dcf_cold_first_frame timeout yr mon day dow1 hr1 mn1 summer
                T Hy Hm Hd Hh1 Hn1) as F1.
  cbv zeta in F1; fold first in F1.
  split; [eexists; split; [exact F1|reflexivity]|].
  eexists; split.
  - unfold Signal.dcf77_samples in *; rewrite map_app, dcf_run_app, F1.
    cbn [bind]; fold (Signal.dcf77_samples second); unfold second.
    change (Signal.dcf77_samples (Signal.dcf77_minute yr mon day dow2 hr2 mn2 summer false))
      with (skipn 0 (Signal.dcf77_samples
                       (Signal.dcf77_minute yr mon day dow2 hr2 mn2 summer false))).
    rewrite dcf_frame_run; [|lia|reflexivity|reflexivity|simpl; lia].
    rewrite (dcf_frame_decode _ yr mon day dow2 hr2 mn2 summer);
      try reflexivity; try lia.
    dcf_fields.
    rewrite !consider_second
      by (reflexivity || apply in_year_range || apply in_count_range; lia).
    unfold DCF77.minute_update; rewrite in_day_time by lia.
    dcf_fields.
    match goal with |- context [Tracker.project [?m1] ?e ?m] =>
      change (Tracker.project [m1] e m) with [m1 + 1; m]
    end.
    rewrite <- Next.
    replace (hr2 * 60 + mn2 <? 5) with false by (symmetry; apply Z.ltb_ge; lia).
    rewrite dcf_shortcut_pairs; cbn [bind].
    unfold DCF77.accept, DCF77.all_matched; dcf_fields; cbn [andb].
    rewrite minute_found_pair; cbn [bind].
    unfold DCF77.utc_of; dcf_fields; cbn [Tracker.name bind].
    replace (Time.mktime (2000 + yr) mon day (hr2 - 1 - Z.b2z summer) mn2 0)
      with (Time.mktime (2000 + yr) mon day hr2 mn2 0 - 3600 * (1 + Z.b2z summer))
      by (unfold Time.mktime; lia).
    reflexivity.
  - split; reflexivity.
Qed.

Lemma dcf77_cold_start_lock_witness :
  exists st,
    DCF77.run 15 (DCF77.init None)
      (Signal.dcf77_samples (Signal.dcf77_minute 26 11 4 3 12 34 false false
                             ++ Signal.dcf77_minute 26 11 4 3 12 35 false false))
    = Ok (Tracker.Locked st
            (Time.mktime (2000 + 26) 11 4 12 35 0 - 3600 * (1 + Z.b2z false))).
Proof.
  destruct (dcf77_cold_start_lock 15 26 11 4 3 3 12 34 12 35 false)
    as (_ & st & E & _); try lia.
  exists st; exact E.
Defined.

(** ** An MSF frame in the registers *)

Lemma odd_with_parity (l : list bool) :
  (Frame.ones l + Z.b2z (negb (Signal.parity l))) mod 2 = 1.
Proof.
  rewrite Zplus_mod, (ones_parity l); destruct (Signal.parity l); reflexivity.
Qed.

Lemma msf_frame_year (st : MSF.state) (yr mon day dow hr mn : Z) :
  0 <= yr < 100 ->
  MSF.tcA st = Frame.msf_register_a (Signal.msf_minute yr mon day dow hr mn) ->
  MSF.tcB st = Frame.msf_register_b (Signal.msf_minute yr mon day dow hr mn) ->
  Tracker.matched (MSF.year_f st) = false ->
  MSF.year_field st =
  Ok (MSF.with_fields st
        (Tracker.consider (fun v => (23 <? v) && (v <? 100)) (Z.add 2000)
           (MSF.year_f st) yr)
        (MSF.month_f st) (MSF.day_f st)).
Proof.
  intros H EA EB My; destruct (tens_units yr H) as (T & U & E).
  unfold MSF.year_field, MSF.parity_bit, MSF.year_value; rewrite EA, EB, My.
  set (year := Signal.msb_first 4 (yr / 10) ++ Signal.msb_first 4 (yr mod 10)).
  match goal with |- context [Str.getitem ?a (-43)] =>
    replace (Str.getitem a (-43)) with (@Ok ascii (Frame.bit (Z.testbit (yr / 10) 3)))
      by reflexivity;
    replace (Str.slice a (-43) (-35)) with (map Frame.bit year) by reflexivity;
    rewrite (bcd_value (Signal.msb_first 4 (yr / 10)) (Signal.msb_first 4 (yr mod 10))
               a (-43) (-39) (-35)); try reflexivity; try discriminate
  end.
  match goal with |- context [Str.getitem ?b (-6)] =>
    replace (Str.getitem b (-6))
      with (@Ok ascii (Frame.bit (negb (Signal.parity year)))) by reflexivity
  end.
  cbn [bind]; rewrite bit_not_blank, count1_ones, int10_value; cbn [bind negb].
  rewrite odd_with_parity, !value_msb4, E by lia; reflexivity.
Qed.

Lemma msf_frame_date (st : MSF.state) (yr mon day dow hr mn : Z) :
  0 <= mon < 20 -> 0 <= day < 40 ->
  MSF.tcA st = Frame.msf_register_a (Signal.msf_minute yr mon day dow hr mn) ->
  MSF.tcB st = Frame.msf_register_b (Signal.msf_minute yr mon day dow hr mn) ->
  Tracker.matched (MSF.month_f st) = false ->
  Tracker.matched (MSF.day_f st) = false ->
  MSF.date_fields st =
  Ok (MSF.with_fields st (MSF.year_f st)
        (Tracker.consider (fun v => (0 <? v) && (v <=? 12)) (fun v => v)
           (MSF.month_f st) mon)
        (Tracker.consider (fun v => (0 <? v) && (v <=? 31)) (fun v => v)
           (MSF.day_f st) day)).
Proof.
  intros Hm Hd EA EB Mm Md.
  destruct (tens_units mon) as (Tm & Um & Em); [lia|].
  destruct (tens_units day) as (Td & Ud & Ed); [lia|].
  assert (Tm2 : 0 <= mon / 10 < 2)
    by (split; [lia|apply Z.div_lt_upper_bound; lia]).
  assert (Td2 : 0 <= day / 10 < 4)
    by (split; [lia|apply Z.div_lt_upper_bound; lia]).
  unfold MSF.date_fields, MSF.parity_bit, MSF.month_value, MSF.day_value.
  rewrite EA, EB, Mm, Md.
  set (date := Signal.msb_first 1 (mon / 10) ++ Signal.msb_first 4 (mon mod 10)
               ++ Signal.msb_first 2 (day / 10) ++ Signal.msb_first 4 (day mod 10)).
  match goal with |- context [Str.getitem ?a (-35)] =>
    replace (Str.getitem a (-35)) with (@Ok ascii (Frame.bit (Z.testbit (mon / 10) 0)))
      by reflexivity;
    replace (Str.slice a (-35) (-24)) with (map Frame.bit date) by reflexivity;
    replace (Str.slice a (-34) (-30))
      with (map Frame.bit (Signal.msb_first 4 (mon mod 10))) by reflexivity;
    rewrite (bcd_value (Signal.msb_first 2 (day / 10)) (Signal.msb_first 4 (day mod 10))
               a (-30) (-28) (-24)); try reflexivity; try discriminate
  end.
  match goal with |- context [Str.getitem ?b (-5)] =>
    replace (Str.getitem b (-5))
      with (@Ok ascii (Frame.bit (negb (Signal.parity date)))) by reflexivity
  end.
  cbn [bind]; rewrite bit_not_blank, count1_ones, int10_value; cbn [bind negb].
  rewrite odd_with_parity.
  change [Frame.bit (Z.testbit (mon / 10) 0)]
    with (map Frame.bit (Signal.msb_first 1 (mon / 10))).
  rewrite !int2_value by discriminate; cbn [bind Z.eqb].
  rewrite value_msb1, value_msb2, !value_msb4, Em, Ed by lia; reflexivity.
Qed.

Lemma msf_frame_time (yr mon day dow hr mn : Z) :
  0 <= hr < 40 -> 0 <= mn < 80 ->
  MSF.time_field (Frame.msf_register_a (Signal.msf_minute yr mon day dow hr mn))
                 (Frame.msf_register_b (Signal.msf_minute yr mon day dow hr mn))
  = Ok (Some (hr, mn)).
Proof.
  intros Hh Hm.
  destruct (tens_units hr) as (Th & Uh & Eh); [lia|].
  destruct (tens_units mn) as (Tm & Um & Em); [lia|].
  assert (Th2 : 0 <= hr / 10 < 4)
    by (split; [lia|apply Z.div_lt_upper_bound; lia]).
  assert (Tm2 : 0 <= mn / 10 < 8)
    by (split; [lia|apply Z.div_lt_upper_bound; lia]).
  unfold MSF.time_field, MSF.parity_bit.
  set (time := Signal.msb_first 2 (hr / 10) ++ Signal.msb_first 4 (hr mod 10)
               ++ Signal.msb_first 3 (mn / 10) ++ Signal.msb_first 4 (mn mod 10)).
  match goal with |- context [Str.getitem ?a (-21)] =>
    replace (Str.getitem a (-21)) with (@Ok ascii (Frame.bit (Z.testbit (hr / 10) 1)))
      by reflexivity;
    replace (Str.slice a (-21) (-8)) with (map Frame.bit time) by reflexivity;
    rewrite (bcd_value (Signal.msb_first 2 (hr / 10)) (Signal.msb_first 4 (hr mod 10))
               a (-21) (-19) (-15)); try reflexivity; try discriminate;
    rewrite (bcd_value (Signal.msb_first 3 (mn / 10)) (Signal.msb_first 4 (mn mod 10))
               a (-15) (-12) (-8)); try reflexivity; try discriminate
  end.
  match goal with |- context [Str.getitem ?b (-3)] =>
    replace (Str.getitem b (-3))
      with (@Ok ascii (Frame.bit (negb (Signal.parity time)))) by reflexivity
  end.
  cbn [bind]; rewrite bit_not_blank, count1_ones, int10_value; cbn [bind negb].
  rewrite odd_with_parity; cbn [Z.eqb bind].
  rewrite value_msb2, value_msb3, !value_msb4, Eh, Em by lia; reflexivity.
Qed.

(** X11. An MSF minute is read back. With register A holding bits A of
    seconds 15 to 59 and register B bits B of seconds 52 to 59 of a minute
    that carries year, month, day, hour and minute in BCD, no field
    confirmed yet: the register ends with the marker 01111110, the year and
    date fields are offered the year, month and day sent, and the time field
    yields the hour and minute sent. *)
Theorem msf_frame_is_read_back (st : MSF.state) (yr mon day dow hr mn : Z) :
  0 <= yr < 100 -> 0 <= mon < 20 -> 0 <= day < 40 -> 0 <= hr < 40 -> 0 <= mn < 80 ->
  MSF.tcA st = Frame.msf_register_a (Signal.msf_minute yr mon day dow hr mn) ->
  MSF.tcB st = Frame.msf_register_b (Signal.msf_minute yr mon day dow hr mn) ->
  Tracker.matched (MSF.year_f st) = false ->
  Tracker.matched (MSF.month_f st) = false ->
  Tracker.matched (MSF.day_f st) = false ->
  Str.endswith (MSF.tcA st) MSF.marker = true /\
  MSF.year_field st =
    Ok (MSF.with_fields st
          (Tracker.consider (fun v => (23 <? v) && (v <? 100)) (Z.add 2000)
             (MSF.year_f st) yr)
          (MSF.month_f st) (MSF.day_f st)) /\
  MSF.date_fields st =
    Ok (MSF.with_fields st (MSF.year_f st)
          (Tracker.consider (fun v => (0 <? v) && (v <=? 12)) (fun v => v)
             (MSF.month_f st) mon)
          (Tracker.consider (fun v => (0 <? v) && (v <=? 31)) (fun v => v)
             (MSF.day_f st) day)) /\
  MSF.time_field (MSF.tcA st) (MSF.tcB st) = Ok (Some (hr, mn)).
Proof.
  intros Hy Hm Hd Hh Hn EA EB My Mm Md.
  split; [rewrite EA; reflexivity|].
  split; [eapply msf_frame_year; eassumption|].
  split; [eapply msf_frame_date; eassumption|].
  rewrite EA, EB; now apply msf_frame_time.
Qed.

Lemma msf_frame_is_read_back_witness :
  MSF.time_field (Frame.msf_register_a (Signal.msf_minute 26 11 4 3 12 34))
                 (Frame.msf_register_b (Signal.msf_minute 26 11 4 3 12 34))
  = Ok (Some (12, 34)).
Proof.
  apply (msf_frame_is_read_back
           (MSF.mkState (Frame.msf_register_a (Signal.msf_minute 26 11 4 3 12 34))
                        (Frame.msf_register_b (Signal.msf_minute 26 11 4 3 12 34))
                        0 (Tracker.mkField [] false None None)
                        (Tracker.mkField [] false None None)
                        (Tracker.mkField [] false None None) [] None)
           26 11 4 3 12 34);
    reflexivity || lia.
Defined.

(** ** A JJY frame in the register *)

Lemma hundreds_tens_units (v : Z) : 0 <= v < 400 ->
  0 <= v / 100 < 4 /\ 0 <= v / 10 mod 10 < 10 /\ 0 <= v mod 10 < 10 /\
  v / 100 * 100 + v / 10 mod 10 * 10 + v mod 10 = v.
Proof.
  intros H.
  pose proof (Z.mod_pos_bound v 10). pose proof (Z.mod_pos_bound (v / 10) 10).
  pose proof (Z.div_mod v 10). pose proof (Z.div_mod (v / 10) 10).
  assert (E : v / 100 = v / 10 / 10) by (rewrite Z.div_div; [reflexivity|lia|lia]).
  assert (0 <= v / 100 < 4)
    by (split; [apply Z.div_pos; lia|apply Z.div_lt_upper_bound; lia]).
  lia.
Qed.

Lemma jjy_frame_year (st : JJY.state) (yr doy hr mn : Z) (next : bool) :
  0 <= yr < 100 ->
  JJY.tcA st = Frame.jjy_register (Signal.jjy_minute yr doy hr mn) next ->
  Tracker.matched (JJY.year_f st) = false ->
  JJY.year_field st =
  Ok (JJY.with_fields st
        (Tracker.consider (fun v => (23 <? v) && (v <? 100)) (Z.add 2000)
           (JJY.year_f st) yr)
        (JJY.doy_f st)).
Proof.
  intros H EA My; destruct (tens_units yr H) as (T & U & E).
  unfold JJY.year_field, JJY.year_value; rewrite EA, My.
  match goal with |- context [Str.getitem ?a (-20)] =>
    replace (Str.getitem a (-20)) with (@Ok ascii (Frame.bit (Z.testbit (yr / 10) 3)))
      by reflexivity;
    rewrite (bcd_value (Signal.msb_first 4 (yr / 10)) (Signal.msb_first 4 (yr mod 10))
               a (-20) (-16) (-12)); try reflexivity; try discriminate
  end.
  cbn [bind]; rewrite bit_not_blank; cbn [negb].
  rewrite !value_msb4, E by lia; reflexivity.
Qed.

Lemma jjy_frame_doy (st : JJY.state) (yr doy hr mn : Z) (next : bool) :
  0 <= doy < 400 ->
  JJY.tcA st = Frame.jjy_register (Signal.jjy_minute yr doy hr mn) next ->
  Tracker.matched (JJY.doy_f st) = false ->
  JJY.doy_field st =
  Ok (JJY.with_fields st (JJY.year_f st)
        (Tracker.consider (fun v => (0 <? v) && (v <=? 366)) (fun v => v)
           (JJY.doy_f st) doy)).
Proof.
  intros H EA Md; destruct (hundreds_tens_units doy H) as (Hh & Ht & Hu & E).
  unfold JJY.doy_field, JJY.doy_value; rewrite EA, Md.
  match goal with |- context [Str.getitem ?a (-39)] =>
    replace (Str.getitem a (-39)) with (@Ok ascii (Frame.bit (Z.testbit (doy / 100) 1)))
      by reflexivity;
    replace (Str.slice a (-39) (-37))
      with (map Frame.bit (Signal.msb_first 2 (doy / 100))) by reflexivity;
    replace (Str.slice a (-36) (-32))
      with (map Frame.bit (Signal.msb_first 4 (doy / 10 mod 10))) by reflexivity;
    replace (Str.slice a (-31) (-27))
      with (map Frame.bit (Signal.msb_first 4 (doy mod 10))) by reflexivity
  end.
  cbn [bind]; rewrite bit_not_blank, !int2_value by discriminate; cbn [bind negb].
  rewrite value_msb2, !value_msb4, E by lia; reflexivity.
Qed.

Lemma even_parity_last (l : list bool) :
  (Frame.ones (l ++ [Signal.parity l])) mod 2 = 0.
Proof.
  rewrite ones_app, Zplus_mod, (ones_parity l).
  destruct (Signal.parity l); reflexivity.
Qed.

Lemma jjy_frame_time (yr doy hr mn : Z) (next : bool) :
  0 <= hr < 40 -> 0 <= mn < 80 ->
  JJY.time_field (Frame.jjy_register (Signal.jjy_minute yr doy hr mn) next)
  = Ok (Some (hr, mn)).
Proof.
  intros Hh Hm.
  destruct (tens_units hr) as (Th & Uh & Eh); [lia|].
  destruct (tens_units mn) as (Tm & Um & Em); [lia|].
  assert (Th2 : 0 <= hr / 10 < 4)
    by (split; [lia|apply Z.div_lt_upper_bound; lia]).
  assert (Tm2 : 0 <= mn / 10 < 8)
    by (split; [lia|apply Z.div_lt_upper_bound; lia]).
  unfold JJY.time_field.
  set (minute := Signal.msb_first 3 (mn / 10) ++ [false] ++ Signal.msb_first 4 (mn mod 10)).
  set (hour := Signal.msb_first 2 (hr / 10) ++ [false] ++ Signal.msb_first 4 (hr mod 10)).
  match goal with |- context [Str.getitem ?a (-60)] =>
    replace (Str.getitem a (-60)) with (@Ok ascii (Frame.bit (Z.testbit (mn / 10) 2)))
      by reflexivity;
    replace (Str.getitem a (-25)) with (@Ok ascii (Frame.bit (Signal.parity hour)))
      by reflexivity;
    replace (Str.getitem a (-24)) with (@Ok ascii (Frame.bit (Signal.parity minute)))
      by reflexivity;
    replace (Str.slice a (-49) (-42)) with (map Frame.bit hour) by reflexivity;
    replace (Str.slice a (-60) (-52)) with (map Frame.bit minute) by reflexivity;
    replace (Str.slice a (-49) (-47))
      with (map Frame.bit (Signal.msb_first 2 (hr / 10))) by reflexivity;
    replace (Str.slice a (-46) (-42))
      with (map Frame.bit (Signal.msb_first 4 (hr mod 10))) by reflexivity;
    replace (Str.slice a (-60) (-57))
      with (map Frame.bit (Signal.msb_first 3 (mn / 10))) by reflexivity;
    replace (Str.slice a (-56) (-52))
      with (map Frame.bit (Signal.msb_first 4 (mn mod 10))) by reflexivity
  end.
  cbn [bind]; rewrite bit_not_blank; cbn [negb].
  change (map Frame.bit hour ++ [Frame.bit (Signal.parity hour)])
    with (map Frame.bit hour ++ map Frame.bit [Signal.parity hour]).
  change (map Frame.bit minute ++ [Frame.bit (Signal.parity minute)])
    with (map Frame.bit minute ++ map Frame.bit [Signal.parity minute]).
  rewrite <- !map_app, !count1_ones, !even_parity_last; cbn [Z.eqb].
  rewrite !int2_value by discriminate; cbn [bind].
  rewrite value_msb2, value_msb3, !value_msb4, Eh, Em by lia; reflexivity.
Qed.

(** X12. A JJY minute is read back. With the register holding seconds 1
    to 59 of a minute and the first second of the next, no field confirmed
    yet: the year and day-of-year fields are offered the values sent and the
    time field yields the hour and minute sent. *)
Theorem jjy_frame_is_read_back (st : JJY.state) (yr doy hr mn : Z) (next : bool) :
  0 <= yr < 100 -> 0 <= doy < 400 -> 0 <= hr < 40 -> 0 <= mn < 80 ->
  JJY.tcA st = Frame.jjy_register (Signal.jjy_minute yr doy hr mn) next ->
  Tracker.matched (JJY.year_f st) = false ->
  Tracker.matched (JJY.doy_f st) = false ->
  JJY.year_field st =
    Ok (JJY.with_fields st
          (Tracker.consider (fun v => (23 <? v) && (v <? 100)) (Z.add 2000)
             (JJY.year_f st) yr)
          (JJY.doy_f st)) /\
  JJY.doy_field st =
    Ok (JJY.with_fields st (JJY.year_f st)
          (Tracker.consider (fun v => (0 <? v) && (v <=? 366)) (fun v => v)
             (JJY.doy_f st) doy)) /\
  JJY.time_field (JJY.tcA st) = Ok (Some (hr, mn)).
Proof.
  intros Hy Hd Hh Hn EA My Md.
  split; [eapply jjy_frame_year; eassumption|].
  split; [eapply jjy_frame_doy; eassumption|].
  rewrite EA; now apply jjy_frame_time.
Qed.

Lemma jjy_frame_is_read_back_witness :
  JJY.time_field (Frame.jjy_register (Signal.jjy_minute 26 308 12 34) false)
  = Ok (Some (12, 34)).
Proof.
  apply (jjy_frame_is_read_back
           (JJY.mkState (Frame.jjy_register (Signal.jjy_minute 26 308 12 34) false)
                        (repeat Str.blank 8) 0
                        (Tracker.mkField [] false None None)
                        (Tracker.mkField [] false None None) [] None)
           26 308 12 34 false);
    reflexivity || lia.
Defined.

(** ** Receiving JJY minutes *)

Ltac jjy_fields :=
  cbn [JJY.tcA JJY.tcB JJY.elapsed JJY.year_f JJY.doy_f JJY.mods JJY.mod_v
       JJY.with_fields Tracker.hist Tracker.matched Tracker.raw Tracker.val bind].

Lemma jjy_second_windows (a b : bool) :
  Tracker.classify (Str.slice (JJY.second a b) JJY.A1 JJY.A2) = Ok [Frame.bit a] /\
  Tracker.classify (Str.slice (JJY.second a b) JJY.B1 JJY.B2) = Ok [Frame.bit b].
Proof. destruct a, b; split; vm_compute; reflexivity. Qed.

Lemma jjy_second_shift (st : JJY.state) (a b : bool) :
  JJY.shift st (JJY.second a b) =
  Ok (JJY.mkState (tl (JJY.tcA st) ++ [Frame.bit a])
        (tl (JJY.tcB st) ++ [Frame.bit b]) (JJY.elapsed st + 1)
        (JJY.year_f st) (JJY.doy_f st) (JJY.mods st) (JJY.mod_v st)).
Proof.
  unfold JJY.shift; destruct (jjy_second_windows a b) as [-> ->].
  cbn [bind]; rewrite !slice_from_1; reflexivity.
Qed.

Lemma jjy_run_app (timeout : Z) (l1 l2 : list (list bool)) (st : JJY.state) :
  JJY.run timeout st (l1 ++ l2) =
  (o <- JJY.run timeout st l1 ;;
   match o with
   | Tracker.Running st' => JJY.run timeout st' l2
   | _ => Ok o
   end).
Proof.
  revert st; induction l1 as [|s l1 IH]; intros st; [reflexivity|].
  simpl app; cbn [JJY.run].
  destruct (JJY.step timeout st s) as [[st'| | |]|e]; cbn [bind]; auto.
Qed.

(** Seconds in which no frame marker is seen only shift the registers. *)
Lemma jjy_quiet_run (timeout : Z) (l : list (bool * bool)) :
  forall st : JJY.state,
  Frame.quiet JJY.marker (JJY.tcB st) (map Frame.bit (map snd l)) = true ->
  JJY.elapsed st + Z.of_nat (length l) <= timeout * 60 ->
  JJY.run timeout st (Signal.jjy_samples l) =
  Ok (Tracker.Running
        (JJY.mkState (Frame.pushed (JJY.tcA st) (map Frame.bit (map fst l)))
           (Frame.pushed (JJY.tcB st) (map Frame.bit (map snd l)))
           (JJY.elapsed st + Z.of_nat (length l))
           (JJY.year_f st) (JJY.doy_f st) (JJY.mods st) (JJY.mod_v st))).
Proof.
  unfold Signal.jjy_samples.
  induction l as [|[a b] l IH]; intros st Q E.
  - simpl; rewrite Z.add_0_r; destruct st; reflexivity.
  - simpl length in *; cbn [map fst snd JJY.run].
    cbn [map snd Frame.quiet] in Q; apply andb_prop in Q; destruct Q as [Q1 Q2].
    apply negb_true_iff in Q1.
    unfold JJY.step; rewrite jjy_second_shift; cbn [bind JJY.tcB].
    rewrite Q1; cbn [bind JJY.elapsed].
    destruct (Z.ltb_spec (timeout * 60) (JJY.elapsed st + 1)); [lia|].
    cbn [bind]; rewrite IH by (jjy_fields; auto; lia).
    jjy_fields; do 2 f_equal; f_equal; lia.
Qed.

(** The second in which the marker is seen. *)
Lemma jjy_marker_step (timeout : Z) (st : JJY.state) (a b : bool) :
  Str.endswith (tl (JJY.tcB st) ++ [Frame.bit b]) JJY.marker = true ->
  JJY.step timeout st (JJY.second a b) =
  (o <- JJY.decode
          (JJY.mkState (tl (JJY.tcA st) ++ [Frame.bit a])
             (tl (JJY.tcB st) ++ [Frame.bit b]) (JJY.elapsed st + 1)
             (JJY.year_f st) (JJY.doy_f st) (JJY.mods st) (JJY.mod_v st)) ;;
   match o with
   | Tracker.Running st' =>
       if timeout * 60 <? JJY.elapsed st' then Ok (Tracker.TimedOut st')
       else Ok (Tracker.Running st')
   | _ => Ok o
   end).
Proof.
  intros M; unfold JJY.step; rewrite jjy_second_shift; cbn [bind JJY.tcB].
  rewrite M; reflexivity.
Qed.

Lemma jjy_frame_decode (st : JJY.state) (yr doy hr mn : Z) (next : bool) :
  0 <= yr < 100 -> 0 <= doy < 400 -> 0 <= hr < 40 -> 0 <= mn < 80 ->
  JJY.tcA st = Frame.jjy_register (Signal.jjy_minute yr doy hr mn) next ->
  Tracker.matched (JJY.year_f st) = false ->
  Tracker.matched (JJY.doy_f st) = false ->
  JJY.decode st =
  (st4 <- JJY.shortcut
            (JJY.minute_update
               (JJY.mkState (JJY.tcA st) (JJY.tcB st) (JJY.elapsed st)
                  (Tracker.consider (fun v => (23 <? v) && (v <? 100)) (Z.add 2000)
                     (JJY.year_f st) yr)
                  (Tracker.consider (fun v => (0 <? v) && (v <=? 366)) (fun v => v)
                     (JJY.doy_f st) doy)
                  (JJY.mods st) (JJY.mod_v st))
               hr mn) ;;
   go <- JJY.accept st4 ;;
   if go then utc <- JJY.utc_of st4 hr mn ;; Ok (Tracker.Locked st4 utc)
   else Ok (Tracker.Running st4)).
Proof.
  intros Hy Hd Hh Hn E My Md; unfold JJY.decode.
  rewrite (jjy_frame_year _ yr doy hr mn next); auto.
  cbn [bind].
  rewrite (jjy_frame_doy _ yr doy hr mn next); auto.
  unfold JJY.with_fields; jjy_fields; rewrite E, jjy_frame_time by assumption.
  cbn [bind]; reflexivity.
Qed.

Lemma jjy_shortcut_pairs (a b : list ascii) (e y d : Z) (x1 x2 : option Z)
    (mods : list Z) (mv : option Z) :
  JJY.shortcut
    (JJY.mkState a b e
       (Tracker.mkField [y; y] false (Some y) x1)
       (Tracker.mkField [d; d] false (Some d) x2) mods mv)
  = Ok (JJY.mkState a b e
          (Tracker.mkField [y; y] true (Some y) (Some (2000 + y)))
          (Tracker.mkField [d; d] true (Some d) (Some d)) mods mv).
Proof.
  unfold JJY.shortcut, JJY.confident; jjy_fields.
  rewrite !distinct_pair; reflexivity.
Qed.

(** Two good minutes received from a cold start, and the marker that
    follows them: both fields are confirmed, the minute is found, and what
    is left is the conversion of the day of the year. *)
Lemma jjy_cold_two_frames (timeout yr doy hr1 mn1 hr2 mn2 : Z) (next : bool) :
  1 <= timeout -> 24 <= yr <= 99 -> 1 <= doy <= 366 ->
  0 <= hr1 < 24 -> 0 <= mn1 < 60 -> 0 <= hr2 < 24 -> 0 <= mn2 < 60 ->
  hr2 * 60 + mn2 = hr1 * 60 + mn1 + 1 -> 5 <= hr2 * 60 + mn2 ->
  let first := Signal.jjy_minute yr doy hr1 mn1 in
  let second := Signal.jjy_minute yr doy hr2 mn2 in
  exists st,
    JJY.all_matched st = true /\
    JJY.run timeout (JJY.init None)
      (Signal.jjy_samples (first ++ second ++ [(next, true)]))
    = (md <- JJY.month_day (2000 + yr) doy ;;
       Ok (Tracker.Locked st
             (Time.mktime (2000 + yr) (fst md) (snd md) (hr2 - 9) (mn2 + 1) 0))).
Proof.
  intros T Hy Hd Hh1 Hn1 Hh2 Hn2 Next Late first second.
  eexists; split; [|].
  2:{ replace (Signal.jjy_samples (first ++ second ++ [(next, true)]))
      with (Signal.jjy_samples first ++ [JJY.second false true]
            ++ Signal.jjy_samples (tl second) ++ [JJY.second next true])
      by reflexivity.
    rewrite jjy_run_app, jjy_quiet_run; [|reflexivity|simpl; lia].
    cbn [bind]; rewrite jjy_run_app; cbn [JJY.run].
    rewrite jjy_marker_step by reflexivity.
    rewrite (jjy_frame_decode _ yr doy hr1 mn1 false);
      try reflexivity; try lia.
    jjy_fields; cbn [JJY.init]; jjy_fields.
    rewrite !consider_first
      by (reflexivity || apply in_year_range || apply in_count_range; lia).
    unfold JJY.minute_update; rewrite in_day_time by lia.
    jjy_fields.
    match goal with |- context [Tracker.project [] ?e ?m] =>
      change (Tracker.project [] e m) with [m]
    end.
    assert (R : forall v x, Tracker.reset (Tracker.mkField [v] false (Some v) x)
                            = Tracker.mkField [v] false (Some v) x) by reflexivity.
    rewrite !R.
    match goal with |- context [JJY.shortcut ?x] =>
      assert (Sx : JJY.shortcut x = Ok x) by (destruct (_ <? 5); reflexivity);
      rewrite Sx; clear Sx; cbn [bind];
      assert (Ax : JJY.accept x = Ok false) by (destruct (_ <? 5); reflexivity);
      rewrite Ax; clear Ax; cbn [bind]
    end.
    match goal with |- context [if hr1 * 60 + mn1 <? 5 then ?x else ?y] =>
      replace (if hr1 * 60 + mn1 <? 5 then x else y) with y
        by (destruct (_ <? 5); reflexivity)
    end.
    jjy_fields.
    replace (timeout * 60 <? 0) with false by (symmetry; apply Z.ltb_ge; lia).
    cbn [bind]; rewrite jjy_run_app, jjy_quiet_run;
      [|reflexivity|jjy_fields; simpl; lia].
    cbn [bind JJY.run]; rewrite jjy_marker_step by reflexivity.
    rewrite (jjy_frame_decode _ yr doy hr2 mn2 next);
      try reflexivity; try lia.
    jjy_fields.
    rewrite !consider_second
      by (reflexivity || apply in_year_range || apply in_count_range; lia).
    unfold JJY.minute_update; rewrite in_day_time by lia.
    jjy_fields.
    match goal with |- context [Tracker.project [?m1] ?e ?m] =>
      change (Tracker.project [m1] e m) with [m1 + 1; m]
    end.
    rewrite <- Next.
    replace (hr2 * 60 + mn2 <? 5) with false by (symmetry; apply Z.ltb_ge; lia).
    rewrite jjy_shortcut_pairs; cbn [bind].
    unfold JJY.accept, JJY.all_matched; jjy_fields; cbn [andb].
    rewrite minute_found_pair; cbn [bind].
    unfold JJY.utc_of; jjy_fields; cbn [Tracker.name bind].
    destruct (JJY.month_day (2000 + yr) doy) as [[month day]|e]; cbn [bind fst snd];
      reflexivity. }
  reflexivity.
Qed.

(** X13. JJY from a cold start. Two consecutive good minutes of one day
    of the year (one that exists in the year sent), the second at 00:05 or
    later, and the marker of the minute after them end the loop with the
    clock set to the month and day that have this number in the year, and
    to the time of the second minute plus one minute, less nine hours. *)
Theorem jjy_cold_start_lock (timeout yr doy hr1 mn1 hr2 mn2 : Z) (next : bool) :
  1 <= timeout -> 24 <= yr <= 99 ->
  1 <= doy <= (if (2000 + yr) mod 4 =? 0 then 366 else 365) ->
  0 <= hr1 < 24 -> 0 <= mn1 < 60 -> 0 <= hr2 < 24 -> 0 <= mn2 < 60 ->
  hr2 * 60 + mn2 = hr1 * 60 + mn1 + 1 -> 5 <= hr2 * 60 + mn2 ->
  let first := Signal.jjy_minute yr doy hr1 mn1 in
  let second := Signal.jjy_minute yr doy hr2 mn2 in
  exists st month day,
    JJY.run timeout (JJY.init None)
      (Signal.jjy_samples (first ++ second ++ [(next, true)]))
    = Ok (Tracker.Locked st
            (Time.mktime (2000 + yr) month day (hr2 - 9) (mn2 + 1) 0)) /\
    Time.valid_date (2000 + yr) month day /\
    Time.ordinal (2000 + yr) month day = doy /\
    JJY.all_matched st = true.
Proof.
  intros T Hy Hd Hh1 Hn1 Hh2 Hn2 Next Late first second.
  assert (Hd' : 1 <= doy <= 366) by (destruct (_ =? 0); lia).
  destruct (month_day_table ((2000 + yr) mod 4 =? 0) (2000 + yr) doy)
    as (month & day & Em & V & O); [apply leap_2024_2099; lia|exact Hd|].
  destruct (jjy_cold_two_frames timeout yr doy hr1 mn1 hr2 mn2 next)
    as (st & A & E); try assumption.
  exists st, month, day; split; [|auto].
  cbv zeta in E; subst first second; rewrite E.
  unfold JJY.month_day, JJY.month_doys; rewrite Em; reflexivity.
Qed.

Lemma jjy_cold_start_lock_witness :
  exists st month day,
    JJY.run 15 (JJY.init None)
      (Signal.jjy_samples (Signal.jjy_minute 26 308 12 34
                           ++ Signal.jjy_minute 26 308 12 35 ++ [(false, true)]))
    = Ok (Tracker.Locked st (Time.mktime (2000 + 26) month day (12 - 9) (35 + 1) 0)) /\
    Time.ordinal (2000 + 26) month day = 308.
Proof.
  destruct (jjy_cold_start_lock 15 26 308 12 34 12 35 false)
    as (st & month & day & E & _ & O & _); try lia.
  - vm_compute; split; discriminate.
  - exists st, month, day; split; [exact E|exact O].
Defined.

Lemma month_day_overrun (year doy : Z) :
  (if year mod 4 =? 0 then 366 else 365) < doy ->
  JJY.month_day year doy = Raise IndexError.
Proof.
  intros H; unfold JJY.month_day, JJY.month_doys.
  destruct (year mod 4 =? 0); cbn [negb JJY.month_loop];
    repeat match goal with
           | |- context [Str.getitem ?t ?k] =>
               let v := eval vm_compute in (Str.getitem t k) in
               change (Str.getitem t k) with v; cbn [bind]
           | |- context [?a <? doy] =>
               replace (a <? doy) with true by (symmetry; apply Z.ltb_lt; lia)
           end; reflexivity.
Qed.

(** X14. JJY, day 366 of a year that is not a leap year. The value passes
    the range test [0 < dy <= 366]; when two consecutive minutes carrying it
    have been received and the clock is to be set, the loop over
    [month_doys] runs past the thirteen entries of the table and the script
    ends in [IndexError]. *)
Theorem jjy_day_366_raises (timeout yr hr1 mn1 hr2 mn2 : Z) (next : bool) :
  1 <= timeout -> 24 <= yr <= 99 -> (2000 + yr) mod 4 <> 0 ->
  0 <= hr1 < 24 -> 0 <= mn1 < 60 -> 0 <= hr2 < 24 -> 0 <= mn2 < 60 ->
  hr2 * 60 + mn2 = hr1 * 60 + mn1 + 1 -> 5 <= hr2 * 60 + mn2 ->
  let first := Signal.jjy_minute yr 366 hr1 mn1 in
  let second := Signal.jjy_minute yr 366 hr2 mn2 in
  JJY.month_day (2000 + yr) 366 = Raise IndexError /\
  JJY.run timeout (JJY.init None)
    (Signal.jjy_samples (first ++ second ++ [(next, true)]))
  = Raise IndexError.
Proof.
  intros T Hy Hl Hh1 Hn1 Hh2 Hn2 Next Late first second.
  assert (M : JJY.month_day (2000 + yr) 366 = Raise IndexError).
  { apply month_day_overrun.
    destruct (Z.eqb_spec ((2000 + yr) mod 4) 0); [contradiction|lia]. }
  split; [exact M|].
  destruct (jjy_cold_two_frames timeout yr 366 hr1 mn1 hr2 mn2 next)
    as (st & A & E); try assumption; try lia.
  cbv zeta in E; subst first second; rewrite E, M; reflexivity.
Qed.

Lemma jjy_day_366_raises_witness :
  JJY.run 15 (JJY.init None)
    (Signal.jjy_samples (Signal.jjy_minute 26 366 12 34
                         ++ Signal.jjy_minute 26 366 12 35 ++ [(false, true)]))
  = Raise IndexError.
Proof.
  apply (jjy_day_366_raises 15 26 12 34 12 35 false); try lia.
  vm_compute; discriminate.
Defined.

(** ** Receiving MSF minutes *)

Lemma quiet_cons (m reg r : list ascii) (c : ascii) :
  Str.endswith (tl reg ++ [c]) m = false ->
  Frame.quiet m (tl reg ++ [c]) r = true ->
  Frame.quiet m reg (c :: r) = true.
Proof. intros E Q; cbn [Frame.quiet]; rewrite E, Q; reflexivity. Qed.

Lemma tl_skipn {A} (l : list A) : tl l = skipn 1 l.
Proof. destruct l; reflexivity. Qed.

Lemma last_n_push {A} (n : nat) (reg : list A) (c : A) :
  (1 <= n <= length reg)%nat ->
  Py.last_n n (tl reg ++ [c]) = tl (Py.last_n n reg) ++ [c].
Proof.
  intros H; unfold Py.last_n.
  rewrite !tl_skipn, length_app, length_skipn, skipn_skipn; simpl length.
  replace (length reg - 1 + 1 - n)%nat with (length reg - n)%nat by lia.
  rewrite skipn_app, skipn_skipn, length_skipn.
  replace (length reg - n - (length reg - 1))%nat with 0%nat by lia.
  replace (1 + (length reg - n))%nat with (length reg - n + 1)%nat by lia.
  reflexivity.
Qed.

Lemma last_n_all {A} (n : nat) (l : list A) :
  length l = n -> Py.last_n n l = l.
Proof. intros <-; unfold Py.last_n; rewrite Nat.sub_diag; reflexivity. Qed.

(** Whether a marker is seen depends on the end of the register only. *)
Lemma quiet_last (m cs : list ascii) :
  forall reg : list ascii,
  (1 <= length m <= length reg)%nat ->
  Frame.quiet m reg cs = Frame.quiet m (Py.last_n (length m) reg) cs.
Proof.
  induction cs as [|c cs IH]; intros reg H; [reflexivity|].
  assert (Ln : length (Py.last_n (length m) reg) = length m)
    by (unfold Py.last_n; rewrite length_skipn; lia).
  assert (Lt : forall l : list ascii, (1 <= length l)%nat ->
                 length (tl l ++ [c]) = length l).
  { intros l Hl; destruct l; simpl in *; [lia|rewrite length_app; simpl; lia]. }
  cbn [Frame.quiet].
  rewrite (IH (tl reg ++ [c])) by (rewrite Lt; lia).
  rewrite (IH (tl (Py.last_n (length m) reg) ++ [c])) by (rewrite Lt; lia).
  rewrite last_n_push by lia.
  rewrite (last_n_push (length m) (Py.last_n (length m) reg)) by lia.
  rewrite (last_n_all _ _ Ln).
  f_equal; f_equal.
  unfold Str.endswith.
  rewrite last_n_push, !Lt, Ln by lia.
  rewrite (last_n_push (length m) (Py.last_n (length m) reg)) by lia.
  rewrite (last_n_all _ _ Ln).
  destruct (list_eq_dec _ _ _); [|reflexivity].
  rewrite Nat.leb_refl; apply Nat.leb_le; lia.
Qed.

Lemma not_marker (b1 b2 b3 b4 b5 b6 b7 b8 : bool) :
  negb b2 || (negb b3 || (negb b4 || (negb b5 || (negb b6 || (negb b7 || (b1 || b8))))))
  = true ->
  Str.endswith (map Frame.bit [b1; b2; b3; b4; b5; b6; b7; b8]) MSF.marker = false.
Proof. destruct b1, b2, b3, b4, b5, b6, b7, b8; (discriminate || reflexivity). Qed.

Section MsfBits.

Variables y7 y6 y5 y4 y3 y2 y1 y0 : bool.
Variables m4 m3 m2 m1 m0 : bool.
Variables d5 d4 d3 d2 d1 d0 : bool.
Variables w2 w1 w0 : bool.
Variables h5 h4 h3 h2 h1 h0 : bool.
Variables n6 n5 n4 n3 n2 n1 n0 : bool.

(** No BCD digit exceeds 9, no day 31, no day of the week 6, no minute 59. *)
Hypothesis Yt : y7 && y6 = false.
Hypothesis Yu : y3 && y2 = false.
Hypothesis Mu : m3 && m2 = false.
Hypothesis Du : d3 && d2 = false.
Hypothesis Dd : d5 && d4 && d3 = false.
Hypothesis Ww : w2 && w1 && w0 = false.
Hypothesis Hu : h3 && h2 = false.
Hypothesis Nt : n6 && n5 = false.
Hypothesis Nu : n3 && n2 = false.

Ltac refute_marker :=
  first
    [ reflexivity
    | apply (not_marker _ _ _ _ _ _ _ _); cbn [negb orb];
      repeat match goal with
             | |- (negb ?x || _) = true => destruct x; cbn [negb orb]
             end;
      first [ reflexivity
            | exfalso;
              cbn [andb] in Yt, Yu, Mu, Du, Dd, Ww, Hu, Nt, Nu; congruence ] ].

(** The bits A of seconds 0 to 58 never complete the marker 01111110,
    whether the register starts blank or with the marker of the minute
    before. *)
Lemma msf_bits_quiet (tail : list ascii) :
  tail = repeat Str.blank 8 \/ tail = MSF.marker ->
  Frame.quiet MSF.marker tail
    (map Frame.bit
       [true; false; false; false; false; false; false; false; false; false;
        false; false; false; false; false; false; false;
        y7; y6; y5; y4; y3; y2; y1; y0; m4; m3; m2; m1; m0; d5; d4; d3; d2; d1; d0;
        w2; w1; w0; h5; h4; h3; h2; h1; h0; n6; n5; n4; n3; n2; n1; n0;
        false; true; true; true; true; true; true]) = true.
Proof.
  intros T; cbn [map].
  destruct T as [-> | ->]; cbn [repeat MSF.marker];
    repeat (apply quiet_cons; cbn [tl app]; [refute_marker|]);
    reflexivity.
Qed.

End MsfBits.

Lemma below (P : Z -> bool) (n : nat) :
  forallb P (map Z.of_nat (seq 0 n)) = true ->
  forall v, 0 <= v < Z.of_nat n -> P v = true.
Proof.
  intros H v R; rewrite forallb_forall in H; apply H.
  apply in_map_iff; exists (Z.to_nat v); split; [lia|].
  apply in_seq; lia.
Qed.

Lemma digit_high (d : Z) :
  0 <= d <= 9 -> Z.testbit d 3 && Z.testbit d 2 = false.
Proof.
  intros H; apply negb_true_iff.
  apply (below (fun d => negb (Z.testbit d 3 && Z.testbit d 2)) 10); [reflexivity|lia].
Qed.

Lemma day_high (day : Z) :
  0 <= day <= 31 ->
  Z.testbit (day / 10) 1 && Z.testbit (day / 10) 0 && Z.testbit (day mod 10) 3 = false.
Proof.
  intros H; apply negb_true_iff.
  apply (below (fun d => negb (Z.testbit (d / 10) 1 && Z.testbit (d / 10) 0
                               && Z.testbit (d mod 10) 3)) 32); [reflexivity|lia].
Qed.

Lemma dow_high (dow : Z) :
  0 <= dow <= 6 -> Z.testbit dow 2 && Z.testbit dow 1 && Z.testbit dow 0 = false.
Proof.
  intros H; apply negb_true_iff.
  apply (below (fun d => negb (Z.testbit d 2 && Z.testbit d 1 && Z.testbit d 0)) 7);
    [reflexivity|lia].
Qed.

Lemma minute_high (mn : Z) :
  0 <= mn <= 59 -> Z.testbit (mn / 10) 2 && Z.testbit (mn / 10) 1 = false.
Proof.
  intros H; apply negb_true_iff.
  apply (below (fun d => negb (Z.testbit (d / 10) 2 && Z.testbit (d / 10) 1)) 60);
    [reflexivity|lia].
Qed.

(** No marker is seen before second 59 of a minute with a valid date and
    time. *)
Lemma msf_frame_quiet (reg : list ascii) (yr mon day dow hr mn : Z) :
  0 <= yr <= 99 -> 0 <= mon <= 12 -> 0 <= day <= 31 -> 0 <= dow <= 6 ->
  0 <= hr <= 23 -> 0 <= mn <= 59 ->
  (8 <= length reg)%nat ->
  Py.last_n 8 reg = repeat Str.blank 8 \/ Py.last_n 8 reg = MSF.marker ->
  Frame.quiet MSF.marker reg
    (map Frame.bit (firstn 59 (map fst (Signal.msf_minute yr mon day dow hr mn))))
  = true.
Proof.
  intros Hy Hm Hd Hw Hh Hn L T.
  rewrite quiet_last by (simpl; lia).
  change (length MSF.marker) with 8%nat.
  assert (D : forall v, 0 <= v <= 99 -> 0 <= v / 10 <= 9 /\ 0 <= v mod 10 <= 9).
  { intros v Hv; destruct (tens_units v); lia. }
  apply (msf_bits_quiet
           (Z.testbit (yr / 10) 3) (Z.testbit (yr / 10) 2) (Z.testbit (yr / 10) 1)
           (Z.testbit (yr / 10) 0)
           (Z.testbit (yr mod 10) 3) (Z.testbit (yr mod 10) 2)
           (Z.testbit (yr mod 10) 1) (Z.testbit (yr mod 10) 0)
           (Z.testbit (mon / 10) 0)
           (Z.testbit (mon mod 10) 3) (Z.testbit (mon mod 10) 2)
           (Z.testbit (mon mod 10) 1) (Z.testbit (mon mod 10) 0)
           (Z.testbit (day / 10) 1) (Z.testbit (day / 10) 0)
           (Z.testbit (day mod 10) 3) (Z.testbit (day mod 10) 2)
           (Z.testbit (day mod 10) 1) (Z.testbit (day mod 10) 0)
           (Z.testbit dow 2) (Z.testbit dow 1) (Z.testbit dow 0)
           (Z.testbit (hr / 10) 1) (Z.testbit (hr / 10) 0)
           (Z.testbit (hr mod 10) 3) (Z.testbit (hr mod 10) 2)
           (Z.testbit (hr mod 10) 1) (Z.testbit (hr mod 10) 0)
           (Z.testbit (mn / 10) 2) (Z.testbit (mn / 10) 1) (Z.testbit (mn / 10) 0)
           (Z.testbit (mn mod 10) 3) (Z.testbit (mn mod 10) 2)
           (Z.testbit (mn mod 10) 1) (Z.testbit (mn mod 10) 0));
    try (apply digit_high; apply D; lia);
    [now apply day_high | now apply dow_high | now apply minute_high | exact T].
Qed.

Ltac msf_fields :=
  cbn [MSF.tcA MSF.tcB MSF.elapsed MSF.year_f MSF.month_f MSF.day_f MSF.mods
       MSF.mod_v Tracker.hist Tracker.matched Tracker.raw Tracker.val bind].

Lemma msf_second_windows (a b : bool) :
  Tracker.classify (Str.slice (MSF.second a b) MSF.A1 MSF.A2) = Ok [Frame.bit a] /\
  Tracker.classify (Str.slice (MSF.second a b) MSF.B1 MSF.B2) = Ok [Frame.bit b].
Proof. destruct a, b; split; vm_compute; reflexivity. Qed.

Lemma msf_second_shift (st : MSF.state) (a b : bool) :
  MSF.shift st (MSF.second a b) =
  Ok (MSF.mkState (tl (MSF.tcA st) ++ [Frame.bit a])
        (tl (MSF.tcB st) ++ [Frame.bit b]) (MSF.elapsed st + 1)
        (MSF.year_f st) (MSF.month_f st) (MSF.day_f st)
        (MSF.mods st) (MSF.mod_v st)).
Proof.
  unfold MSF.shift; destruct (msf_second_windows a b) as [-> ->].
  cbn [bind]; rewrite !slice_from_1; reflexivity.
Qed.

Lemma msf_run_app (timeout : Z) (l1 l2 : list (list bool)) (st : MSF.state) :
  MSF.run timeout st (l1 ++ l2) =
  (o <- MSF.run timeout st l1 ;;
   match o with
   | Tracker.Running st' => MSF.run timeout st' l2
   | _ => Ok o
   end).
Proof.
  revert st; induction l1 as [|s l1 IH]; intros st; [reflexivity|].
  simpl app; cbn [MSF.run].
  destruct (MSF.step timeout st s) as [[st'| | |]|e]; cbn [bind]; auto.
Qed.

(** Seconds in which no marker is seen only shift the registers. *)
Lemma msf_quiet_run (timeout : Z) (l : list (bool * bool)) :
  forall st : MSF.state,
  Frame.quiet MSF.marker (MSF.tcA st) (map Frame.bit (map fst l)) = true ->
  MSF.elapsed st + Z.of_nat (length l) <= timeout * 60 ->
  MSF.run timeout st (Signal.msf_samples l) =
  Ok (Tracker.Running
        (MSF.mkState (Frame.pushed (MSF.tcA st) (map Frame.bit (map fst l)))
           (Frame.pushed (MSF.tcB st) (map Frame.bit (map snd l)))
           (MSF.elapsed st + Z.of_nat (length l))
           (MSF.year_f st) (MSF.month_f st) (MSF.day_f st)
           (MSF.mods st) (MSF.mod_v st))).
Proof.
  unfold Signal.msf_samples.
  induction l as [|[a b] l IH]; intros st Q E.
  - simpl; rewrite Z.add_0_r; destruct st; reflexivity.
  - simpl length in *; cbn [map fst snd MSF.run].
    cbn [map fst Frame.quiet] in Q; apply andb_prop in Q; destruct Q as [Q1 Q2].
    apply negb_true_iff in Q1.
    unfold MSF.step; rewrite msf_second_shift; cbn [bind MSF.tcA].
    rewrite Q1; cbn [bind MSF.elapsed].
    destruct (Z.ltb_spec (timeout * 60) (MSF.elapsed st + 1)); [lia|].
    cbn [bind]; rewrite IH by (msf_fields; auto; lia).
    msf_fields; do 2 f_equal; f_equal; lia.
Qed.

(** The second in which the marker is seen. *)
Lemma msf_marker_step (timeout : Z) (st : MSF.state) (a b : bool) :
  Str.endswith (tl (MSF.tcA st) ++ [Frame.bit a]) MSF.marker = true ->
  MSF.step timeout st (MSF.second a b) =
  (o <- MSF.decode
          (MSF.mkState (tl (MSF.tcA st) ++ [Frame.bit a])
             (tl (MSF.tcB st) ++ [Frame.bit b]) (MSF.elapsed st + 1)
             (MSF.year_f st) (MSF.month_f st) (MSF.day_f st)
             (MSF.mods st) (MSF.mod_v st)) ;;
   match o with
   | Tracker.Running st' =>
       if timeout * 60 <? MSF.elapsed st' then Ok (Tracker.TimedOut st')
       else Ok (Tracker.Running st')
   | _ => Ok o
   end).
Proof.
  intros M; unfold MSF.step; rewrite msf_second_shift; cbn [bind MSF.tcA].
  rewrite M; reflexivity.
Qed.

Lemma msf_frame_decode (st : MSF.state) (yr mon day dow hr mn : Z) :
  0 <= yr < 100 -> 0 <= mon < 20 -> 0 <= day < 40 -> 0 <= hr < 40 -> 0 <= mn < 80 ->
  MSF.tcA st = Frame.msf_register_a (Signal.msf_minute yr mon day dow hr mn) ->
  MSF.tcB st = Frame.msf_register_b (Signal.msf_minute yr mon day dow hr mn) ->
  Tracker.matched (MSF.year_f st) = false ->
  Tracker.matched (MSF.month_f st) = false ->
  Tracker.matched (MSF.day_f st) = false ->
  MSF.decode st =
  (st4 <- MSF.shortcut
            (MSF.minute_update
               (MSF.mkState (MSF.tcA st) (MSF.tcB st) (MSF.elapsed st)
                  (Tracker.consider (fun v => (23 <? v) && (v <? 100)) (Z.add 2000)
                     (MSF.year_f st) yr)
                  (Tracker.consider (fun v => (0 <? v) && (v <=? 12)) (fun v => v)
                     (MSF.month_f st) mon)
                  (Tracker.consider (fun v => (0 <? v) && (v <=? 31)) (fun v => v)
                     (MSF.day_f st) day)
                  (MSF.mods st) (MSF.mod_v st))
               hr mn) ;;
   go <- MSF.accept st4 ;;
   if go then
     u <- MSF.utc_of st4 hr mn ;;
     match u with
     | None => Ok (Tracker.Stopped st4)
     | Some utc => Ok (Tracker.Locked st4 utc)
     end
   else Ok (Tracker.Running st4)).
Proof.
  intros Hy Hm Hd Hh Hn EA EB My Mm Md; unfold MSF.decode.
  rewrite (msf_frame_year _ yr mon day dow hr mn); auto.
  cbn [bind].
  rewrite (msf_frame_date _ yr mon day dow hr mn); auto.
  unfold MSF.with_fields; msf_fields; rewrite EA, EB, msf_frame_time by assumption.
  cbn [bind]; reflexivity.
Qed.

Lemma msf_shortcut_pairs (a b : list ascii) (e y m d : Z) (x1 x2 x3 : option Z)
    (mods : list Z) (mv : option Z) :
  MSF.shortcut
    (MSF.mkState a b e
       (Tracker.mkField [y; y] false (Some y) x1)
       (Tracker.mkField [m; m] false (Some m) x2)
       (Tracker.mkField [d; d] false (Some d) x3) mods mv)
  = Ok (MSF.mkState a b e
          (Tracker.mkField [y; y] true (Some y) (Some (2000 + y)))
          (Tracker.mkField [m; m] true (Some m) (Some m))
          (Tracker.mkField [d; d] true (Some d) (Some d)) mods mv).
Proof.
  unfold MSF.shortcut, MSF.confident; msf_fields.
  rewrite !distinct_pair; reflexivity.
Qed.

(** X15. MSF from a cold start. Two consecutive good minutes of one day,
    the second at 00:05 or later, end the loop at the marker of the second
    minute. The clock is set to the date and time of the second minute, less
    one hour from the change of March to the change of October - except in
    the two hours before the change of October, where the loop is left
    without the clock being set. *)
Theorem msf_cold_start_lock (timeout yr mon day dow1 dow2 hr1 mn1 hr2 mn2 : Z) :
  1 <= timeout -> 24 <= yr <= 99 -> 1 <= mon <= 12 -> 1 <= day <= 31 ->
  0 <= dow1 <= 6 -> 0 <= dow2 <= 6 ->
  0 <= hr1 < 24 -> 0 <= mn1 < 60 -> 0 <= hr2 < 24 -> 0 <= mn2 < 60 ->
  hr2 * 60 + mn2 = hr1 * 60 + mn1 + 1 -> 5 <= hr2 * 60 + mn2 ->
  let first := Signal.msf_minute yr mon day dow1 hr1 mn1 in
  let second := Signal.msf_minute yr mon day dow2 hr2 mn2 in
  let t := Time.mktime (2000 + yr) mon day hr2 mn2 0 in
  exists st,
    MSF.run timeout (MSF.init None) (Signal.msf_samples (first ++ second))
    = Ok (if (MSF.back (2000 + yr) - 7200 <? t) && (t <? MSF.back (2000 + yr))
          then Tracker.Stopped st
          else Tracker.Locked st
                 (t - (if (MSF.fwd (2000 + yr) <=? t) && (t <? MSF.back (2000 + yr))
                       then 3600 else 0))) /\
    MSF.all_matched st = true.
Proof.
  intros T Hy Hm Hd Hw1 Hw2 Hh1 Hn1 Hh2 Hn2 Next Late first second t.
  eexists; split.
  - replace (Signal.msf_samples (first ++ second))
      with (Signal.msf_samples (firstn 59 first) ++ [MSF.second false false]
            ++ Signal.msf_samples (firstn 59 second) ++ [MSF.second false false])
      by reflexivity.
    rewrite msf_run_app, msf_quiet_run;
      [|rewrite <- firstn_map; apply msf_frame_quiet;
        try lia; [simpl; lia|left; reflexivity]
       |simpl; lia].
    cbn [bind]; rewrite msf_run_app; cbn [MSF.run].
    rewrite msf_marker_step by reflexivity.
    rewrite (msf_frame_decode _ yr mon day dow1 hr1 mn1);
      try reflexivity; try lia.
    msf_fields; cbn [MSF.init]; msf_fields.
    rewrite !consider_first
      by (reflexivity || apply in_year_range || apply in_count_range; lia).
    unfold MSF.minute_update; rewrite in_day_time by lia.
    msf_fields.
    match goal with |- context [Tracker.project [] ?e ?m] =>
      change (Tracker.project [] e m) with [m]
    end.
    assert (R : forall v x, Tracker.reset (Tracker.mkField [v] false (Some v) x)
                            = Tracker.mkField [v] false (Some v) x) by reflexivity.
    rewrite !R.
    match goal with |- context [MSF.shortcut ?x] =>
      assert (Sx : MSF.shortcut x = Ok x) by (destruct (_ <? 5); reflexivity);
      rewrite Sx; clear Sx; cbn [bind];
      assert (Ax : MSF.accept x = Ok false) by (destruct (_ <? 5); reflexivity);
      rewrite Ax; clear Ax; cbn [bind]
    end.
    match goal with |- context [if hr1 * 60 + mn1 <? 5 then ?x else ?y] =>
      replace (if hr1 * 60 + mn1 <? 5 then x else y) with y
        by (destruct (_ <? 5); reflexivity)
    end.
    msf_fields.
    replace (timeout * 60 <? 0) with false by (symmetry; apply Z.ltb_ge; lia).
    cbn [bind]; rewrite msf_run_app, msf_quiet_run;
      [|msf_fields; rewrite <- firstn_map; apply msf_frame_quiet;
        try lia; [simpl; lia|right; reflexivity]
       |msf_fields; simpl; lia].
    cbn [bind MSF.run]; rewrite msf_marker_step by reflexivity.
    rewrite (msf_frame_decode _ yr mon day dow2 hr2 mn2);
      try reflexivity; try lia.
    msf_fields.
    rewrite !consider_second
      by (reflexivity || apply in_year_range || apply in_count_range; lia).
    unfold MSF.minute_update; rewrite in_day_time by lia.
    msf_fields.
    match goal with |- context [Tracker.project [?m1] ?e ?m] =>
      change (Tracker.project [m1] e m) with [m1 + 1; m]
    end.
    rewrite <- Next.
    replace (hr2 * 60 + mn2 <? 5) with false by (symmetry; apply Z.ltb_ge; lia).
    rewrite msf_shortcut_pairs; cbn [bind].
    unfold MSF.accept, MSF.all_matched; msf_fields; cbn [andb].
    rewrite minute_found_pair; cbn [bind].
    unfold MSF.utc_of; msf_fields; cbn [Tracker.name bind].
    fold t; destruct ((MSF.back (2000 + yr) - 7200 <? t) && (t <? MSF.back (2000 + yr)));
      cbn [bind]; reflexivity.
  - reflexivity.
Qed.

Lemma msf_cold_start_lock_witness :
  exists st,
    MSF.run 15 (MSF.init None)
      (Signal.msf_samples (Signal.msf_minute 26 11 4 3 12 34
                           ++ Signal.msf_minute 26 11 4 3 12 35))
    = Ok (Tracker.Locked st (Time.mktime (2000 + 26) 11 4 12 35 0 - 0)).
Proof.
  destruct (msf_cold_start_lock 15 26 11 4 3 3 12 34 12 35)
    as (st & E & _); try lia.
  exists st; exact E.
Defined.

(** ** DCF77 from a warm start *)

(** The decoder entered at the end of the minute in which a loop seeded
    from the RTC was started, the frame carrying the date of the seed. *)
Lemma dcf_warm_first_decode (timeout : Z) (r : Tracker.rtc) (k : nat)
    (dow hr mn : Z) :
  1 <= timeout -> (k <= 15)%nat ->
  24 <= Tracker.r_year r mod 100 <= 99 ->
  1 <= Tracker.r_month r <= 12 -> 1 <= Tracker.r_day r <= 31 ->
  0 <= hr < 40 -> 0 <= mn < 80 ->
  let frame := Signal.dcf77_minute (Tracker.r_year r mod 100) (Tracker.r_month r)
                 (Tracker.r_day r) dow hr mn (Tracker.r_summer r) false in
  DCF77.run timeout (DCF77.init (Some r)) (skipn k (Signal.dcf77_samples frame)) =
  (o <- (st4 <- DCF77.shortcut
                  (DCF77.minute_update
                     (DCF77.mkState (Frame.dcf77_register frame)
                        ["1"; "1"; "1"; "1"; "1"; "0"]%char (60 - Z.of_nat k)
                        (Tracker.mkField
                           [Tracker.r_year r mod 100; Tracker.r_year r mod 100] false
                           (Some (Tracker.r_year r mod 100)) (Some (Tracker.r_year r)))
                        (Tracker.mkField [Tracker.r_month r; Tracker.r_month r] false
                           (Some (Tracker.r_month r)) (Some (Tracker.r_month r)))
                        (Tracker.mkField [Tracker.r_day r; Tracker.r_day r] false
                           (Some (Tracker.r_day r)) (Some (Tracker.r_day r)))
                        (Tracker.mkField
                           [Z.b2z (Tracker.r_summer r); Z.b2z (Tracker.r_summer r)] false
                           (Some (Z.b2z (Tracker.r_summer r))) None)
                        [(Tracker.r_hour r + 1) * 60 + Tracker.r_minute r + 1] None)
                     hr mn) ;;
         go <- DCF77.accept st4 ;;
         if go then utc <- DCF77.utc_of st4 hr mn ;; Ok (Tracker.Locked st4 utc)
         else Ok (Tracker.Running (DCF77.with_tcA st4 (rev (DCF77.tcA st4))))) ;;
   match o with
   | Tracker.Running st' =>
       if timeout * 60 <? DCF77.elapsed st' then Ok (Tracker.TimedOut st')
       else Ok (Tracker.Running st')
   | _ => Ok o
   end).
Proof.
  intros T Hk Hy Hm Hd Hh Hn frame; unfold frame.
  rewrite dcf_frame_run;
    [|exact Hk|reflexivity|reflexivity|cbn [DCF77.init DCF77.elapsed]; lia].
  rewrite (dcf_frame_decode _ (Tracker.r_year r mod 100) (Tracker.r_month r)
             (Tracker.r_day r) dow hr mn (Tracker.r_summer r));
    try reflexivity; try lia.
  cbn [DCF77.init]; dcf_fields.
  change (if Tracker.r_summer r then 1 else 0) with (Z.b2z (Tracker.r_summer r)).
  rewrite !consider_second
    by (reflexivity || apply in_year_range || apply in_count_range; lia).
  replace (0 + 60 - Z.of_nat k) with (60 - Z.of_nat k) by lia.
  reflexivity.
Qed.

(** X16. DCF77 from a warm start. A loop seeded from the RTC and started up
    to 15 seconds into a minute sets the clock at the gap that ends this
    minute, when the minute carries the date and the summer-time bit of the
    seed and its minute of the day is the seeded one advanced by the whole
    minutes elapsed. *)
Theorem dcf77_warm_start_lock (timeout : Z) (r : Tracker.rtc) (k : nat)
    (dow hr mn : Z) :
  1 <= timeout -> (k <= 15)%nat ->
  24 <= Tracker.r_year r mod 100 <= 99 ->
  1 <= Tracker.r_month r <= 12 -> 1 <= Tracker.r_day r <= 31 ->
  0 <= hr < 24 -> 0 <= mn < 60 -> 5 <= hr * 60 + mn ->
  (Tracker.r_hour r + 1) * 60 + Tracker.r_minute r + 1 + (60 - Z.of_nat k) / 60
    = hr * 60 + mn ->
  let yr := Tracker.r_year r mod 100 in
  let frame := Signal.dcf77_minute yr (Tracker.r_month r) (Tracker.r_day r)
                 dow hr mn (Tracker.r_summer r) false in
  exists st,
    DCF77.run timeout (DCF77.init (Some r)) (skipn k (Signal.dcf77_samples frame))
    = Ok (Tracker.Locked st
            (Time.mktime (2000 + yr) (Tracker.r_month r) (Tracker.r_day r) hr mn 0
             - 3600 * (1 + Z.b2z (Tracker.r_summer r)))) /\
    DCF77.elapsed st = 0.
Proof.
  intros T Hk Hy Hm Hd Hh Hn Late Now yr frame; unfold frame, yr.
  eexists; split.
  - rewrite dcf_warm_first_decode by (assumption || lia).
    unfold DCF77.minute_update; rewrite in_day_time by lia.
    dcf_fields.
    match goal with |- context [Tracker.project [?m1] ?e ?m] =>
      change (Tracker.project [m1] e m) with [m1 + e / 60; m]
    end.
    rewrite Now.
    replace (hr * 60 + mn <? 5) with false by (symmetry; apply Z.ltb_ge; lia).
    rewrite dcf_shortcut_pairs; cbn [bind].
    unfold DCF77.accept, DCF77.all_matched; dcf_fields; cbn [andb].
    rewrite minute_found_pair; cbn [bind].
    unfold DCF77.utc_of; dcf_fields; cbn [Tracker.name bind].
    replace (Time.mktime (2000 + Tracker.r_year r mod 100) (Tracker.r_month r)
               (Tracker.r_day r) (hr - 1 - Z.b2z (Tracker.r_summer r)) mn 0)
      with (Time.mktime (2000 + Tracker.r_year r mod 100) (Tracker.r_month r)
              (Tracker.r_day r) hr mn 0 - 3600 * (1 + Z.b2z (Tracker.r_summer r)))
      by (unfold Time.mktime; lia).
    reflexivity.
  - reflexivity.
Qed.

Lemma dcf77_warm_start_lock_witness :
  exists st,
    DCF77.run 15 (DCF77.init (Some (Tracker.mkRtc 2026 11 4 11 33 308 false)))
      (skipn 10 (Signal.dcf77_samples
                   (Signal.dcf77_minute 26 11 4 3 12 34 false false)))
    = Ok (Tracker.Locked st
            (Time.mktime (2000 + 26) 11 4 12 34 0 - 3600 * (1 + Z.b2z false))).
Proof.
  destruct (dcf77_warm_start_lock 15 (Tracker.mkRtc 2026 11 4 11 33 308 false)
              10 3 12 34) as (st & E & _);
    try (cbn [Tracker.r_year Tracker.r_month Tracker.r_day Tracker.r_hour
              Tracker.r_minute Tracker.r_summer]; lia);
    try reflexivity; try (vm_compute; split; discriminate).
  exists st; exact E.
Defined.

(** X17. DCF77 from a warm start, on a minute that carries the date of
    the seed and, with good parity, an hour of 24 or more or a minute of 60
    or more. The time is read, the test [hr < 24 and mn < 60] leaves [mod]
    unassigned, the date is confirmed by the agreement with the seed, and
    [mods.count(mod)] ends the script in [NameError]. *)
Theorem dcf77_unbound_minute_raises (timeout : Z) (r : Tracker.rtc) (k : nat)
    (dow hr mn : Z) :
  1 <= timeout -> (k <= 15)%nat ->
  24 <= Tracker.r_year r mod 100 <= 99 ->
  1 <= Tracker.r_month r <= 12 -> 1 <= Tracker.r_day r <= 31 ->
  0 <= hr < 40 -> 0 <= mn < 80 -> 24 <= hr \/ 60 <= mn ->
  let frame := Signal.dcf77_minute (Tracker.r_year r mod 100) (Tracker.r_month r)
                 (Tracker.r_day r) dow hr mn (Tracker.r_summer r) false in
  DCF77.time_field (Frame.dcf77_register frame) = Ok (Some (hr, mn)) /\
  DCF77.run timeout (DCF77.init (Some r)) (skipn k (Signal.dcf77_samples frame))
  = Raise NameError.
Proof.
  intros T Hk Hy Hm Hd Hh Hn Bad frame; unfold frame.
  split; [now apply dcf_time_value|].
  rewrite dcf_warm_first_decode by (assumption || lia).
  unfold DCF77.minute_update.
  replace ((hr <? 24) && (mn <? 60)) with false.
  2:{ symmetry; apply andb_false_iff.
      destruct Bad; [left|right]; apply Z.ltb_ge; lia. }
  rewrite dcf_shortcut_pairs; cbn [bind].
  reflexivity.
Qed.

Lemma dcf77_unbound_minute_raises_witness :
  DCF77.run 15 (DCF77.init (Some (Tracker.mkRtc 2026 11 4 11 33 308 false)))
    (skipn 10 (Signal.dcf77_samples
                 (Signal.dcf77_minute 26 11 4 3 25 10 false false)))
  = Raise NameError.
Proof.
  apply (dcf77_unbound_minute_raises 15 (Tracker.mkRtc 2026 11 4 11 33 308 false)
           10 3 25 10);
    try (cbn [Tracker.r_year Tracker.r_month Tracker.r_day Tracker.r_hour
              Tracker.r_minute Tracker.r_summer]; lia);
    try reflexivity; try (vm_compute; split; discriminate).
Defined.

Lemma minute_not_found (a b : Z) :
  a <> b -> Tracker.minute_found [a; b] (Some b) = Ok false.
Proof.
  intros N; unfold Tracker.minute_found, Py.distinct, Py.count, Tracker.name.
  cbn [nodup In count_occ bind].
  destruct (in_dec Z.eq_dec a [b]) as [[E|[]]|_]; [now contradiction N|].
  destruct (Z.eq_dec a b) as [E|_]; [now contradiction N|].
  destruct (Z.eq_dec b b) as [_|E]; [|now contradiction E].
  destruct (in_dec Z.eq_dec b []) as [[]|_].
  reflexivity.
Qed.

(** X18. DCF77 from a warm start, when the minute sent is not the one the
    seed leads to. The date is confirmed all the same, by the agreement of
    one minute received with the seed, but the clock is not set: the loop
    goes on, the list [mods] holding the seeded minute, advanced, and the
    minute received. *)
Theorem dcf77_warm_start_waits (timeout : Z) (r : Tracker.rtc) (k : nat)
    (dow hr mn : Z) :
  1 <= timeout -> (k <= 15)%nat ->
  24 <= Tracker.r_year r mod 100 <= 99 ->
  1 <= Tracker.r_month r <= 12 -> 1 <= Tracker.r_day r <= 31 ->
  0 <= hr < 24 -> 0 <= mn < 60 -> 5 <= hr * 60 + mn ->
  (Tracker.r_hour r + 1) * 60 + Tracker.r_minute r + 1 + (60 - Z.of_nat k) / 60
    <> hr * 60 + mn ->
  let frame := Signal.dcf77_minute (Tracker.r_year r mod 100) (Tracker.r_month r)
                 (Tracker.r_day r) dow hr mn (Tracker.r_summer r) false in
  exists st,
    DCF77.run timeout (DCF77.init (Some r)) (skipn k (Signal.dcf77_samples frame))
    = Ok (Tracker.Running st) /\
    DCF77.all_matched st = true /\
    DCF77.mods st
    = [(Tracker.r_hour r + 1) * 60 + Tracker.r_minute r + 1 + (60 - Z.of_nat k) / 60;
       hr * 60 + mn] /\
    DCF77.elapsed st = 0.
Proof.
  intros T Hk Hy Hm Hd Hh Hn Late Off frame; unfold frame.
  eexists; split.
  - rewrite dcf_warm_first_decode by (assumption || lia).
    unfold DCF77.minute_update; rewrite in_day_time by lia.
    dcf_fields.
    match goal with |- context [Tracker.project [?m1] ?e ?m] =>
      change (Tracker.project [m1] e m) with [m1 + e / 60; m]
    end.
    replace (hr * 60 + mn <? 5) with false by (symmetry; apply Z.ltb_ge; lia).
    rewrite dcf_shortcut_pairs; cbn [bind].
    unfold DCF77.accept, DCF77.all_matched; dcf_fields; cbn [andb].
    rewrite minute_not_found by exact Off; cbn [bind].
    dcf_fields.
    replace (timeout * 60 <? 0) with false by (symmetry; apply Z.ltb_ge; lia).
    reflexivity.
  - split; [reflexivity|]. split; reflexivity.
Qed.

Lemma dcf77_warm_start_waits_witness :
  exists st,
    DCF77.run 15 (DCF77.init (Some (Tracker.mkRtc 2026 11 4 11 33 308 false)))
      (skipn 10 (Signal.dcf77_samples
                   (Signal.dcf77_minute 26 11 4 3 12 40 false false)))
    = Ok (Tracker.Running st) /\
    DCF77.all_matched st = true.
Proof.
  destruct (dcf77_warm_start_waits 15 (Tracker.mkRtc 2026 11 4 11 33 308 false)
              10 3 12 40) as (st & E & A & _);
    try (cbn [Tracker.r_year Tracker.r_month Tracker.r_day Tracker.r_hour
              Tracker.r_minute Tracker.r_summer]; lia);
    try (vm_compute; split; discriminate).
  - vm_compute; discriminate.
  - exists st; split; [exact E|exact A].
Defined.

(** ** The level of one second is a majority vote *)

Lemma sum_levels (w : list bool) (a : Z) :
  fold_left Z.add (map Z.b2z w) a = a + Frame.ones w.
Proof.
  revert a; induction w as [|b w IH]; intros a.
  - unfold Frame.ones; simpl; lia.
  - simpl fold_left; rewrite IH, ones_cons; lia.
Qed.

Lemma ones_bounds (w : list bool) : 0 <= Frame.ones w <= Py.len w.
Proof.
  unfold Py.len; induction w as [|b w IH].
  - unfold Frame.ones; simpl; lia.
  - rewrite ones_cons; simpl length; destruct b; simpl Z.b2z; lia.
Qed.

Lemma round_fraction (s n : Z) :
  0 <= s <= n -> 0 < n ->
  Py.round (inject_Z s / inject_Z n) = Z.b2z (n <? 2 * s).
Proof.
  intros Hs Hn.
  assert (N : (0 < inject_Z n)%Q) by (change 0%Q with (inject_Z 0); now rewrite <- Zlt_Qlt).
  assert (N' : ~ (inject_Z n == 0)%Q) by lra.
  destruct (Z.eq_dec s n) as [->|Ne].
  - rewrite (round_int 1) by (field; exact N').
    replace (n <? 2 * n) with true by (symmetry; apply Z.ltb_lt; lia).
    reflexivity.
  - assert (S0 : (0 <= inject_Z s)%Q)
      by (change 0%Q with (inject_Z 0); rewrite <- Zle_Qle; lia).
    assert (S1 : (inject_Z s < inject_Z n)%Q) by (rewrite <- Zlt_Qlt; lia).
    assert (L : (0 <= inject_Z s / inject_Z n)%Q)
      by (apply Qle_shift_div_l; [exact N|lra]).
    assert (U : (inject_Z s / inject_Z n < 1)%Q)
      by (apply Qlt_shift_div_r; [exact N|lra]).
    unfold Py.round.
    rewrite (floor_unique _ 0);
      [|change (inject_Z 0) with 0%Q; exact L
       |change (inject_Z (0 + 1)) with 1%Q; exact U].
    assert (Z0 : (inject_Z s / inject_Z n - inject_Z 0 == inject_Z s / inject_Z n)%Q)
      by (change (inject_Z 0) with 0%Q; unfold Qminus; apply Qplus_0_r).
    rewrite (Qcompare_comp _ _ Z0 (1 # 2) (1 # 2) (Qeq_refl _)).
    destruct (Z.compare_spec n (2 * s)) as [E|Lt|Gt].
    + assert (X : (inject_Z s / inject_Z n == 1 # 2)%Q).
      { subst n; rewrite inject_Z_mult; change (inject_Z 2) with 2%Q; field.
        intros Z1; apply N'; rewrite inject_Z_mult, Z1; ring. }
      rewrite (proj1 (Qeq_alt _ _) X).
      replace (n <? 2 * s) with false by (symmetry; apply Z.ltb_ge; lia).
      reflexivity.
    + assert (X : (1 # 2 < inject_Z s / inject_Z n)%Q).
      { apply Qlt_shift_div_l; [exact N|].
        assert (Y : (inject_Z n < inject_Z (2 * s))%Q) by (rewrite <- Zlt_Qlt; lia).
        rewrite inject_Z_mult in Y; change (inject_Z 2) with 2%Q in Y; lra. }
      rewrite (proj1 (Qgt_alt _ _) X).
      replace (n <? 2 * s) with true by (symmetry; apply Z.ltb_lt; lia).
      reflexivity.
    + assert (X : (inject_Z s / inject_Z n < 1 # 2)%Q).
      { apply Qlt_shift_div_r; [exact N|].
        assert (Y : (inject_Z (2 * s) < inject_Z n)%Q) by (rewrite <- Zlt_Qlt; lia).
        rewrite inject_Z_mult in Y; change (inject_Z 2) with 2%Q in Y; lra. }
      rewrite (proj1 (Qlt_alt _ _) X).
      replace (n <? 2 * s) with false by (symmetry; apply Z.ltb_ge; lia).
      reflexivity.
Qed.

(** X19. The character pushed for a second,
    [str(round(mean(window)))], is the majority of the samples of the window:
    1 when more than half of them are 1, otherwise 0 - on a tie too, by the
    rounding of one half to the even number. The empty window raises
    [ZeroDivisionError], and no other window raises. *)
Theorem classify_is_majority (window : list bool) :
  (Tracker.classify window = Raise ZeroDivisionError <-> window = []) /\
  (window <> [] ->
   Tracker.classify window
   = Ok [Frame.bit (Py.len window <? 2 * Frame.ones window)]).
Proof.
  assert (L : Py.len (map Z.b2z window) = Py.len window)
    by (unfold Py.len; now rewrite length_map).
  destruct window as [|b w].
  - split; [split; reflexivity|intros H; now contradiction H].
  - assert (P : 0 < Py.len (b :: w)) by (unfold Py.len; simpl length; lia).
    assert (E : Tracker.classify (b :: w)
                = Ok [Frame.bit (Py.len (b :: w) <? 2 * Frame.ones (b :: w))]).
    { unfold Tracker.classify, Stats.mean.
      rewrite L.
      replace (Py.len (b :: w) =? 0) with false by (symmetry; apply Z.eqb_neq; lia).
      cbn [bind]; unfold Py.sum; rewrite sum_levels, Z.add_0_l.
      rewrite round_fraction; [|apply ones_bounds|exact P].
      destruct (_ <? _); reflexivity. }
    split; [|intros _; exact E].
    rewrite E; split; discriminate.
Qed.

(** ** One wrong bit in a DCF77 minute *)

Lemma flip_parity (j : nat) (l : list bool) :
  (j < length l)%nat ->
  Frame.ones (Frame.flip j l) mod 2 = 1 - Frame.ones l mod 2.
Proof.
  revert j; induction l as [|b l IH]; intros j H; [simpl in H; lia|].
  destruct j as [|j]; cbn [Frame.flip]; rewrite !ones_cons.
  - destruct b; cbn [negb Z.b2z]; Z.div_mod_to_equations; lia.
  - simpl in H; specialize (IH j ltac:(lia)).
    destruct b; cbn [Z.b2z]; Z.div_mod_to_equations; lia.
Qed.

Lemma register_bit (l : list bool) (i : Z) :
  - Z.of_nat (length l) <= i < Z.of_nat (length l) ->
  exists b, Str.getitem (map Frame.bit l) i = Ok (Frame.bit b).
Proof.
  intros H; unfold Str.getitem, Str.position, Py.len; rewrite length_map.
  set (k := if i <? 0 then Z.of_nat (length l) + i else i).
  assert (K : 0 <= k < Z.of_nat (length l))
    by (subst k; destruct (Z.ltb_spec i 0); lia).
  replace (k <? 0) with false by (symmetry; apply Z.ltb_ge; lia).
  rewrite nth_error_map.
  destruct (nth_error l (Z.to_nat k)) as [b|] eqn:E; [exists b; reflexivity|].
  apply nth_error_None in E; lia.
Qed.

Lemma flip_length (k : nat) (l : list bool) : length (Frame.flip k l) = length l.
Proof.
  revert k; induction l as [|b l IH]; intros k; [reflexivity|].
  destruct k; cbn [Frame.flip length]; [reflexivity|now rewrite IH].
Qed.

Lemma fst_combine (l : list bool) (r : list bool) :
  length l = length r -> map fst (combine l r) = l.
Proof.
  revert r; induction l as [|x l IH]; intros [|y r] H; try reflexivity;
    try discriminate H.
  cbn [combine map fst]; f_equal; apply IH; now injection H.
Qed.

Lemma corrupt_bits (k : nat) (frame : list (bool * bool)) :
  map fst (Frame.corrupt k frame) = Frame.flip k (map fst frame).
Proof.
  unfold Frame.corrupt; apply fst_combine.
  now rewrite flip_length, !length_map.
Qed.

Lemma dcf_corrupt_bit (yr mon day dow hr mn : Z) (summer : bool) (k : nat) (i : Z) :
  0 <= i < 45 ->
  exists b,
    Str.getitem
      (Frame.dcf77_register
         (Frame.corrupt k (Signal.dcf77_minute yr mon day dow hr mn summer false))) i
    = Ok (Frame.bit b).
Proof.
  intros Hi; unfold Frame.dcf77_register; rewrite <- map_rev; apply register_bit.
  rewrite length_rev, length_skipn, corrupt_bits, flip_length, length_map.
  change (length (Signal.dcf77_minute yr mon day dow hr mn summer false)) with 60%nat.
  simpl Nat.sub; lia.
Qed.

Lemma odd_flipped (j : nat) (l : list bool) :
  (j < length l)%nat -> Frame.ones l mod 2 = 0 ->
  Str.count1 (map Frame.bit (Frame.flip j l)) mod 2 = 1.
Proof. intros H E; rewrite count1_ones, flip_parity, E by exact H; reflexivity. Qed.

Lemma even_flipped (j : nat) (l : list bool) :
  (j < length l)%nat -> Frame.ones l mod 2 = 1 ->
  Str.count1 (map Frame.bit (Frame.flip j l)) mod 2 = 0.
Proof. intros H E; rewrite count1_ones, flip_parity, E by exact H; reflexivity. Qed.

(** X20. One wrong bit in a DCF77 minute is caught by the parity tests.
    If it is among seconds 21 to 35 (minute, hour and their parity bits) no
    time is read; if it is among seconds 36 to 58 (the date and its parity
    bit) the date fields are left as they are; if it is one of the
    summer-time bits of seconds 17 and 18 the DST field is left as it is. *)
Theorem dcf77_single_bit_error_is_rejected (st : DCF77.state)
    (yr mon day dow hr mn : Z) (summer : bool) (k : nat) :
  DCF77.tcA st
    = Frame.dcf77_register
        (Frame.corrupt k (Signal.dcf77_minute yr mon day dow hr mn summer false)) ->
  ((17 <= k <= 18)%nat -> DCF77.dst_field st = Ok st) /\
  ((21 <= k <= 35)%nat -> DCF77.time_field (DCF77.tcA st) = Ok None) /\
  ((36 <= k <= 58)%nat -> DCF77.date_fields st = Ok st).
Proof.
  intros E.
  set (minute := Signal.lsb_first 4 (mn mod 10) ++ Signal.lsb_first 3 (mn / 10)).
  set (hour := Signal.lsb_first 4 (hr mod 10) ++ Signal.lsb_first 2 (hr / 10)).
  set (date := Signal.lsb_first 4 (day mod 10) ++ Signal.lsb_first 2 (day / 10)
              ++ Signal.lsb_first 3 dow
              ++ Signal.lsb_first 4 (mon mod 10) ++ Signal.lsb_first 1 (mon / 10)
              ++ Signal.lsb_first 4 (yr mod 10) ++ Signal.lsb_first 4 (yr / 10)).
  assert (Ph : Frame.ones ([xorb false (Signal.parity hour)] ++ rev hour) mod 2 = 0)
    by (rewrite ones_app, ones_rev; apply even_with_parity).
  assert (Pm : Frame.ones ([xorb false (Signal.parity minute)] ++ rev minute) mod 2 = 0)
    by (rewrite ones_app, ones_rev; apply even_with_parity).
  assert (Pd : Frame.ones ([false] ++ [xorb false (Signal.parity date)] ++ rev date)
               mod 2 = 0).
  { rewrite !ones_app, ones_rev.
    change (Frame.ones [false]) with 0; rewrite Z.add_0_l; apply even_with_parity. }
  assert (Ps : Frame.ones [negb summer; summer] mod 2 = 1)
    by (destruct summer; reflexivity).
  assert (G : forall i, 0 <= i < 45 ->
              exists b, Str.getitem (DCF77.tcA st) i = Ok (Frame.bit b))
    by (intros i Hi; rewrite E; now apply dcf_corrupt_bit).
  split; [|split]; intros Hk.
  - unfold DCF77.dst_field.
    destruct (Tracker.matched (DCF77.dst_f st)); [reflexivity|].
    destruct (G 42) as [b Gb]; [lia|]; rewrite Gb; cbn [bind]; rewrite bit_not_blank.
    rewrite E; clear E G Gb.
    do 19 (destruct k as [|k];
           [try lia;
            match goal with |- context [Str.slice ?a 41 43] =>
              match type of Hk with
              | (_ <= ?n <= _)%nat =>
                  let j := eval compute in (18 - n)%nat in
                  replace (Str.slice a 41 43)
                    with (map Frame.bit (Frame.flip j [negb summer; summer]))
                    by reflexivity;
                  rewrite (even_flipped j) by (simpl length; lia || exact Ps)
              end
            end; reflexivity|]).
    lia.
  - unfold DCF77.time_field.
    destruct (G 38) as [b Gb]; [lia|]; rewrite Gb; cbn [bind]; rewrite bit_not_blank.
    rewrite E; clear E G Gb.
    do 36 (destruct k as [|k];
           [try lia;
            match goal with |- context [Str.slice ?a 24 31] =>
              match type of Hk with
              | (_ <= ?n <= _)%nat =>
                  first
                    [ let j := eval compute in (35 - n)%nat in
                      replace (Str.slice a 24 31)
                        with (map Frame.bit
                                (Frame.flip j ([xorb false (Signal.parity hour)]
                                               ++ rev hour)))
                        by reflexivity;
                      rewrite (odd_flipped j) by (simpl length; lia || exact Ph);
                      reflexivity
                    | let j := eval compute in (28 - n)%nat in
                      replace (Str.slice a 31 39)
                        with (map Frame.bit
                                (Frame.flip j ([xorb false (Signal.parity minute)]
                                               ++ rev minute)))
                        by reflexivity;
                      rewrite (odd_flipped j) by (simpl length; lia || exact Pm);
                      cbn [Z.eqb]; rewrite andb_false_r; reflexivity ]
              end
            end|]).
    lia.
  - unfold DCF77.date_fields; cbv zeta.
    destruct (G 23) as [b Gb]; [lia|]; rewrite Gb; cbn [bind]; rewrite bit_not_blank.
    rewrite E; clear E G Gb.
    do 59 (destruct k as [|k];
           [try lia;
            match goal with |- context [Str.slice ?a 0 24] =>
              match type of Hk with
              | (_ <= ?n <= _)%nat =>
                  let j := eval compute in (59 - n)%nat in
                  replace (Str.slice a 0 24)
                    with (map Frame.bit
                            (Frame.flip j ([false]
                                           ++ [xorb false (Signal.parity date)]
                                           ++ rev date)))
                    by reflexivity;
                  rewrite (odd_flipped j) by (simpl length; lia || exact Pd)
              end
            end; reflexivity|]).
    lia.
Qed.

Lemma dcf77_single_bit_error_is_rejected_witness :
  DCF77.time_field
    (Frame.dcf77_register
       (Frame.corrupt 30 (Signal.dcf77_minute 26 11 4 3 12 34 false false)))
  = Ok None.
Proof.
  apply (dcf77_single_bit_error_is_rejected
           (DCF77.with_tcA (DCF77.init None)
              (Frame.dcf77_register
                 (Frame.corrupt 30 (Signal.dcf77_minute 26 11 4 3 12 34 false false))))
           26 11 4 3 12 34 false 30 eq_refl);
    lia.
Defined.

(** ** One wrong bit in an MSF minute *)

Lemma msf_corrupt_bit (yr mon day dow hr mn : Z) (k : nat) (i : Z) :
  -45 <= i < 45 ->
  exists b,
    Str.getitem
      (Frame.msf_register_a (Frame.corrupt k (Signal.msf_minute yr mon day dow hr mn))) i
    = Ok (Frame.bit b).
Proof.
  intros Hi; unfold Frame.msf_register_a; apply register_bit.
  rewrite length_skipn, corrupt_bits, flip_length, length_map.
  change (length (Signal.msf_minute yr mon day dow hr mn)) with 60%nat.
  simpl Nat.sub; lia.
Qed.

Lemma flipped_with_parity (j : nat) (l : list bool) :
  (j < length l)%nat ->
  (Str.count1 (map Frame.bit (Frame.flip j l)) + Z.b2z (negb (Signal.parity l))) mod 2
  = 0.
Proof.
  intros H; rewrite count1_ones.
  pose proof (flip_parity j l H) as F; pose proof (ones_parity l) as P.
  destruct (Signal.parity l); cbn [negb Z.b2z] in *; Z.div_mod_to_equations; lia.
Qed.

(** X21. One wrong bit A in an MSF minute is caught by the parity tests.
    If it is in the year (seconds 17 to 24) the year field is left as it is,
    if it is in the month or the day (seconds 25 to 35) the date fields are
    left as they are, if it is in the hour or the minute (seconds 39 to 51)
    no time is read. *)
Theorem msf_single_bit_error_is_rejected (st : MSF.state)
    (yr mon day dow hr mn : Z) (k : nat) :
  MSF.tcA st
    = Frame.msf_register_a (Frame.corrupt k (Signal.msf_minute yr mon day dow hr mn)) ->
  MSF.tcB st
    = Frame.msf_register_b (Frame.corrupt k (Signal.msf_minute yr mon day dow hr mn)) ->
  ((17 <= k <= 24)%nat -> MSF.year_field st = Ok st) /\
  ((25 <= k <= 35)%nat -> MSF.date_fields st = Ok st) /\
  ((39 <= k <= 51)%nat -> MSF.time_field (MSF.tcA st) (MSF.tcB st) = Ok None).
Proof.
  intros EA EB.
  set (year := Signal.msb_first 4 (yr / 10) ++ Signal.msb_first 4 (yr mod 10)).
  set (date := Signal.msb_first 1 (mon / 10) ++ Signal.msb_first 4 (mon mod 10)
               ++ Signal.msb_first 2 (day / 10) ++ Signal.msb_first 4 (day mod 10)).
  set (time := Signal.msb_first 2 (hr / 10) ++ Signal.msb_first 4 (hr mod 10)
               ++ Signal.msb_first 3 (mn / 10) ++ Signal.msb_first 4 (mn mod 10)).
  assert (G : forall i, -45 <= i < 45 ->
              exists b, Str.getitem (MSF.tcA st) i = Ok (Frame.bit b))
    by (intros i Hi; rewrite EA; now apply msf_corrupt_bit).
  split; [|split]; intros Hk.
  - unfold MSF.year_field, MSF.parity_bit.
    destruct (Tracker.matched (MSF.year_f st)); [reflexivity|].
    destruct (G (-43)) as [b Gb]; [lia|]; rewrite Gb; cbn [bind]; rewrite bit_not_blank.
    rewrite EA, EB; clear EA EB G Gb.
    do 25 (destruct k as [|k];
           [try lia;
            match goal with |- context [Str.slice ?a (-43) (-35)] =>
              match type of Hk with
              | (_ <= ?n <= _)%nat =>
                  let j := eval compute in (n - 17)%nat in
                  replace (Str.slice a (-43) (-35))
                    with (map Frame.bit (Frame.flip j year)) by reflexivity
              end
            end;
            match goal with |- context [Str.getitem ?b (-6)] =>
              replace (Str.getitem b (-6))
                with (@Ok ascii (Frame.bit (negb (Signal.parity year)))) by reflexivity
            end;
            cbn [bind]; rewrite int10_value; cbn [bind negb];
            rewrite flipped_with_parity by (simpl length; lia); reflexivity|]).
    lia.
  - unfold MSF.date_fields, MSF.parity_bit; cbv zeta.
    destruct (G (-35)) as [b Gb]; [lia|]; rewrite Gb; cbn [bind]; rewrite bit_not_blank.
    rewrite EA, EB; clear EA EB G Gb.
    do 36 (destruct k as [|k];
           [try lia;
            match goal with |- context [Str.slice ?a (-35) (-24)] =>
              match type of Hk with
              | (_ <= ?n <= _)%nat =>
                  let j := eval compute in (n - 25)%nat in
                  replace (Str.slice a (-35) (-24))
                    with (map Frame.bit (Frame.flip j date)) by reflexivity
              end
            end;
            match goal with |- context [Str.getitem ?b (-5)] =>
              replace (Str.getitem b (-5))
                with (@Ok ascii (Frame.bit (negb (Signal.parity date)))) by reflexivity
            end;
            cbn [bind]; rewrite int10_value; cbn [bind negb];
            rewrite flipped_with_parity by (simpl length; lia); reflexivity|]).
    lia.
  - unfold MSF.time_field, MSF.parity_bit.
    destruct (G (-21)) as [b Gb]; [lia|]; rewrite Gb; cbn [bind]; rewrite bit_not_blank.
    rewrite EA, EB; clear EA EB G Gb.
    do 52 (destruct k as [|k];
           [try lia;
            match goal with |- context [Str.slice ?a (-21) (-8)] =>
              match type of Hk with
              | (_ <= ?n <= _)%nat =>
                  let j := eval compute in (n - 39)%nat in
                  replace (Str.slice a (-21) (-8))
                    with (map Frame.bit (Frame.flip j time)) by reflexivity
              end
            end;
            match goal with |- context [Str.getitem ?b (-3)] =>
              replace (Str.getitem b (-3))
                with (@Ok ascii (Frame.bit (negb (Signal.parity time)))) by reflexivity
            end;
            cbn [bind]; rewrite int10_value; cbn [bind negb];
            rewrite flipped_with_parity by (simpl length; lia); reflexivity|]).
    lia.
Qed.

Lemma msf_single_bit_error_is_rejected_witness :
  MSF.time_field
    (Frame.msf_register_a (Frame.corrupt 45 (Signal.msf_minute 26 11 4 3 12 34)))
    (Frame.msf_register_b (Frame.corrupt 45 (Signal.msf_minute 26 11 4 3 12 34)))
  = Ok None.
Proof.
  apply (msf_single_bit_error_is_rejected
           (MSF.mkState
              (Frame.msf_register_a (Frame.corrupt 45 (Signal.msf_minute 26 11 4 3 12 34)))
              (Frame.msf_register_b (Frame.corrupt 45 (Signal.msf_minute 26 11 4 3 12 34)))
              0 (Tracker.mkField [] false None None)
              (Tracker.mkField [] false None None)
              (Tracker.mkField [] false None None) [] None)
           26 11 4 3 12 34 45 eq_refl eq_refl);
    lia.
Defined.

(** ** One wrong bit in the time of a JJY minute *)

Lemma jjy_corrupt_bit (yr doy hr mn : Z) (next : bool) (k : nat) (i : Z) :
  -60 <= i < 60 ->
  exists b,
    Str.getitem
      (Frame.jjy_register (Frame.corrupt k (Signal.jjy_minute yr doy hr mn)) next) i
    = Ok (Frame.bit b).
Proof.
  intros Hi; unfold Frame.jjy_register; apply register_bit.
  rewrite length_app, length_tl, corrupt_bits, flip_length, length_map.
  change (length (Signal.jjy_minute yr doy hr mn)) with 60%nat.
  simpl; lia.
Qed.

(** X22. One wrong bit in the time of a JJY minute - in the minute
    (seconds 1 to 8), in the hour (seconds 12 to 18) or in one of their
    parity bits (seconds 36 and 37) - and no time is read. *)
Theorem jjy_single_bit_error_is_rejected (yr doy hr mn : Z) (next : bool) (k : nat) :
  (1 <= k <= 8)%nat \/ (12 <= k <= 18)%nat \/ (36 <= k <= 37)%nat ->
  JJY.time_field
    (Frame.jjy_register (Frame.corrupt k (Signal.jjy_minute yr doy hr mn)) next)
  = Ok None.
Proof.
  intros Hk.
  set (minute := Signal.msb_first 3 (mn / 10) ++ [false] ++ Signal.msb_first 4 (mn mod 10)).
  set (hour := Signal.msb_first 2 (hr / 10) ++ [false] ++ Signal.msb_first 4 (hr mod 10)).
  assert (Ph : Frame.ones (hour ++ [Signal.parity hour]) mod 2 = 0)
    by apply even_parity_last.
  assert (Pm : Frame.ones (minute ++ [Signal.parity minute]) mod 2 = 0)
    by apply even_parity_last.
  unfold JJY.time_field.
  destruct (jjy_corrupt_bit yr doy hr mn next k (-60)) as [b Gb]; [lia|].
  rewrite Gb; cbn [bind]; rewrite bit_not_blank; cbn [negb]; clear Gb.
  do 38 (destruct k as [|k];
         [try lia;
          match goal with |- context [Str.getitem ?a (-25)] =>
            first
              [ (* the wrong bit is in the hour or is its parity bit *)
                let j := match a with
                         | context [Frame.corrupt 36%nat] => constr:(7%nat)
                         | context [Frame.corrupt ?n] => eval compute in (n - 12)%nat
                         end in
                replace (Str.getitem a (-25))
                  with (@Ok ascii (Frame.bit (last (Frame.flip j
                                                      (hour ++ [Signal.parity hour]))
                                                   false)))
                  by reflexivity;
                cbn [bind];
                match goal with |- context [Str.count1 (?s ++ [?c])] =>
                  replace (s ++ [c])
                    with (map Frame.bit (Frame.flip j (hour ++ [Signal.parity hour])))
                    by reflexivity
                end;
                rewrite (odd_flipped j) by (simpl length; lia || exact Ph);
                reflexivity
              | (* it is in the minute or is its parity bit *)
                let j := match a with
                         | context [Frame.corrupt 37%nat] => constr:(8%nat)
                         | context [Frame.corrupt ?n] => eval compute in (n - 1)%nat
                         end in
                replace (Str.getitem a (-25))
                  with (@Ok ascii (Frame.bit (Signal.parity hour))) by reflexivity;
                replace (Str.slice a (-49) (-42)) with (map Frame.bit hour)
                  by reflexivity;
                replace (Str.getitem a (-24))
                  with (@Ok ascii (Frame.bit (last (Frame.flip j
                                                      (minute ++ [Signal.parity minute]))
                                                   false)))
                  by reflexivity;
                cbn [bind];
                change (map Frame.bit hour ++ [Frame.bit (Signal.parity hour)])
                  with (map Frame.bit (hour ++ [Signal.parity hour]));
                rewrite count1_ones, Ph; cbn [Z.eqb];
                match goal with |- context [Str.count1 (?s ++ [?c])] =>
                  replace (s ++ [c])
                    with (map Frame.bit (Frame.flip j (minute ++ [Signal.parity minute])))
                    by reflexivity
                end;
                rewrite (odd_flipped j) by (simpl length; lia || exact Pm);
                reflexivity ]
          end|]).
  lia.
Qed.

Lemma jjy_single_bit_error_is_rejected_witness :
  JJY.time_field
    (Frame.jjy_register (Frame.corrupt 5 (Signal.jjy_minute 26 308 12 34)) false)
  = Ok None.
Proof.
  apply (jjy_single_bit_error_is_rejected 26 308 12 34 false 5); lia.
Defined.
